(** * libEPOS for STM32: the protocol engine of [epos.c]

    A shallow embedding of the CAN/CANopen driver for the maxon EPOS
    positioning controller: the inbound-frame dispatcher
    ([processCANMsg], [processPDOMessage]), the SDO engine ([sendCom],
    [readAnswer], [ReadObject], [WriteObject], [checkEPOSerror]), the
    status-word decoder and control-word encoder ([checkEPOSstate],
    [changeEPOSstate]) and the homing sequence ([doHoming] with
    [moveAbsolute], [waitForTarget], [monitorHomingStatus]).

    Conventions.
    - C integers are [Z]; every conversion to a fixed-width type is
      written out with [u8], [u16], [u32], [s8], [s32].
    - A pointer [epos_t *] is the index of a slot of the global device
      array; an empty slot is the NULL pointer.
    - The driver busy-waits on flags that interrupt handlers set.  The
      environment is a schedule: one entry per call into the HAL
      ([HAL_CAN_Transmit_IT], [HAL_Delay]), giving the status the call
      returns and the interrupts served while it runs.  A call whose
      schedule runs out while it still waits ends in [Hang].
    - Diagnostics printed through [SEGGER_RTT_printf] are recorded in
      [rtt] where they report a protocol condition (the dispatcher's
      messages, the device error reports of [checkEPOSerror], the
      transmit error); the call-site traces ("... returned %d at line
      ...") carry no state and are left out. *)

From Stdlib Require Import ZArith List Bool String Lia.
From stdpp Require Import base option list numbers.
Import ListNotations.
Local Open Scope Z_scope.

(** ** Fixed-width integers *)

Definition u8 (x : Z) : Z := x mod 2 ^ 8.
Definition u16 (x : Z) : Z := x mod 2 ^ 16.
Definition u32 (x : Z) : Z := x mod 2 ^ 32.
Definition s8 (x : Z) : Z := (x + 2 ^ 7) mod 2 ^ 8 - 2 ^ 7.
Definition s32 (x : Z) : Z := (x + 2 ^ 31) mod 2 ^ 32 - 2 ^ 31.

(** ** CAN frames

    [CanTxMsgTypeDef] and [CanRxMsgTypeDef] of the STM32 HAL, with the
    fields the driver uses.  [Data] is the 8-byte payload array. *)

Record CanMsg : Type := mkCanMsg {
  StdId : Z;
  IDE : Z;
  RTR : Z;
  DLC : Z;
  Data : list Z
}.

(** Modelled from the spec: the HAL header is not part of the sources;
    standard identifier and data frame are the zero constants of
    [stm32f4xx_hal_can.h]. *)
Definition CAN_ID_STD : Z := 0.
Definition CAN_RTR_DATA : Z := 0.

(** [m.Data[k]] *)
Definition byte (m : CanMsg) (k : nat) : Z := nth k (Data m) 0.

(** A frame as the CAN peripheral delivers it: eight payload bytes. *)
Definition frame_ok (m : CanMsg) : Prop :=
  length (Data m) = 8%nat /\ Forall (fun b => 0 <= b < 256) (Data m).

(** ** The device object, [struct epos_s] of epos.h *)

Record epos_t : Type := Build_epos_t {
  dev : nat;               (* CAN_HandleTypeDef *dev, as a handle index *)
  Node_ID : Z;
  TxMessage : CanMsg;
  RxMessage : CanMsg;
  SDOMsg : CanMsg;
  ErrFlag : bool;
  Dev_Err : Z;
  SDORcvFlag : bool;
  PDO1Msg : CanMsg;
  PDO1RcvFlag : bool;
  PDO2Msg : CanMsg;
  PDO2RcvFlag : bool;
  PDO3Msg : CanMsg;
  PDO3RcvFlag : bool;
  PDO4Msg : CanMsg;
  PDO4RcvFlag : bool;
  CurProfile : Z;
  TxPosition : Z;
  RxPosition : Z;
  TxVelocity : Z;
  RxVelocity : Z;
  E_error : Z
}.

Definition set_TxMessage (v : CanMsg) (e : epos_t) : epos_t :=
  Build_epos_t (dev e) (Node_ID e) v (RxMessage e) (SDOMsg e) (ErrFlag e)
    (Dev_Err e) (SDORcvFlag e) (PDO1Msg e) (PDO1RcvFlag e) (PDO2Msg e)
    (PDO2RcvFlag e) (PDO3Msg e) (PDO3RcvFlag e) (PDO4Msg e) (PDO4RcvFlag e)
    (CurProfile e) (TxPosition e) (RxPosition e) (TxVelocity e) (RxVelocity e)
    (E_error e).
Definition set_RxMessage (v : CanMsg) (e : epos_t) : epos_t :=
  Build_epos_t (dev e) (Node_ID e) (TxMessage e) v (SDOMsg e) (ErrFlag e)
    (Dev_Err e) (SDORcvFlag e) (PDO1Msg e) (PDO1RcvFlag e) (PDO2Msg e)
    (PDO2RcvFlag e) (PDO3Msg e) (PDO3RcvFlag e) (PDO4Msg e) (PDO4RcvFlag e)
    (CurProfile e) (TxPosition e) (RxPosition e) (TxVelocity e) (RxVelocity e)
    (E_error e).
Definition set_SDOMsg (v : CanMsg) (e : epos_t) : epos_t :=
  Build_epos_t (dev e) (Node_ID e) (TxMessage e) (RxMessage e) v (ErrFlag e)
    (Dev_Err e) (SDORcvFlag e) (PDO1Msg e) (PDO1RcvFlag e) (PDO2Msg e)
    (PDO2RcvFlag e) (PDO3Msg e) (PDO3RcvFlag e) (PDO4Msg e) (PDO4RcvFlag e)
    (CurProfile e) (TxPosition e) (RxPosition e) (TxVelocity e) (RxVelocity e)
    (E_error e).
Definition set_ErrFlag (v : bool) (e : epos_t) : epos_t :=
  Build_epos_t (dev e) (Node_ID e) (TxMessage e) (RxMessage e) (SDOMsg e) v
    (Dev_Err e) (SDORcvFlag e) (PDO1Msg e) (PDO1RcvFlag e) (PDO2Msg e)
    (PDO2RcvFlag e) (PDO3Msg e) (PDO3RcvFlag e) (PDO4Msg e) (PDO4RcvFlag e)
    (CurProfile e) (TxPosition e) (RxPosition e) (TxVelocity e) (RxVelocity e)
    (E_error e).
Definition set_Dev_Err (v : Z) (e : epos_t) : epos_t :=
  Build_epos_t (dev e) (Node_ID e) (TxMessage e) (RxMessage e) (SDOMsg e)
    (ErrFlag e) v (SDORcvFlag e) (PDO1Msg e) (PDO1RcvFlag e) (PDO2Msg e)
    (PDO2RcvFlag e) (PDO3Msg e) (PDO3RcvFlag e) (PDO4Msg e) (PDO4RcvFlag e)
    (CurProfile e) (TxPosition e) (RxPosition e) (TxVelocity e) (RxVelocity e)
    (E_error e).
Definition set_SDORcvFlag (v : bool) (e : epos_t) : epos_t :=
  Build_epos_t (dev e) (Node_ID e) (TxMessage e) (RxMessage e) (SDOMsg e)
    (ErrFlag e) (Dev_Err e) v (PDO1Msg e) (PDO1RcvFlag e) (PDO2Msg e)
    (PDO2RcvFlag e) (PDO3Msg e) (PDO3RcvFlag e) (PDO4Msg e) (PDO4RcvFlag e)
    (CurProfile e) (TxPosition e) (RxPosition e) (TxVelocity e) (RxVelocity e)
    (E_error e).
Definition set_PDO1Msg (v : CanMsg) (e : epos_t) : epos_t :=
  Build_epos_t (dev e) (Node_ID e) (TxMessage e) (RxMessage e) (SDOMsg e)
    (ErrFlag e) (Dev_Err e) (SDORcvFlag e) v (PDO1RcvFlag e) (PDO2Msg e)
    (PDO2RcvFlag e) (PDO3Msg e) (PDO3RcvFlag e) (PDO4Msg e) (PDO4RcvFlag e)
    (CurProfile e) (TxPosition e) (RxPosition e) (TxVelocity e) (RxVelocity e)
    (E_error e).
Definition set_PDO1RcvFlag (v : bool) (e : epos_t) : epos_t :=
  Build_epos_t (dev e) (Node_ID e) (TxMessage e) (RxMessage e) (SDOMsg e)
    (ErrFlag e) (Dev_Err e) (SDORcvFlag e) (PDO1Msg e) v (PDO2Msg e)
    (PDO2RcvFlag e) (PDO3Msg e) (PDO3RcvFlag e) (PDO4Msg e) (PDO4RcvFlag e)
    (CurProfile e) (TxPosition e) (RxPosition e) (TxVelocity e) (RxVelocity e)
    (E_error e).
Definition set_PDO2Msg (v : CanMsg) (e : epos_t) : epos_t :=
  Build_epos_t (dev e) (Node_ID e) (TxMessage e) (RxMessage e) (SDOMsg e)
    (ErrFlag e) (Dev_Err e) (SDORcvFlag e) (PDO1Msg e) (PDO1RcvFlag e) v
    (PDO2RcvFlag e) (PDO3Msg e) (PDO3RcvFlag e) (PDO4Msg e) (PDO4RcvFlag e)
    (CurProfile e) (TxPosition e) (RxPosition e) (TxVelocity e) (RxVelocity e)
    (E_error e).
Definition set_PDO2RcvFlag (v : bool) (e : epos_t) : epos_t :=
  Build_epos_t (dev e) (Node_ID e) (TxMessage e) (RxMessage e) (SDOMsg e)
    (ErrFlag e) (Dev_Err e) (SDORcvFlag e) (PDO1Msg e) (PDO1RcvFlag e)
    (PDO2Msg e) v (PDO3Msg e) (PDO3RcvFlag e) (PDO4Msg e) (PDO4RcvFlag e)
    (CurProfile e) (TxPosition e) (RxPosition e) (TxVelocity e) (RxVelocity e)
    (E_error e).
Definition set_PDO3Msg (v : CanMsg) (e : epos_t) : epos_t :=
  Build_epos_t (dev e) (Node_ID e) (TxMessage e) (RxMessage e) (SDOMsg e)
    (ErrFlag e) (Dev_Err e) (SDORcvFlag e) (PDO1Msg e) (PDO1RcvFlag e)
    (PDO2Msg e) (PDO2RcvFlag e) v (PDO3RcvFlag e) (PDO4Msg e) (PDO4RcvFlag e)
    (CurProfile e) (TxPosition e) (RxPosition e) (TxVelocity e) (RxVelocity e)
    (E_error e).
Definition set_PDO3RcvFlag (v : bool) (e : epos_t) : epos_t :=
  Build_epos_t (dev e) (Node_ID e) (TxMessage e) (RxMessage e) (SDOMsg e)
    (ErrFlag e) (Dev_Err e) (SDORcvFlag e) (PDO1Msg e) (PDO1RcvFlag e)
    (PDO2Msg e) (PDO2RcvFlag e) (PDO3Msg e) v (PDO4Msg e) (PDO4RcvFlag e)
    (CurProfile e) (TxPosition e) (RxPosition e) (TxVelocity e) (RxVelocity e)
    (E_error e).
Definition set_PDO4Msg (v : CanMsg) (e : epos_t) : epos_t :=
  Build_epos_t (dev e) (Node_ID e) (TxMessage e) (RxMessage e) (SDOMsg e)
    (ErrFlag e) (Dev_Err e) (SDORcvFlag e) (PDO1Msg e) (PDO1RcvFlag e)
    (PDO2Msg e) (PDO2RcvFlag e) (PDO3Msg e) (PDO3RcvFlag e) v (PDO4RcvFlag e)
    (CurProfile e) (TxPosition e) (RxPosition e) (TxVelocity e) (RxVelocity e)
    (E_error e).
Definition set_PDO4RcvFlag (v : bool) (e : epos_t) : epos_t :=
  Build_epos_t (dev e) (Node_ID e) (TxMessage e) (RxMessage e) (SDOMsg e)
    (ErrFlag e) (Dev_Err e) (SDORcvFlag e) (PDO1Msg e) (PDO1RcvFlag e)
    (PDO2Msg e) (PDO2RcvFlag e) (PDO3Msg e) (PDO3RcvFlag e) (PDO4Msg e) v
    (CurProfile e) (TxPosition e) (RxPosition e) (TxVelocity e) (RxVelocity e)
    (E_error e).
Definition set_RxPosition (v : Z) (e : epos_t) : epos_t :=
  Build_epos_t (dev e) (Node_ID e) (TxMessage e) (RxMessage e) (SDOMsg e)
    (ErrFlag e) (Dev_Err e) (SDORcvFlag e) (PDO1Msg e) (PDO1RcvFlag e)
    (PDO2Msg e) (PDO2RcvFlag e) (PDO3Msg e) (PDO3RcvFlag e) (PDO4Msg e)
    (PDO4RcvFlag e) (CurProfile e) (TxPosition e) v (TxVelocity e) (RxVelocity
    e) (E_error e).
Definition set_RxVelocity (v : Z) (e : epos_t) : epos_t :=
  Build_epos_t (dev e) (Node_ID e) (TxMessage e) (RxMessage e) (SDOMsg e)
    (ErrFlag e) (Dev_Err e) (SDORcvFlag e) (PDO1Msg e) (PDO1RcvFlag e)
    (PDO2Msg e) (PDO2RcvFlag e) (PDO3Msg e) (PDO3RcvFlag e) (PDO4Msg e)
    (PDO4RcvFlag e) (CurProfile e) (TxPosition e) (RxPosition e) (TxVelocity
    e) v (E_error e).
Definition set_E_error (v : Z) (e : epos_t) : epos_t :=
  Build_epos_t (dev e) (Node_ID e) (TxMessage e) (RxMessage e) (SDOMsg e)
    (ErrFlag e) (Dev_Err e) (SDORcvFlag e) (PDO1Msg e) (PDO1RcvFlag e)
    (PDO2Msg e) (PDO2RcvFlag e) (PDO3Msg e) (PDO3RcvFlag e) (PDO4Msg e)
    (PDO4RcvFlag e) (CurProfile e) (TxPosition e) (RxPosition e) (TxVelocity
    e) (RxVelocity e) v.
(** ** The environment and the global state *)

(** The CAN handle holds the two message pointers that [openEPOS] aims
    at the device's [TxMessage] and [RxMessage]; a pointer is the index
    of the device it points into. *)
Record CAN_HandleTypeDef : Type := mkHandle {
  pTxMsg : nat;
  pRxMsg : nat
}.

(** Interrupts of the CAN peripheral: transmission complete, and a frame
    received on a handle. *)
Inductive irq : Type :=
| TxCplt (h : nat)
| RxCplt (h : nat) (m : CanMsg).

(** What happens during one call into the HAL. *)
Record hal_call : Type := mkCall {
  status_ok : bool;        (* HAL_OK returned by HAL_CAN_Transmit_IT *)
  served : list irq        (* interrupts served before the call returns *)
}.

(** Output on the RTT console. *)
Inductive diag : Type :=
| EposNotInitialized (i : nat)
| MessageCannotBeProcessed (id : Z)
| TransmitError
| EposRespondsWithError (what : string)
| UnknownEposErrorCode (code : Z).

Record world : Type := Build_world {
  epos : list (option epos_t);   (* epos_t *epos[EPOS_NUM] *)
  hcan : list CAN_HandleTypeDef;
  SDOBusy : bool;
  CAN_RxReady : bool;
  CAN_TxReady : bool;
  isPDO : bool;
  CANMsgBuf : list CanMsg;       (* CanRxMsgTypeDef CANMsgBuf[16] *)
  pCANMsg : nat;
  sched : list hal_call;         (* the environment still to come *)
  clock : Z;                     (* milliseconds spent in HAL_Delay *)
  wire : list CanMsg;            (* frames accepted for transmission *)
  rtt : list diag;
  uninit : Z                     (* what an uninitialised local holds *)
}.

Definition set_epos (v : list (option epos_t)) (w : world) : world :=
  Build_world v (hcan w) (SDOBusy w) (CAN_RxReady w) (CAN_TxReady w) (isPDO w)
    (CANMsgBuf w) (pCANMsg w) (sched w) (clock w) (wire w) (rtt w) (uninit w).
Definition set_SDOBusy (v : bool) (w : world) : world :=
  Build_world (epos w) (hcan w) v (CAN_RxReady w) (CAN_TxReady w) (isPDO w)
    (CANMsgBuf w) (pCANMsg w) (sched w) (clock w) (wire w) (rtt w) (uninit w).
Definition set_CAN_RxReady (v : bool) (w : world) : world :=
  Build_world (epos w) (hcan w) (SDOBusy w) v (CAN_TxReady w) (isPDO w)
    (CANMsgBuf w) (pCANMsg w) (sched w) (clock w) (wire w) (rtt w) (uninit w).
Definition set_CAN_TxReady (v : bool) (w : world) : world :=
  Build_world (epos w) (hcan w) (SDOBusy w) (CAN_RxReady w) v (isPDO w)
    (CANMsgBuf w) (pCANMsg w) (sched w) (clock w) (wire w) (rtt w) (uninit w).
Definition set_CANMsgBuf (v : list CanMsg) (w : world) : world :=
  Build_world (epos w) (hcan w) (SDOBusy w) (CAN_RxReady w) (CAN_TxReady w)
    (isPDO w) v (pCANMsg w) (sched w) (clock w) (wire w) (rtt w) (uninit w).
Definition set_pCANMsg (v : nat) (w : world) : world :=
  Build_world (epos w) (hcan w) (SDOBusy w) (CAN_RxReady w) (CAN_TxReady w)
    (isPDO w) (CANMsgBuf w) v (sched w) (clock w) (wire w) (rtt w) (uninit w).
Definition set_sched (v : list hal_call) (w : world) : world :=
  Build_world (epos w) (hcan w) (SDOBusy w) (CAN_RxReady w) (CAN_TxReady w)
    (isPDO w) (CANMsgBuf w) (pCANMsg w) v (clock w) (wire w) (rtt w) (uninit
    w).
Definition set_clock (v : Z) (w : world) : world :=
  Build_world (epos w) (hcan w) (SDOBusy w) (CAN_RxReady w) (CAN_TxReady w)
    (isPDO w) (CANMsgBuf w) (pCANMsg w) (sched w) v (wire w) (rtt w) (uninit
    w).
Definition set_wire (v : list CanMsg) (w : world) : world :=
  Build_world (epos w) (hcan w) (SDOBusy w) (CAN_RxReady w) (CAN_TxReady w)
    (isPDO w) (CANMsgBuf w) (pCANMsg w) (sched w) (clock w) v (rtt w) (uninit
    w).
Definition set_rtt (v : list diag) (w : world) : world :=
  Build_world (epos w) (hcan w) (SDOBusy w) (CAN_RxReady w) (CAN_TxReady w)
    (isPDO w) (CANMsgBuf w) (pCANMsg w) (sched w) (clock w) (wire w) v (uninit
    w).

(** ** Computations: state passing with three ways to end *)

Inductive outcome (A : Type) : Type :=
| Done (a : A) (w : world)
| Hang (w : world)       (* still waiting when the schedule ends *)
| Fault (w : world).     (* invalid memory access *)
Arguments Done {A} a w.
Arguments Hang {A} w.
Arguments Fault {A} w.

Definition M (A : Type) : Type := world -> outcome A.

#[global] Instance M_ret : MRet M := fun A a w => Done a w.
#[global] Instance M_bind : MBind M := fun A B f m w =>
  match m w with
  | Done a w' => f a w'
  | Hang w' => Hang w'
  | Fault w' => Fault w'
  end.

Definition get {A} (f : world -> A) : M A := fun w => Done (f w) w.
Definition modify (f : world -> world) : M unit := fun w => Done tt (f w).
Definition print (d : diag) : M unit :=
  modify (fun w => set_rtt (rtt w ++ [d]) w).

(** The world an outcome ends in. *)
Definition final {A} (o : outcome A) : world :=
  match o with Done _ w => w | Hang w => w | Fault w => w end.

(** [epos[i]], [None] for NULL. *)
Definition deref (i : nat) (w : world) : option epos_t :=
  default None (epos w !! i).

(** [*epos[i] = e] *)
Definition assign (i : nat) (e : epos_t) : M unit :=
  modify (fun w => set_epos (<[i := Some e]> (epos w)) w).

(** Bounded iteration for [while] and [do ... while] loops: [body]
    yields [inl s] to go round again and [inr a] to leave the loop.  A
    loop still turning when the fuel is out ends in [Hang]. *)
Fixpoint iter {S A} (fuel : nat) (body : S -> M (S + A)) (s : S) : M A :=
  match fuel with
  | O => fun w => Hang w
  | Datatypes.S k => r ← body s;
      match r with inl s' => iter k body s' | inr a => mret a end
  end.

(** Every turn of a loop of the driver makes at least one HAL call, so
    one unit of fuel per schedule entry, and one to spare, is enough
    ([loop_fuel_enough] and the lemmas on the four loop bodies). *)
Definition loop {S A} (body : S -> M (S + A)) (s : S) : M A :=
  fun w => iter (Datatypes.S (length (sched w))) body s w.

(** ** The dispatcher: [processCANMsg] and [processPDOMessage] *)

(** The 32-bit little-endian value that the driver assembles from four
    payload bytes, [(Data[k+3] << 24) + (Data[k+2] << 16) +
    (Data[k+1] << 8) + Data[k]], computed in [int32_t]. *)
Definition le32_at (m : CanMsg) (k : nat) : Z :=
  s32 (Z.shiftl (byte m (k + 3)) 24 + Z.shiftl (byte m (k + 2)) 16
       + Z.shiftl (byte m (k + 1)) 8 + byte m k).

(** The [if ... else if] chain in the body of the [for] loop of
    [processCANMsg]: the device claims frame [m] ([Some], the loop
    breaks) or leaves it ([None], the loop goes on). *)
Definition processCANMsg_claim (m : CanMsg) (e : epos_t) : option epos_t :=
  if StdId m =? Node_ID e + 0x180 then
    Some (set_PDO1RcvFlag true (set_PDO1Msg m e))
  else if StdId m =? Node_ID e + 0x280 then
    Some (set_PDO2RcvFlag true (set_PDO2Msg m e))
  else if StdId m =? Node_ID e + 0x380 then
    Some (set_PDO3RcvFlag true (set_PDO3Msg m e))
  else if StdId m =? Node_ID e + 0x480 then
    Some (set_PDO4RcvFlag true (set_PDO4Msg m e))
  else if StdId m =? Node_ID e + 0x580 then
    Some (set_SDORcvFlag true (set_SDOMsg m e))
  else if StdId m =? Node_ID e + 0x80 then
    Some (set_ErrFlag true
            (set_Dev_Err (u16 (Z.shiftl (u16 (byte m 1)) 8 + u16 (byte m 0))) e))
  else None.

(** The [for] loop over the devices, from index [i] on.  The result is
    the console output and, when a device claimed the frame, the updated
    array; [None] is the exit with [i == num]. *)
Fixpoint processCANMsg_for (m : CanMsg) (i : nat) (ds : list (option epos_t))
  : list diag * option (list (option epos_t)) :=
  match ds with
  | [] => ([], None)
  | None :: ds' =>
      let '(out, r) := processCANMsg_for m (S i) ds' in
      (EposNotInitialized i :: out, cons None <$> r)
  | Some e :: ds' =>
      match processCANMsg_claim m e with
      | Some e' => ([], Some (Some e' :: ds'))
      | None =>
          let '(out, r) := processCANMsg_for m (S i) ds' in
          (out, cons (Some e) <$> r)
      end
  end.

(** One turn of the [while] loop, without the decrement of [pCANMsg]:
    route frame [m]. *)
Definition processCANMsg_route (m : CanMsg) (w : world) : world :=
  let '(out, r) := processCANMsg_for m 0 (epos w) in
  let w1 := set_rtt (rtt w ++ out) w in
  match r with
  | Some ds => set_epos ds w1
  | None => set_rtt (rtt w1 ++ [MessageCannotBeProcessed (StdId m)]) w1
  end.

(** [while (pCANMsg > 0)] with [pCANMsg = p]: the buffer is emptied from
    its top entry down. *)
Fixpoint processCANMsg_while (p : nat) : M unit :=
  match p with
  | O => mret tt
  | S p' => fun w =>
      match CANMsgBuf w !! p' with
      | None => Fault w
      | Some m =>
          (modify (processCANMsg_route m) ;;
           modify (set_pCANMsg p') ;;
           processCANMsg_while p') w
      end
  end.

(** The body of the [for] loop of [processPDOMessage]. *)
Definition processPDOMessage_body (e : epos_t) : epos_t :=
  let e1 :=
    if PDO3RcvFlag e
    then set_PDO3RcvFlag false (set_RxPosition (le32_at (PDO3Msg e) 2) e)
    else e in
  if PDO4RcvFlag e1
  then set_PDO4RcvFlag false (set_RxVelocity (le32_at (PDO4Msg e1) 2) e1)
  else e1.

(** The loop itself; it dereferences [epos[i]] unchecked, so it stops
    ([false]) at the first NULL entry. *)
Fixpoint processPDOMessage_for (ds : list (option epos_t))
  : list (option epos_t) * bool :=
  match ds with
  | [] => ([], true)
  | None :: ds' => (None :: ds', false)
  | Some e :: ds' =>
      let '(r, ok) := processPDOMessage_for ds' in
      (Some (processPDOMessage_body e) :: r, ok)
  end.

Definition processPDOMessage : M Z := fun w =>
  let '(ds, ok) := processPDOMessage_for (epos w) in
  if ok then Done 1 (set_epos ds w) else Fault (set_epos ds w).

Definition processCANMsg : M Z :=
  p ← get pCANMsg;
  processCANMsg_while p ;;
  processPDOMessage ;;
  mret 1.

(** ** Interrupt handlers *)

Definition HAL_CAN_TxCpltCallback (h : nat) : M unit :=
  modify (set_CAN_TxReady true).

(** [memcpy(&CANMsgBuf[pCANMsg], hcan->pRxMsg, ...)], [pCANMsg++],
    [CAN_RxReady = true], then the dispatcher on the whole array. *)
Definition HAL_CAN_RxCpltCallback (h : nat) : M unit := fun w =>
  match hcan w !! h with
  | None => Fault w
  | Some hc =>
      match deref (pRxMsg hc) w with
      | None => Fault w
      | Some e =>
          if decide (pCANMsg w < length (CANMsgBuf w))%nat then
            (modify (fun w => set_CANMsgBuf
                                (<[pCANMsg w := RxMessage e]> (CANMsgBuf w)) w) ;;
             modify (fun w => set_pCANMsg (S (pCANMsg w)) w) ;;
             modify (set_CAN_RxReady true) ;;
             processCANMsg ;;
             mret tt) w
          else Fault w
      end
  end.

(** The peripheral stores a received frame through [hcan->pRxMsg] and
    raises the receive interrupt. *)
Definition serve_irq (q : irq) : M unit :=
  match q with
  | TxCplt h => HAL_CAN_TxCpltCallback h
  | RxCplt h m => fun w =>
      match hcan w !! h with
      | None => Fault w
      | Some hc =>
          match deref (pRxMsg hc) w with
          | None => Fault w
          | Some e =>
              (assign (pRxMsg hc) (set_RxMessage m e) ;;
               HAL_CAN_RxCpltCallback h) w
          end
      end
  end.

Fixpoint serve (qs : list irq) : M unit :=
  match qs with
  | [] => mret tt
  | q :: qs' => serve_irq q ;; serve qs'
  end.

(** ** The HAL calls *)

(** [HAL_Delay(ms)]: the clock advances, the interrupts of the next
    schedule entry are served. *)
Definition HAL_Delay (ms : Z) : M unit := fun w =>
  match sched w with
  | [] => Hang w
  | c :: rest =>
      serve (served c) (set_clock (clock w + ms) (set_sched rest w))
  end.

(** [HAL_CAN_Transmit_IT(hcan)] sends the frame [*hcan->pTxMsg]; the
    result is [true] for [HAL_OK]. *)
Definition HAL_CAN_Transmit_IT (h : nat) : M bool := fun w =>
  match hcan w !! h with
  | None => Fault w
  | Some hc =>
      match deref (pTxMsg hc) w with
      | None => Fault w
      | Some e =>
          match sched w with
          | [] => Hang w
          | c :: rest =>
              if status_ok c then
                (serve (served c) ;; mret true)
                  (set_wire (wire w ++ [TxMessage e]) (set_sched rest w))
              else
                (serve (served c) ;; mret false) (set_sched rest w)
          end
      end
  end.

(** ** Constants of epos.c *)

Definition E_NOERR : Z := 0x00000000.
Definition E_PRAGNEX : Z := 0x06090030.

Definition E_BIT15 : Z := 0x8000.
Definition E_BIT14 : Z := 0x4000.
Definition E_BIT13 : Z := 0x2000.
Definition E_BIT12 : Z := 0x1000.
Definition E_BIT10 : Z := 0x0400.
Definition E_BIT08 : Z := 0x0100.
Definition E_BIT07 : Z := 0x0080.
Definition E_BIT06 : Z := 0x0040.
Definition E_BIT05 : Z := 0x0020.
Definition E_BIT04 : Z := 0x0010.
Definition E_BIT03 : Z := 0x0008.
Definition E_BIT02 : Z := 0x0004.
Definition E_BIT01 : Z := 0x0002.
Definition E_BIT00 : Z := 0x0001.

Definition E_HOMING : Z := 6.
Definition E_PROFPOS : Z := 1.

(** ** The SDO engine *)

(** Access to [*epos[i]] once the pointer has been checked. *)
Definition load {A} (i : nat) (f : epos_t -> A) : M A := fun w =>
  match deref i w with
  | None => Fault w
  | Some e => Done (f e) w
  end.

Definition update (i : nat) (f : epos_t -> epos_t) : M unit := fun w =>
  match deref i w with
  | None => Fault w
  | Some e => assign i (f e) w
  end.

(** The [case] labels of [checkEPOSerror] with the text each prints after
    "EPOS responds with error: "; [None] is the [default] label. *)
Definition checkEPOSerror_text (code : Z) : option string :=
  match code with
  | 0x06020000 => Some "requested object does not exist!"%string
  | 0x06090011 => Some "requested subindex does not exist!"%string
  | 0x05040005 => Some "out of memory!"%string
  | 0x06010000 => Some "unsupported access to an object!"%string
  | 0x06010001 => Some "attempt to read a write-only object!"%string
  | 0x06010002 => Some "attempt to write a read-only object!"%string
  | 0x06040043 => Some "general parameter incompatibility!"%string
  | 0x06040047 =>
      Some "general internal incompatibility in the device!"%string
  | 0x06060000 => Some "access failed due to an HARDWARE ERROR!"%string
  | 0x06090030 => Some "value range of parameter exeeded!"%string
  | 0x06090031 => Some "value of parameter written is too high!"%string
  | 0x06090032 => Some "value of parameter written is too low!"%string
  | 0x06090036 => Some "maximum value is less than minimum value!"%string
  | 0x0F00FFC0 => Some "wrong NMT state!"%string
  | 0x0F00FFBF => Some "rs232 command illegeal!"%string
  | 0x0F00FFBE => Some "password incorrect!"%string
  | 0x0F00FFBC => Some "device not in service mode!"%string
  | 0x0F00FFB9 => Some "error in Node-ID!"%string
  | _ => None
  end.

Definition checkEPOSerror (i : nat) : M Z := fun w =>
  match deref i w with
  | None => Done (-1) w
  | Some e =>
      if E_error e =? E_NOERR then Done 0 w
      else
        (print (match checkEPOSerror_text (E_error e) with
                | Some s => EposRespondsWithError s
                | None => UnknownEposErrorCode (E_error e)
                end) ;;
         mret (-1)) w
  end.

(** [epos->dev < 0] compares a pointer with the null pointer constant and
    never holds. *)
Definition checkEPOS (i : nat) : M Z := mret 0.

Definition sendCom (i : nat) : M Z := fun w =>
  match deref i w with
  | None => Done (-1) w
  | Some e =>
      (ok ← HAL_CAN_Transmit_IT (dev e);
       if ok : bool then
         loop (fun _ : unit =>
                 ready ← get CAN_TxReady;
                 if ready : bool then mret (inr tt)
                 else HAL_Delay 5 ;; mret (inl tt)) tt ;;
         modify (set_CAN_TxReady false) ;;
         mret 1
       else
         print TransmitError ;; mret (-1)) w
  end.

Definition readAnswer (i : nat) : M Z := fun w =>
  match deref i w with
  | None => Done (-1) w
  | Some _ =>
      (update i (set_E_error 0x00) ;;
       loop (fun _ : unit =>
               flag ← load i SDORcvFlag;
               if flag : bool then mret (inr tt)
               else HAL_Delay 1 ;; mret (inl tt)) tt ;;
       update i (set_SDORcvFlag false) ;;
       m ← load i SDOMsg;
       (if byte m 0 =? 0x80
        then update i (set_E_error (u32 (le32_at m 4)))
        else mret tt) ;;
       mret 1) w
  end.

(** The request frame both transactions build in [epos->TxMessage]. *)
Definition sdo_request (node cs Index SubIndex d4 d5 d6 d7 : Z) : CanMsg :=
  {| StdId := u32 (0x600 + node);
     IDE := CAN_ID_STD;
     RTR := CAN_RTR_DATA;
     DLC := 8;
     Data := [ cs;
               u8 (Z.land Index 0xFF);
               u8 (Z.shiftr (Z.land Index 0xFF00) 8);
               u8 SubIndex;
               d4; d5; d6; d7 ] |}.

(** [param] is the content of [*param] at the call; the result pairs the
    return value with the content afterwards. *)
Definition ReadObject (i : nat) (Index SubIndex : Z) (param : Z)
  : M (Z * Z) := fun w =>
  match deref i w with
  | None => Done (-1, param) w
  | Some _ =>
      (modify (set_SDOBusy true) ;;
       update i (fun e =>
         set_TxMessage
           (sdo_request (Node_ID e) 0x40 Index SubIndex 0x00 0x00 0x00 0x00)
           e) ;;
       n ← sendCom i;
       if n <? 0 then mret (-1, param)
       else
         ret ← readAnswer i;
         m ← load i SDOMsg;
         modify (set_SDOBusy false) ;;
         mret (ret, u32 (le32_at m 4))) w
  end.

(** [param] is the two-word array [param[0]], [param[1]]. *)
Definition WriteObject (i : nat) (Index SubIndex : Z) (param : Z * Z)
  : M Z := fun w =>
  match deref i w with
  | None => Done (-1) w
  | Some _ =>
      (update i (fun e =>
         set_TxMessage
           (sdo_request (Node_ID e) 0x22 Index SubIndex
              (u8 (Z.land (fst param) 0xFF))
              (u8 (Z.shiftr (Z.land (fst param) 0xFF00) 8))
              (u8 (Z.land (snd param) 0xFF))
              (u8 (Z.shiftr (Z.land (snd param) 0xFF00) 8)))
           e) ;;
       n ← sendCom i;
       if n <? 0 then mret (-1)
       else
         n ← readAnswer i;
         if n <? 0 then mret (-1)
         else checkEPOSerror i) w
  end.

(** ** High-level read and write functions *)

(** [status] is the content of [*status] at the call. *)
Definition readStatusword (i : nat) (status : Z) : M (Z * Z) := fun w =>
  match deref i w with
  | None => Done (-1, status) w
  | Some _ =>
      (c ← checkEPOS i;
       if negb (c =? 0) then mret (-1, status)
       else
         answer ← get uninit;
         '(n, answer) ← ReadObject i 0x6041 0x00 answer;
         if n <? 0 then mret (-1, status)
         else
           checkEPOSerror i ;;
           mret (0, u16 (Z.land answer 0xFFFF))) w
  end.

Definition setOpMode (i : nat) (m : Z) : M Z := fun w =>
  match deref i w with
  | None => Done (-1) w
  | Some _ =>
      (n ← WriteObject i 0x6060 0x00 (u16 m, 0x0000);
       if n <? 0 then mret (-1) else mret 0) w
  end.

Definition readOpMode (i : nat) : M Z := fun w =>
  match deref i w with
  | None => Done (-1) w
  | Some _ =>
      (answer ← get uninit;
       '(n, answer) ← ReadObject i 0x6061 0x00 answer;
       if n <? 0 then mret 0
       else
         let aa := s8 (Z.land answer 0xFF) in
         checkEPOSerror i ;;
         mret aa) w
  end.

Definition readActualPosition (i : nat) (pos : Z) : M (Z * Z) := fun w =>
  match deref i w with
  | None => Done (-1, pos) w
  | Some _ =>
      (c ← checkEPOS i;
       if negb (c =? 0) then mret (-1, pos)
       else
         answer ← get uninit;
         '(n, answer) ← ReadObject i 0x6064 0x00 answer;
         if n <? 0 then mret (-1, pos)
         else
           checkEPOSerror i ;;
           update i (set_RxPosition (s32 answer)) ;;
           mret (0, s32 answer)) w
  end.

Definition readActualVelocity (i : nat) (val : Z) : M (Z * Z) := fun w =>
  match deref i w with
  | None => Done (-1, val) w
  | Some _ =>
      (c ← checkEPOS i;
       if negb (c =? 0) then mret (-1, val)
       else
         answer ← get uninit;
         '(n, answer) ← ReadObject i 0x606c 0x00 answer;
         if n <? 0 then mret (-1, val)
         else
           checkEPOSerror i ;;
           update i (set_RxVelocity (s32 answer)) ;;
           mret (0, s32 answer)) w
  end.

Definition readActualCurrent (i : nat) (val : Z) : M (Z * Z) := fun w =>
  match deref i w with
  | None => Done (-1, val) w
  | Some _ =>
      (c ← checkEPOS i;
       if negb (c =? 0) then mret (-1, val)
       else
         answer ← get uninit;
         '(n, answer) ← ReadObject i 0x6078 0x00 answer;
         if n <? 0 then mret (-1, val)
         else
           checkEPOSerror i ;;
           mret (0, Z.land answer 0xFF)) w
  end.

(** ** The status-word decoder *)

Definition bitcmp (a b : Z) : Z :=
  if Z.land a b =? b then 1 else 0.

(** C truth of an [int]. *)
Definition nz (x : Z) : bool := negb (x =? 0).

(** [checkEPOSstate] after it has read status word [w]. *)
Definition checkEPOSstate_decode (w : Z) : Z :=
  let y b := nz (bitcmp w b) in
  let n b := negb (nz (bitcmp w b)) in
  if n E_BIT00 && n E_BIT01 && n E_BIT02 && n E_BIT03 && n E_BIT04
     && n E_BIT05 && n E_BIT06 && n E_BIT08 && n E_BIT14 then 0
  else if n E_BIT00 && n E_BIT01 && n E_BIT02 && n E_BIT03 && n E_BIT04
     && n E_BIT05 && n E_BIT06 && y E_BIT08 && n E_BIT14 then 1
  else if n E_BIT00 && n E_BIT01 && n E_BIT02 && n E_BIT03 && n E_BIT04
     && n E_BIT05 && y E_BIT06 && y E_BIT08 && n E_BIT14 then 2
  else if y E_BIT00 && n E_BIT01 && n E_BIT02 && n E_BIT03 && n E_BIT04
     && y E_BIT05 && n E_BIT06 && y E_BIT08 && n E_BIT14 then 3
  else if y E_BIT00 && y E_BIT01 && n E_BIT02 && n E_BIT03 && n E_BIT04
     && y E_BIT05 && n E_BIT06 && y E_BIT08 && n E_BIT14 then 4
  else if y E_BIT00 && y E_BIT01 && n E_BIT02 && n E_BIT03 && n E_BIT04
     && y E_BIT05 && n E_BIT06 && y E_BIT08 && y E_BIT14 then 5
  else if y E_BIT00 && y E_BIT01 && n E_BIT02 && n E_BIT03 && y E_BIT04
     && y E_BIT05 && n E_BIT06 && y E_BIT08 && y E_BIT14 then 6
  else if y E_BIT00 && y E_BIT01 && y E_BIT02 && n E_BIT03 && y E_BIT04
     && y E_BIT05 && n E_BIT06 && y E_BIT08 && n E_BIT14 then 7
  else if y E_BIT00 && y E_BIT01 && y E_BIT02 && n E_BIT03 && y E_BIT04
     && n E_BIT05 && n E_BIT06 && y E_BIT08 && n E_BIT14 then 8
  else if y E_BIT00 && y E_BIT01 && y E_BIT02 && y E_BIT03 && n E_BIT04
     && n E_BIT05 && n E_BIT06 && y E_BIT08 && n E_BIT14 then 9
  else if y E_BIT00 && y E_BIT01 && y E_BIT02 && y E_BIT03 && y E_BIT04
     && n E_BIT05 && n E_BIT06 && y E_BIT08 && n E_BIT14 then 10
  else if n E_BIT00 && n E_BIT01 && n E_BIT02 && y E_BIT03 && n E_BIT04
     && n E_BIT05 && n E_BIT06 && y E_BIT08 && n E_BIT14 then 11
  else -2.

Definition checkEPOSstate (i : nat) : M Z := fun w =>
  match deref i w with
  | None => Done (-1) w
  | Some _ =>
      ('(n, sw) ← readStatusword i 0x0;
       if n <? 0 then mret (-1)
       else mret (checkEPOSstate_decode sw)) w
  end.

(** ** The control-word encoder *)

(** [dw[0]] as the [case] for [state] leaves it, starting from
    [dw[0] = 0x0000]; [None] is the [default] label. *)
Definition changeEPOSstate_dw0 (state : Z) : option Z :=
  let dw0 := 0x0000 in
  let clr b x := u16 (Z.land x (Z.lnot b)) in
  let set b x := u16 (Z.lor x b) in
  match state with
  | 0 => Some (clr E_BIT00 (set E_BIT01 (set E_BIT02 (clr E_BIT15 dw0))))
  | 1 => Some (set E_BIT00 (set E_BIT01 (set E_BIT02 (clr E_BIT15 dw0))))
  | 2 => Some (clr E_BIT02 (clr E_BIT15 dw0))
  | 3 => Some (set E_BIT02 (clr E_BIT02 (clr E_BIT15 dw0)))
  | 4 => Some (set E_BIT00 (set E_BIT01 (set E_BIT02
                 (clr E_BIT03 (clr E_BIT15 dw0)))))
  | 5 => Some (set E_BIT00 (set E_BIT01 (set E_BIT02
                 (set E_BIT03 (clr E_BIT15 dw0)))))
  | 6 => Some (set E_BIT07 dw0)
  | _ => None
  end.

Definition changeEPOSstate (i : nat) (state : Z) : M Z := fun w =>
  match deref i w with
  | None => Done (-1) w
  | Some _ =>
      match changeEPOSstate_dw0 state with
      | Some dw0 =>
          (n ← WriteObject i 0x6040 0x00 (dw0, 0x0000);
           if n <? 0 then mret (-1) else mret 0) w
      | None => Done (-1) w
      end
  end.

(** ** Movement and homing *)

Definition moveAbsolute (i : nat) (steps : Z) : M Z := fun w =>
  match deref i w with
  | None => Done (-1) w
  | Some _ =>
      (mode ← readOpMode i;
       failed ← (if negb (mode =? E_PROFPOS)
                 then r ← setOpMode i E_PROFPOS; mret (nz r)
                 else mret false);
       if failed : bool then mret (-1)
       else
         n ← WriteObject i 0x607A 0x00
               (u16 (Z.land steps 0x0000FFFF), u16 (Z.shiftr steps 16));
         if n <? 0 then mret (-1)
         else
           checkEPOSerror i ;;
           n ← WriteObject i 0x6040 0x00 (0x3f, 0x0000);
           if n <? 0 then mret (-1)
           else checkEPOSerror i ;; mret 0) w
  end.

(** One turn of the [do ... while] of [waitForTarget]; the loop state is
    the counter [i] and the local [status]. *)
Definition waitForTarget_body (i : nat) (t : Z) (s : Z * Z)
  : M (Z * Z + Z) :=
  let '(cnt, status) := s in
  let cnt' := if negb (t =? 0) then u32 (cnt + 1) else cnt in
  if negb (t =? 0) && (cnt' >? t) then mret (inr 1)
  else
    HAL_Delay 50 ;;
    '(_, status) ← readStatusword i status;
    if negb (Z.land status E_BIT10 =? E_BIT10) then mret (inl (cnt', status))
    else mret (inr 0).

Definition waitForTarget (i : nat) (t : Z) : M Z := fun w =>
  match deref i w with
  | None => Done (-1) w
  | Some _ => (status ← get uninit; loop (waitForTarget_body i t) (0, status)) w
  end.

(** One turn of the [do ... while] of [monitorHomingStatus]; the loop
    state is the local [status].  On leaving, [Some r] is [return r] from
    inside the loop and [None] is [break] or a failed loop condition;
    the second component is [status] at that point. *)
Definition monitorHomingStatus_body (i : nat) (status : Z)
  : M (Z + option Z * Z) :=
  junk ← get uninit;
  '(n, _) ← readActualPosition i junk;
  if nz n then mret (inr (None, status))
  else
    '(n, _) ← readActualVelocity i junk;
    if nz n then mret (inr (None, status))
    else
      '(n, _) ← readActualCurrent i junk;
      if nz n then mret (inr (None, status))
      else
        '(_, status) ← readStatusword i status;
        '(_, status) ← readStatusword i status;
        if Z.land status E_BIT13 =? E_BIT13
        then mret (inr (Some (-2), status))
        else if negb (Z.land status E_BIT10 =? E_BIT10)
                && negb (Z.land status E_BIT12 =? E_BIT12)
             then mret (inl status)
             else mret (inr (None, status)).

Definition monitorHomingStatus (i : nat) : M Z := fun w =>
  match deref i w with
  | None => Done (-1) w
  | Some _ =>
      ('(r, status) ← loop (monitorHomingStatus_body i) 0x0;
       match r with
       | Some v => mret v
       | None =>
           junk ← get uninit;
           readActualPosition i junk ;;
           readActualVelocity i junk ;;
           readActualCurrent i junk ;;
           readStatusword i status ;;
           mret 0
       end) w
  end.

Definition doHoming (i : nat) (method start : Z) : M Z := fun w =>
  match deref i w with
  | None => Done (-1) w
  | Some _ =>
      (r ← moveAbsolute i start;
       if nz r then mret (-1)
       else
         waitForTarget i 30 ;;
         r ← setOpMode i E_HOMING;
         if nz r then mret (-1)
         else
           n ← WriteObject i 0x6098 0x00 (u16 method, 0x0000);
           if n <? 0 then mret (-1)
           else
             checkEPOSerror i ;;
             n ← WriteObject i 0x6040 0x00 (0x000f, 0x0000);
             if n <? 0 then mret (-1)
             else
               n ← WriteObject i 0x6040 0x00 (0x001f, 0x0000);
               if n <? 0 then mret (-1)
               else
                 checkEPOSerror i ;;
                 status ← monitorHomingStatus i;
                 if nz status && (status =? 1) then mret 2
                 else
                   '(_, sw) ← readStatusword i 0x0000;
                   if Z.land sw E_BIT13 =? E_BIT13 then mret (-1)
                   else if Z.land sw E_BIT12 =? E_BIT12 then mret 0
                   else mret (-5)) w
  end.

(** * Specification-side notions *)

(** ** The dispatcher *)

(** The offset table of the specification: the channel a frame belongs to
    is fixed by the distance of its identifier from the node id. *)
Inductive channel : Type := Emergency | PDO1 | PDO2 | PDO3 | PDO4 | SDO.

Definition cob_offset (c : channel) : Z :=
  match c with
  | Emergency => 0x80
  | PDO1 => 0x180
  | PDO2 => 0x280
  | PDO3 => 0x380
  | PDO4 => 0x480
  | SDO => 0x580
  end.

(** The "frame available" flag of a channel and the content of its slot:
    a frame, or for the emergency channel the 16-bit device error. *)
Definition available (c : channel) (e : epos_t) : bool :=
  match c with
  | Emergency => ErrFlag e
  | PDO1 => PDO1RcvFlag e
  | PDO2 => PDO2RcvFlag e
  | PDO3 => PDO3RcvFlag e
  | PDO4 => PDO4RcvFlag e
  | SDO => SDORcvFlag e
  end.

Definition slot (c : channel) (e : epos_t) : CanMsg + Z :=
  match c with
  | Emergency => inr (Dev_Err e)
  | PDO1 => inl (PDO1Msg e)
  | PDO2 => inl (PDO2Msg e)
  | PDO3 => inl (PDO3Msg e)
  | PDO4 => inl (PDO4Msg e)
  | SDO => inl (SDOMsg e)
  end.

(** What arrives in the slot of channel [c] when frame [m] is routed
    there. *)
Definition received (c : channel) (m : CanMsg) : CanMsg + Z :=
  match c with
  | Emergency => inr (u16 (Z.shiftl (u16 (byte m 1)) 8 + u16 (byte m 0)))
  | _ => inl m
  end.

(** The specification's "copy the frame into that device's channel slot
    and set the corresponding available flag". *)
Definition deliver (c : channel) (m : CanMsg) (e : epos_t) : epos_t :=
  match c with
  | Emergency =>
      set_ErrFlag true
        (set_Dev_Err (u16 (Z.shiftl (u16 (byte m 1)) 8 + u16 (byte m 0))) e)
  | PDO1 => set_PDO1RcvFlag true (set_PDO1Msg m e)
  | PDO2 => set_PDO2RcvFlag true (set_PDO2Msg m e)
  | PDO3 => set_PDO3RcvFlag true (set_PDO3Msg m e)
  | PDO4 => set_PDO4RcvFlag true (set_PDO4Msg m e)
  | SDO => set_SDORcvFlag true (set_SDOMsg m e)
  end.

(** Devices of a bus: node ids between 1 and 127, no two alike. *)
Definition nodes_ok (ds : list (option epos_t)) : Prop :=
  (forall i e, ds !! i = Some (Some e) -> 1 <= Node_ID e <= 127) /\
  (forall i j e e', ds !! i = Some (Some e) -> ds !! j = Some (Some e') ->
     Node_ID e = Node_ID e' -> i = j).

(** No NULL entry in the device array. *)
Definition all_open (ds : list (option epos_t)) : Prop :=
  forall j, ds !! j <> Some None.

(** What routing one frame does to a single device. *)
Definition route1 (m : CanMsg) (e : epos_t) : epos_t :=
  default e (processCANMsg_claim m e).

(** What emptying a buffered batch does to a single device.  The batch is
    given in arrival order, oldest frame first; the [while] loop takes
    the newest first, so the oldest is routed last. *)
Definition settle (batch : list CanMsg) (e : epos_t) : epos_t :=
  foldr route1 e batch.

(** The frame of channel [c] for node [node] that arrived first in a
    batch. *)
Definition earliest (c : channel) (node : Z) (batch : list CanMsg)
  : option CanMsg :=
  find (fun m => StdId m =? node + cob_offset c) batch.

(** The frame of channel [c] for node [node] that arrived last. *)
Definition latest (c : channel) (node : Z) (batch : list CanMsg)
  : option CanMsg :=
  earliest c node (rev batch).

(** The part of the world that the dispatcher leaves alone. *)
Definition outside_dispatch (w : world) :=
  (hcan w, SDOBusy w, CAN_RxReady w, CAN_TxReady w, isPDO w, CANMsgBuf w,
   sched w, clock w, wire w, uninit w).

(** ** The status word and the control word *)

(** The bits the decoder looks at: 0..6, 8 and 14. *)
Definition status_mask : Z := 0x417F.

(** The bit patterns of the states 0 (start) to 11 (fault), in that
    order, as the comments of [checkEPOSstate] give them. *)
Definition state_patterns : list Z :=
  [ 0x0000; 0x0100; 0x0140; 0x0121; 0x0123; 0x4123;
    0x4133; 0x0137; 0x0117; 0x010F; 0x011F; 0x0108 ].

(** Status word [w] shows the pattern of state [k]. *)
Definition shows (k : nat) (w : Z) : Prop :=
  state_patterns !! k = Some (Z.land w status_mask).

(** The position of [x] in [l], counted from [k]. *)
Fixpoint index_from (k : Z) (x : Z) (l : list Z) : option Z :=
  match l with
  | [] => None
  | y :: l' => if x =? y then Some k else index_from (k + 1) x l'
  end.

(** The decoder agrees with the table on [w]. *)
Definition decode_agrees (w : Z) : bool :=
  checkEPOSstate_decode w
  =? default (-2) (index_from 0 (Z.land w status_mask) state_patterns).

(** [f] holds of the [n] numbers from [start] on. *)
Fixpoint all_from (f : Z -> bool) (n : nat) (start : Z) : bool :=
  match n with
  | O => true
  | S k => f start && all_from f k (start + 1)
  end.

(** The status word that [readStatusword] takes from reply [m]. *)
Definition status_of (m : CanMsg) : Z :=
  u16 (Z.land (u32 (le32_at m 4)) 0xFFFF).

(** Target reached, bit 10 of the status word. *)
Definition target_reached (status : Z) : bool :=
  Z.land status E_BIT10 =? E_BIT10.

(** The control word that [changeEPOSstate] writes for each state
    transition: 0 shutdown, 1 switch on, 2 disable voltage, 3 quick
    stop, 4 disable operation, 5 enable operation, 6 fault reset. *)
Definition control_literal (state : Z) : Z :=
  match state with
  | 0 => 0x0006
  | 1 => 0x0007
  | 2 => 0x0000
  | 3 => 0x0004
  | 4 => 0x0007
  | 5 => 0x000F
  | 6 => 0x0080
  | _ => 0
  end.

(** ** The SDO engine *)

(** The request frames as [ReadObject] and [WriteObject] fill them in. *)
Definition read_request (node Index SubIndex : Z) : CanMsg :=
  sdo_request node 0x40 Index SubIndex 0x00 0x00 0x00 0x00.

Definition write_request (node Index SubIndex : Z) (param : Z * Z) : CanMsg :=
  sdo_request node 0x22 Index SubIndex
    (u8 (Z.land (fst param) 0xFF))
    (u8 (Z.shiftr (Z.land (fst param) 0xFF00) 8))
    (u8 (Z.land (snd param) 0xFF))
    (u8 (Z.shiftr (Z.land (snd param) 0xFF00) 8)).

(** What [readAnswer] leaves in [E_error] after looking at response [m]:
    the abort code if the first byte is the abort marker 0x80, else 0. *)
Definition error_of_response (m : CanMsg) : Z :=
  if byte m 0 =? 0x80 then u32 (le32_at m 4) else 0.

(** The last-error field of [e] is what its SDO slot dictates: the
    little-endian value of bytes 4..7 if byte 0 is the abort marker, and
    0 if it is not. *)
Definition last_error_follows_response (e : epos_t) : Prop :=
  E_error e = error_of_response (SDOMsg e) /\
  (byte (SDOMsg e) 0 <> 0x80 -> E_error e = 0) /\
  (byte (SDOMsg e) 0 = 0x80 -> frame_ok (SDOMsg e) ->
   E_error e
   = byte (SDOMsg e) 4 + 2 ^ 8 * byte (SDOMsg e) 5
     + 2 ^ 16 * byte (SDOMsg e) 6 + 2 ^ 24 * byte (SDOMsg e) 7).

(** A response that aborts with code 0x06090030, value range of parameter
    exceeded: abort marker in byte 0, the code in bytes 4..7, low byte
    first. *)
Definition aborts_value_range (m : CanMsg) : Prop :=
  byte m 0 = 0x80 /\
  byte m 4 = 0x30 /\ byte m 5 = 0x00 /\ byte m 6 = 0x09 /\ byte m 7 = 0x06.

(** What a transmit call with schedule [sc] ahead puts on the wire when
    it is handed frame [m]. *)
Definition accepted (sc : list hal_call) (m : CanMsg) : list CanMsg :=
  match sc with
  | c :: _ => if status_ok c then [m] else []
  | [] => []
  end.

(** The schedule entry of a prompt exchange: the transport accepts the
    request, the transmission completes and the reply [resp] arrives on
    handle [h] before the transmit call returns. *)
Definition prompt (h : nat) (resp : CanMsg) : hal_call :=
  mkCall true [TxCplt h; RxCplt h resp].

(** Between two runs of the dispatcher: device [i] is open as [e] on a
    bus of distinct nodes without NULL entries, the receive buffer is
    empty, and the CAN handle of the device points at its own transmit
    and receive messages, as [openEPOS] leaves it. *)
Definition at_rest (i : nat) (e : epos_t) (w : world) : Prop :=
  deref i w = Some e /\ nodes_ok (epos w) /\ all_open (epos w) /\
  pCANMsg w = 0%nat /\ (0 < length (CANMsgBuf w))%nat /\
  hcan w !! dev e = Some (mkHandle i i).

(** ** Frame conditions *)

(** [m] relates the world it starts in to the world it ends in, however
    it ends. *)
Definition stable {A} (R : world -> world -> Prop) (m : M A) : Prop :=
  forall w, R w (final (m w)).

(** The fields of a device that no interrupt handler writes: the handle,
    the node id, the transmit buffer and the last-error field. *)
Definition same_identity (e e' : epos_t) : Prop :=
  dev e' = dev e /\ Node_ID e' = Node_ID e /\
  TxMessage e' = TxMessage e /\ E_error e' = E_error e.

(** What interrupt handlers leave alone: every slot of the device array
    stays NULL or open and an open device keeps its identity; the
    handles, [SDOBusy], the wire, the uninitialised locals, the schedule
    and the clock are as before. *)
Definition quiet (w w' : world) : Prop :=
  Forall2 (option_Forall2 same_identity) (epos w) (epos w') /\
  hcan w' = hcan w /\ SDOBusy w' = SDOBusy w /\
  wire w' = wire w /\ uninit w' = uninit w /\
  sched w' = sched w /\ clock w' = clock w.

(** What the SDO engine leaves alone while it sends and waits: as
    [quiet], apart from the wire, the schedule and the clock. *)
Definition calm (w w' : world) : Prop :=
  Forall2 (option_Forall2 same_identity) (epos w) (epos w') /\
  hcan w' = hcan w /\ SDOBusy w' = SDOBusy w /\ uninit w' = uninit w.

(** Nothing is added to the wire. *)
Definition keeps_wire (w w' : world) : Prop := wire w' = wire w.

Definition outcome_map {A} (f : world -> world) (o : outcome A) : outcome A :=
  match o with
  | Done a w => Done a (f w)
  | Hang w => Hang (f w)
  | Fault w => Fault (f w)
  end.

(** [m] neither reads nor writes [SDOBusy]: started with another value of
    the flag it does the same, and leaves that value. *)
Definition blind {A} (m : M A) : Prop :=
  forall b w, m (set_SDOBusy b w) = outcome_map (set_SDOBusy b) (m w).

(** ** Fuel *)

(** The schedule does not grow. *)
Definition no_longer (w w' : world) : Prop :=
  (length (sched w') <= length (sched w))%nat.

(** A computation that returns has used up a schedule entry. *)
Definition takes_a_call {A} (m : M A) : Prop :=
  forall w a w', m w = Done a w' ->
    (length (sched w') < length (sched w))%nat.

(** A loop body that goes round again has used up a schedule entry. *)
Definition turns_take_a_call {S A} (body : S -> M (S + A)) : Prop :=
  forall s w s' w', body s w = Done (inl s') w' ->
    (length (sched w') < length (sched w))%nat.

(** ** Concrete configurations used in the examples *)

Definition blank : CanMsg := mkCanMsg 0 0 0 0 [0; 0; 0; 0; 0; 0; 0; 0].

(** A device just opened on handle 0, all flags clear. *)
Definition fresh (node : Z) : epos_t :=
  Build_epos_t 0 node blank blank blank false 0 false blank false blank false
    blank false blank false 0 0 0 0 0 0.

(** A world with devices [ds], one CAN handle aimed at device 0, an empty
    receive buffer and schedule [sc]. *)
Definition bench (ds : list (option epos_t)) (sc : list hal_call) : world :=
  Build_world ds [mkHandle 0 0] false false false false (replicate 16 blank)
    0 sc 0 [] [] 0.

(** An 8-byte frame with identifier [id]. *)
Definition frame (id : Z) (bytes : list Z) : CanMsg :=
  mkCanMsg id CAN_ID_STD CAN_RTR_DATA 8 bytes.

(** A channel-3 frame of node [node] carrying position [v] (0..255) in
    bytes 2..5. *)
Definition position_frame (node v : Z) : CanMsg :=
  frame (node + 0x380) [0; 0; v; 0; 0; 0; 0; 0].

(** The reply of node 1 that aborts a transfer on object 0x6081 with code
    0x06090030. *)
Definition abort_reply : CanMsg :=
  frame 0x581 [0x80; 0x81; 0x60; 0x00; 0x30; 0x00; 0x09; 0x06].

(** The reply of node 1 that aborts a read of the status word 0x6041 with
    code 0x06010000, unsupported access to an object. *)
Definition read_abort_reply : CanMsg :=
  frame 0x581 [0x80; 0x41; 0x60; 0x00; 0x00; 0x00; 0x01; 0x06].

(** The reply of node 1 to a read of the status word 0x6041, value
    0x0237: no abort. *)
Definition status_reply : CanMsg :=
  frame 0x581 [0x4B; 0x41; 0x60; 0x00; 0x37; 0x02; 0x00; 0x00].

(** The reply of node 1 to a read of the status word with target reached
    (bit 10) and homing attained (bit 12) set. *)
Definition homed_reply : CanMsg :=
  frame 0x581 [0x4B; 0x41; 0x60; 0x00; 0x37; 0x14; 0x00; 0x00].

(** The schedule of [n] polls of [waitForTarget] on handle [h]: the
    delay passes without an interrupt, then the status read is answered
    promptly with [reply]. *)
Fixpoint polls (h : nat) (n : nat) (reply : CanMsg) : list hal_call :=
  match n with
  | O => []
  | S k => mkCall true [] :: prompt h reply :: polls h k reply
  end.

(** A schedule of [n] SDO exchanges, each answered promptly with
    [reply]. *)
Definition exchanges (n : nat) (reply : CanMsg) : list hal_call :=
  replicate n (prompt 0 reply).


(** * The rest of the interface

    The functions of epos.c around the protocol engine: opening a
    device, the dictionary reads and writes built on [ReadObject] and
    [WriteObject], the velocity and position commands, the monitor loop
    and the PDO commands.  Of their console output [rtt] records what
    [sendCom] and [checkEPOSerror] print. *)

Definition set_dev (v : nat) (e : epos_t) : epos_t :=
  Build_epos_t v (Node_ID e) (TxMessage e) (RxMessage e) (SDOMsg e) (ErrFlag e)
    (Dev_Err e) (SDORcvFlag e) (PDO1Msg e) (PDO1RcvFlag e) (PDO2Msg e)
    (PDO2RcvFlag e) (PDO3Msg e) (PDO3RcvFlag e) (PDO4Msg e) (PDO4RcvFlag e)
    (CurProfile e) (TxPosition e) (RxPosition e) (TxVelocity e) (RxVelocity e)
    (E_error e).
Definition set_Node_ID (v : Z) (e : epos_t) : epos_t :=
  Build_epos_t (dev e) v (TxMessage e) (RxMessage e) (SDOMsg e) (ErrFlag e)
    (Dev_Err e) (SDORcvFlag e) (PDO1Msg e) (PDO1RcvFlag e) (PDO2Msg e)
    (PDO2RcvFlag e) (PDO3Msg e) (PDO3RcvFlag e) (PDO4Msg e) (PDO4RcvFlag e)
    (CurProfile e) (TxPosition e) (RxPosition e) (TxVelocity e) (RxVelocity e)
    (E_error e).
Definition set_CurProfile (v : Z) (e : epos_t) : epos_t :=
  Build_epos_t (dev e) (Node_ID e) (TxMessage e) (RxMessage e) (SDOMsg e)
    (ErrFlag e) (Dev_Err e) (SDORcvFlag e) (PDO1Msg e) (PDO1RcvFlag e)
    (PDO2Msg e) (PDO2RcvFlag e) (PDO3Msg e) (PDO3RcvFlag e) (PDO4Msg e)
    (PDO4RcvFlag e) v (TxPosition e) (RxPosition e) (TxVelocity e)
    (RxVelocity e) (E_error e).
Definition set_TxPosition (v : Z) (e : epos_t) : epos_t :=
  Build_epos_t (dev e) (Node_ID e) (TxMessage e) (RxMessage e) (SDOMsg e)
    (ErrFlag e) (Dev_Err e) (SDORcvFlag e) (PDO1Msg e) (PDO1RcvFlag e)
    (PDO2Msg e) (PDO2RcvFlag e) (PDO3Msg e) (PDO3RcvFlag e) (PDO4Msg e)
    (PDO4RcvFlag e) (CurProfile e) v (RxPosition e) (TxVelocity e)
    (RxVelocity e) (E_error e).
Definition set_TxVelocity (v : Z) (e : epos_t) : epos_t :=
  Build_epos_t (dev e) (Node_ID e) (TxMessage e) (RxMessage e) (SDOMsg e)
    (ErrFlag e) (Dev_Err e) (SDORcvFlag e) (PDO1Msg e) (PDO1RcvFlag e)
    (PDO2Msg e) (PDO2RcvFlag e) (PDO3Msg e) (PDO3RcvFlag e) (PDO4Msg e)
    (PDO4RcvFlag e) (CurProfile e) (TxPosition e) (RxPosition e) v
    (RxVelocity e) (E_error e).

Definition set_hcan (v : list CAN_HandleTypeDef) (w : world) : world :=
  Build_world (epos w) v (SDOBusy w) (CAN_RxReady w) (CAN_TxReady w) (isPDO w)
    (CANMsgBuf w) (pCANMsg w) (sched w) (clock w) (wire w) (rtt w) (uninit w).
Definition set_isPDO (v : bool) (w : world) : world :=
  Build_world (epos w) (hcan w) (SDOBusy w) (CAN_RxReady w) (CAN_TxReady w) v
    (CANMsgBuf w) (pCANMsg w) (sched w) (clock w) (wire w) (rtt w) (uninit w).

(** ** Opening a device *)

(** What [openEPOS] writes into the block it has been given: the handle,
    the node id and the five receive flags.  Every other field, [ErrFlag]
    and [E_error] among them, keeps what the allocator left there. *)
Definition openEPOS_init (h : nat) (ID : Z) (raw : epos_t) : epos_t :=
  set_SDORcvFlag false
    (set_PDO4RcvFlag false
       (set_PDO3RcvFlag false
          (set_PDO2RcvFlag false
             (set_PDO1RcvFlag false
                (set_Node_ID (u8 ID) (set_dev h raw)))))).

(** [openEPOS(dev, ID)].  The allocator belongs to the environment: [p]
    is what [malloc] returns, [None] for NULL and [Some i] for the block
    that the caller keeps in slot [i] of the device array, and [raw] is
    the content of the block when it is handed out.  Both message
    pointers of the handle are aimed at the new device.  The status of
    [HAL_CAN_Receive_IT] is not looked at. *)
Definition openEPOS (h : nat) (ID : Z) (p : option nat) (raw : epos_t)
  : M (option nat) := fun w =>
  match p with
  | None => Done None w
  | Some i =>
      match hcan w !! h with
      | None => Fault w
      | Some _ =>
          if decide (i < length (epos w))%nat then
            Done (Some i)
              (set_hcan (<[h := mkHandle i i]> (hcan w))
                 (set_epos (<[i := Some (openEPOS_init h ID raw)]> (epos w))
                    w))
          else Fault w
      end
  end.

(** ** Dictionary reads *)

(** [read_DevErr], [readDInputPolarity], [readControlword],
    [readDemandPosition], [readPositionWindow], [readDemandVelocity] and
    [readTargetPosition] have one body, that of [readStatusword]: NULL
    check, [checkEPOS], [ReadObject] into the uninitialised local
    [answer], [checkEPOSerror] with its result dropped, and the store of
    the converted answer through the out-pointer.  They differ in the
    object address and in the conversion [conv].  [out] is the content
    behind the out-pointer at the call. *)
Definition dictionary_read (i : nat) (Index SubIndex : Z) (conv : Z -> Z)
    (out : Z) : M (Z * Z) := fun w =>
  match deref i w with
  | None => Done (-1, out) w
  | Some _ =>
      (c ← checkEPOS i;
       if negb (c =? 0) then mret (-1, out)
       else
         answer ← get uninit;
         '(n, answer) ← ReadObject i Index SubIndex answer;
         if n <? 0 then mret (-1, out)
         else
           checkEPOSerror i ;;
           mret (0, conv answer)) w
  end.

(** [*out = answer & 0xFFFF] into a [WORD]. *)
Definition low_word (answer : Z) : Z := u16 (Z.land answer 0xFFFF).

Definition read_DevErr (i : nat) (idx : Z) (err : Z) : M (Z * Z) :=
  dictionary_read i 0x1003 idx low_word err.

Definition readDInputPolarity (i : nat) (w0 : Z) : M (Z * Z) :=
  dictionary_read i 0x2071 0x03 low_word w0.

Definition readControlword (i : nat) (w0 : Z) : M (Z * Z) :=
  dictionary_read i 0x6040 0x00 low_word w0.

Definition readDemandPosition (i : nat) (pos : Z) : M (Z * Z) :=
  dictionary_read i 0x6062 0x00 s32 pos.

Definition readPositionWindow (i : nat) (pos : Z) : M (Z * Z) :=
  dictionary_read i 0x6067 0x00 u32 pos.

Definition readDemandVelocity (i : nat) (val : Z) : M (Z * Z) :=
  dictionary_read i 0x606b 0x00 s32 val.

Definition readTargetPosition (i : nat) (val : Z) : M (Z * Z) :=
  dictionary_read i 0x607a 0x00 s32 val.

(** [readTargetVelocity] has no NULL check of its own: it starts with
    [checkEPOS(epos)], whose test never holds, and leaves the NULL
    device to [ReadObject]. *)
Definition readTargetVelocity (i : nat) (val : Z) : M (Z * Z) :=
  n ← checkEPOS i;
  if n <? 0 then mret (n, val)
  else
    answer ← get uninit;
    '(n, answer) ← ReadObject i 0x60FF 0x00 answer;
    if n <? 0 then mret (-1, val)
    else
      checkEPOSerror i ;;
      mret (0, s32 answer).

(** The result type is [uint16_t]: [return -1] and [return (n)] are
    converted to it. *)
Definition readSWversion (i : nat) : M Z := fun w =>
  match deref i w with
  | None => Done (u16 (-1)) w
  | Some _ =>
      (c ← checkEPOS i;
       if negb (c =? 0) then mret (u16 (-1))
       else
         answer ← get uninit;
         '(n, answer) ← ReadObject i 0x2003 0x01 answer;
         if n <? 0 then mret (u16 (-1))
         else
           checkEPOSerror i ;;
           let n := s32 (Z.land answer 0xFFFF) in
           mret (u16 n)) w
  end.

(** An invalid memory access. *)
Definition fault {A} : M A := fun w => Fault w.

(** [str] is the caller's buffer, "string must be big enough, NO
    CHECKING"; a buffer of fewer than five characters is overrun.  A
    failed [ReadObject] is reported on the console and the function goes
    on with [answer] as it is.  Characters are the byte values, [char]
    being unsigned on the ARM targets. *)
Definition readDeviceName (i : nat) (str : list Z) : M (Z * list Z) := fun w =>
  match deref i w with
  | None => Done (-1, str) w
  | Some _ =>
      (c ← checkEPOS i;
       if negb (c =? 0) then mret (-1, str)
       else
         answer ← get uninit;
         '(_, answer) ← ReadObject i 0x1008 0x00 answer;
         if decide (5 <= length str)%nat then
           mret (0,
                 <[4%nat := 0]>
                   (<[3%nat := u8 (Z.shiftr (Z.land answer 0xFF000000) 24)]>
                      (<[2%nat := u8 (Z.shiftr (Z.land answer 0xFF0000) 16)]>
                         (<[1%nat := u8 (Z.shiftr (Z.land answer 0xFF00) 8)]>
                            (<[0%nat := u8 (Z.land answer 0x00FF)]> str)))))
         else fault) w
  end.

Definition readRS232timeout (i : nat) : M Z := fun w =>
  match deref i w with
  | None => Done (-1) w
  | Some _ =>
      (c ← checkEPOS i;
       if negb (c =? 0) then mret (-1)
       else
         answer ← get uninit;
         '(_, answer) ← ReadObject i 0x2005 0x00 answer;
         mret (s32 (Z.land answer 0xFF))) w
  end.

(** ** Dictionary writes *)

(** [dw[0] = (WORD)(val & 0x0000FFFF); dw[1] = (WORD)(val >> 16);] *)
Definition words_of (val : Z) : Z * Z :=
  (u16 (Z.land val 0x0000FFFF), u16 (Z.shiftr val 16)).

(** [setTargetVelocity], the profile setters, [startVelocityMovement]
    and [haltVelocityMovement] have no NULL check of their own; they
    hand [dw] to [WriteObject] and turn a negative result into -1. *)
Definition dictionary_write (i : nat) (Index SubIndex : Z) (dw : Z * Z) : M Z :=
  n ← WriteObject i Index SubIndex dw;
  if n <? 0 then mret (-1) else mret 0.

Definition setTargetVelocity (i : nat) (vel : Z) : M Z :=
  dictionary_write i 0x60FF 0x00 (words_of vel).

Definition setProfileVelocity (i : nat) (val : Z) : M Z :=
  dictionary_write i 0x6081 0x00 (words_of val).

Definition setProfileAcceleration (i : nat) (val : Z) : M Z :=
  dictionary_write i 0x6083 0x00 (words_of val).

Definition setProfileDeceleration (i : nat) (val : Z) : M Z :=
  dictionary_write i 0x6084 0x00 (words_of val).

Definition setMotionProfileType (i : nat) (val : Z) : M Z :=
  dictionary_write i 0x6086 0x00 (u16 val, 0x0000).

Definition setMaximalProfileVelocity (i : nat) (val : Z) : M Z :=
  dictionary_write i 0x607F 0x00 (words_of val).

Definition setQuickStopDeceleration (i : nat) (val : Z) : M Z :=
  dictionary_write i 0x6085 0x00 (words_of val).

Definition startVelocityMovement (i : nat) : M Z :=
  dictionary_write i 0x6040 0x00 (0x000F, 0x0000).

Definition haltVelocityMovement (i : nat) : M Z :=
  dictionary_write i 0x6040 0x00 (0x010F, 0x0000).

Definition moveWithVelocity (i : nat) (speed : Z) : M Z :=
  n ← setTargetVelocity i speed;
  if negb (n =? 0) then mret n else startVelocityMovement i.

Definition writePositionWindow (i : nat) (val : Z) : M Z := fun w =>
  match deref i w with
  | None => Done (-1) w
  | Some _ =>
      (n ← WriteObject i 0x6067 0x00 (words_of val);
       if n <? 0 then mret (-1)
       else checkEPOSerror i ;; mret 0) w
  end.

(** [setGPIOProfile] keeps an image of the register in
    [static WORD dw[2]], one for all devices.  [dw0] is [dw[0]] at the
    call and the result pairs the return value with [dw[0]] afterwards;
    [set] is [status == SET].  [~purpose << 8] is the complement shifted,
    in two's complement. *)
Definition setGPIOProfile (i : nat) (purpose : Z) (set : bool) (dw0 : Z)
  : M (Z * Z) :=
  let dw0 := if set then u16 (Z.lor dw0 (Z.shiftl purpose 8))
             else u16 (Z.land dw0 (Z.shiftl (Z.lnot purpose) 8)) in
  n ← WriteObject i 0x2078 0x01 (dw0, 0x00);
  if n <? 0 then mret (-1, dw0) else mret (0, dw0).

Definition setHomePolarity (i : nat) (pol : Z) : M Z := fun w =>
  match deref i w with
  | None => Done (-1) w
  | Some _ =>
      if negb (pol =? 0) && negb (pol =? 1) then Done (-1) w
      else
        (c ← checkEPOS i;
         if negb (c =? 0) then mret (-1)
         else
           '(r, mask) ← readDInputPolarity i 0x00;
           if nz r then mret (-2)
           else
             let mask :=
               if pol =? 0 then u16 (Z.land mask (Z.lnot E_BIT02))
               else if pol =? 1 then u16 (Z.lor mask E_BIT02)
               else mask in
             n ← WriteObject i 0x2071 0x03 (mask, 0x0000);
             if n <? 0 then mret (-1) else mret 0) w
  end.

(** ** Movement *)

Definition moveRelative (i : nat) (steps : Z) : M Z := fun w =>
  match deref i w with
  | None => Done (-1) w
  | Some _ =>
      (mode ← readOpMode i;
       failed ← (if negb (mode =? E_PROFPOS)
                 then r ← setOpMode i E_PROFPOS; mret (nz r)
                 else mret false);
       if failed : bool then mret (-1)
       else
         n ← WriteObject i 0x607A 0x00
               (u16 (Z.land steps 0x0000FFFF), u16 (Z.shiftr steps 16));
         if n <? 0 then mret (-1)
         else
           checkEPOSerror i ;;
           n ← WriteObject i 0x6040 0x00 (0x005f, 0x0000);
           if n <? 0 then mret (-1)
           else checkEPOSerror i ;; mret 0) w
  end.

Definition checkTarget (i : nat) : M Z := fun w =>
  match deref i w with
  | None => Done (-1) w
  | Some _ =>
      (status ← get uninit;
       '(_, status) ← readStatusword i status;
       if negb (Z.land status E_BIT10 =? E_BIT10) then mret 0 else mret 1) w
  end.

(** One turn of the [do ... while] of [monitorStatus]; the loop state is
    the local [status], [inr tt] is [break] or a failed loop
    condition. *)
Definition monitorStatus_body (i : nat) (status : Z) : M (Z + unit) :=
  junk ← get uninit;
  '(n, _) ← readTargetPosition i junk;
  if nz n then mret (inr tt)
  else
    '(n, _) ← readActualPosition i junk;
    if nz n then mret (inr tt)
    else
      '(n, _) ← readDemandVelocity i junk;
      if nz n then mret (inr tt)
      else
        '(n, _) ← readActualVelocity i junk;
        if nz n then mret (inr tt)
        else
          '(n, _) ← readActualCurrent i junk;
          if nz n then mret (inr tt)
          else
            '(_, status) ← readStatusword i status;
            if negb (Z.land status E_BIT10 =? E_BIT10)
            then mret (inl status)
            else mret (inr tt).

Definition monitorStatus (i : nat) : M Z := fun w =>
  match deref i w with
  | None => Done (-1) w
  | Some _ =>
      (status ← get uninit;
       loop (monitorStatus_body i) status ;;
       junk ← get uninit;
       readTargetPosition i junk ;;
       readActualPosition i junk ;;
       readDemandVelocity i junk ;;
       readActualVelocity i junk ;;
       readActualCurrent i junk ;;
       mret 0) w
  end.

(** ** PDO commands *)

(** [Data[k] = b0; Data[k+1] = b1; ...] *)
Fixpoint store_bytes (k : nat) (bytes : list Z) (data : list Z) : list Z :=
  match bytes with
  | [] => data
  | b :: bs => store_bytes (S k) bs (<[k := b]> data)
  end.

(** The PDO commands fill in the header of [epos->TxMessage] and the
    first bytes of its [Data] array; the rest of the array keeps what the
    frame before left there. *)
Definition stamp (id dlc : Z) (bytes : list Z) (m : CanMsg) : CanMsg :=
  {| StdId := u32 id;
     IDE := CAN_ID_STD;
     RTR := CAN_RTR_DATA;
     DLC := dlc;
     Data := store_bytes 0 bytes (Data m) |}.

Definition startPDO (i : nat) : M Z := fun w =>
  match deref i w with
  | None => Done (-1) w
  | Some _ =>
      (update i (fun e =>
         set_TxMessage
           (stamp 0x0000 2 [0x01; u8 (Node_ID e)] (TxMessage e)) e) ;;
       n ← sendCom i;
       if n <? 0 then mret (-1)
       else modify (set_isPDO true) ;; mret 1) w
  end.

Definition stopPDO (i : nat) : M Z := fun w =>
  match deref i w with
  | None => Done (-1) w
  | Some _ =>
      (update i (fun e =>
         set_TxMessage
           (stamp 0x0000 2 [0x80; u8 (Node_ID e)] (TxMessage e)) e) ;;
       n ← sendCom i;
       if n <? 0 then mret (-1)
       else modify (set_isPDO false) ;; mret 1) w
  end.

Definition PDOShutDown (i : nat) : M Z := fun w =>
  match deref i w with
  | None => Done (-1) w
  | Some _ =>
      (update i (fun e =>
         set_TxMessage
           (stamp (0x200 + Node_ID e) 2 [0x06; 0x00] (TxMessage e)) e) ;;
       n ← sendCom i;
       if n <? 0 then mret (-1) else mret 1) w
  end.

Definition PDOSwitchOn (i : nat) : M Z := fun w =>
  match deref i w with
  | None => Done (-1) w
  | Some _ =>
      (update i (fun e =>
         set_TxMessage
           (stamp (0x200 + Node_ID e) 2 [0x07; 0x00] (TxMessage e)) e) ;;
       n ← sendCom i;
       if n <? 0 then mret (-1) else mret 1) w
  end.

Definition PDOEnableOp (i : nat) : M Z := fun w =>
  match deref i w with
  | None => Done (-1) w
  | Some _ =>
      (update i (fun e =>
         set_TxMessage
           (stamp (0x200 + Node_ID e) 2 [0x0F; 0x00] (TxMessage e)) e) ;;
       n ← sendCom i;
       if n <? 0 then mret (-1) else mret 1) w
  end.

Definition PDOSwitchProfile (i : nat) (profile : Z) : M Z := fun w =>
  match deref i w with
  | None => Done (-1) w
  | Some _ =>
      (update i (fun e =>
         set_TxMessage
           (stamp (0x300 + Node_ID e) 3 [0x0F; 0x00; u8 profile]
              (TxMessage e)) e) ;;
       n ← sendCom i;
       if n <? 0 then mret (-1)
       else update i (set_CurProfile (u8 profile)) ;; mret 1) w
  end.

(** The six bytes of a set-point frame: [0x0F], [0x00] and the four
    bytes of [v], [(uint8_t)((v >> 8k) & 0xFF)]. *)
Definition setpoint_bytes (v : Z) : list Z :=
  [ 0x0F; 0x00;
    u8 (Z.land v 0xFF);
    u8 (Z.land (Z.shiftr v 8) 0xFF);
    u8 (Z.land (Z.shiftr v 16) 0xFF);
    u8 (Z.land (Z.shiftr v 24) 0xFF) ].

Definition PDOSetVelocity (i : nat) (velocity : Z) : M Z := fun w =>
  match deref i w with
  | None => Done (-1) w
  | Some _ =>
      (update i (fun e =>
         set_TxMessage
           (stamp (0x500 + Node_ID e) 6 (setpoint_bytes velocity)
              (TxMessage e)) e) ;;
       n ← sendCom i;
       if n <? 0 then mret (-1)
       else update i (set_TxVelocity (s32 velocity)) ;; mret 1) w
  end.

Definition PDOSetPosition (i : nat) (position : Z) : M Z := fun w =>
  match deref i w with
  | None => Done (-1) w
  | Some _ =>
      (update i (fun e =>
         set_TxMessage
           (stamp (0x400 + Node_ID e) 6 (setpoint_bytes position)
              (TxMessage e)) e) ;;
       n ← sendCom i;
       if n <? 0 then mret (-1)
       else update i (set_TxPosition (s32 position)) ;; mret 1) w
  end.

(** [position = epos->RxPosition + position_r] in [int32_t]. *)
Definition PDOSetRelativePosition (i : nat) (position_r : Z) : M Z := fun w =>
  match deref i w with
  | None => Done (-1) w
  | Some e =>
      (let position := s32 (RxPosition e + position_r) in
       r ← PDOSetPosition i position;
       if r =? 1 then mret 1 else mret (-1)) w
  end.

(** ** Notions used in the statements *)

(** What one receive interrupt does to the device that owns the handle:
    the peripheral stores the frame in [RxMessage], the dispatcher routes
    it and the decode pass runs. *)
Definition absorb (e : epos_t) (m : CanMsg) : epos_t :=
  processPDOMessage_body (route1 m (set_RxMessage m e)).

(** The 32-bit value in bytes 4..7 of a reply, low byte first, and its
    reading as a two's-complement number. *)
Definition payload32 (m : CanMsg) : Z :=
  byte m 4 + 2 ^ 8 * byte m 5 + 2 ^ 16 * byte m 6 + 2 ^ 24 * byte m 7.

Definition signed32 (v : Z) : Z := if v <? 2 ^ 31 then v else v - 2 ^ 32.

(** The 16-bit value in bytes 4 and 5 of a reply. *)
Definition payload16 (m : CanMsg) : Z := byte m 4 + 2 ^ 8 * byte m 5.

(** The setters of a 32-bit object, each with the index it writes. *)
Definition value_setters : list ((nat -> Z -> M Z) * Z) :=
  [ (setTargetVelocity, 0x60FF);
    (setProfileVelocity, 0x6081);
    (setProfileAcceleration, 0x6083);
    (setProfileDeceleration, 0x6084);
    (setMaximalProfileVelocity, 0x607F);
    (setQuickStopDeceleration, 0x6085);
    (writePositionWindow, 0x6067) ].

(** Between [w] and [w'] one frame has gone on the wire, with identifier
    [id], length code [dlc] and [bytes] at the start of its data. *)
Definition sent (id dlc : Z) (bytes : list Z) (w w' : world) : Prop :=
  exists m,
    wire w' = wire w ++ [m] /\ StdId m = id /\ DLC m = dlc /\
    take (length bytes) (Data m) = bytes.

(** [moveAbsolute] and [moveRelative] are one body with two control
    words, 0x3f and 0x005f. *)
Definition move (cw : Z) (i : nat) (steps : Z) : M Z := fun w =>
  match deref i w with
  | None => Done (-1) w
  | Some _ =>
      (mode ← readOpMode i;
       failed ← (if negb (mode =? E_PROFPOS)
                 then r ← setOpMode i E_PROFPOS; mret (nz r)
                 else mret false);
       if failed : bool then mret (-1)
       else
         n ← WriteObject i 0x607A 0x00
               (u16 (Z.land steps 0x0000FFFF), u16 (Z.shiftr steps 16));
         if n <? 0 then mret (-1)
         else
           checkEPOSerror i ;;
           n ← WriteObject i 0x6040 0x00 (cw, 0x0000);
           if n <? 0 then mret (-1)
           else checkEPOSerror i ;; mret 0) w
  end.

(** Bit [k] of the output-configuration image after [setGPIOProfile]
    on image [dw0]: setting ors the purpose into the high byte; clearing
    keeps the high-byte bits outside the purpose and no bit of the low
    byte. *)
Definition gpio_bit (dw0 purpose : Z) (set : bool) (k : Z) : bool :=
  if set then Z.testbit dw0 k || (8 <=? k) && Z.testbit purpose (k - 8)
  else (8 <=? k) && Z.testbit dw0 k && negb (Z.testbit purpose (k - 8)).

(** ** Notions used for the dispatcher and the control word *)

(** No channel-3 or channel-4 frame is waiting to be decoded: the state
    of the PDO flags whenever the dispatcher is not running, since
    [openEPOS] clears them and the decode pass clears them again before
    [processCANMsg] returns. *)
Definition settled (ds : list (option epos_t)) : Prop :=
  forall j e, ds !! j = Some (Some e) ->
    PDO3RcvFlag e = false /\ PDO4RcvFlag e = false.

(** The channels whose flag the decode pass of [processPDOMessage]
    consumes. *)
Definition decoded (c : channel) : bool :=
  match c with PDO3 | PDO4 => true | _ => false end.

(** The state in which the receive callback calls the dispatcher:
    devices [ds], frame [m] in slot 0 of the buffer and the buffer index
    at 1. *)
Definition just_received (ds : list (option epos_t)) (m : CanMsg) : world :=
  set_pCANMsg 1 (set_CANMsgBuf (<[O := m]> (replicate 16 blank)) (bench ds [])).




(** * Properties *)

(** ** Fixed-width arithmetic *)

Lemma le32_at_value (m : CanMsg) (k : nat) :
  0 <= byte m k < 256 -> 0 <= byte m (k + 1) < 256 ->
  0 <= byte m (k + 2) < 256 -> 0 <= byte m (k + 3) < 256 ->
  u32 (le32_at m k)
  = byte m k + 2 ^ 8 * byte m (k + 1) + 2 ^ 16 * byte m (k + 2)
    + 2 ^ 24 * byte m (k + 3).
Proof.
  intros H0 H1 H2 H3. unfold u32, le32_at, s32.
  rewrite !Z.shiftl_mul_pow2 by lia.
  set (v := byte m (k + 3) * 2 ^ 24 + byte m (k + 2) * 2 ^ 16
            + byte m (k + 1) * 2 ^ 8 + byte m k).
  assert (Hv : 0 <= v < 2 ^ 32) by (subst v; lia).
  rewrite Zminus_mod_idemp_l.
  replace (v + 2 ^ 31 - 2 ^ 31) with v by lia.
  rewrite Z.mod_small by lia. subst v. lia.
Qed.

Lemma byte_range (m : CanMsg) (k : nat) :
  frame_ok m -> 0 <= byte m k < 256.
Proof.
  intros [Hlen Hall]. unfold byte.
  destruct (nth_in_or_default k (Data m) 0) as [Hin | ->]; [| lia].
  rewrite List.Forall_forall in Hall. apply Hall, Hin.
Qed.

(** ** The dispatcher *)

Lemma deliver_slot (c : channel) (m : CanMsg) (e : epos_t) :
  slot c (deliver c m e) = received c m /\
  available c (deliver c m e) = true /\
  Node_ID (deliver c m e) = Node_ID e /\
  forall c', c' <> c ->
    slot c' (deliver c m e) = slot c' e /\
    available c' (deliver c m e) = available c' e.
Proof.
  repeat split; try (destruct c; reflexivity);
    destruct c, c'; try reflexivity; congruence.
Qed.

Lemma claim_deliver (c : channel) (m : CanMsg) (e : epos_t) :
  StdId m = Node_ID e + cob_offset c ->
  processCANMsg_claim m e = Some (deliver c m e).
Proof.
  intros H. unfold processCANMsg_claim.
  destruct c; cbn [cob_offset] in H; rewrite H;
    repeat match goal with
      | |- context [?a =? ?b] =>
          first [ replace (a =? b) with true by (symmetry; apply Z.eqb_eq; lia)
                | replace (a =? b) with false by (symmetry; apply Z.eqb_neq; lia) ]
      end; reflexivity.
Qed.

Lemma claim_inv (m : CanMsg) (e e' : epos_t) :
  processCANMsg_claim m e = Some e' ->
  exists c, StdId m = Node_ID e + cob_offset c /\ e' = deliver c m e.
Proof.
  unfold processCANMsg_claim. intros H.
  destruct (StdId m =? Node_ID e + 0x180) eqn:E1;
    [apply Z.eqb_eq in E1; exists PDO1; split; [exact E1 | injection H as <-; reflexivity] |].
  destruct (StdId m =? Node_ID e + 0x280) eqn:E2;
    [apply Z.eqb_eq in E2; exists PDO2; split; [exact E2 | injection H as <-; reflexivity] |].
  destruct (StdId m =? Node_ID e + 0x380) eqn:E3;
    [apply Z.eqb_eq in E3; exists PDO3; split; [exact E3 | injection H as <-; reflexivity] |].
  destruct (StdId m =? Node_ID e + 0x480) eqn:E4;
    [apply Z.eqb_eq in E4; exists PDO4; split; [exact E4 | injection H as <-; reflexivity] |].
  destruct (StdId m =? Node_ID e + 0x580) eqn:E5;
    [apply Z.eqb_eq in E5; exists SDO; split; [exact E5 | injection H as <-; reflexivity] |].
  destruct (StdId m =? Node_ID e + 0x80) eqn:E6;
    [apply Z.eqb_eq in E6; exists Emergency; split; [exact E6 | injection H as <-; reflexivity] |].
  discriminate H.
Qed.

Lemma claim_None (m : CanMsg) (e : epos_t) :
  (forall c, StdId m <> Node_ID e + cob_offset c) ->
  processCANMsg_claim m e = None.
Proof.
  intros H. destruct (processCANMsg_claim m e) as [e' |] eqn:E; [| reflexivity].
  apply claim_inv in E as (c & Hc & _). destruct (H c Hc).
Qed.

(** On a bus with distinct node ids a frame matches one device and one
    channel at most. *)
Lemma match_unique (ds : list (option epos_t)) (m : CanMsg)
    (i j : nat) (e e' : epos_t) (c c' : channel) :
  nodes_ok ds ->
  ds !! i = Some (Some e) -> ds !! j = Some (Some e') ->
  StdId m = Node_ID e + cob_offset c ->
  StdId m = Node_ID e' + cob_offset c' ->
  i = j /\ c = c'.
Proof.
  intros [Hr Hd] Hi Hj Hc Hc'.
  pose proof (Hr _ _ Hi). pose proof (Hr _ _ Hj).
  assert (c = c') as <- by (destruct c, c'; cbn in *; first [reflexivity | lia]).
  split; [| reflexivity]. eapply Hd; eauto. lia.
Qed.

(** The [for] loop stops at the first device that claims the frame. *)
Lemma for_first_match (m : CanMsg) (ds : list (option epos_t)) :
  forall (k i : nat) (e e' : epos_t),
    ds !! i = Some (Some e) ->
    processCANMsg_claim m e = Some e' ->
    (forall j e0, (j < i)%nat -> ds !! j = Some (Some e0) ->
       processCANMsg_claim m e0 = None) ->
    snd (processCANMsg_for m k ds) = Some (<[i := Some e']> ds).
Proof.
  induction ds as [| d ds IH]; intros k i e e' Hi Hc Hbefore; [done |].
  destruct i as [| i]; cbn in Hi.
  - injection Hi as ->. cbn. rewrite Hc. reflexivity.
  - assert (Htail : snd (processCANMsg_for m (S k) ds)
                    = Some (<[i := Some e']> ds)).
    { eapply IH; eauto. intros j e0 Hj Hl.
      apply (Hbefore (S j) e0); [lia | exact Hl]. }
    cbn. destruct d as [e0 |].
    + rewrite (Hbefore O e0) by (reflexivity || lia).
      destruct (processCANMsg_for m (S k) ds) as [out r]; cbn in *.
      rewrite Htail. reflexivity.
    + destruct (processCANMsg_for m (S k) ds) as [out r]; cbn in *.
      rewrite Htail. reflexivity.
Qed.

Lemma for_no_match (m : CanMsg) (ds : list (option epos_t)) :
  forall k : nat,
    (forall j e0, ds !! j = Some (Some e0) ->
       processCANMsg_claim m e0 = None) ->
    snd (processCANMsg_for m k ds) = None.
Proof.
  induction ds as [| d ds IH]; intros k Hnone; [done |].
  assert (Htail : snd (processCANMsg_for m (S k) ds) = None).
  { apply IH. intros j e0 Hl. apply (Hnone (S j) e0 Hl). }
  cbn. destruct d as [e0 |].
  - rewrite (Hnone O e0) by reflexivity.
    destruct (processCANMsg_for m (S k) ds) as [out r]; cbn in *.
    rewrite Htail. reflexivity.
  - destruct (processCANMsg_for m (S k) ds) as [out r]; cbn in *.
    rewrite Htail. reflexivity.
Qed.

(** The only console output of the loop is the note on NULL entries. *)
Lemma for_output (m : CanMsg) (ds : list (option epos_t)) :
  forall k : nat,
    Forall (fun d => exists j, d = EposNotInitialized j)
           (fst (processCANMsg_for m k ds)).
Proof.
  induction ds as [| d ds IH]; intros k; cbn; [constructor |].
  specialize (IH (S k)). destruct d as [e0 |].
  - destruct (processCANMsg_claim m e0); [constructor |].
    destruct (processCANMsg_for m (S k) ds); exact IH.
  - destruct (processCANMsg_for m (S k) ds); cbn in *.
    constructor; [eauto | exact IH].
Qed.

Lemma route1_Node_ID (m : CanMsg) (e : epos_t) :
  Node_ID (route1 m e) = Node_ID e.
Proof.
  unfold route1. destruct (processCANMsg_claim m e) as [e' |] eqn:E; [| done].
  apply claim_inv in E as (c & _ & ->). apply deliver_slot.
Qed.

(** When at most one device matches, the loop acts on every device on its
    own. *)
Lemma for_pointwise (m : CanMsg) (ds : list (option epos_t)) :
  forall k : nat,
    (forall i j e0 e1, ds !! i = Some (Some e0) -> ds !! j = Some (Some e1) ->
       is_Some (processCANMsg_claim m e0) ->
       is_Some (processCANMsg_claim m e1) -> i = j) ->
    default ds (snd (processCANMsg_for m k ds)) = option_map (route1 m) <$> ds.
Proof.
  induction ds as [| d ds IH]; intros k Huniq; [done |].
  assert (Htail : default ds (snd (processCANMsg_for m (S k) ds))
                  = option_map (route1 m) <$> ds).
  { apply IH. intros i j e0 e1 Hi Hj H0 H1.
    assert (S i = S j) by (eapply Huniq; eauto). lia. }
  cbn [processCANMsg_for fmap list_fmap]. destruct d as [e0 |].
  - cbn [option_map]. unfold route1 at 1.
    destruct (processCANMsg_claim m e0) as [e' |] eqn:E; cbn.
    + f_equal. apply list_eq. intros j.
      rewrite list_lookup_fmap.
      destruct (ds !! j) as [[e1 |] |] eqn:Ej; cbn; try reflexivity.
      unfold route1.
      destruct (processCANMsg_claim m e1) eqn:E1; [| reflexivity].
      assert (O = S j); [| discriminate].
      apply (Huniq O (S j) e0 e1); cbn; eauto.
    + destruct (processCANMsg_for m (S k) ds) as [out [r |]]; cbn in *;
        congruence.
  - destruct (processCANMsg_for m (S k) ds) as [out [r |]]; cbn in *;
      congruence.
Qed.

Lemma nodes_ok_unique_claim (m : CanMsg) (ds : list (option epos_t)) :
  nodes_ok ds ->
  forall i j e0 e1, ds !! i = Some (Some e0) -> ds !! j = Some (Some e1) ->
    is_Some (processCANMsg_claim m e0) ->
    is_Some (processCANMsg_claim m e1) -> i = j.
Proof.
  intros Hok i j e0 e1 Hi Hj [x Hx] [y Hy].
  apply claim_inv in Hx as (c & Hc & _). apply claim_inv in Hy as (c' & Hc' & _).
  eapply match_unique; eauto.
Qed.

Lemma route_pointwise (m : CanMsg) (w : world) :
  nodes_ok (epos w) ->
  epos (processCANMsg_route m w) = option_map (route1 m) <$> epos w.
Proof.
  intros Hok. unfold processCANMsg_route.
  pose proof (for_pointwise m (epos w) 0 (nodes_ok_unique_claim m _ Hok)) as H.
  destruct (processCANMsg_for m 0 (epos w)) as [out [ds |]]; cbn in *; exact H.
Qed.

Lemma nodes_ok_fmap (f : epos_t -> epos_t) (ds : list (option epos_t)) :
  (forall e, Node_ID (f e) = Node_ID e) ->
  nodes_ok ds -> nodes_ok (option_map f <$> ds).
Proof.
  intros Hf [Hr Hd]. split.
  - intros i e. rewrite list_lookup_fmap.
    destruct (ds !! i) as [[e0 |] |] eqn:E; cbn; intros [= <-].
    rewrite Hf. eauto.
  - intros i j e e'. rewrite !list_lookup_fmap.
    destruct (ds !! i) as [[e0 |] |] eqn:Ei; cbn; intros [= <-].
    destruct (ds !! j) as [[e1 |] |] eqn:Ej; cbn; intros [= <-].
    rewrite !Hf. eauto.
Qed.

Lemma route_rtt (m : CanMsg) (w : world) :
  rtt (processCANMsg_route m w)
  = rtt w ++ fst (processCANMsg_for m 0 (epos w))
      ++ match snd (processCANMsg_for m 0 (epos w)) with
         | Some _ => []
         | None => [MessageCannotBeProcessed (StdId m)]
         end.
Proof.
  unfold processCANMsg_route.
  destruct (processCANMsg_for m 0 (epos w)) as [out [ds |]]; cbn.
  - rewrite app_nil_r. reflexivity.
  - rewrite <- app_assoc. reflexivity.
Qed.

Lemma route_first_match (m : CanMsg) (w : world)
    (i : nat) (e : epos_t) (c : channel) :
  epos w !! i = Some (Some e) ->
  StdId m = Node_ID e + cob_offset c ->
  (forall j e0 c0, (j < i)%nat -> epos w !! j = Some (Some e0) ->
     StdId m <> Node_ID e0 + cob_offset c0) ->
  epos (processCANMsg_route m w) = <[i := Some (deliver c m e)]> (epos w) /\
  exists out, rtt (processCANMsg_route m w) = rtt w ++ out /\
              Forall (fun d => exists j, d = EposNotInitialized j) out.
Proof.
  intros Hi Hc Hbefore.
  assert (H : snd (processCANMsg_for m 0 (epos w))
              = Some (<[i := Some (deliver c m e)]> (epos w))).
  { eapply for_first_match; eauto using claim_deliver.
    intros j e0 Hj Hl. apply claim_None. intros c0. eauto. }
  split.
  - unfold processCANMsg_route.
    destruct (processCANMsg_for m 0 (epos w)) as [out r]; cbn in *.
    rewrite H. reflexivity.
  - exists (fst (processCANMsg_for m 0 (epos w))). rewrite route_rtt, H.
    rewrite app_nil_r. split; [reflexivity | apply for_output].
Qed.

Lemma route_unclaimed (m : CanMsg) (w : world) :
  (forall i e c, epos w !! i = Some (Some e) ->
     StdId m <> Node_ID e + cob_offset c) ->
  epos (processCANMsg_route m w) = epos w /\
  exists out,
    rtt (processCANMsg_route m w)
    = rtt w ++ out ++ [MessageCannotBeProcessed (StdId m)] /\
    Forall (fun d => exists j, d = EposNotInitialized j) out.
Proof.
  intros Hnone.
  assert (H : snd (processCANMsg_for m 0 (epos w)) = None).
  { apply for_no_match. intros j e0 Hl. apply claim_None. eauto. }
  split.
  - unfold processCANMsg_route.
    destruct (processCANMsg_for m 0 (epos w)) as [out r]; cbn in *.
    rewrite H. reflexivity.
  - exists (fst (processCANMsg_for m 0 (epos w))). rewrite route_rtt, H.
    split; [reflexivity | apply for_output].
Qed.

(** ** Emptying the receive buffer *)

Ltac run :=
  unfold mbind, M_bind, mret, M_ret, modify, get, print; cbn beta iota.

Lemma route1_cases (m : CanMsg) (e : epos_t) :
  (exists c, StdId m = Node_ID e + cob_offset c /\ route1 m e = deliver c m e)
  \/ ((forall c, StdId m <> Node_ID e + cob_offset c) /\ route1 m e = e).
Proof.
  unfold route1. destruct (processCANMsg_claim m e) as [e' |] eqn:E.
  - left. apply claim_inv in E as (c & Hc & ->). eauto.
  - right. split; [| reflexivity]. intros c Hc.
    rewrite (claim_deliver c m e Hc) in E. discriminate.
Qed.

Lemma settle_cons (m : CanMsg) (b : list CanMsg) (e : epos_t) :
  settle (m :: b) e = route1 m (settle b e).
Proof. reflexivity. Qed.

Lemma settle_Node_ID (batch : list CanMsg) (e : epos_t) :
  Node_ID (settle batch e) = Node_ID e.
Proof.
  induction batch as [| m b IH]; [reflexivity |].
  rewrite settle_cons, route1_Node_ID. exact IH.
Qed.

Lemma route_outside (m : CanMsg) (w : world) :
  outside_dispatch (processCANMsg_route m w) = outside_dispatch w /\
  pCANMsg (processCANMsg_route m w) = pCANMsg w.
Proof.
  unfold processCANMsg_route.
  destruct (processCANMsg_for m 0 (epos w)) as [out [ds |]]; split;
    reflexivity.
Qed.

Lemma all_open_fmap (f : epos_t -> epos_t) (ds : list (option epos_t)) :
  all_open ds -> all_open (option_map f <$> ds).
Proof.
  intros H j. rewrite list_lookup_fmap.
  specialize (H j). destruct (ds !! j) as [[e |] |]; cbn; congruence.
Qed.

Lemma while_spec (p : nat) :
  forall w : world,
    nodes_ok (epos w) -> (p <= length (CANMsgBuf w))%nat ->
    exists w',
      processCANMsg_while p w = Done tt w' /\
      epos w' = option_map (settle (take p (CANMsgBuf w))) <$> epos w /\
      outside_dispatch w' = outside_dispatch w /\
      pCANMsg w' = match p with O => pCANMsg w | S _ => O end.
Proof.
  induction p as [| p IH]; intros w Hok Hlen.
  - exists w. repeat split; try reflexivity.
    cbn. symmetry. etransitivity; [| apply list_fmap_id].
    apply list_fmap_ext. intros _ [e |] _; reflexivity.
  - cbn [processCANMsg_while].
    destruct (CANMsgBuf w !! p) as [m |] eqn:Em;
      [| apply lookup_ge_None in Em; lia].
    run.
    set (w1 := set_pCANMsg p (processCANMsg_route m w)).
    destruct (route_outside m w) as [Hout _].
    assert (Hbuf : CANMsgBuf w1 = CANMsgBuf w).
    { unfold outside_dispatch in Hout. cbn. congruence. }
    assert (He1 : epos w1 = option_map (route1 m) <$> epos w)
      by (cbn; apply route_pointwise, Hok).
    destruct (IH w1) as (w' & Hrun & He & Ho & Hp).
    { rewrite He1. apply nodes_ok_fmap; [apply route1_Node_ID | exact Hok]. }
    { rewrite Hbuf. lia. }
    exists w'. split; [exact Hrun |]. split; [| split].
    + rewrite He, He1, Hbuf, <- list_fmap_compose.
      rewrite (take_S_r _ _ _ Em).
      apply list_fmap_ext. intros _ [e |] _; cbn; [| reflexivity].
      unfold settle. rewrite foldr_app. reflexivity.
    + rewrite Ho. unfold w1, outside_dispatch in *. cbn. exact Hout.
    + destruct p; [| exact Hp].
      rewrite Hp. reflexivity.
Qed.

Lemma processPDOMessage_for_open (ds : list (option epos_t)) :
  all_open ds ->
  processPDOMessage_for ds
  = (option_map processPDOMessage_body <$> ds, true).
Proof.
  induction ds as [| d ds IH]; intros Hopen; [reflexivity |].
  destruct d as [e |]; [| destruct (Hopen O); reflexivity].
  cbn. rewrite IH; [reflexivity |]. intros j. apply (Hopen (S j)).
Qed.

(** The dispatcher as a whole: on an array without NULL entries it
    returns 1; each device has been given the batch and then the PDO
    decode pass. *)
Lemma processCANMsg_spec (w : world) :
  nodes_ok (epos w) -> all_open (epos w) ->
  (pCANMsg w <= length (CANMsgBuf w))%nat ->
  exists w',
    processCANMsg w = Done 1 w' /\
    epos w'
    = option_map (fun e => processPDOMessage_body
                       (settle (take (pCANMsg w) (CANMsgBuf w)) e))
        <$> epos w /\
    outside_dispatch w' = outside_dispatch w /\
    pCANMsg w' = O.
Proof.
  intros Hok Hopen Hlen.
  destruct (while_spec (pCANMsg w) w Hok Hlen) as (w1 & Hrun & He & Ho & Hp).
  unfold processCANMsg. run. rewrite Hrun.
  unfold processPDOMessage.
  rewrite processPDOMessage_for_open
    by (rewrite He; apply all_open_fmap, Hopen).
  eexists. split; [reflexivity |]. cbn. split; [| split].
  - rewrite He, <- list_fmap_compose.
    apply list_fmap_ext. intros _ [e |] _; reflexivity.
  - exact Ho.
  - rewrite Hp. destruct (pCANMsg w); reflexivity.
Qed.

(** Node ids and open slots of a concrete device array. *)
Ltac concrete_bus :=
  match goal with
  | |- nodes_ok _ =>
      split;
      [ intros [| [| [| ?]]] ?; cbn; intros [= <-]; cbn; lia
      | intros [| [| [| ?]]] [| [| [| ?]]] ? ?; cbn; intros [= <-] [= <-]; cbn;
        intros; first [reflexivity | lia] ]
  | |- all_open _ => intros [| [| [| ?]]]; cbn; discriminate
  end.

(** ** The status-word decoder *)

Lemma all_from_spec (f : Z -> bool) (n : nat) :
  forall start : Z,
    all_from f n start = true ->
    forall w, start <= w < start + Z.of_nat n -> f w = true.
Proof.
  induction n as [| n IH]; cbn [all_from]; intros start H w Hw; [lia |].
  apply andb_prop in H as [Hn Hrest].
  destruct (decide (w = start)) as [-> | Hne]; [exact Hn |].
  apply (IH (start + 1)); [exact Hrest | lia].
Qed.

Lemma decode_agrees_all (w : Z) :
  0 <= w < 2 ^ 16 -> decode_agrees w = true.
Proof.
  intros Hw. apply (all_from_spec decode_agrees (Z.to_nat (2 ^ 16)) 0).
  - vm_compute. reflexivity.
  - rewrite Z2Nat.id by lia. lia.
Qed.

Lemma index_from_shows (x : Z) (l : list Z) :
  forall (k : Z) (j : nat),
    List.NoDup l -> l !! j = Some x ->
    index_from k x l = Some (k + Z.of_nat j).
Proof.
  induction l as [| y l IH]; intros k j Hnd Hj; [done |].
  inversion Hnd as [| y' l' Hy Hnd']; subst. cbn.
  destruct j as [| j]; cbn in Hj.
  - injection Hj as ->. rewrite Z.eqb_refl. f_equal. lia.
  - destruct (x =? y) eqn:E.
    + apply Z.eqb_eq in E as ->. destruct Hy.
      apply list_elem_of_In. eapply list_elem_of_lookup_2, Hj.
    + rewrite (IH (k + 1) j Hnd' Hj). f_equal. lia.
Qed.

Lemma index_from_None (x : Z) (l : list Z) :
  forall k : Z, (forall j, l !! j <> Some x) -> index_from k x l = None.
Proof.
  induction l as [| y l IH]; intros k Hno; [done |]. cbn.
  destruct (x =? y) eqn:E.
  - apply Z.eqb_eq in E as ->. destruct (Hno O). reflexivity.
  - apply IH. intros j. apply (Hno (S j)).
Qed.

Lemma state_patterns_NoDup : List.NoDup state_patterns.
Proof.
  unfold state_patterns.
  repeat (constructor; [cbn; lia |]). constructor.
Qed.

(** C2, with the number of patterns the decoder has.  There are twelve
    defined bit patterns, one for each of the states 0 (start) to 11
    (fault).  For every 16-bit status word [w]: if [w] shows the pattern
    of state [k], the decoder returns [k]; a word shows one pattern at
    most; and the decoder returns the "unknown" value -2 exactly when
    [w] shows none of the twelve. *)
Theorem decoder_twelve_patterns (w : Z) :
  0 <= w < 2 ^ 16 ->
  length state_patterns = 12%nat /\
  (forall k, shows k w -> checkEPOSstate_decode w = Z.of_nat k) /\
  (forall j k, shows j w -> shows k w -> j = k) /\
  (checkEPOSstate_decode w = -2 <-> forall k, ~ shows k w).
Proof.
  intros Hw. pose proof (decode_agrees_all w Hw) as Hagree.
  unfold decode_agrees in Hagree. apply Z.eqb_eq in Hagree.
  assert (Hshow : forall k, shows k w ->
            checkEPOSstate_decode w = Z.of_nat k).
  { intros k Hk. rewrite Hagree.
    rewrite (index_from_shows _ _ 0 k state_patterns_NoDup Hk). cbn. lia. }
  split; [reflexivity |]. split; [exact Hshow |]. split; [| split].
  - intros j k Hj Hk. apply Hshow in Hj, Hk. lia.
  - intros Hu k Hk. apply Hshow in Hk. lia.
  - intros Hno. rewrite Hagree, index_from_None; [reflexivity |].
    intros j Hj. exact (Hno j Hj).
Qed.

(** C2, an instance: 0x0737 shows the pattern of state 7, operation
    enable. *)
Lemma decoder_twelve_patterns_witness :
  0 <= 0x0737 < 2 ^ 16 /\ checkEPOSstate_decode 0x0737 = 7.
Proof.
  assert (H : 0 <= 0x0737 < 2 ^ 16) by lia.
  split; [exact H |].
  apply (proj1 (proj2 (decoder_twelve_patterns 0x0737 H)) 7%nat).
  reflexivity.
Defined.

(** C2 as stated fails on the count: no list of eleven states holds every
    defined (not "unknown") result of the decoder, since the twelve
    patterns decode to the twelve states 0..11. *)
Lemma decoder_eleven_patterns_counterexample :
  ~ exists states : list Z,
      length states = 11%nat /\
      forall w, 0 <= w < 2 ^ 16 -> checkEPOSstate_decode w <> -2 ->
        In (checkEPOSstate_decode w) states.
Proof.
  intros (states & Hlen & Hall).
  assert (Hincl : incl [0; 1; 2; 3; 4; 5; 6; 7; 8; 9; 10; 11] states).
  { intros x Hx.
    assert (Hp : forall p, 0 <= p < 2 ^ 16 ->
              checkEPOSstate_decode p = x -> x <> -2 -> In x states).
    { intros p Hp <- Hne. apply Hall; assumption. }
    cbn in Hx.
    repeat (destruct Hx as [<- | Hx];
            [ first
                [ apply (Hp 0x0000); [lia | reflexivity | lia]
                | apply (Hp 0x0100); [lia | reflexivity | lia]
                | apply (Hp 0x0140); [lia | reflexivity | lia]
                | apply (Hp 0x0121); [lia | reflexivity | lia]
                | apply (Hp 0x0123); [lia | reflexivity | lia]
                | apply (Hp 0x4123); [lia | reflexivity | lia]
                | apply (Hp 0x4133); [lia | reflexivity | lia]
                | apply (Hp 0x0137); [lia | reflexivity | lia]
                | apply (Hp 0x0117); [lia | reflexivity | lia]
                | apply (Hp 0x010F); [lia | reflexivity | lia]
                | apply (Hp 0x011F); [lia | reflexivity | lia]
                | apply (Hp 0x0108); [lia | reflexivity | lia] ]
            | ]).
    destruct Hx. }
  assert (Hnd : List.NoDup [0; 1; 2; 3; 4; 5; 6; 7; 8; 9; 10; 11]).
  { repeat (constructor; [cbn; lia |]). constructor. }
  pose proof (List.NoDup_incl_length Hnd Hincl) as Hle. cbn in Hle. lia.
Qed.

(** ** Frame conditions for monadic code *)

Section Stable.
Context (R : world -> world -> Prop).
Hypothesis R_refl : forall w, R w w.
Hypothesis R_trans : forall w1 w2 w3, R w1 w2 -> R w2 w3 -> R w1 w3.

Lemma stable_ret {A} (a : A) : stable R (mret a).
Proof using R_refl. intros w. apply R_refl. Qed.

Lemma stable_get {A} (f : world -> A) : stable R (get f).
Proof using R_refl. intros w. apply R_refl. Qed.

Lemma stable_bind {A B} (m : M A) (k : A -> M B) :
  stable R m -> (forall a, stable R (k a)) -> stable R (m ≫= k).
Proof using R_trans.
  intros Hm Hk w. specialize (Hm w). unfold mbind, M_bind.
  destruct (m w) as [a w1 | w1 | w1]; cbn in *; [| assumption ..].
  eapply R_trans; [exact Hm | apply Hk].
Qed.

Lemma stable_modify (f : world -> world) :
  (forall w, R w (f w)) -> stable R (modify f).
Proof. intros Hf w. apply Hf. Qed.

Lemma stable_if {A} (b : bool) (m1 m2 : M A) :
  stable R m1 -> stable R m2 -> stable R (if b then m1 else m2).
Proof. destruct b; auto. Qed.

Lemma stable_iter {S A} (body : S -> M (S + A)) :
  (forall s, stable R (body s)) ->
  forall fuel s, stable R (iter fuel body s).
Proof using R_refl R_trans.
  intros Hbody. induction fuel as [| n IH]; intros s.
  - intros w. apply R_refl.
  - cbn [iter]. apply stable_bind; [apply Hbody |].
    intros [s' | a]; [apply IH | apply stable_ret].
Qed.

Lemma stable_loop {S A} (body : S -> M (S + A)) (s : S) :
  (forall s, stable R (body s)) -> stable R (loop body s).
Proof using R_refl R_trans.
  intros Hbody w. unfold loop. apply stable_iter, Hbody.
Qed.
End Stable.

Lemma same_identity_refl (e : epos_t) : same_identity e e.
Proof. repeat split. Qed.

Lemma same_identity_trans (e1 e2 e3 : epos_t) :
  same_identity e1 e2 -> same_identity e2 e3 -> same_identity e1 e3.
Proof.
  intros (Ha & Hb & Hc & Hd) (Ha' & Hb' & Hc' & Hd').
  repeat split; congruence.
Qed.

Lemma devices_refl (ds : list (option epos_t)) :
  Forall2 (option_Forall2 same_identity) ds ds.
Proof.
  apply Forall_Forall2_diag, List.Forall_forall. intros [e |] _; constructor.
  apply same_identity_refl.
Qed.

Lemma devices_trans (ds1 ds2 ds3 : list (option epos_t)) :
  Forall2 (option_Forall2 same_identity) ds1 ds2 ->
  Forall2 (option_Forall2 same_identity) ds2 ds3 ->
  Forall2 (option_Forall2 same_identity) ds1 ds3.
Proof.
  intros H12. revert ds3. induction H12 as [| x y l k Hxy _ IH];
    intros ds3 H23; inversion H23 as [| y' z k' m Hyz Hrest]; subst;
    constructor; [| apply IH, Hrest].
  destruct Hxy as [e1 e2 H |]; inversion Hyz; subst; constructor.
  eapply same_identity_trans; eassumption.
Qed.

Lemma quiet_refl (w : world) : quiet w w.
Proof. split; [apply devices_refl | repeat split]. Qed.

Lemma quiet_trans (w1 w2 w3 : world) :
  quiet w1 w2 -> quiet w2 w3 -> quiet w1 w3.
Proof.
  intros (Hd & Ha & Hb & Hc & He & Hs & Hk)
         (Hd' & Ha' & Hb' & Hc' & He' & Hs' & Hk').
  split; [eapply devices_trans; eassumption | repeat split; congruence].
Qed.

(** A quiet step keeps an open device open, with its identity. *)
Lemma quiet_deref (w w' : world) (i : nat) (e : epos_t) :
  quiet w w' -> deref i w = Some e ->
  exists e', deref i w' = Some e' /\ same_identity e e'.
Proof.
  intros [Hd _] Hi. unfold deref in *.
  destruct (epos w !! i) as [[e0 |] |] eqn:E; cbn in Hi; try discriminate.
  injection Hi as ->.
  destruct (Forall2_lookup_l _ _ _ _ _ Hd E) as (y & Hy & Hrel).
  inversion Hrel as [e1 e2 Hid |]; subst.
  exists e2. rewrite Hy. split; [reflexivity | exact Hid].
Qed.

(** Writing to an open device through its pointer, identity kept. *)
Lemma quiet_assign (w : world) (i : nat) (e e' : epos_t) :
  deref i w = Some e -> same_identity e e' ->
  quiet w (set_epos (<[i := Some e']> (epos w)) w).
Proof.
  intros Hi Hid. split; [| repeat split]. cbn.
  unfold deref in Hi.
  destruct (epos w !! i) as [[e0 |] |] eqn:E; cbn in Hi; try discriminate.
  injection Hi as ->.
  apply Forall2_same_length_lookup. split; [rewrite length_insert; reflexivity |].
  intros j x y Hx Hy. destruct (decide (i = j)) as [<- | Hne].
  - rewrite list_lookup_insert_eq in Hy by (eapply lookup_lt_Some, E).
    assert (x = Some e) as -> by congruence. injection Hy as <-.
    constructor. exact Hid.
  - rewrite list_lookup_insert_ne in Hy by exact Hne.
    assert (x = y) as -> by congruence.
    destruct y; constructor. apply same_identity_refl.
Qed.

Lemma deref_assign (w : world) (i : nat) (e e' : epos_t) :
  deref i w = Some e ->
  deref i (set_epos (<[i := Some e']> (epos w)) w) = Some e'.
Proof.
  intros Hi. unfold deref in *. cbn.
  destruct (epos w !! i) as [[e0 |] |] eqn:E; cbn in Hi; try discriminate.
  rewrite list_lookup_insert_eq by (eapply lookup_lt_Some, E). reflexivity.
Qed.

(** ** Interrupts are quiet *)

Lemma claim_identity (m : CanMsg) (e e' : epos_t) :
  processCANMsg_claim m e = Some e' -> same_identity e e'.
Proof.
  intros H. apply claim_inv in H as (c & _ & ->).
  destruct c; repeat split.
Qed.

Lemma for_identity (m : CanMsg) (ds : list (option epos_t)) :
  forall k,
    Forall2 (option_Forall2 same_identity) ds
      (default ds (snd (processCANMsg_for m k ds))).
Proof.
  induction ds as [| d ds IH]; intros k; [constructor |].
  cbn [processCANMsg_for]. specialize (IH (S k)). destruct d as [e |].
  - destruct (processCANMsg_claim m e) as [e' |] eqn:E; cbn.
    + constructor; [| apply devices_refl].
      constructor. eapply claim_identity, E.
    + destruct (processCANMsg_for m (S k) ds) as [out [r |]]; cbn in *.
      * constructor; [constructor; apply same_identity_refl | exact IH].
      * apply devices_refl.
  - destruct (processCANMsg_for m (S k) ds) as [out [r |]]; cbn in *.
    + constructor; [constructor | exact IH].
    + apply devices_refl.
Qed.

Lemma route_quiet (m : CanMsg) (w : world) :
  quiet w (processCANMsg_route m w).
Proof.
  pose proof (for_identity m (epos w) 0) as H.
  unfold processCANMsg_route.
  destruct (processCANMsg_for m 0 (epos w)) as [out [ds |]]; cbn in *;
    (split; [exact H || apply devices_refl | repeat split]).
Qed.

Lemma body_identity (e : epos_t) :
  same_identity e (processPDOMessage_body e).
Proof.
  unfold processPDOMessage_body.
  destruct (PDO3RcvFlag e); cbn; destruct (PDO4RcvFlag e); repeat split.
Qed.

Lemma pdo_for_identity (ds : list (option epos_t)) :
  Forall2 (option_Forall2 same_identity) ds (fst (processPDOMessage_for ds)).
Proof.
  induction ds as [| d ds IH]; [constructor |].
  cbn [processPDOMessage_for]. destruct d as [e |].
  - destruct (processPDOMessage_for ds) as [r ok]; cbn in *.
    constructor; [constructor; apply body_identity | exact IH].
  - apply devices_refl.
Qed.

Lemma processPDOMessage_quiet : stable quiet processPDOMessage.
Proof.
  intros w. unfold processPDOMessage.
  pose proof (pdo_for_identity (epos w)) as H.
  destruct (processPDOMessage_for (epos w)) as [ds [|]]; cbn in *;
    (split; [exact H | repeat split]).
Qed.

Ltac quiet_step :=
  first
    [ apply (stable_bind quiet quiet_trans)
    | apply (stable_ret quiet quiet_refl)
    | apply (stable_get quiet quiet_refl)
    | apply (stable_modify quiet); intros ?; split;
      [apply devices_refl | repeat split]
    | apply (stable_if quiet) ].

Lemma while_quiet (p : nat) : stable quiet (processCANMsg_while p).
Proof.
  induction p as [| p IH]; [apply (stable_ret quiet quiet_refl) |].
  intros w. cbn [processCANMsg_while].
  destruct (CANMsgBuf w !! p) as [m |]; [| apply quiet_refl].
  revert w. apply (stable_bind quiet quiet_trans).
  - apply (stable_modify quiet), route_quiet.
  - intros _. quiet_step; [quiet_step | intros _; exact IH].
Qed.

Lemma processCANMsg_quiet : stable quiet processCANMsg.
Proof.
  unfold processCANMsg. quiet_step; [quiet_step |]. intros p.
  quiet_step; [apply while_quiet |]. intros _.
  quiet_step; [apply processPDOMessage_quiet |]. intros _. quiet_step.
Qed.

Lemma RxCpltCallback_quiet (h : nat) : stable quiet (HAL_CAN_RxCpltCallback h).
Proof.
  intros w. unfold HAL_CAN_RxCpltCallback.
  destruct (hcan w !! h) as [hc |]; [| apply quiet_refl].
  destruct (deref (pRxMsg hc) w) as [e |]; [| apply quiet_refl].
  destruct (decide _) as [_ | _]; [| apply quiet_refl].
  revert w.
  quiet_step; [quiet_step |]. intros _.
  quiet_step; [quiet_step |]. intros _.
  quiet_step; [quiet_step |]. intros _.
  quiet_step; [apply processCANMsg_quiet |]. intros _. quiet_step.
Qed.

Lemma serve_irq_quiet (q : irq) : stable quiet (serve_irq q).
Proof.
  destruct q as [h | h m]; cbn [serve_irq].
  - unfold HAL_CAN_TxCpltCallback. quiet_step.
  - intros w. destruct (hcan w !! h) as [hc |]; [| apply quiet_refl].
    destruct (deref (pRxMsg hc) w) as [e |] eqn:E; [| apply quiet_refl].
    unfold mbind, M_bind, assign, modify.
    eapply quiet_trans; [| apply RxCpltCallback_quiet].
    eapply quiet_assign; [exact E | repeat split].
Qed.

Lemma serve_quiet (qs : list irq) : stable quiet (serve qs).
Proof.
  induction qs as [| q qs IH]; cbn [serve]; [quiet_step |].
  quiet_step; [apply serve_irq_quiet | intros _; exact IH].
Qed.


(** ** The SDO engine on an arbitrary schedule *)

Lemma calm_refl (w : world) : calm w w.
Proof. split; [apply devices_refl | repeat split]. Qed.

Lemma calm_trans (w1 w2 w3 : world) : calm w1 w2 -> calm w2 w3 -> calm w1 w3.
Proof.
  intros (Hd & Ha & Hb & He) (Hd' & Ha' & Hb' & He').
  split; [eapply devices_trans; eassumption | repeat split; congruence].
Qed.

Lemma quiet_calm (w w' : world) : quiet w w' -> calm w w'.
Proof. intros (Hd & Ha & Hb & _ & He & _). repeat split; assumption. Qed.

Lemma stable_quiet_calm {A} (m : M A) : stable quiet m -> stable calm m.
Proof. intros H w. apply quiet_calm, H. Qed.

Lemma HAL_Delay_calm (ms : Z) : stable calm (HAL_Delay ms).
Proof.
  intros w. unfold HAL_Delay. destruct (sched w) as [| c rest];
    [apply calm_refl |].
  exact (quiet_calm _ _
           (serve_quiet (served c)
              (set_clock (clock w + ms) (set_sched rest w)))).
Qed.

Lemma calm_deref (w w' : world) (i : nat) (e : epos_t) :
  calm w w' -> deref i w = Some e ->
  exists e', deref i w' = Some e' /\ same_identity e e'.
Proof.
  intros [Hd _] Hi. unfold deref in *.
  destruct (epos w !! i) as [[e0 |] |] eqn:E; cbn in Hi; try discriminate.
  injection Hi as ->.
  destruct (Forall2_lookup_l _ _ _ _ _ Hd E) as (y & Hy & Hrel).
  inversion Hrel as [e1 e2 Hid |]; subst.
  exists e2. rewrite Hy. split; [reflexivity | exact Hid].
Qed.

Lemma bind_Done {A B} (m : M A) (k : A -> M B) (w w' : world) (b : B) :
  (m ≫= k) w = Done b w' ->
  exists a w1, m w = Done a w1 /\ k a w1 = Done b w'.
Proof.
  unfold mbind, M_bind. destruct (m w) as [a w1 | w1 | w1]; try discriminate.
  eauto.
Qed.

Lemma Transmit_calm (h : nat) : stable calm (HAL_CAN_Transmit_IT h).
Proof.
  intros w. unfold HAL_CAN_Transmit_IT.
  destruct (hcan w !! h) as [hc |]; [| apply calm_refl].
  destruct (deref (pTxMsg hc) w) as [e |]; [| apply calm_refl].
  destruct (sched w) as [| c rest]; [apply calm_refl |].
  destruct (status_ok c).
  - eapply calm_trans;
      [| apply (stable_bind calm calm_trans);
         [apply stable_quiet_calm, serve_quiet
         | intros _; apply (stable_ret calm calm_refl)]].
    split; [apply devices_refl | repeat split].
  - eapply calm_trans;
      [| apply (stable_bind calm calm_trans);
         [apply stable_quiet_calm, serve_quiet
         | intros _; apply (stable_ret calm calm_refl)]].
    split; [apply devices_refl | repeat split].
Qed.

(** The status that the transmit call returns is the one the schedule
    holds for it. *)
Lemma Transmit_status (h : nat) (w w' : world) (ok : bool)
    (c : hal_call) (rest : list hal_call) :
  sched w = c :: rest ->
  HAL_CAN_Transmit_IT h w = Done ok w' -> ok = status_ok c.
Proof.
  intros Hs. unfold HAL_CAN_Transmit_IT.
  destruct (hcan w !! h) as [hc |]; [| discriminate].
  destruct (deref (pTxMsg hc) w) as [e |]; [| discriminate].
  rewrite Hs. destruct (status_ok c); intros H;
    apply bind_Done in H as (a & w1 & _ & H); injection H as <- _;
    reflexivity.
Qed.

Ltac calm_step :=
  first
    [ apply (stable_bind calm calm_trans)
    | apply (stable_ret calm calm_refl)
    | apply (stable_get calm calm_refl)
    | apply (stable_modify calm); intros ?; split;
      [apply devices_refl | repeat split]
    | apply (stable_if calm) ].

Lemma tx_wait_calm :
  stable calm
    (loop (fun _ : unit =>
             ready ← get CAN_TxReady;
             if ready : bool then mret (inr tt)
             else HAL_Delay 5 ;; mret (inl tt)) tt).
Proof.
  apply (stable_loop calm calm_refl calm_trans). intros _.
  calm_step; [calm_step |]. intros [|]; [calm_step |].
  calm_step; [apply HAL_Delay_calm |].
  intros _. calm_step.
Qed.

Lemma sendCom_calm (i : nat) : stable calm (sendCom i).
Proof.
  intros w. unfold sendCom. destruct (deref i w) as [e |]; [| apply calm_refl].
  revert w. calm_step; [apply Transmit_calm |]. intros [|].
  - calm_step; [apply tx_wait_calm |]. intros _.
    calm_step; [calm_step |]. intros _. calm_step.
  - unfold print. calm_step; [calm_step |]. intros _. calm_step.
Qed.

(** [sendCom] returns 1 when the transport accepts the frame and -1 when
    it refuses it. *)
Lemma sendCom_result (i : nat) (w w' : world) (e : epos_t) (r : Z)
    (c : hal_call) (rest : list hal_call) :
  deref i w = Some e -> sched w = c :: rest ->
  sendCom i w = Done r w' ->
  r = (if status_ok c then 1 else -1).
Proof.
  intros Hi Hs. unfold sendCom. rewrite Hi. intros H.
  apply bind_Done in H as (ok & w1 & Htx & H).
  rewrite (Transmit_status _ _ _ _ _ _ Hs Htx) in H.
  destruct (status_ok c).
  - apply bind_Done in H as (? & w2 & _ & H).
    apply bind_Done in H as (? & w3 & _ & H). injection H as <- _. reflexivity.
  - apply bind_Done in H as (? & w2 & _ & H). injection H as <- _. reflexivity.
Qed.

Lemma update_Done (i : nat) (f : epos_t -> epos_t) (w : world) (e : epos_t) :
  deref i w = Some e ->
  update i f w = Done tt (set_epos (<[i := Some (f e)]> (epos w)) w).
Proof. intros Hi. unfold update. rewrite Hi. reflexivity. Qed.

Lemma load_Done {A} (i : nat) (f : epos_t -> A) (w : world) (e : epos_t) :
  deref i w = Some e -> load i f w = Done (f e) w.
Proof. intros Hi. unfold load. rewrite Hi. reflexivity. Qed.

Lemma calm_update (i : nat) (f : epos_t -> epos_t) :
  (forall e, same_identity e (f e)) -> stable calm (update i f).
Proof.
  intros Hf w. unfold update. destruct (deref i w) as [e |] eqn:E;
    [| apply calm_refl].
  apply quiet_calm. eapply quiet_assign; [exact E | apply Hf].
Qed.

Lemma calm_load {A} (i : nat) (f : epos_t -> A) : stable calm (load i f).
Proof.
  intros w. unfold load. destruct (deref i w); apply calm_refl.
Qed.

Lemma rx_wait_calm (i : nat) :
  stable calm
    (loop (fun _ : unit =>
             flag ← load i SDORcvFlag;
             if flag : bool then mret (inr tt)
             else HAL_Delay 1 ;; mret (inl tt)) tt).
Proof.
  apply (stable_loop calm calm_refl calm_trans). intros _.
  calm_step; [apply calm_load |]. intros [|]; [calm_step |].
  calm_step; [apply HAL_Delay_calm |].
  intros _. calm_step.
Qed.

(** When [readAnswer] returns, it returns 1; the last-error field holds
    the abort code of the response it looked at, or 0 if that was no
    abort; the response is still in [SDOMsg]. *)
Lemma readAnswer_spec (i : nat) (w w' : world) (e : epos_t) (r : Z) :
  deref i w = Some e ->
  readAnswer i w = Done r w' ->
  r = 1 /\
  exists e',
    deref i w' = Some e' /\
    E_error e' = error_of_response (SDOMsg e') /\
    SDORcvFlag e' = false /\
    dev e' = dev e /\ Node_ID e' = Node_ID e /\ TxMessage e' = TxMessage e /\
    hcan w' = hcan w /\ SDOBusy w' = SDOBusy w /\ uninit w' = uninit w.
Proof.
  intros Hi. unfold readAnswer. rewrite Hi. intros H.
  apply bind_Done in H as ([] & w1 & H1 & H).
  rewrite (update_Done _ _ _ _ Hi) in H1. injection H1 as <-.
  set (w1 := set_epos _ w) in H.
  assert (Hi1 : deref i w1 = Some (set_E_error 0 e))
    by (apply deref_assign with (e := e), Hi).
  apply bind_Done in H as ([] & w2 & Hwait & H).
  pose proof (rx_wait_calm i w1) as Hcalm. rewrite Hwait in Hcalm.
  cbn [final] in Hcalm.
  destruct (calm_deref _ _ _ _ Hcalm Hi1) as (e2 & Hi2 & Hd2 & Hn2 & Ht2 & He2).
  destruct Hcalm as (_ & Hh & Hb & Hu).
  cbn in Hd2, Hn2, Ht2, He2, Hh, Hb, Hu.
  apply bind_Done in H as ([] & w3 & H3 & H).
  rewrite (update_Done _ _ _ _ Hi2) in H3. injection H3 as <-.
  set (w3 := set_epos _ w2) in H.
  assert (Hi3 : deref i w3 = Some (set_SDORcvFlag false e2))
    by (apply deref_assign with (e := e2), Hi2).
  apply bind_Done in H as (m & w4 & H4 & H).
  rewrite (load_Done _ _ _ _ Hi3) in H4. injection H4 as <- <-.
  apply bind_Done in H as ([] & w5 & H5 & H). injection H as <- <-.
  split; [reflexivity |].
  cbn [SDOMsg set_SDORcvFlag] in H5.
  unfold error_of_response.
  destruct (byte (SDOMsg e2) 0 =? 0x80) eqn:Eab.
  - rewrite (update_Done _ _ _ _ Hi3) in H5. injection H5 as <-.
    eexists. split; [exact (deref_assign w3 i _ _ Hi3) |].
    cbn. rewrite Eab. repeat split; assumption.
  - injection H5 as <-. exists (set_SDORcvFlag false e2).
    split; [exact Hi3 |]. cbn. rewrite Eab. repeat split; assumption.
Qed.

Lemma checkEPOSerror_spec (i : nat) (w w' : world) (e : epos_t) (r : Z) :
  deref i w = Some e ->
  checkEPOSerror i w = Done r w' ->
  r = (if E_error e =? 0 then 0 else -1) /\
  epos w' = epos w /\ hcan w' = hcan w /\ SDOBusy w' = SDOBusy w /\
  sched w' = sched w /\ wire w' = wire w /\ clock w' = clock w /\
  uninit w' = uninit w /\
  (E_error e <> 0 ->
   rtt w'
   = rtt w ++ [match checkEPOSerror_text (E_error e) with
               | Some s => EposRespondsWithError s
               | None => UnknownEposErrorCode (E_error e)
               end]).
Proof.
  intros Hi. unfold checkEPOSerror, E_NOERR. rewrite Hi.
  destruct (E_error e =? 0) eqn:E.
  - intros [= <- <-]. apply Z.eqb_eq in E. repeat split; congruence.
  - intros H. apply bind_Done in H as ([] & w1 & H1 & H).
    injection H as <- <-. injection H1 as <-.
    repeat split.
Qed.

(** [ReadObject] on any schedule, when it returns.  If the transport
    refuses the request the result is -1, [*param] and the last-error
    field are untouched and [SDOBusy] stays set.  Otherwise the result
    is 1, whatever the response: the last-error field is 0 or the abort
    code of the response, [*param] is the 32-bit value of bytes 4..7 of
    the response, and [SDOBusy] is clear. *)
Lemma ReadObject_spec (i : nat) (Index SubIndex param : Z) (w w' : world)
    (e : epos_t) (r v : Z) (c : hal_call) (rest : list hal_call) :
  deref i w = Some e -> sched w = c :: rest ->
  ReadObject i Index SubIndex param w = Done (r, v) w' ->
  exists e',
    deref i w' = Some e' /\ Node_ID e' = Node_ID e /\ dev e' = dev e /\
    hcan w' = hcan w /\ uninit w' = uninit w /\
    if status_ok c
    then r = 1 /\ E_error e' = error_of_response (SDOMsg e') /\
         v = u32 (le32_at (SDOMsg e') 4) /\ SDOBusy w' = false
    else r = -1 /\ v = param /\ E_error e' = E_error e /\ SDOBusy w' = true.
Proof.
  intros Hi Hs. unfold ReadObject. rewrite Hi. intros H.
  apply bind_Done in H as ([] & w1 & H1 & H). injection H1 as <-.
  apply bind_Done in H as ([] & w2 & H2 & H).
  rewrite (update_Done _ _ _ e) in H2 by exact Hi. injection H2 as <-.
  set (w2 := set_epos _ _) in H.
  assert (Hi2 : deref i w2 = Some (set_TxMessage
            (sdo_request (Node_ID e) 0x40 Index SubIndex 0 0 0 0) e))
    by (apply (deref_assign (set_SDOBusy true w) i e), Hi).
  apply bind_Done in H as (n & w3 & Hsend & H).
  assert (Hs2 : sched w2 = c :: rest) by exact Hs.
  pose proof (sendCom_result _ _ _ _ _ _ _ Hi2 Hs2 Hsend) as Hn.
  pose proof (sendCom_calm i w2) as Hcalm. rewrite Hsend in Hcalm.
  cbn [final] in Hcalm.
  destruct (calm_deref _ _ _ _ Hcalm Hi2) as (e3 & Hi3 & Hd3 & Hn3 & Ht3 & He3).
  destruct Hcalm as (_ & Hh & Hb & Hu).
  cbn in Hd3, Hn3, He3, Hh, Hb, Hu.
  destruct (status_ok c); subst n; cbn in H.
  - apply bind_Done in H as (ret & w4 & Hans & H).
    destruct (readAnswer_spec _ _ _ _ _ Hi3 Hans)
      as (-> & e4 & Hi4 & He4 & _ & Hd4 & Hn4 & _ & Hh4 & _ & Hu4).
    apply bind_Done in H as (m & w5 & H5 & H).
    rewrite (load_Done _ _ _ _ Hi4) in H5. injection H5 as <- <-.
    apply bind_Done in H as ([] & w6 & H6 & H). injection H6 as <-.
    injection H as <- <- <-.
    exists e4. repeat split; cbn; try assumption; try congruence.
  - injection H as <- <- <-.
    exists e3. repeat split; cbn; try assumption; try congruence.
Qed.

(** [WriteObject] on any schedule, when it returns.  If the transport
    refuses the request the result is -1 and the last-error field is
    untouched.  Otherwise the last-error field is 0 or the abort code of
    the response, and the result is 0 in the first case and -1 in the
    second. *)
Lemma WriteObject_spec (i : nat) (Index SubIndex : Z) (param : Z * Z)
    (w w' : world) (e : epos_t) (r : Z) (c : hal_call)
    (rest : list hal_call) :
  deref i w = Some e -> sched w = c :: rest ->
  WriteObject i Index SubIndex param w = Done r w' ->
  exists e',
    deref i w' = Some e' /\ Node_ID e' = Node_ID e /\ dev e' = dev e /\
    hcan w' = hcan w /\ uninit w' = uninit w /\ SDOBusy w' = SDOBusy w /\
    if status_ok c
    then E_error e' = error_of_response (SDOMsg e') /\
         r = (if E_error e' =? 0 then 0 else -1) /\
         (E_error e' <> 0 ->
          exists l,
            rtt w'
            = l ++ [match checkEPOSerror_text (E_error e') with
                    | Some s => EposRespondsWithError s
                    | None => UnknownEposErrorCode (E_error e')
                    end])
    else r = -1 /\ E_error e' = E_error e.
Proof.
  intros Hi Hs. unfold WriteObject. rewrite Hi. intros H.
  apply bind_Done in H as ([] & w2 & H2 & H).
  rewrite (update_Done _ _ _ e) in H2 by exact Hi. injection H2 as <-.
  set (w2 := set_epos _ _) in H.
  set (req := sdo_request _ _ _ _ _ _ _ _) in *.
  assert (Hi2 : deref i w2 = Some (set_TxMessage req e))
    by (apply (deref_assign w i e), Hi).
  apply bind_Done in H as (n & w3 & Hsend & H).
  assert (Hs2 : sched w2 = c :: rest) by exact Hs.
  pose proof (sendCom_result _ _ _ _ _ _ _ Hi2 Hs2 Hsend) as Hn.
  pose proof (sendCom_calm i w2) as Hcalm. rewrite Hsend in Hcalm.
  cbn [final] in Hcalm.
  destruct (calm_deref _ _ _ _ Hcalm Hi2) as (e3 & Hi3 & Hd3 & Hn3 & Ht3 & He3).
  destruct Hcalm as (_ & Hh & Hb & Hu).
  cbn in Hd3, Hn3, He3, Hh, Hb, Hu.
  destruct (status_ok c); subst n; cbn in H.
  - apply bind_Done in H as (ret & w4 & Hans & H).
    destruct (readAnswer_spec _ _ _ _ _ Hi3 Hans)
      as (-> & e4 & Hi4 & He4 & _ & Hd4 & Hn4 & _ & Hh4 & Hb4 & Hu4).
    cbn in H.
    destruct (checkEPOSerror_spec _ _ _ _ _ Hi4 H)
      as (-> & Hep & Hh5 & Hb5 & _ & _ & _ & Hu5 & Hrtt).
    exists e4. unfold deref. rewrite Hep. fold (deref i w4).
    repeat split; cbn; try assumption; try congruence.
    intros Hne. eexists. apply Hrtt, Hne.
  - injection H as <- <-.
    exists e3. repeat split; cbn; try assumption; try congruence.
Qed.

(** ** The SDO engine on a prompt reply *)

Lemma deref_lookup (i : nat) (w : world) (e : epos_t) :
  deref i w = Some e <-> epos w !! i = Some (Some e).
Proof.
  unfold deref. destruct (epos w !! i) as [[e0 |] |]; cbn; split;
    congruence.
Qed.

Lemma nodes_ok_insert (ds : list (option epos_t)) (i : nat) (e e' : epos_t) :
  nodes_ok ds -> ds !! i = Some (Some e) -> Node_ID e' = Node_ID e ->
  nodes_ok (<[i := Some e']> ds).
Proof.
  intros [Hr Hd] Hi Hn.
  assert (Hlen : (i < length ds)%nat) by (eapply lookup_lt_Some, Hi).
  assert (Hlook : forall j x, <[i := Some e']> ds !! j = Some (Some x) ->
            exists y, ds !! j = Some (Some y) /\ Node_ID x = Node_ID y).
  { intros j x. destruct (decide (i = j)) as [<- | Hne].
    - rewrite list_lookup_insert_eq by exact Hlen. intros [= <-]. eauto.
    - rewrite list_lookup_insert_ne by exact Hne. eauto. }
  split.
  - intros j x Hj. destruct (Hlook j x Hj) as (y & Hy & ->). eauto.
  - intros j k x x' Hj Hk Heq.
    destruct (Hlook j x Hj) as (y & Hy & Hxy).
    destruct (Hlook k x' Hk) as (y' & Hy' & Hxy').
    eapply Hd; eauto. congruence.
Qed.

Lemma all_open_insert (ds : list (option epos_t)) (i : nat) (e : epos_t) :
  all_open ds -> all_open (<[i := Some e]> ds).
Proof.
  intros H j. destruct (decide (i = j)) as [<- | Hne].
  - destruct (decide (i < length ds)%nat).
    + rewrite list_lookup_insert_eq by assumption. discriminate.
    + rewrite list_insert_ge by lia. apply H.
  - rewrite list_lookup_insert_ne by exact Hne. apply H.
Qed.

Lemma at_rest_assign (i : nat) (e e' : epos_t) (w : world) :
  at_rest i e w -> dev e' = dev e -> Node_ID e' = Node_ID e ->
  at_rest i e' (set_epos (<[i := Some e']> (epos w)) w).
Proof.
  intros (Hi & Hok & Hopen & Hp & Hlen & Hh) Hd Hn.
  split; [exact (deref_assign w i e e' Hi) |].
  split; [apply (nodes_ok_insert _ i e e' Hok);
          [apply deref_lookup, Hi | exact Hn] |].
  split; [apply all_open_insert, Hopen |].
  cbn. rewrite Hd. auto.
Qed.

Lemma body_sdo (e : epos_t) :
  SDOMsg (processPDOMessage_body e) = SDOMsg e /\
  SDORcvFlag (processPDOMessage_body e) = SDORcvFlag e.
Proof.
  unfold processPDOMessage_body.
  destruct (PDO3RcvFlag e); cbn; destruct (PDO4RcvFlag e); split; reflexivity.
Qed.

(** The reply [resp] to node [Node_ID e] arrives while nothing is
    buffered: it ends in [SDOMsg] with [SDORcvFlag] set. *)
Lemma serve_reply (i : nat) (e : epos_t) (w : world) (resp : CanMsg) :
  at_rest i e w -> StdId resp = Node_ID e + 0x580 ->
  exists w' e',
    serve_irq (RxCplt (dev e) resp) w = Done tt w' /\
    at_rest i e' w' /\ same_identity e e' /\
    SDOMsg e' = resp /\ SDORcvFlag e' = true /\
    SDOBusy w' = SDOBusy w /\ CAN_TxReady w' = CAN_TxReady w /\
    sched w' = sched w /\ clock w' = clock w /\ wire w' = wire w /\
    uninit w' = uninit w.
Proof.
  intros Hrest Hid.
  pose proof Hrest as (Hi & Hok & Hopen & Hp & Hlen & Hh).
  cbn [serve_irq]. rewrite Hh. cbn [pRxMsg]. rewrite Hi.
  unfold mbind at 1, M_bind at 1, assign at 1, modify at 1.
  set (e1 := set_RxMessage resp e).
  set (w1 := set_epos _ w).
  assert (Hrest1 : at_rest i e1 w1)
    by (apply (at_rest_assign i e e1 w Hrest); reflexivity).
  pose proof Hrest1 as (Hi1 & Hok1 & Hopen1 & Hp1 & Hlen1 & Hh1).
  unfold HAL_CAN_RxCpltCallback.
  change (hcan w1) with (hcan w). rewrite Hh. cbn [pRxMsg]. rewrite Hi1.
  destruct (decide _) as [_ | Hno]; [| rewrite Hp1 in Hno; lia].
  run.
  set (w4 := set_CAN_RxReady true _).
  assert (Hbuf4 : CANMsgBuf w4 = <[O := resp]> (CANMsgBuf w)).
  { cbn. rewrite Hp. reflexivity. }
  assert (Hp4 : pCANMsg w4 = 1%nat) by (cbn; rewrite Hp; reflexivity).
  destruct (processCANMsg_spec w4) as (w5 & Hrun & Hep & Hout & Hp5);
    [exact Hok1 | exact Hopen1
    | rewrite Hp4, Hbuf4, length_insert; lia |].
  rewrite Hrun.
  assert (Hbatch : take (pCANMsg w4) (CANMsgBuf w4) = [resp]).
  { rewrite Hp4, Hbuf4. destruct (CANMsgBuf w) as [| b0 bs]; [cbn in Hlen; lia |].
    reflexivity. }
  rewrite Hbatch in Hep.
  set (e5 := processPDOMessage_body (settle [resp] e1)).
  assert (Hi5 : deref i w5 = Some e5).
  { apply deref_lookup. rewrite Hep, list_lookup_fmap.
    apply deref_lookup in Hi1. change (epos w4) with (epos w1).
    rewrite Hi1. reflexivity. }
  assert (Hset : settle [resp] e1 = deliver SDO resp e1).
  { cbn. unfold route1. rewrite (claim_deliver SDO resp e1 Hid). reflexivity. }
  unfold outside_dispatch in Hout.
  injection Hout as Hh5 Ho2 Ho3 Ho4 Ho5 Hb5 Ho7 Ho8 Ho9 Ho10.
  change (hcan w4) with (hcan w) in Hh5.
  exists w5, e5. split; [reflexivity |].
  assert (Hident : same_identity e e5).
  { unfold e5. rewrite Hset.
    eapply same_identity_trans; [| apply body_identity]. repeat split. }
  destruct (body_sdo (settle [resp] e1)) as [Hm Hf]. rewrite Hset in Hm, Hf.
  split.
  { destruct Hident as (Hd & Hn & _ & _).
    split; [exact Hi5 |].
    split; [rewrite Hep;
            apply nodes_ok_fmap;
            [intros x; destruct (body_identity (settle [resp] x)) as (_ & -> & _);
             apply settle_Node_ID | exact Hok1] |].
    split; [rewrite Hep; apply all_open_fmap, Hopen1 |].
    split; [exact Hp5 |].
    split; [rewrite Hb5; cbn; rewrite length_insert; exact Hlen |].
    rewrite Hh5, Hd. exact Hh. }
  split; [exact Hident |].
  split; [unfold e5; rewrite Hset, Hm; reflexivity |].
  split; [unfold e5; rewrite Hset, Hf; reflexivity |].
  repeat split;
    [exact Ho2 | exact Ho4 | exact Ho7 | exact Ho8 | exact Ho9 | exact Ho10].
Qed.

Lemma Transmit_prompt (i : nat) (e : epos_t) (w : world) (resp : CanMsg)
    (rest : list hal_call) :
  at_rest i e w -> sched w = prompt (dev e) resp :: rest ->
  StdId resp = Node_ID e + 0x580 ->
  exists w' e',
    HAL_CAN_Transmit_IT (dev e) w = Done true w' /\
    at_rest i e' w' /\ same_identity e e' /\
    SDOMsg e' = resp /\ SDORcvFlag e' = true /\
    CAN_TxReady w' = true /\ SDOBusy w' = SDOBusy w /\
    sched w' = rest /\ clock w' = clock w /\
    wire w' = wire w ++ [TxMessage e] /\ uninit w' = uninit w.
Proof.
  intros Hrest Hs Hid.
  pose proof Hrest as (Hi & _ & _ & _ & _ & Hh).
  unfold HAL_CAN_Transmit_IT. rewrite Hh. cbn [pTxMsg]. rewrite Hi, Hs.
  cbn [prompt status_ok served serve]. run.
  change (serve_irq (TxCplt (dev e)))
    with (HAL_CAN_TxCpltCallback (dev e)).
  unfold HAL_CAN_TxCpltCallback, modify.
  set (w1 := set_CAN_TxReady true
               (set_wire (wire w ++ [TxMessage e]) (set_sched rest w))).
  destruct (serve_reply i e w1 resp Hrest Hid)
    as (w2 & e2 & Hrun & Hrest2 & Hident & Hm & Hf & Hb & Ht & Hsc & Hc & Hw
        & Hu).
  rewrite Hrun. exists w2, e2.
  split; [reflexivity |]. split; [exact Hrest2 |]. split; [exact Hident |].
  split; [exact Hm |]. split; [exact Hf |].
  repeat split;
    [exact Ht | exact Hb | exact Hsc | exact Hc | exact Hw | exact Hu].
Qed.

Lemma sendCom_prompt (i : nat) (e : epos_t) (w : world) (resp : CanMsg)
    (rest : list hal_call) :
  at_rest i e w -> sched w = prompt (dev e) resp :: rest ->
  StdId resp = Node_ID e + 0x580 ->
  exists w' e',
    sendCom i w = Done 1 w' /\
    at_rest i e' w' /\ same_identity e e' /\
    SDOMsg e' = resp /\ SDORcvFlag e' = true /\
    SDOBusy w' = SDOBusy w /\
    sched w' = rest /\ clock w' = clock w /\
    wire w' = wire w ++ [TxMessage e] /\ uninit w' = uninit w.
Proof.
  intros Hrest Hs Hid.
  destruct (Transmit_prompt i e w resp rest Hrest Hs Hid)
    as (w1 & e1 & Hrun & Hrest1 & Hident & Hm & Hf & Ht & Hb & Hsc & Hc & Hw
        & Hu).
  unfold sendCom. rewrite (proj1 Hrest). run. rewrite Hrun.
  unfold loop. cbn [iter]. run. rewrite Ht.
  exists (set_CAN_TxReady false w1), e1.
  split; [reflexivity |]. split; [exact Hrest1 |]. split; [exact Hident |].
  split; [exact Hm |]. split; [exact Hf |].
  repeat split; [exact Hb | exact Hsc | exact Hc | exact Hw | exact Hu].
Qed.

(** [readAnswer] when the reply is already in the SDO slot. *)
Lemma readAnswer_prompt (i : nat) (e : epos_t) (w : world) :
  at_rest i e w -> SDORcvFlag e = true ->
  exists w' e',
    readAnswer i w = Done 1 w' /\
    at_rest i e' w' /\
    E_error e' = error_of_response (SDOMsg e) /\
    SDOMsg e' = SDOMsg e /\ SDORcvFlag e' = false /\
    TxMessage e' = TxMessage e /\ Node_ID e' = Node_ID e /\
    dev e' = dev e /\
    SDOBusy w' = SDOBusy w /\ sched w' = sched w /\ clock w' = clock w /\
    wire w' = wire w /\ uninit w' = uninit w /\ rtt w' = rtt w.
Proof.
  intros Hrest Hf.
  pose proof Hrest as (Hi & _).
  unfold readAnswer. rewrite Hi. run.
  rewrite (update_Done _ _ _ _ Hi).
  set (e1 := set_E_error 0 e). set (w1 := set_epos _ w).
  assert (Hrest1 : at_rest i e1 w1)
    by (apply (at_rest_assign i e e1 w Hrest); reflexivity).
  unfold loop. cbn [iter]. run.
  rewrite (load_Done _ _ _ _ (proj1 Hrest1)). cbn [SDORcvFlag e1 set_E_error].
  rewrite Hf.
  rewrite (update_Done _ _ _ _ (proj1 Hrest1)).
  set (e2 := set_SDORcvFlag false e1). set (w2 := set_epos _ w1).
  assert (Hrest2 : at_rest i e2 w2)
    by (apply (at_rest_assign i e1 e2 w1 Hrest1); reflexivity).
  rewrite (load_Done _ _ _ _ (proj1 Hrest2)).
  change (SDOMsg e2) with (SDOMsg e). unfold error_of_response.
  destruct (byte (SDOMsg e) 0 =? 0x80) eqn:Eab.
  - rewrite (update_Done _ _ _ _ (proj1 Hrest2)).
    eexists _, _. split; [reflexivity |].
    split; [apply (at_rest_assign i e2 _ w2 Hrest2); reflexivity |].
    repeat split.
  - exists w2, e2. split; [reflexivity |]. split; [exact Hrest2 |].
    repeat split.
Qed.

(** [ReadObject] on a prompt reply: it returns 1, whatever the reply. *)
Lemma ReadObject_prompt (i : nat) (Index SubIndex param : Z) (e : epos_t)
    (w : world) (resp : CanMsg) (rest : list hal_call) :
  at_rest i e w -> sched w = prompt (dev e) resp :: rest ->
  StdId resp = Node_ID e + 0x580 ->
  exists w' e',
    ReadObject i Index SubIndex param w
    = Done (1, u32 (le32_at resp 4)) w' /\
    at_rest i e' w' /\
    E_error e' = error_of_response resp /\
    SDOMsg e' = resp /\ SDORcvFlag e' = false /\
    TxMessage e' = read_request (Node_ID e) Index SubIndex /\
    Node_ID e' = Node_ID e /\ dev e' = dev e /\
    SDOBusy w' = false /\ sched w' = rest /\ clock w' = clock w /\
    wire w' = wire w ++ [read_request (Node_ID e) Index SubIndex] /\
    uninit w' = uninit w.
Proof.
  intros Hrest Hs Hid.
  unfold ReadObject. rewrite (proj1 Hrest). run.
  set (w0 := set_SDOBusy true w).
  assert (Hrest0 : at_rest i e w0) by exact Hrest.
  rewrite (update_Done _ _ _ _ (proj1 Hrest0)).
  fold (read_request (Node_ID e) Index SubIndex).
  set (req := read_request (Node_ID e) Index SubIndex).
  set (e1 := set_TxMessage req e). set (w1 := set_epos _ w0).
  assert (Hrest1 : at_rest i e1 w1)
    by (apply (at_rest_assign i e e1 w0 Hrest0); reflexivity).
  destruct (sendCom_prompt i e1 w1 resp rest Hrest1 Hs Hid)
    as (w2 & e2 & Hsend & Hrest2 & (Hd2 & Hn2 & Ht2 & _) & Hm2 & Hf2 & Hb2
        & Hsc2 & Hc2 & Hw2 & Hu2).
  rewrite Hsend. cbn [Z.ltb Z.compare].
  destruct (readAnswer_prompt i e2 w2 Hrest2 Hf2)
    as (w3 & e3 & Hans & Hrest3 & He3 & Hm3 & Hf3 & Ht3 & Hn3 & Hd3 & Hb3
        & Hsc3 & Hc3 & Hw3 & Hu3 & _).
  rewrite Hans. rewrite (load_Done _ _ _ _ (proj1 Hrest3)).
  rewrite Hm3, Hm2.
  exists (set_SDOBusy false w3), e3.
  split; [reflexivity |]. split; [exact Hrest3 |].
  rewrite Hm2 in He3.
  repeat split; try reflexivity; subst e1 w1 w0; cbn in *; congruence.
Qed.

(** [WriteObject] on a prompt reply: it returns 0, or -1 if the reply is
    an abort with a code other than 0. *)
Lemma WriteObject_prompt (i : nat) (Index SubIndex : Z) (param : Z * Z)
    (e : epos_t) (w : world) (resp : CanMsg) (rest : list hal_call) :
  at_rest i e w -> sched w = prompt (dev e) resp :: rest ->
  StdId resp = Node_ID e + 0x580 ->
  exists w' e',
    WriteObject i Index SubIndex param w
    = Done (if error_of_response resp =? 0 then 0 else -1) w' /\
    at_rest i e' w' /\
    E_error e' = error_of_response resp /\
    SDOMsg e' = resp /\ SDORcvFlag e' = false /\
    TxMessage e' = write_request (Node_ID e) Index SubIndex param /\
    Node_ID e' = Node_ID e /\ dev e' = dev e /\
    SDOBusy w' = SDOBusy w /\ sched w' = rest /\ clock w' = clock w /\
    wire w' = wire w ++ [write_request (Node_ID e) Index SubIndex param] /\
    uninit w' = uninit w.
Proof.
  intros Hrest Hs Hid.
  unfold WriteObject. rewrite (proj1 Hrest). run.
  rewrite (update_Done _ _ _ _ (proj1 Hrest)).
  fold (write_request (Node_ID e) Index SubIndex param).
  set (req := write_request (Node_ID e) Index SubIndex param).
  set (e1 := set_TxMessage req e). set (w1 := set_epos _ w).
  assert (Hrest1 : at_rest i e1 w1)
    by (apply (at_rest_assign i e e1 w Hrest); reflexivity).
  destruct (sendCom_prompt i e1 w1 resp rest Hrest1 Hs Hid)
    as (w2 & e2 & Hsend & Hrest2 & (Hd2 & Hn2 & Ht2 & _) & Hm2 & Hf2 & Hb2
        & Hsc2 & Hc2 & Hw2 & Hu2).
  rewrite Hsend. cbn [Z.ltb Z.compare].
  destruct (readAnswer_prompt i e2 w2 Hrest2 Hf2)
    as (w3 & e3 & Hans & Hrest3 & He3 & Hm3 & Hf3 & Ht3 & Hn3 & Hd3 & Hb3
        & Hsc3 & Hc3 & Hw3 & Hu3 & _).
  rewrite Hans. cbn [Z.ltb Z.compare].
  rewrite Hm2 in He3.
  unfold checkEPOSerror, E_NOERR. rewrite (proj1 Hrest3), He3.
  destruct (error_of_response resp =? 0).
  - exists w3, e3. split; [reflexivity |]. split; [exact Hrest3 |].
    repeat split; try reflexivity; subst e1 w1; cbn in *; congruence.
  - run. eexists _, e3. split; [reflexivity |]. split; [exact Hrest3 |].
    repeat split; try reflexivity; subst e1 w1; cbn in *; congruence.
Qed.

(** ** Aborted and completed transactions *)

Lemma aborts_value_range_code (m : CanMsg) :
  aborts_value_range m -> error_of_response m = E_PRAGNEX.
Proof.
  intros (H0 & H4 & H5 & H6 & H7). unfold error_of_response, le32_at.
  cbn [Nat.add]. rewrite H0, H4, H5, H6, H7. reflexivity.
Qed.

Lemma at_rest_bench (sc : list hal_call) :
  at_rest 0 (fresh 1) (bench [Some (fresh 1)] sc).
Proof.
  split; [reflexivity |]. split; [concrete_bus |]. split; [concrete_bus |].
  split; [reflexivity |]. split; [cbn; lia | reflexivity].
Qed.

(** C4.  An SDO write whose request the transport accepts and whose
    response has the abort marker 0x80 in byte 0 and the code 0x06090030
    in bytes 4..7: whenever [WriteObject] returns, it returns the failure
    value -1, the device's last-error field is exactly 0x06090030, and
    the error has been reported on the console as "value range of
    parameter exeeded!".  When such a reply arrives promptly (before the
    transmit call returns, on a device at rest), [WriteObject] does
    return, with -1 and that code. *)
Theorem WriteObject_abort_value_range (i : nat) (Index SubIndex : Z)
    (param : Z * Z) (e : epos_t) (w : world) (c : hal_call)
    (rest : list hal_call) :
  deref i w = Some e -> sched w = c :: rest -> status_ok c = true ->
  (forall r w' e',
     WriteObject i Index SubIndex param w = Done r w' ->
     deref i w' = Some e' ->
     aborts_value_range (SDOMsg e') ->
     r = -1 /\ E_error e' = 0x06090030 /\
     exists l,
       rtt w'
       = l ++ [EposRespondsWithError "value range of parameter exeeded!"]) /\
  (forall resp,
     at_rest i e w -> c = prompt (dev e) resp ->
     StdId resp = Node_ID e + 0x580 -> aborts_value_range resp ->
     exists w' e',
       WriteObject i Index SubIndex param w = Done (-1) w' /\
       deref i w' = Some e' /\ SDOMsg e' = resp /\
       E_error e' = 0x06090030).
Proof.
  intros Hi Hs Hok. split.
  - intros r w' e' Hrun Hi' Hab.
    destruct (WriteObject_spec _ _ _ _ _ _ _ _ _ _ Hi Hs Hrun)
      as (e'' & Hi'' & _ & _ & _ & _ & _ & Hres).
    assert (e'' = e') as -> by congruence.
    rewrite Hok in Hres. destruct Hres as (He & Hr & Hrtt).
    rewrite (aborts_value_range_code _ Hab) in He.
    rewrite He in Hr, Hrtt.
    split; [exact Hr |]. split; [exact He |].
    apply Hrtt. discriminate.
  - intros resp Hrest -> Hid Hab.
    destruct (WriteObject_prompt i Index SubIndex param e w resp rest
                Hrest Hs Hid)
      as (w' & e' & Hrun & Hrest' & He & Hm & _).
    rewrite (aborts_value_range_code _ Hab) in Hrun, He.
    exists w', e'. split; [exact Hrun |].
    split; [apply Hrest' |]. split; [exact Hm | exact He].
Qed.

(** C4, an instance: node 1 aborts a write of 70000 to object 0x6081. *)
Lemma WriteObject_abort_value_range_witness :
  let w := bench [Some (fresh 1)] [prompt 0 abort_reply] in
  exists w' e',
    WriteObject 0 0x6081 0x00 (0x1170, 0x0001) w = Done (-1) w' /\
    deref 0 w' = Some e' /\ SDOMsg e' = abort_reply /\
    E_error e' = 0x06090030.
Proof.
  intros w.
  apply (proj2 (WriteObject_abort_value_range 0 0x6081 0x00 (0x1170, 0x0001)
                  (fresh 1) w (prompt 0 abort_reply) []
                  eq_refl eq_refl eq_refl) abort_reply).
  - apply at_rest_bench.
  - reflexivity.
  - reflexivity.
  - repeat split.
Defined.

Lemma follows_response (e : epos_t) :
  E_error e = error_of_response (SDOMsg e) -> last_error_follows_response e.
Proof.
  intros H. split; [exact H |]. unfold error_of_response in H. split.
  - intros Hne. apply Z.eqb_neq in Hne. rewrite Hne in H. exact H.
  - intros Hab Hok. apply Z.eqb_eq in Hab. rewrite Hab in H. rewrite H.
    apply (le32_at_value (SDOMsg e) 4); apply byte_range, Hok.
Qed.

(** C1 on the code.  Node 1 answers a read of the status word with the
    abort 0x06010000.  [ReadObject] records the code in [E_error] and
    hands the same bytes out as the value, but returns 1, not a failure;
    [readStatusword] returns 0, success, with the low half of the abort
    code as the status word. *)
Theorem ReadObject_abort_returns_success :
  let w := bench [Some (fresh 1)] [prompt 0 read_abort_reply] in
  (exists w' e',
     ReadObject 0 0x6041 0x00 0 w = Done (1, 0x06010000) w' /\
     deref 0 w' = Some e' /\ E_error e' = 0x06010000) /\
  (exists w', readStatusword 0 0xFFFF w = Done (0, 0x0000) w').
Proof.
  intros w. split.
  - eexists _, _. split; [vm_compute; reflexivity |].
    split; reflexivity.
  - eexists. vm_compute. reflexivity.
Qed.

(** C8 on the code.  With [t = 30], as [doHoming] calls it, and a device
    that answers at once and does not report target reached,
    [waitForTarget] gives up with 1 after 30 polls and 1500 ms of delay,
    far from 30 seconds; with [t = 1] it gives up after one poll and
    50 ms. *)
Theorem waitForTarget_counts_polls :
  (exists w',
     waitForTarget 0 30 (bench [Some (fresh 1)] (polls 0 30 status_reply))
     = Done 1 w' /\
     clock w' = 1500 /\ clock w' < 30 * 1000 /\ sched w' = []) /\
  (exists w',
     waitForTarget 0 1 (bench [Some (fresh 1)] (polls 0 1 status_reply))
     = Done 1 w' /\
     clock w' = 50 /\ clock w' < 1 * 1000 /\ sched w' = []).
Proof.
  split; eexists;
    (split; [vm_compute; reflexivity
            | split; [reflexivity | split; reflexivity]]).
Qed.

(** ** Homing *)

Lemma iter_Done_inv {S A} (P : A -> Prop) (body : S -> M (S + A)) :
  (forall s w a w', body s w = Done (inr a) w' -> P a) ->
  forall fuel s w a w', iter fuel body s w = Done a w' -> P a.
Proof.
  intros Hbody. induction fuel as [| n IH]; intros s w a w' H;
    [discriminate |].
  cbn [iter] in H. apply bind_Done in H as ([s' | a'] & w1 & Hb & H).
  - eapply IH, H.
  - injection H as <- <-. eapply Hbody, Hb.
Qed.

(** Peel a computation that has returned: split binds, keep only the
    last equation. *)
Ltac peel H :=
  repeat
    match type of H with
    | (_ ≫= _) _ = Done _ _ =>
        let a := fresh "a" in
        let w1 := fresh "w" in
        apply bind_Done in H as (a & w1 & _ & H)
    | (let '(_, _) := ?p in _) _ = Done _ _ => destruct p
    | (if ?b then _ else _) _ = Done _ _ => destruct b
    end.

Lemma monitorHomingStatus_body_leaves (i : nat) (status : Z) (w w' : world)
    (r : option Z) (status' : Z) :
  monitorHomingStatus_body i status w = Done (inr (r, status')) w' ->
  r = None \/ r = Some (-2).
Proof.
  unfold monitorHomingStatus_body. intros H. peel H; inversion H; auto.
Qed.

Lemma monitorHomingStatus_values (i : nat) (w w' : world) (r : Z) :
  monitorHomingStatus i w = Done r w' -> r = -1 \/ r = -2 \/ r = 0.
Proof.
  unfold monitorHomingStatus. destruct (deref i w); [| intros [= <-]; auto].
  intros H. apply bind_Done in H as ([ro status] & w1 & Hloop & H).
  assert (Hro : ro = None \/ ro = Some (-2)).
  { unfold loop in Hloop.
    apply (iter_Done_inv (fun x => fst x = None \/ fst x = Some (-2))
             _ (fun s w a w' Hb =>
                  match a as a0
                    return monitorHomingStatus_body i s w = Done (inr a0) w' ->
                           fst a0 = None \/ fst a0 = Some (-2)
                  with
                  | (r0, st) => monitorHomingStatus_body_leaves i s w w' r0 st
                  end Hb)
             _ _ _ _ _ Hloop). }
  destruct Hro as [-> | ->].
  - peel H. injection H as <-. auto.
  - injection H as <-. auto.
Qed.

(** C9.  Whenever [monitorHomingStatus] returns, it returns -1 (NULL
    device), -2 (homing error) or 0, never 1; so [doHoming] never takes
    the branch for [status == 1] and never returns 2. *)
Theorem monitorHomingStatus_never_1 (i : nat) (w : world) :
  (forall r w', monitorHomingStatus i w = Done r w' ->
     r <> 1 /\ (r = -1 \/ r = -2 \/ r = 0)) /\
  (forall method start r w', doHoming i method start w = Done r w' ->
     r <> 2).
Proof.
  split.
  - intros r w' H. pose proof (monitorHomingStatus_values i w w' r H). lia.
  - intros method start r w'. unfold doHoming.
    destruct (deref i w); [| intros [= <-]; lia].
    intros H.
    repeat
      match type of H with
      | (monitorHomingStatus i ≫= _) _ = Done _ _ =>
          let s := fresh "status" in
          let w1 := fresh "w" in
          let Hm := fresh "Hm" in
          apply bind_Done in H as (s & w1 & Hm & H);
          apply monitorHomingStatus_values in Hm
      | (_ ≫= _) _ = Done _ _ =>
          let a := fresh "a" in
          let w1 := fresh "w" in
          apply bind_Done in H as (a & w1 & _ & H)
      | (let '(_, _) := ?p in _) _ = Done _ _ => destruct p
      | (if nz ?s && (?s =? 1) then _ else _) _ = Done _ _ =>
          replace (nz s && (s =? 1)) with false in H
            by (destruct Hm as [-> | [-> | ->]]; reflexivity)
      | (if ?b then _ else _) _ = Done _ _ => destruct b
      end;
      injection H as <-; lia.
Qed.

(** C9, an instance: the device reports homing attained at once; the
    monitor returns 0 and [doHoming] returns 0. *)
Lemma monitorHomingStatus_never_1_witness :
  let w := bench [Some (fresh 1)] (exchanges 9 homed_reply) in
  let w2 := bench [Some (fresh 1)]
              (exchanges 4 homed_reply ++ [mkCall true []]
               ++ exchanges 15 homed_reply) in
  (exists w', monitorHomingStatus 0 w = Done 0 w' /\ 0 <> 1) /\
  (exists w', doHoming 0 35 0 w2 = Done 0 w' /\ 0 <> 2).
Proof.
  intros w w2. split.
  - assert (Hrun : monitorHomingStatus 0 w
                   = Done 0 (final (monitorHomingStatus 0 w)))
      by (vm_compute; reflexivity).
    eexists. split; [exact Hrun |].
    exact (proj1 (proj1 (monitorHomingStatus_never_1 0 w) 0 _ Hrun)).
  - assert (Hrun : doHoming 0 35 0 w2 = Done 0 (final (doHoming 0 35 0 w2)))
      by (vm_compute; reflexivity).
    eexists. split; [exact Hrun |].
    exact (proj2 (monitorHomingStatus_never_1 0 w2) 35 0 0 _ Hrun).
Defined.

(** ** What goes on the wire *)

Lemma keeps_wire_refl (w : world) : keeps_wire w w.
Proof. reflexivity. Qed.

Lemma keeps_wire_trans (w1 w2 w3 : world) :
  keeps_wire w1 w2 -> keeps_wire w2 w3 -> keeps_wire w1 w3.
Proof. unfold keeps_wire. congruence. Qed.

Lemma quiet_keeps_wire (w w' : world) : quiet w w' -> keeps_wire w w'.
Proof. intros (_ & _ & _ & H & _). exact H. Qed.

Lemma stable_quiet_wire {A} (m : M A) : stable quiet m -> stable keeps_wire m.
Proof. intros H w. apply quiet_keeps_wire, H. Qed.

Ltac wire_step :=
  first
    [ apply (stable_bind keeps_wire keeps_wire_trans)
    | apply (stable_ret keeps_wire keeps_wire_refl)
    | apply (stable_get keeps_wire keeps_wire_refl)
    | apply (stable_modify keeps_wire); intros ?; reflexivity
    | apply (stable_if keeps_wire) ].

Lemma HAL_Delay_keeps_wire (ms : Z) : stable keeps_wire (HAL_Delay ms).
Proof.
  intros w. unfold HAL_Delay. destruct (sched w) as [| c rest];
    [reflexivity |].
  exact (quiet_keeps_wire _ _
           (serve_quiet (served c)
              (set_clock (clock w + ms) (set_sched rest w)))).
Qed.

Lemma update_keeps_wire (i : nat) (f : epos_t -> epos_t) :
  stable keeps_wire (update i f).
Proof. intros w. unfold update. destruct (deref i w); reflexivity. Qed.

Lemma load_keeps_wire {A} (i : nat) (f : epos_t -> A) :
  stable keeps_wire (load i f).
Proof. intros w. unfold load. destruct (deref i w); reflexivity. Qed.

Lemma checkEPOSerror_keeps_wire (i : nat) : stable keeps_wire (checkEPOSerror i).
Proof.
  intros w. unfold checkEPOSerror. destruct (deref i w); [| reflexivity].
  destruct (_ =? _); reflexivity.
Qed.

Lemma readAnswer_keeps_wire (i : nat) : stable keeps_wire (readAnswer i).
Proof.
  intros w. unfold readAnswer. destruct (deref i w); [| reflexivity].
  revert w. wire_step; [apply update_keeps_wire |]. intros _.
  wire_step.
  { apply (stable_loop keeps_wire keeps_wire_refl keeps_wire_trans). intros _.
    wire_step; [apply load_keeps_wire |]. intros [|]; [wire_step |].
    wire_step; [apply HAL_Delay_keeps_wire |].
    intros _. wire_step. }
  intros _. wire_step; [apply update_keeps_wire |]. intros _.
  wire_step; [apply load_keeps_wire |]. intros m.
  wire_step; [| intros _; wire_step].
  destruct (_ =? _); [apply update_keeps_wire | wire_step].
Qed.

Lemma final_bind_wire {A B} (m : M A) (k : A -> M B) (w : world)
    (l : list CanMsg) :
  wire (final (m w)) = l -> (forall a, stable keeps_wire (k a)) ->
  wire (final ((m ≫= k) w)) = l.
Proof.
  intros Hm Hk. unfold mbind, M_bind.
  destruct (m w) as [a w1 | w1 | w1]; cbn in *; [| assumption ..].
  rewrite <- Hm. apply Hk.
Qed.

Lemma Transmit_wire (h : nat) (w : world) (hc : CAN_HandleTypeDef)
    (e : epos_t) :
  hcan w !! h = Some hc -> deref (pTxMsg hc) w = Some e ->
  wire (final (HAL_CAN_Transmit_IT h w))
  = wire w ++ accepted (sched w) (TxMessage e).
Proof.
  intros Hh Hi. unfold HAL_CAN_Transmit_IT. rewrite Hh, Hi.
  destruct (sched w) as [| c rest]; cbn [accepted];
    [cbn; rewrite app_nil_r; reflexivity |].
  destruct (status_ok c).
  - apply final_bind_wire; [| intros _; wire_step].
    exact (stable_quiet_wire _ (serve_quiet (served c))
             (set_wire (wire w ++ [TxMessage e]) (set_sched rest w))).
  - rewrite app_nil_r. apply final_bind_wire; [| intros _; wire_step].
    exact (stable_quiet_wire _ (serve_quiet (served c)) (set_sched rest w)).
Qed.

Lemma sendCom_wire (i : nat) (w : world) (e : epos_t) :
  deref i w = Some e -> hcan w !! dev e = Some (mkHandle i i) ->
  wire (final (sendCom i w)) = wire w ++ accepted (sched w) (TxMessage e).
Proof.
  intros Hi Hh. unfold sendCom. rewrite Hi.
  apply final_bind_wire; [apply (Transmit_wire _ _ _ _ Hh Hi) |].
  intros [|].
  - wire_step.
    { apply (stable_loop keeps_wire keeps_wire_refl keeps_wire_trans).
      intros _. wire_step; [wire_step |]. intros [|]; [wire_step |].
      wire_step; [apply HAL_Delay_keeps_wire |].
      intros _. wire_step. }
    intros _. wire_step; [wire_step | intros _; wire_step].
  - unfold print. wire_step; [wire_step | intros _; wire_step].
Qed.

(** Whatever happens afterwards, [WriteObject] puts its request on the
    wire if the transport accepts it, and nothing else. *)
Lemma WriteObject_wire (i : nat) (Index SubIndex : Z) (param : Z * Z)
    (w : world) (e : epos_t) :
  deref i w = Some e -> hcan w !! dev e = Some (mkHandle i i) ->
  wire (final (WriteObject i Index SubIndex param w))
  = wire w
    ++ accepted (sched w) (write_request (Node_ID e) Index SubIndex param).
Proof.
  intros Hi Hh. unfold WriteObject. rewrite Hi.
  unfold mbind at 1, M_bind at 1. rewrite (update_Done _ _ _ _ Hi).
  fold (write_request (Node_ID e) Index SubIndex param).
  set (req := write_request (Node_ID e) Index SubIndex param).
  set (w1 := set_epos _ w).
  change (wire w) with (wire w1). change (sched w) with (sched w1).
  apply final_bind_wire.
  - apply (sendCom_wire i w1 (set_TxMessage req e));
      [exact (deref_assign w i e _ Hi) | exact Hh].
  - intros n. destruct (n <? 0); [wire_step |].
    wire_step; [apply readAnswer_keeps_wire |]. intros n'.
    destruct (n' <? 0); [wire_step | apply checkEPOSerror_keeps_wire].
Qed.

(** ** The control-word encoder *)

Lemma changeEPOSstate_dw0_literal (state : Z) :
  0 <= state <= 6 ->
  changeEPOSstate_dw0 state = Some (control_literal state) /\
  Data (write_request 0 0x6040 0x00 (control_literal state, 0x0000))
  = [0x22; 0x40; 0x60; 0x00; control_literal state; 0x00; 0x00; 0x00].
Proof.
  intros H.
  assert (Hc : state = 0 \/ state = 1 \/ state = 2 \/ state = 3 \/ state = 4
               \/ state = 5 \/ state = 6) by lia.
  repeat (destruct Hc as [-> | Hc]; [split; reflexivity |]).
  subst. split; reflexivity.
Qed.

(** ** Nobody looks at [SDOBusy] *)

Lemma blind_ret {A} (a : A) : blind (mret a).
Proof. intros b w. reflexivity. Qed.

Lemma blind_bind {A B} (m : M A) (k : A -> M B) :
  blind m -> (forall a, blind (k a)) -> blind (m ≫= k).
Proof.
  intros Hm Hk b w. unfold mbind, M_bind. rewrite Hm.
  destruct (m w) as [a w1 | w1 | w1]; cbn; [apply Hk | reflexivity ..].
Qed.

Lemma blind_get {A} (f : world -> A) :
  (forall b w, f (set_SDOBusy b w) = f w) -> blind (get f).
Proof. intros Hf b w. unfold get. rewrite Hf. reflexivity. Qed.

Lemma blind_modify (f : world -> world) :
  (forall b w, f (set_SDOBusy b w) = set_SDOBusy b (f w)) -> blind (modify f).
Proof. intros Hf b w. unfold modify. rewrite Hf. reflexivity. Qed.

Lemma blind_iter {S A} (body : S -> M (S + A)) :
  (forall s, blind (body s)) -> forall fuel s, blind (iter fuel body s).
Proof.
  intros Hbody. induction fuel as [| n IH]; intros s; [intros b w; reflexivity |].
  cbn [iter]. apply blind_bind; [apply Hbody |].
  intros [s' | a]; [apply IH | apply blind_ret].
Qed.

Lemma blind_loop {S A} (body : S -> M (S + A)) (s : S) :
  (forall s, blind (body s)) -> blind (loop body s).
Proof. intros Hbody b w. unfold loop. apply blind_iter, Hbody. Qed.

Ltac blind_step :=
  first
    [ apply blind_bind
    | apply blind_ret
    | apply blind_get; intros ? ?; reflexivity
    | apply blind_modify; intros ? ?; reflexivity ].

Lemma blind_route (m : CanMsg) : blind (modify (processCANMsg_route m)).
Proof.
  apply blind_modify. intros b w. unfold processCANMsg_route. cbn.
  destruct (processCANMsg_for m 0 (epos w)) as [out [ds |]]; reflexivity.
Qed.

Lemma blind_while (p : nat) : blind (processCANMsg_while p).
Proof.
  induction p as [| p IH]; [apply blind_ret |].
  intros b w. cbn [processCANMsg_while].
  change (CANMsgBuf (set_SDOBusy b w)) with (CANMsgBuf w).
  destruct (CANMsgBuf w !! p) as [m |]; [| reflexivity].
  revert b w. apply blind_bind; [apply blind_route |]. intros _.
  blind_step; [blind_step | intros _; exact IH].
Qed.

Lemma blind_processPDOMessage : blind processPDOMessage.
Proof.
  intros b w. unfold processPDOMessage. cbn.
  destruct (processPDOMessage_for (epos w)) as [ds [|]]; reflexivity.
Qed.

Lemma blind_processCANMsg : blind processCANMsg.
Proof.
  unfold processCANMsg. blind_step; [blind_step |]. intros p.
  blind_step; [apply blind_while |]. intros _.
  blind_step; [apply blind_processPDOMessage | intros _; blind_step].
Qed.

Lemma blind_RxCpltCallback (h : nat) : blind (HAL_CAN_RxCpltCallback h).
Proof.
  intros b w. unfold HAL_CAN_RxCpltCallback.
  change (hcan (set_SDOBusy b w)) with (hcan w).
  destruct (hcan w !! h) as [hc |]; [| reflexivity].
  change (deref (pRxMsg hc) (set_SDOBusy b w)) with (deref (pRxMsg hc) w).
  destruct (deref (pRxMsg hc) w) as [e |]; [| reflexivity].
  change (pCANMsg (set_SDOBusy b w)) with (pCANMsg w).
  change (CANMsgBuf (set_SDOBusy b w)) with (CANMsgBuf w).
  destruct (decide _) as [_ | _]; [| reflexivity].
  revert b w.
  blind_step; [blind_step |]. intros _.
  blind_step; [blind_step |]. intros _.
  blind_step; [blind_step |]. intros _.
  blind_step; [apply blind_processCANMsg | intros _; blind_step].
Qed.

Lemma blind_serve_irq (q : irq) : blind (serve_irq q).
Proof.
  destruct q as [h | h m]; cbn [serve_irq].
  - unfold HAL_CAN_TxCpltCallback. blind_step.
  - intros b w. change (hcan (set_SDOBusy b w)) with (hcan w).
    destruct (hcan w !! h) as [hc |]; [| reflexivity].
    change (deref (pRxMsg hc) (set_SDOBusy b w)) with (deref (pRxMsg hc) w).
    destruct (deref (pRxMsg hc) w) as [e |]; [| reflexivity].
    revert b w. unfold assign.
    blind_step; [blind_step | intros _; apply blind_RxCpltCallback].
Qed.

Lemma blind_serve (qs : list irq) : blind (serve qs).
Proof.
  induction qs as [| q qs IH]; cbn [serve]; [blind_step |].
  blind_step; [apply blind_serve_irq | intros _; exact IH].
Qed.

Lemma blind_HAL_Delay (ms : Z) : blind (HAL_Delay ms).
Proof.
  intros b w. unfold HAL_Delay. change (sched (set_SDOBusy b w)) with (sched w).
  destruct (sched w) as [| c rest]; [reflexivity |].
  apply (blind_serve (served c) b (set_clock (clock w + ms) (set_sched rest w))).
Qed.

Lemma blind_Transmit (h : nat) : blind (HAL_CAN_Transmit_IT h).
Proof.
  intros b w. unfold HAL_CAN_Transmit_IT.
  change (hcan (set_SDOBusy b w)) with (hcan w).
  destruct (hcan w !! h) as [hc |]; [| reflexivity].
  change (deref (pTxMsg hc) (set_SDOBusy b w)) with (deref (pTxMsg hc) w).
  destruct (deref (pTxMsg hc) w) as [e |]; [| reflexivity].
  change (sched (set_SDOBusy b w)) with (sched w).
  destruct (sched w) as [| c rest]; [reflexivity |].
  destruct (status_ok c).
  - apply (blind_bind (serve (served c)) (fun _ => mret true)
             (blind_serve _) (fun _ => blind_ret _) b
             (set_wire (wire w ++ [TxMessage e]) (set_sched rest w))).
  - apply (blind_bind (serve (served c)) (fun _ => mret false)
             (blind_serve _) (fun _ => blind_ret _) b (set_sched rest w)).
Qed.

Lemma blind_load {A} (i : nat) (f : epos_t -> A) : blind (load i f).
Proof.
  intros b w. unfold load.
  change (deref i (set_SDOBusy b w)) with (deref i w).
  destruct (deref i w); reflexivity.
Qed.

Lemma blind_update (i : nat) (f : epos_t -> epos_t) : blind (update i f).
Proof.
  intros b w. unfold update.
  change (deref i (set_SDOBusy b w)) with (deref i w).
  destruct (deref i w); reflexivity.
Qed.

Lemma blind_checkEPOSerror (i : nat) : blind (checkEPOSerror i).
Proof.
  intros b w. unfold checkEPOSerror.
  change (deref i (set_SDOBusy b w)) with (deref i w).
  destruct (deref i w); [| reflexivity].
  destruct (_ =? _); reflexivity.
Qed.

Lemma blind_sendCom (i : nat) : blind (sendCom i).
Proof.
  intros b w. unfold sendCom.
  change (deref i (set_SDOBusy b w)) with (deref i w).
  destruct (deref i w) as [e |]; [| reflexivity].
  revert b w. blind_step; [apply blind_Transmit |]. intros [|].
  - blind_step.
    { apply blind_loop. intros _. blind_step; [blind_step |].
      intros [|]; [blind_step |].
      blind_step; [apply blind_HAL_Delay | intros _; blind_step]. }
    intros _. blind_step; [blind_step | intros _; blind_step].
  - unfold print. blind_step; [blind_step | intros _; blind_step].
Qed.

Lemma blind_readAnswer (i : nat) : blind (readAnswer i).
Proof.
  intros b w. unfold readAnswer.
  change (deref i (set_SDOBusy b w)) with (deref i w).
  destruct (deref i w) as [e |]; [| reflexivity].
  revert b w. blind_step; [apply blind_update |]. intros _.
  blind_step.
  { apply blind_loop. intros _. blind_step; [apply blind_load |].
    intros [|]; [blind_step |].
    blind_step; [apply blind_HAL_Delay | intros _; blind_step]. }
  intros _. blind_step; [apply blind_update |]. intros _.
  blind_step; [apply blind_load |]. intros m.
  blind_step; [| intros _; blind_step].
  destruct (_ =? _); [apply blind_update | blind_step].
Qed.

Lemma blind_WriteObject (i : nat) (Index SubIndex : Z) (param : Z * Z) :
  blind (WriteObject i Index SubIndex param).
Proof.
  intros b w. unfold WriteObject.
  change (deref i (set_SDOBusy b w)) with (deref i w).
  destruct (deref i w) as [e |]; [| reflexivity].
  revert b w. blind_step; [apply blind_update |]. intros _.
  blind_step; [apply blind_sendCom |]. intros n.
  destruct (n <? 0); [blind_step |].
  blind_step; [apply blind_readAnswer |]. intros n'.
  destruct (n' <? 0); [blind_step | apply blind_checkEPOSerror].
Qed.

(** C7, as the code has it.  The library does not keep SDO calls apart:
    no call looks at [SDOBusy].  On an open device and any schedule,
    [ReadObject] started with the flag set or clear does exactly the same
    (it sets the flag itself on entry), and [WriteObject] does the same
    and leaves the flag as it found it.  In particular a call made while
    the flag is set is neither rejected nor queued: on a prompt reply
    [ReadObject] transmits its request, takes the frame that arrives in
    the SDO slot for its response, whatever index and subindex that
    frame echoes, returns 1 and clears the flag. *)
Theorem sdo_calls_not_serialized (i : nat) (Index SubIndex : Z) (w : world)
    (e : epos_t) (busy : bool) :
  deref i w = Some e ->
  (forall param,
     ReadObject i Index SubIndex param (set_SDOBusy busy w)
     = ReadObject i Index SubIndex param w) /\
  (forall param,
     WriteObject i Index SubIndex param (set_SDOBusy busy w)
     = outcome_map (set_SDOBusy busy) (WriteObject i Index SubIndex param w)) /\
  (forall resp rest param,
     at_rest i e w -> sched w = prompt (dev e) resp :: rest ->
     StdId resp = Node_ID e + 0x580 ->
     exists w',
       ReadObject i Index SubIndex param (set_SDOBusy true w)
       = Done (1, u32 (le32_at resp 4)) w' /\
       wire w' = wire w ++ [read_request (Node_ID e) Index SubIndex] /\
       SDOBusy w' = false).
Proof.
  intros Hi. split; [| split].
  - intros param. unfold ReadObject.
    change (deref i (set_SDOBusy busy w)) with (deref i w). rewrite Hi.
    reflexivity.
  - intros param. apply blind_WriteObject.
  - intros resp rest param Hrest Hs Hid.
    destruct (ReadObject_prompt i Index SubIndex param e (set_SDOBusy true w)
                resp rest Hrest Hs Hid)
      as (w' & e' & Hrun & _ & _ & _ & _ & _ & _ & _ & Hb & _ & _ & Hw & _).
    exists w'. split; [exact Hrun |]. split; [exact Hw | exact Hb].
Qed.

(** C7, an instance: a read of the position 0x6064 on node 1 with
    [SDOBusy] set goes out on the wire and returns 1. *)
Lemma sdo_calls_not_serialized_witness :
  let w := bench [Some (fresh 1)] [prompt 0 status_reply] in
  exists w',
    ReadObject 0 0x6064 0x00 0 (set_SDOBusy true w) = Done (1, 0x0237) w' /\
    wire w' = wire w ++ [read_request 1 0x6064 0x00] /\
    SDOBusy w' = false.
Proof.
  intros w.
  exact (proj2 (proj2 (sdo_calls_not_serialized 0 0x6064 0x00 w (fresh 1) true
                         eq_refl))
           status_reply [] 0 (at_rest_bench _) eq_refl eq_refl).
Defined.

(** C7 as stated fails.  A first read, of the status word 0x6041, has
    sent its request and waits for the reply: the call hangs with
    [SDOBusy] set.  A second read, of the position 0x6064, made in that
    state is not rejected and not queued: its request goes out behind the
    first, and when the reply to the first request arrives (it echoes
    0x6041) the second call takes it and returns its value. *)
Lemma sdo_second_call_interleaves_counterexample :
  exists w_mid w',
    ReadObject 0 0x6041 0x00 0
      (bench [Some (fresh 1)] [mkCall true [TxCplt 0]])
    = Hang w_mid /\
    SDOBusy w_mid = true /\
    wire w_mid = [read_request 1 0x6041 0x00] /\
    ReadObject 0 0x6064 0x00 0 (set_sched [prompt 0 status_reply] w_mid)
    = Done (1, 0x0237) w' /\
    wire w' = [read_request 1 0x6041 0x00; read_request 1 0x6064 0x00] /\
    (byte status_reply 1, byte status_reply 2) = (0x41, 0x60).
Proof.
  eexists _, _.
  split; [vm_compute; reflexivity |].
  split; [reflexivity |].
  split; [reflexivity |].
  split; [vm_compute; reflexivity |].
  split; reflexivity.
Qed.

(** ** The fuel of [loop] is enough *)

Lemma no_longer_refl (w : world) : no_longer w w.
Proof. unfold no_longer. lia. Qed.

Lemma no_longer_trans (w1 w2 w3 : world) :
  no_longer w1 w2 -> no_longer w2 w3 -> no_longer w1 w3.
Proof. unfold no_longer. lia. Qed.

Lemma quiet_no_longer (w w' : world) : quiet w w' -> no_longer w w'.
Proof.
  intros (_ & _ & _ & _ & _ & Hs & _). unfold no_longer. rewrite Hs. lia.
Qed.

Ltac fuel_step :=
  first
    [ apply (stable_bind no_longer no_longer_trans)
    | apply (stable_ret no_longer no_longer_refl)
    | apply (stable_get no_longer no_longer_refl)
    | apply (stable_modify no_longer); intros ?; unfold no_longer; cbn; lia ].

Lemma stable_Done {A} (R : world -> world -> Prop) (m : M A)
    (w w' : world) (a : A) :
  stable R m -> m w = Done a w' -> R w w'.
Proof. intros H Hrun. specialize (H w). rewrite Hrun in H. exact H. Qed.

Lemma takes_bind_l {A B} (m : M A) (k : A -> M B) :
  takes_a_call m -> (forall a, stable no_longer (k a)) ->
  takes_a_call (m ≫= k).
Proof.
  intros Hm Hk w b w' H. apply bind_Done in H as (a & w1 & H1 & H2).
  apply Hm in H1. apply (stable_Done _ _ _ _ _ (Hk a)) in H2.
  unfold no_longer in H2. lia.
Qed.

Lemma takes_bind_r {A B} (m : M A) (k : A -> M B) :
  stable no_longer m -> (forall a, takes_a_call (k a)) ->
  takes_a_call (m ≫= k).
Proof.
  intros Hm Hk w b w' H. apply bind_Done in H as (a & w1 & H1 & H2).
  apply Hk in H2. apply (stable_Done _ _ _ _ _ Hm) in H1.
  unfold no_longer in H1. lia.
Qed.

Lemma HAL_Delay_takes (ms : Z) : takes_a_call (HAL_Delay ms).
Proof.
  intros w a w'. unfold HAL_Delay.
  destruct (sched w) as [| c rest]; [discriminate |].
  intros H.
  pose proof (stable_Done _ _ _ _ _ (serve_quiet (served c)) H)
    as (_ & _ & _ & _ & _ & Hs & _).
  rewrite Hs. cbn. lia.
Qed.

Lemma Transmit_takes (h : nat) : takes_a_call (HAL_CAN_Transmit_IT h).
Proof.
  intros w a w'. unfold HAL_CAN_Transmit_IT.
  destruct (hcan w !! h) as [hc |]; [| discriminate].
  destruct (deref (pTxMsg hc) w) as [e |]; [| discriminate].
  destruct (sched w) as [| c rest]; [discriminate |].
  destruct (status_ok c); intros H;
    apply bind_Done in H as ([] & w1 & H1 & H2); injection H2 as _ <-;
    pose proof (stable_Done _ _ _ _ _ (serve_quiet (served c)) H1)
      as (_ & _ & _ & _ & _ & Hs & _);
    rewrite Hs; cbn; lia.
Qed.

Lemma HAL_Delay_no_longer (ms : Z) : stable no_longer (HAL_Delay ms).
Proof.
  intros w. unfold HAL_Delay. destruct (sched w) as [| c rest] eqn:E;
    [apply no_longer_refl |].
  pose proof (quiet_no_longer _ _
                (serve_quiet (served c)
                   (set_clock (clock w + ms) (set_sched rest w)))) as H.
  unfold no_longer in *. cbn in H. rewrite E. cbn. lia.
Qed.

Lemma Transmit_no_longer (h : nat) : stable no_longer (HAL_CAN_Transmit_IT h).
Proof.
  intros w. unfold HAL_CAN_Transmit_IT.
  destruct (hcan w !! h) as [hc |]; [| apply no_longer_refl].
  destruct (deref (pTxMsg hc) w) as [e |]; [| apply no_longer_refl].
  destruct (sched w) as [| c rest] eqn:E; [apply no_longer_refl |].
  assert (Hserve : forall w0, sched w0 = rest ->
            forall b : bool,
              no_longer w (final ((serve (served c) ;; mret b) w0))).
  { intros w0 Hw0 b.
    pose proof (quiet_no_longer _ _ (serve_quiet (served c) w0)) as H.
    unfold mbind, M_bind.
    destruct (serve (served c) w0) as [[] w1 | w1 | w1]; cbn in *;
      unfold no_longer in *; rewrite Hw0 in H; rewrite E; cbn; lia. }
  destruct (status_ok c); apply Hserve; reflexivity.
Qed.

Lemma sendCom_no_longer (i : nat) : stable no_longer (sendCom i).
Proof.
  intros w. unfold sendCom. destruct (deref i w); [| apply no_longer_refl].
  revert w. fuel_step; [apply Transmit_no_longer |]. intros [|].
  - fuel_step.
    { apply (stable_loop no_longer no_longer_refl no_longer_trans).
      intros _. fuel_step; [fuel_step |]. intros [|]; [fuel_step |].
      fuel_step; [apply HAL_Delay_no_longer | intros _; fuel_step]. }
    intros _. fuel_step; [fuel_step | intros _; fuel_step].
  - unfold print. fuel_step; [fuel_step | intros _; fuel_step].
Qed.

Lemma update_no_longer (i : nat) (f : epos_t -> epos_t) :
  stable no_longer (update i f).
Proof.
  intros w. unfold update, no_longer. destruct (deref i w); cbn; lia.
Qed.

Lemma load_no_longer {A} (i : nat) (f : epos_t -> A) :
  stable no_longer (load i f).
Proof.
  intros w. unfold load, no_longer. destruct (deref i w); cbn; lia.
Qed.

Lemma checkEPOSerror_no_longer (i : nat) : stable no_longer (checkEPOSerror i).
Proof.
  intros w. unfold checkEPOSerror, no_longer. destruct (deref i w);
    [| cbn; lia].
  destruct (_ =? _); run; cbn; lia.
Qed.

Lemma readAnswer_no_longer (i : nat) : stable no_longer (readAnswer i).
Proof.
  intros w. unfold readAnswer. destruct (deref i w); [| apply no_longer_refl].
  revert w. fuel_step; [apply update_no_longer |]. intros _.
  fuel_step.
  { apply (stable_loop no_longer no_longer_refl no_longer_trans). intros _.
    fuel_step; [apply load_no_longer |]. intros [|]; [fuel_step |].
    fuel_step; [apply HAL_Delay_no_longer | intros _; fuel_step]. }
  intros _. fuel_step; [apply update_no_longer |]. intros _.
  fuel_step; [apply load_no_longer |]. intros m.
  fuel_step; [| intros _; fuel_step].
  destruct (_ =? _); [apply update_no_longer | fuel_step].
Qed.

Lemma sendCom_takes (i : nat) (w w' : world) (e : epos_t) (r : Z) :
  deref i w = Some e -> sendCom i w = Done r w' ->
  (length (sched w') < length (sched w))%nat.
Proof.
  intros Hi. unfold sendCom. rewrite Hi.
  apply takes_bind_l; [apply Transmit_takes |]. intros [|].
  - fuel_step.
    { apply (stable_loop no_longer no_longer_refl no_longer_trans).
      intros _. fuel_step; [fuel_step |]. intros [|]; [fuel_step |].
      fuel_step; [apply HAL_Delay_no_longer | intros _; fuel_step]. }
    intros _. fuel_step; [fuel_step | intros _; fuel_step].
  - unfold print. fuel_step; [fuel_step | intros _; fuel_step].
Qed.

(** A read on an open device that returns has made a transmit call. *)
Lemma ReadObject_takes (i : nat) (Index SubIndex param : Z) (w w' : world)
    (e : epos_t) (r : Z * Z) :
  deref i w = Some e -> ReadObject i Index SubIndex param w = Done r w' ->
  (length (sched w') < length (sched w))%nat.
Proof.
  intros Hi. unfold ReadObject. rewrite Hi. intros H.
  apply bind_Done in H as ([] & w1 & H1 & H). injection H1 as <-.
  apply bind_Done in H as ([] & w2 & H2 & H).
  rewrite (update_Done _ _ _ e) in H2 by exact Hi. injection H2 as <-.
  apply bind_Done in H as (n & w3 & Hsend & H).
  apply sendCom_takes with (e := set_TxMessage
           (sdo_request (Node_ID e) 0x40 Index SubIndex 0 0 0 0) e) in Hsend;
    [| exact (deref_assign (set_SDOBusy true w) i e _ Hi)].
  cbn in Hsend.
  destruct (n <? 0); [injection H as _ <-; exact Hsend |].
  apply bind_Done in H as (ret & w4 & H4 & H).
  apply (stable_Done _ _ _ _ _ (readAnswer_no_longer i)) in H4.
  apply bind_Done in H as (m & w5 & H5 & H).
  apply (stable_Done _ _ _ _ _ (load_no_longer i SDOMsg)) in H5.
  apply bind_Done in H as ([] & w6 & H6 & H). injection H6 as <-.
  injection H as _ <-. unfold no_longer in *. cbn. lia.
Qed.

Lemma ReadObject_no_longer (i : nat) (Index SubIndex param : Z) :
  stable no_longer (ReadObject i Index SubIndex param).
Proof.
  intros w. unfold ReadObject. destruct (deref i w); [| apply no_longer_refl].
  revert w. fuel_step; [fuel_step |]. intros _.
  fuel_step; [apply update_no_longer |]. intros _.
  fuel_step; [apply sendCom_no_longer |]. intros n.
  destruct (n <? 0); [fuel_step |].
  fuel_step; [apply readAnswer_no_longer |]. intros ret.
  fuel_step; [apply load_no_longer |]. intros m.
  fuel_step; [fuel_step | intros _; fuel_step].
Qed.

Lemma readStatusword_no_longer (i : nat) (status : Z) :
  stable no_longer (readStatusword i status).
Proof.
  intros w. unfold readStatusword, checkEPOS.
  destruct (deref i w); [| apply no_longer_refl].
  revert w. fuel_step; [fuel_step |]. intros c.
  destruct (negb (c =? 0)); [fuel_step |].
  fuel_step; [fuel_step |]. intros answer.
  fuel_step; [apply ReadObject_no_longer |]. intros [n v].
  destruct (n <? 0); [fuel_step |].
  fuel_step; [apply checkEPOSerror_no_longer | intros _; fuel_step].
Qed.

(** With one unit of fuel for every schedule entry and one to spare a
    loop whose turns each take a call never runs out of fuel: more fuel
    changes nothing. *)
Lemma loop_fuel_enough {S A} (body : S -> M (S + A)) :
  turns_take_a_call body ->
  forall n s w, (length (sched w) < n)%nat ->
    iter n body s w = loop body s w.
Proof.
  intros Hturn.
  assert (H : forall n m s w,
            (length (sched w) < n)%nat -> (length (sched w) < m)%nat ->
            iter n body s w = iter m body s w).
  { induction n as [| n IH]; intros m s w Hn Hm; [lia |].
    destruct m as [| m]; [lia |]. cbn [iter]. unfold mbind, M_bind.
    destruct (body s w) as [[s' | a] w1 | w1 | w1] eqn:E; try reflexivity.
    apply Hturn in E. apply IH; lia. }
  intros n s w Hn. unfold loop. apply H; lia.
Qed.

Lemma tx_wait_turns :
  turns_take_a_call
    (fun _ : unit =>
       ready ← get CAN_TxReady;
       if ready : bool then mret (inr tt)
       else HAL_Delay 5 ;; mret (inl tt)).
Proof.
  intros [] w s' w' H. apply bind_Done in H as ([|] & w1 & H1 & H);
    [discriminate |].
  injection H1 as _ <-. apply bind_Done in H as ([] & w2 & H2 & H).
  injection H as _ <-. eapply HAL_Delay_takes, H2.
Qed.

Lemma rx_wait_turns (i : nat) :
  turns_take_a_call
    (fun _ : unit =>
       flag ← load i SDORcvFlag;
       if flag : bool then mret (inr tt)
       else HAL_Delay 1 ;; mret (inl tt)).
Proof.
  intros [] w s' w' H. apply bind_Done in H as ([|] & w1 & H1 & H);
    [discriminate |].
  apply (stable_Done _ _ _ _ _ (load_no_longer i SDORcvFlag)) in H1.
  apply bind_Done in H as ([] & w2 & H2 & H).
  injection H as _ <-. apply HAL_Delay_takes in H2.
  unfold no_longer in H1. lia.
Qed.

Lemma waitForTarget_body_turns (i : nat) (t : Z) :
  turns_take_a_call (waitForTarget_body i t).
Proof.
  intros [cnt status] w s' w'. unfold waitForTarget_body.
  destruct (negb (t =? 0) && _); [discriminate |]. intros H.
  apply bind_Done in H as ([] & w1 & H1 & H). apply HAL_Delay_takes in H1.
  apply bind_Done in H as ([n st] & w2 & H2 & H).
  apply (stable_Done _ _ _ _ _ (readStatusword_no_longer i status)) in H2.
  destruct (negb _); [| discriminate]. injection H as _ <-.
  unfold no_longer in H2. lia.
Qed.

Lemma readActualPosition_takes (i : nat) (pos : Z) (w w' : world) (n v : Z) :
  readActualPosition i pos w = Done (n, v) w' -> nz n = false ->
  (length (sched w') < length (sched w))%nat.
Proof.
  unfold readActualPosition, checkEPOS.
  destruct (deref i w) as [e |] eqn:Hi; [| intros [= <- _ _]; discriminate].
  intros H Hn.
  apply bind_Done in H as (c & w0 & H0 & H). injection H0 as <- <-.
  cbn [Z.eqb negb] in H.
  apply bind_Done in H as (answer & w1 & H1 & H). injection H1 as _ <-.
  apply bind_Done in H as ([n0 a] & w2 & H2 & H).
  apply (ReadObject_takes _ _ _ _ _ _ _ _ Hi) in H2.
  destruct (n0 <? 0); [injection H as <- _ _; discriminate |].
  apply bind_Done in H as (r & w3 & H3 & H).
  apply (stable_Done _ _ _ _ _ (checkEPOSerror_no_longer i)) in H3.
  apply bind_Done in H as ([] & w4 & H4 & H).
  apply (stable_Done _ _ _ _ _ (update_no_longer i _)) in H4.
  injection H as _ _ <-. unfold no_longer in *. lia.
Qed.

Lemma readActualVelocity_no_longer (i : nat) (val : Z) :
  stable no_longer (readActualVelocity i val).
Proof.
  intros w. unfold readActualVelocity, checkEPOS.
  destruct (deref i w); [| apply no_longer_refl].
  revert w. fuel_step; [fuel_step |]. intros c.
  destruct (negb (c =? 0)); [fuel_step |].
  fuel_step; [fuel_step |]. intros answer.
  fuel_step; [apply ReadObject_no_longer |]. intros [n v].
  destruct (n <? 0); [fuel_step |].
  fuel_step; [apply checkEPOSerror_no_longer |]. intros _.
  fuel_step; [apply update_no_longer | intros _; fuel_step].
Qed.

Lemma readActualCurrent_no_longer (i : nat) (val : Z) :
  stable no_longer (readActualCurrent i val).
Proof.
  intros w. unfold readActualCurrent, checkEPOS.
  destruct (deref i w); [| apply no_longer_refl].
  revert w. fuel_step; [fuel_step |]. intros c.
  destruct (negb (c =? 0)); [fuel_step |].
  fuel_step; [fuel_step |]. intros answer.
  fuel_step; [apply ReadObject_no_longer |]. intros [n v].
  destruct (n <? 0); [fuel_step |].
  fuel_step; [apply checkEPOSerror_no_longer | intros _; fuel_step].
Qed.

Lemma monitorHomingStatus_body_turns (i : nat) :
  turns_take_a_call (monitorHomingStatus_body i).
Proof.
  intros status w s' w' H. unfold monitorHomingStatus_body in H.
  apply bind_Done in H as (junk & w0 & H0 & H). injection H0 as _ <-.
  apply bind_Done in H as ([n v] & w1 & H1 & H).
  destruct (nz n) eqn:Hn; [discriminate |].
  apply (readActualPosition_takes _ _ _ _ _ _ H1) in Hn.
  assert (Hrest : no_longer w1 w'); [| unfold no_longer in Hrest; lia].
  revert H. apply stable_Done.
  fuel_step; [apply readActualVelocity_no_longer |]. intros [n1 v1].
  destruct (nz n1); [fuel_step |].
  fuel_step; [apply readActualCurrent_no_longer |]. intros [n2 v2].
  destruct (nz n2); [fuel_step |].
  fuel_step; [apply readStatusword_no_longer |]. intros [n3 st].
  fuel_step; [apply readStatusword_no_longer |]. intros [n4 st'].
  destruct (_ =? _); [fuel_step |].
  destruct (_ && _); fuel_step.
Qed.

(** ** Waiting for the target *)

Lemma loop_exit {S A} (body : S -> M (S + A)) (s : S) (w w' : world) (a : A) :
  body s w = Done (inr a) w' -> loop body s w = Done a w'.
Proof.
  intros H. unfold loop. cbn [iter]. unfold mbind, M_bind. rewrite H.
  reflexivity.
Qed.

Lemma loop_unroll {S A} (body : S -> M (S + A)) (s s' : S) (w w' : world) :
  turns_take_a_call body ->
  body s w = Done (inl s') w' -> loop body s w = loop body s' w'.
Proof.
  intros Hturn H. unfold loop at 1. cbn [iter]. unfold mbind, M_bind.
  rewrite H. apply loop_fuel_enough; [exact Hturn |]. eapply Hturn, H.
Qed.

Lemma HAL_Delay_idle (ms : Z) (w : world) (ok : bool) (rest : list hal_call) :
  sched w = mkCall ok [] :: rest ->
  HAL_Delay ms w = Done tt (set_clock (clock w + ms) (set_sched rest w)).
Proof. intros Hs. unfold HAL_Delay. rewrite Hs. reflexivity. Qed.

(** [readStatusword] on a prompt reply returns 0 and the low half of the
    reply's value, abort or not. *)
Lemma readStatusword_prompt (i : nat) (status : Z) (e : epos_t) (w : world)
    (reply : CanMsg) (rest : list hal_call) :
  at_rest i e w -> sched w = prompt (dev e) reply :: rest ->
  StdId reply = Node_ID e + 0x580 ->
  exists w' e',
    readStatusword i status w = Done (0, status_of reply) w' /\
    at_rest i e' w' /\ Node_ID e' = Node_ID e /\ dev e' = dev e /\
    sched w' = rest /\ clock w' = clock w /\ uninit w' = uninit w.
Proof.
  intros Hrest Hs Hid.
  unfold readStatusword, checkEPOS. rewrite (proj1 Hrest). run.
  cbn [Z.eqb negb].
  destruct (ReadObject_prompt i 0x6041 0x00 (uninit w) e w reply rest
              Hrest Hs Hid)
    as (w1 & e1 & Hrun & Hrest1 & _ & _ & _ & _ & Hn & Hd & _ & Hsc & Hc & _
        & Hu).
  rewrite Hrun. cbn [Z.ltb Z.compare].
  unfold checkEPOSerror. rewrite (proj1 Hrest1).
  destruct (E_error e1 =? E_NOERR).
  - exists w1, e1. split; [reflexivity |]. split; [exact Hrest1 |].
    repeat split; assumption.
  - run. eexists _, e1. split; [reflexivity |]. split; [exact Hrest1 |].
    repeat split; assumption.
Qed.

(** One poll of [waitForTarget] that the timeout lets through: 50 ms of
    delay, one status read. *)
Lemma waitForTarget_body_poll (i : nat) (t cnt status : Z) (e : epos_t)
    (w : world) (reply : CanMsg) (rest : list hal_call) :
  at_rest i e w ->
  sched w = mkCall true [] :: prompt (dev e) reply :: rest ->
  StdId reply = Node_ID e + 0x580 ->
  t = 0 \/ (0 <= cnt < t /\ t < 2 ^ 32) ->
  exists w' e',
    waitForTarget_body i t (cnt, status) w
    = Done (if target_reached (status_of reply) then inr 0
            else inl (if t =? 0 then cnt else cnt + 1, status_of reply)) w' /\
    at_rest i e' w' /\ Node_ID e' = Node_ID e /\ dev e' = dev e /\
    sched w' = rest /\ clock w' = clock w + 50.
Proof.
  intros Hrest Hs Hid Ht. unfold waitForTarget_body.
  assert (Hgo : negb (t =? 0)
                && ((if negb (t =? 0) then u32 (cnt + 1) else cnt) >? t)
                = false).
  { destruct Ht as [-> | [Hc Hb]]; [reflexivity |].
    apply andb_false_iff. right.
    replace (t =? 0) with false by (symmetry; apply Z.eqb_neq; lia).
    cbn [negb]. unfold u32. rewrite Z.mod_small by lia. lia. }
  rewrite Hgo. run. rewrite (HAL_Delay_idle _ _ _ _ Hs).
  set (w1 := set_clock _ _).
  assert (Hrest1 : at_rest i e w1) by exact Hrest.
  destruct (readStatusword_prompt i status e w1 reply rest Hrest1 eq_refl Hid)
    as (w2 & e2 & Hrun & Hrest2 & Hn & Hd & Hsc & Hc & _).
  rewrite Hrun. fold (target_reached (status_of reply)).
  exists w2, e2.
  split.
  { destruct (target_reached (status_of reply)); cbn [negb]; [reflexivity |].
    destruct Ht as [-> | [Hc' Hb]]; [reflexivity |].
    replace (t =? 0) with false by (symmetry; apply Z.eqb_neq; lia).
    cbn [negb]. unfold u32. rewrite Z.mod_small by lia. reflexivity. }
  split; [exact Hrest2 |]. repeat split; assumption.
Qed.

(** [k] polls find the target not reached and use up the budget: the
    call gives up with 1 after [k] delays of 50 ms. *)
Lemma waitForTarget_loop_timeout (i : nat) (t : Z) (reply : CanMsg)
    (rest : list hal_call) :
  0 < t < 2 ^ 32 - 1 -> target_reached (status_of reply) = false ->
  forall (k : nat) (cnt status : Z) (e : epos_t) (w : world),
    0 <= cnt -> cnt + Z.of_nat k = t ->
    at_rest i e w -> StdId reply = Node_ID e + 0x580 ->
    sched w = polls (dev e) k reply ++ rest ->
    exists w',
      loop (waitForTarget_body i t) (cnt, status) w = Done 1 w' /\
      clock w' = clock w + 50 * Z.of_nat k /\ sched w' = rest.
Proof.
  intros Ht Hbusy.
  induction k as [| k IH]; intros cnt status e w Hc Hk Hrest Hid Hs.
  - exists w. split; [| split; [lia | exact Hs]].
    apply loop_exit. unfold waitForTarget_body.
    replace (t =? 0) with false by (symmetry; apply Z.eqb_neq; lia).
    cbn [negb andb]. unfold u32. rewrite Z.mod_small by lia.
    replace (cnt + 1 >? t) with true by (symmetry; lia). reflexivity.
  - cbn [polls app] in Hs.
    destruct (waitForTarget_body_poll i t cnt status e w reply
                (polls (dev e) k reply ++ rest) Hrest Hs Hid)
      as (w1 & e1 & Hrun & Hrest1 & Hn1 & Hd1 & Hs1 & Hc1); [right; lia |].
    rewrite Hbusy in Hrun.
    replace (t =? 0) with false in Hrun by (symmetry; apply Z.eqb_neq; lia).
    rewrite (loop_unroll _ _ _ _ _ (waitForTarget_body_turns i t) Hrun).
    destruct (IH (cnt + 1) (status_of reply) e1 w1) as (w' & Hloop & Hclk & Hsc);
      [lia | lia | exact Hrest1 | congruence | rewrite Hd1; exact Hs1 |].
    exists w'. split; [exact Hloop |]. split; [| exact Hsc].
    rewrite Hclk, Hc1. lia.
Qed.

(** The timeout of [waitForTarget] counts polls: with the target not
    reached it returns 1 after [t] polls, 50 * t milliseconds of delay. *)
Lemma waitForTarget_times_out (i : nat) (t : Z) (e : epos_t) (w : world)
    (reply : CanMsg) (rest : list hal_call) :
  0 < t < 2 ^ 32 - 1 -> target_reached (status_of reply) = false ->
  at_rest i e w -> StdId reply = Node_ID e + 0x580 ->
  sched w = polls (dev e) (Z.to_nat t) reply ++ rest ->
  exists w',
    waitForTarget i t w = Done 1 w' /\
    clock w' = clock w + 50 * t /\ sched w' = rest.
Proof.
  intros Ht Hbusy Hrest Hid Hs.
  unfold waitForTarget. rewrite (proj1 Hrest). run.
  destruct (waitForTarget_loop_timeout i t reply rest Ht Hbusy
              (Z.to_nat t) 0 (uninit w) e w)
    as (w' & Hloop & Hclk & Hsc); try assumption; try lia.
  exists w'. split; [exact Hloop |]. split; [| exact Hsc].
  rewrite Hclk. lia.
Qed.

(** Before the budget is used up, or without a budget ([t = 0]), the
    call returns 0 at the first poll that finds the target reached. *)
Lemma waitForTarget_loop_reached (i : nat) (t : Z) (busy reached : CanMsg)
    (rest : list hal_call) :
  target_reached (status_of busy) = false ->
  target_reached (status_of reached) = true ->
  forall (k : nat) (cnt status : Z) (e : epos_t) (w : world),
    t = 0 \/ (0 <= cnt /\ cnt + Z.of_nat k < t /\ t < 2 ^ 32) ->
    at_rest i e w ->
    StdId busy = Node_ID e + 0x580 -> StdId reached = Node_ID e + 0x580 ->
    sched w = polls (dev e) k busy ++ polls (dev e) 1 reached ++ rest ->
    exists w',
      loop (waitForTarget_body i t) (cnt, status) w = Done 0 w' /\
      clock w' = clock w + 50 * (Z.of_nat k + 1) /\ sched w' = rest.
Proof.
  intros Hbusy Hreached.
  induction k as [| k IH]; intros cnt status e w Ht Hrest Hidb Hidr Hs.
  - cbn [polls app] in Hs.
    destruct (waitForTarget_body_poll i t cnt status e w reached rest
                Hrest Hs Hidr)
      as (w1 & e1 & Hrun & _ & _ & _ & Hs1 & Hc1); [lia |].
    rewrite Hreached in Hrun.
    exists w1. split; [apply loop_exit, Hrun |]. split; [lia | exact Hs1].
  - cbn [polls app] in Hs.
    destruct (waitForTarget_body_poll i t cnt status e w busy
                (polls (dev e) k busy ++ polls (dev e) 1 reached ++ rest)
                Hrest Hs Hidb)
      as (w1 & e1 & Hrun & Hrest1 & Hn1 & Hd1 & Hs1 & Hc1); [lia |].
    rewrite Hbusy in Hrun.
    rewrite (loop_unroll _ _ _ _ _ (waitForTarget_body_turns i t) Hrun).
    destruct (IH (if t =? 0 then cnt else cnt + 1) (status_of busy) e1 w1)
      as (w' & Hloop & Hclk & Hsc);
      [destruct Ht as [-> | Ht]; [left; reflexivity | right];
       replace (t =? 0) with false by (symmetry; apply Z.eqb_neq; lia); lia
      | exact Hrest1 | congruence | congruence | rewrite Hd1; exact Hs1 |].
    exists w'. split; [exact Hloop |]. split; [| exact Hsc].
    rewrite Hclk, Hc1. lia.
Qed.

(** ** The dispatcher and the device array *)

Lemma readStatusword_dictionary_read (i : nat) (status : Z) :
  readStatusword i status = dictionary_read i 0x6041 0x00 low_word status.
Proof. reflexivity. Qed.

(** The [while] loop comes to its end whenever the buffer index is within
    the buffer, whatever the devices. *)
Lemma while_total (p : nat) :
  forall w : world,
    (p <= length (CANMsgBuf w))%nat ->
    exists w',
      processCANMsg_while p w = Done tt w' /\
      pCANMsg w' = match p with O => pCANMsg w | S _ => O end /\
      CANMsgBuf w' = CANMsgBuf w.
Proof.
  induction p as [| p IH]; intros w Hlen.
  - exists w. repeat split.
  - cbn [processCANMsg_while].
    destruct (CANMsgBuf w !! p) as [m |] eqn:Em;
      [| apply lookup_ge_None in Em; lia].
    run.
    set (w1 := set_pCANMsg p (processCANMsg_route m w)).
    destruct (route_outside m w) as [Hout _].
    assert (Hbuf : CANMsgBuf w1 = CANMsgBuf w).
    { unfold outside_dispatch in Hout. cbn. congruence. }
    destruct (IH w1) as (w' & Hrun & Hp & Hb); [rewrite Hbuf; lia |].
    exists w'. split; [exact Hrun |]. split; [| congruence].
    destruct p; [exact Hp | exact Hp].
Qed.

Lemma devices_null (ds ds' : list (option epos_t)) (j : nat) :
  Forall2 (option_Forall2 same_identity) ds ds' ->
  ds !! j = Some None <-> ds' !! j = Some None.
Proof.
  intros H. split; intros Hj.
  - destruct (Forall2_lookup_l _ _ _ _ _ H Hj) as (d & Hd & Hrel).
    inversion Hrel; subst. exact Hd.
  - destruct (Forall2_lookup_r _ _ _ _ _ H Hj) as (d & Hd & Hrel).
    inversion Hrel; subst. exact Hd.
Qed.

Lemma pdo_for_null (ds : list (option epos_t)) :
  forall j, ds !! j = Some None -> snd (processPDOMessage_for ds) = false.
Proof.
  induction ds as [| d ds IH]; intros j Hj; [discriminate |].
  destruct d as [e |]; [| reflexivity].
  destruct j as [| j]; [discriminate |].
  cbn [processPDOMessage_for]. specialize (IH j Hj).
  destruct (processPDOMessage_for ds) as [r ok]. exact IH.
Qed.

Lemma processCANMsg_null (w : world) (j : nat) :
  (pCANMsg w <= length (CANMsgBuf w))%nat ->
  epos w !! j = Some None ->
  exists w', processCANMsg w = Fault w' /\ pCANMsg w' = O.
Proof.
  intros Hlen Hj.
  destruct (while_total (pCANMsg w) w Hlen) as (w1 & Hrun & Hp & _).
  pose proof (while_quiet (pCANMsg w) w) as Hq. rewrite Hrun in Hq.
  cbn [final] in Hq. destruct Hq as (Hds & _).
  apply (devices_null _ _ j Hds) in Hj.
  unfold processCANMsg. run. rewrite Hrun.
  unfold processPDOMessage.
  pose proof (pdo_for_null _ _ Hj) as Hf.
  destruct (processPDOMessage_for (epos w1)) as [ds ok]. cbn in Hf. subst ok.
  eexists. split; [reflexivity |]. cbn. rewrite Hp.
  destruct (pCANMsg w); reflexivity.
Qed.

Lemma processCANMsg_open (w : world) :
  (pCANMsg w <= length (CANMsgBuf w))%nat ->
  all_open (epos w) ->
  exists w', processCANMsg w = Done 1 w' /\ pCANMsg w' = O.
Proof.
  intros Hlen Hopen.
  destruct (while_total (pCANMsg w) w Hlen) as (w1 & Hrun & Hp & _).
  pose proof (while_quiet (pCANMsg w) w) as Hq. rewrite Hrun in Hq.
  cbn [final] in Hq. destruct Hq as (Hds & _).
  assert (Hopen1 : all_open (epos w1)).
  { intros j Hj. apply (devices_null _ _ j Hds) in Hj. exact (Hopen j Hj). }
  unfold processCANMsg. run. rewrite Hrun.
  unfold processPDOMessage. rewrite (processPDOMessage_for_open _ Hopen1).
  eexists. split; [reflexivity |]. cbn. rewrite Hp.
  destruct (pCANMsg w); reflexivity.
Qed.

(** ** The dispatcher as a whole *)

Lemma body_settled (e : epos_t) :
  PDO3RcvFlag e = false -> PDO4RcvFlag e = false ->
  processPDOMessage_body e = e.
Proof.
  intros H3 H4. unfold processPDOMessage_body. rewrite H3, H4. reflexivity.
Qed.

Lemma body_flags (e : epos_t) :
  PDO3RcvFlag (processPDOMessage_body e) = false /\
  PDO4RcvFlag (processPDOMessage_body e) = false.
Proof.
  unfold processPDOMessage_body.
  destruct (PDO3RcvFlag e) eqn:E3; cbn;
    destruct (PDO4RcvFlag e) eqn:E4; cbn; auto.
Qed.

Lemma settled_fmap (ds : list (option epos_t)) :
  settled ds -> option_map processPDOMessage_body <$> ds = ds.
Proof.
  intros H. apply list_eq. intros j. rewrite list_lookup_fmap.
  destruct (ds !! j) as [[e |] |] eqn:E; cbn; [| reflexivity ..].
  destruct (H j e E) as [H3 H4]. rewrite (body_settled e H3 H4). reflexivity.
Qed.

Lemma settled_after (ds : list (option epos_t)) :
  settled (option_map processPDOMessage_body <$> ds).
Proof.
  intros j e. rewrite list_lookup_fmap.
  destruct (ds !! j) as [[e0 |] |]; cbn; intros [= <-]. apply body_flags.
Qed.

(** Without NULL entries the [for] loop prints nothing. *)
Lemma for_silent (m : CanMsg) (ds : list (option epos_t)) :
  all_open ds -> forall k, fst (processCANMsg_for m k ds) = [].
Proof.
  induction ds as [| d ds IH]; intros Hopen k; [reflexivity |].
  destruct d as [e |]; [| destruct (Hopen O); reflexivity].
  assert (Hopen' : all_open ds) by (intros j; apply (Hopen (S j))).
  cbn. destruct (processCANMsg_claim m e); [reflexivity |].
  specialize (IH Hopen' (S k)).
  destruct (processCANMsg_for m (S k) ds). exact IH.
Qed.

(** What the decode pass makes of a device that has just been given
    frame [m] on channel [c]. *)
Lemma delivered_decoded (c : channel) (m : CanMsg) (e : epos_t) :
  PDO3RcvFlag e = false -> PDO4RcvFlag e = false ->
  let e' := processPDOMessage_body (deliver c m e) in
  slot c e' = received c m /\
  available c e' = negb (decoded c) /\
  RxPosition e'
  = match c with PDO3 => le32_at m 2 | _ => RxPosition e end /\
  RxVelocity e'
  = match c with PDO4 => le32_at m 2 | _ => RxVelocity e end /\
  forall c', c' <> c ->
    slot c' e' = slot c' e /\ available c' e' = available c' e.
Proof.
  intros H3 H4 e'. subst e'.
  destruct c; unfold processPDOMessage_body; cbn; rewrite ?H3, ?H4; cbn;
    rewrite ?H3, ?H4; cbn;
    (split; [reflexivity |]); (split; [reflexivity |]);
    (split; [reflexivity |]); (split; [reflexivity |]);
    intros c' Hc'; destruct c'; cbn; first [congruence | auto].
Qed.

(** C3.  [processCANMsg] on the frame [m] that the receive callback has
    just buffered, over a device array without NULL entries on which no
    channel-3 or channel-4 frame is waiting to be decoded.  The routing
    loop ends in [w1], the decode pass of [processPDOMessage] takes [w1]
    to [w'], and [processCANMsg] returns 1 in [w'] with the buffer empty
    again and the PDO flags of every device clear.
    - A frame whose identifier is the node id of device [i] plus the
      offset of channel [c] (0x80 error, 0x180/0x280/0x380/0x480 PDO1..4,
      0x580 SDO), [i] being the first device that matches, changes the
      device array at index [i] alone.  When the routing loop ends the
      slot of [c] holds the frame and its available flag is set.  When
      [processCANMsg] returns the slot still holds the frame; the flag
      is still set for the error, PDO1, PDO2 and SDO channels, and for
      PDO3 and PDO4 the decode pass has consumed it and put the decoded
      value into the cached position or velocity.  The other slots,
      flags and cached values are as before and nothing is printed.
    - With distinct node ids in 1..127 a frame matches one device on one
      channel at most, so the device that matches is the first.
    - A frame with identifier node + 0x580 is in [SDOMsg] with
      [SDORcvFlag] set when [processCANMsg] returns, and the PDO slots,
      PDO flags and cached values of every device are as they were.
    - A frame that no device matches is reported with
      [MessageCannotBeProcessed] and dropped: the buffer is empty and
      the device array is as it was. *)
Theorem dispatcher_routes_by_offset (m : CanMsg) (w : world) :
  all_open (epos w) -> settled (epos w) ->
  pCANMsg w = 1%nat -> CANMsgBuf w !! O = Some m ->
  exists w1 w',
    processCANMsg_while 1 w = Done tt w1 /\
    processPDOMessage w1 = Done 1 w' /\
    processCANMsg w = Done 1 w' /\
    pCANMsg w' = O /\ outside_dispatch w' = outside_dispatch w /\
    settled (epos w') /\
    (forall i e c,
       epos w !! i = Some (Some e) -> StdId m = Node_ID e + cob_offset c ->
       (forall j e0 c0, (j < i)%nat -> epos w !! j = Some (Some e0) ->
          StdId m <> Node_ID e0 + cob_offset c0) ->
       epos w1 = <[i := Some (deliver c m e)]> (epos w) /\
       slot c (deliver c m e) = received c m /\
       available c (deliver c m e) = true /\
       epos w'
       = <[i := Some (processPDOMessage_body (deliver c m e))]> (epos w) /\
       rtt w' = rtt w /\
       let e' := processPDOMessage_body (deliver c m e) in
       slot c e' = received c m /\
       available c e' = negb (decoded c) /\
       RxPosition e'
       = match c with PDO3 => le32_at m 2 | _ => RxPosition e end /\
       RxVelocity e'
       = match c with PDO4 => le32_at m 2 | _ => RxVelocity e end /\
       forall c', c' <> c ->
         slot c' e' = slot c' e /\ available c' e' = available c' e) /\
    (nodes_ok (epos w) ->
     forall i e c j e0 c0,
       epos w !! i = Some (Some e) -> StdId m = Node_ID e + cob_offset c ->
       epos w !! j = Some (Some e0) -> StdId m = Node_ID e0 + cob_offset c0 ->
       j = i /\ c0 = c) /\
    (nodes_ok (epos w) ->
     forall i e,
       epos w !! i = Some (Some e) -> StdId m = Node_ID e + 0x580 ->
       exists e',
         epos w' !! i = Some (Some e') /\
         SDOMsg e' = m /\ SDORcvFlag e' = true /\
         forall j e0, epos w !! j = Some (Some e0) ->
           exists e1,
             epos w' !! j = Some (Some e1) /\
             RxPosition e1 = RxPosition e0 /\
             RxVelocity e1 = RxVelocity e0 /\
             forall c, c <> SDO ->
               slot c e1 = slot c e0 /\ available c e1 = available c e0) /\
    ((forall i e c, epos w !! i = Some (Some e) ->
        StdId m <> Node_ID e + cob_offset c) ->
     epos w1 = epos w /\ epos w' = epos w /\
     rtt w' = rtt w ++ [MessageCannotBeProcessed (StdId m)]).
Proof.
  intros Hopen Hset Hp Hbuf.
  set (w1 := set_pCANMsg O (processCANMsg_route m w)).
  set (w' := set_epos (option_map processPDOMessage_body <$> epos w1) w1).
  assert (Hloop : processCANMsg_while 1 w = Done tt w1).
  { cbn [processCANMsg_while]. rewrite Hbuf. reflexivity. }
  assert (Hopen1 : all_open (epos w1)).
  { intros j Hj. destruct (route_quiet m w) as (Hds & _).
    apply (devices_null _ _ j Hds) in Hj. exact (Hopen j Hj). }
  assert (Hpass : processPDOMessage w1 = Done 1 w').
  { unfold processPDOMessage.
    rewrite (processPDOMessage_for_open _ Hopen1). reflexivity. }
  assert (Hrun : processCANMsg w = Done 1 w').
  { unfold processCANMsg. run. rewrite Hp, Hloop, Hpass. reflexivity. }
  assert (Hrtt : rtt w'
                 = rtt w ++ match snd (processCANMsg_for m 0 (epos w)) with
                            | Some _ => []
                            | None => [MessageCannotBeProcessed (StdId m)]
                            end).
  { change (rtt w') with (rtt (processCANMsg_route m w)).
    rewrite route_rtt, (for_silent m (epos w) Hopen 0). reflexivity. }
  assert (Hclaim : forall i e c,
    epos w !! i = Some (Some e) -> StdId m = Node_ID e + cob_offset c ->
    (forall j e0 c0, (j < i)%nat -> epos w !! j = Some (Some e0) ->
       StdId m <> Node_ID e0 + cob_offset c0) ->
    epos w1 = <[i := Some (deliver c m e)]> (epos w) /\
    epos w'
    = <[i := Some (processPDOMessage_body (deliver c m e))]> (epos w) /\
    rtt w' = rtt w).
  { intros i e c Hi Hc Hfirst.
    destruct (route_first_match m w i e c Hi Hc Hfirst) as [Heq _].
    change (epos (processCANMsg_route m w)) with (epos w1) in Heq.
    split; [exact Heq |]. split.
    - change (epos w') with (option_map processPDOMessage_body <$> epos w1).
      rewrite Heq, list_fmap_insert, (settled_fmap _ Hset). reflexivity.
    - rewrite Hrtt.
      assert (H : snd (processCANMsg_for m 0 (epos w))
                  = Some (<[i := Some (deliver c m e)]> (epos w))).
      { eapply for_first_match; eauto using claim_deliver.
        intros j e0 Hj Hl. apply claim_None. intros c0. eauto. }
      rewrite H. apply app_nil_r. }
  exists w1, w'.
  split; [exact Hloop |]. split; [exact Hpass |]. split; [exact Hrun |].
  split; [reflexivity |].
  split; [exact (proj1 (route_outside m w)) |].
  split; [apply settled_after |].
  split; [| split; [| split]].
  - intros i e c Hi Hc Hfirst.
    destruct (Hclaim i e c Hi Hc Hfirst) as (H1 & H' & Hr).
    destruct (Hset i e Hi) as [H3 H4].
    destruct (deliver_slot c m e) as (Hs & Ha & _).
    split; [exact H1 |]. split; [exact Hs |]. split; [exact Ha |].
    split; [exact H' |]. split; [exact Hr |].
    exact (delivered_decoded c m e H3 H4).
  - intros Hok i e c j e0 c0 Hi Hc Hj Hc0.
    destruct (match_unique _ _ _ _ _ _ _ _ Hok Hi Hj Hc Hc0) as [-> ->].
    split; reflexivity.
  - intros Hok i e Hi Hc.
    change 0x580 with (cob_offset SDO) in Hc.
    assert (Hfirst : forall j e0 c0, (j < i)%nat ->
              epos w !! j = Some (Some e0) ->
              StdId m <> Node_ID e0 + cob_offset c0).
    { intros j e0 c0 Hlt Hj Hc0.
      destruct (match_unique _ _ _ _ _ _ _ _ Hok Hi Hj Hc Hc0). lia. }
    destruct (Hclaim i e SDO Hi Hc Hfirst) as (_ & H' & _).
    destruct (Hset i e Hi) as [H3 H4].
    destruct (delivered_decoded SDO m e H3 H4)
      as (Hslot & Hflag & Hpos & Hvel & Hothers).
    cbn [slot received] in Hslot. injection Hslot as Hslot.
    cbn [available decoded negb] in Hflag.
    assert (Hlen : (i < length (epos w))%nat) by (eapply lookup_lt_Some; eauto).
    exists (processPDOMessage_body (deliver SDO m e)). rewrite H'.
    split; [apply list_lookup_insert_eq, Hlen |].
    split; [exact Hslot |]. split; [exact Hflag |].
    intros j e0 Hj. destruct (decide (i = j)) as [<- | Hne].
    + exists (processPDOMessage_body (deliver SDO m e)).
      split; [apply list_lookup_insert_eq, Hlen |].
      assert (e0 = e) as -> by congruence.
      split; [exact Hpos |]. split; [exact Hvel | exact Hothers].
    + exists e0. rewrite list_lookup_insert_ne by exact Hne. auto.
  - intros Hnone.
    destruct (route_unclaimed m w Hnone) as [Heq _].
    change (epos (processCANMsg_route m w)) with (epos w1) in Heq.
    split; [exact Heq |]. split.
    + change (epos w') with (option_map processPDOMessage_body <$> epos w1).
      rewrite Heq. apply settled_fmap, Hset.
    + rewrite Hrtt.
      assert (H : snd (processCANMsg_for m 0 (epos w)) = None).
      { apply for_no_match. intros j e0 Hl. apply claim_None. eauto. }
      rewrite H. reflexivity.
Qed.

(** C3, two instances on a bus with nodes 1 and 2: the frame 0x582 is in
    the SDO slot of the second device with its flag set, and the frame
    0x382 with position 7 is in its PDO3 slot, decoded, the flag
    consumed. *)
Lemma dispatcher_routes_by_offset_witness :
  let ds := [Some (fresh 1); Some (fresh 2)] in
  let sdo := frame 0x582 [0x4B; 0x41; 0x60; 0; 0x37; 0x02; 0; 0] in
  let pdo := position_frame 2 7 in
  (exists w',
     processCANMsg (just_received ds sdo) = Done 1 w' /\
     pCANMsg w' = O /\
     epos w' = [Some (fresh 1); Some (deliver SDO sdo (fresh 2))]) /\
  (exists w',
     processCANMsg (just_received ds pdo) = Done 1 w' /\
     pCANMsg w' = O /\
     epos w'
     = [Some (fresh 1);
        Some (set_RxPosition 7 (set_PDO3Msg pdo (fresh 2)))]).
Proof.
  intros ds sdo pdo.
  assert (Hopen : all_open ds) by concrete_bus.
  assert (Hset : settled ds).
  { intros [| [| j]] e; cbn; intros [= <-]; split; reflexivity. }
  assert (Hfirst : forall m c, StdId m = 2 + cob_offset c ->
            forall j e0 c0, (j < 1)%nat -> ds !! j = Some (Some e0) ->
              StdId m <> Node_ID e0 + cob_offset c0).
  { intros m c Hc [| j] e0 c0 Hlt; [| lia]. cbn. intros [= <-].
    rewrite Hc. destruct c, c0; cbn; lia. }
  split.
  - destruct (dispatcher_routes_by_offset sdo (just_received ds sdo)
                Hopen Hset eq_refl eq_refl)
      as (w1 & w' & _ & _ & Hrun & Hp & _ & _ & Hclaim & _).
    destruct (Hclaim 1%nat (fresh 2) SDO eq_refl eq_refl
                (Hfirst sdo SDO eq_refl))
      as (_ & _ & _ & Hep & _).
    exists w'. split; [exact Hrun |]. split; [exact Hp | exact Hep].
  - destruct (dispatcher_routes_by_offset pdo (just_received ds pdo)
                Hopen Hset eq_refl eq_refl)
      as (w1 & w' & _ & _ & Hrun & Hp & _ & _ & Hclaim & _).
    destruct (Hclaim 1%nat (fresh 2) PDO3 eq_refl eq_refl
                (Hfirst pdo PDO3 eq_refl))
      as (_ & _ & _ & Hep & _).
    exists w'. split; [exact Hrun |]. split; [exact Hp | exact Hep].
Defined.

(** X1.  The dispatcher guards its routing loop against NULL entries of
    the device array but not the decode pass that follows: with the
    buffer index within the buffer, [processCANMsg] returns 1 when every
    slot holds a device, and ends in an invalid access, the buffer
    emptied, as soon as one slot is NULL.  The receive interrupt, which
    calls it, then faults on every frame. *)
Theorem dispatcher_needs_every_slot_open (w : world) :
  (pCANMsg w <= length (CANMsgBuf w))%nat ->
  (all_open (epos w) ->
   exists w', processCANMsg w = Done 1 w' /\ pCANMsg w' = O) /\
  (forall j, epos w !! j = Some None ->
     (exists w', processCANMsg w = Fault w' /\ pCANMsg w' = O) /\
     forall h hc e m,
       hcan w !! h = Some hc -> deref (pRxMsg hc) w = Some e ->
       (pCANMsg w < length (CANMsgBuf w))%nat ->
       exists w', serve_irq (RxCplt h m) w = Fault w').
Proof.
  intros Hlen. split; [apply (processCANMsg_open w Hlen) |].
  intros j Hj. split; [apply (processCANMsg_null w j Hlen Hj) |].
  intros h hc e m Hh He Hlt.
  cbn [serve_irq]. rewrite Hh, He.
  unfold mbind at 1, M_bind at 1, assign at 1, modify at 1.
  set (w1 := set_epos _ w).
  assert (Hhc : pRxMsg hc <> j).
  { intros Heq. rewrite Heq in He. apply deref_lookup in He. congruence. }
  assert (Hj1 : epos w1 !! j = Some None).
  { cbn. rewrite list_lookup_insert_ne by exact Hhc. exact Hj. }
  assert (He1 : deref (pRxMsg hc) w1 = Some (set_RxMessage m e))
    by exact (deref_assign w _ e _ He).
  unfold HAL_CAN_RxCpltCallback.
  change (hcan w1) with (hcan w). rewrite Hh, He1.
  change (pCANMsg w1) with (pCANMsg w).
  change (CANMsgBuf w1) with (CANMsgBuf w).
  destruct (decide _) as [_ | Hno]; [| contradiction].
  run.
  set (w4 := set_CAN_RxReady true _).
  destruct (processCANMsg_null w4 j) as (w5 & Hrun & _).
  - cbn. rewrite length_insert. lia.
  - exact Hj1.
  - rewrite Hrun. eauto.
Qed.

Lemma dispatcher_needs_every_slot_open_witness :
  let w := bench [Some (fresh 1); None] [] in
  exists w',
    serve_irq (RxCplt 0 (position_frame 1 7)) w = Fault w'.
Proof.
  intros w.
  assert (Hlen : (pCANMsg w <= length (CANMsgBuf w))%nat) by (cbn; lia).
  destruct (dispatcher_needs_every_slot_open w Hlen) as [_ H].
  destruct (H 1%nat eq_refl) as [_ H1].
  apply (H1 O (mkHandle 0 0) (fresh 1)); [reflexivity | reflexivity |].
  cbn. lia.
Defined.

(** ** One frame per interrupt *)

Lemma absorb_identity (e : epos_t) (m : CanMsg) :
  same_identity e (absorb e m).
Proof.
  unfold absorb.
  eapply same_identity_trans; [| apply body_identity].
  destruct (route1_cases m (set_RxMessage m e)) as [(c & _ & ->) | [_ ->]];
    [destruct c |]; repeat split.
Qed.

(** A receive interrupt at rest: the frame goes through slot 0 of the
    buffer and the buffer is empty again when the handler returns. *)
Lemma serve_frame (i : nat) (e : epos_t) (w : world) (m : CanMsg) :
  at_rest i e w ->
  exists w',
    serve_irq (RxCplt (dev e) m) w = Done tt w' /\
    at_rest i (absorb e m) w' /\
    CANMsgBuf w' = <[O := m]> (CANMsgBuf w) /\
    CAN_RxReady w' = true /\
    SDOBusy w' = SDOBusy w /\ CAN_TxReady w' = CAN_TxReady w /\
    isPDO w' = isPDO w /\
    sched w' = sched w /\ clock w' = clock w /\ wire w' = wire w /\
    uninit w' = uninit w.
Proof.
  intros Hrest.
  pose proof Hrest as (Hi & Hok & Hopen & Hp & Hlen & Hh).
  cbn [serve_irq]. rewrite Hh. cbn [pRxMsg]. rewrite Hi.
  unfold mbind at 1, M_bind at 1, assign at 1, modify at 1.
  set (e1 := set_RxMessage m e).
  set (w1 := set_epos _ w).
  assert (Hrest1 : at_rest i e1 w1)
    by (apply (at_rest_assign i e e1 w Hrest); reflexivity).
  pose proof Hrest1 as (Hi1 & Hok1 & Hopen1 & Hp1 & Hlen1 & Hh1).
  unfold HAL_CAN_RxCpltCallback.
  change (hcan w1) with (hcan w). rewrite Hh. cbn [pRxMsg]. rewrite Hi1.
  destruct (decide _) as [_ | Hno]; [| rewrite Hp1 in Hno; lia].
  run.
  set (w4 := set_CAN_RxReady true _).
  assert (Hbuf4 : CANMsgBuf w4 = <[O := m]> (CANMsgBuf w)).
  { cbn. rewrite Hp. reflexivity. }
  assert (Hp4 : pCANMsg w4 = 1%nat) by (cbn; rewrite Hp; reflexivity).
  destruct (processCANMsg_spec w4) as (w5 & Hrun & Hep & Hout & Hp5);
    [exact Hok1 | exact Hopen1
    | rewrite Hp4, Hbuf4, length_insert; lia |].
  rewrite Hrun.
  assert (Hbatch : take (pCANMsg w4) (CANMsgBuf w4) = [m]).
  { rewrite Hp4, Hbuf4.
    destruct (CANMsgBuf w) as [| b0 bs]; [cbn in Hlen; lia |]. reflexivity. }
  rewrite Hbatch in Hep.
  assert (Hi5 : deref i w5 = Some (absorb e m)).
  { apply deref_lookup. rewrite Hep, list_lookup_fmap.
    apply deref_lookup in Hi1. change (epos w4) with (epos w1).
    rewrite Hi1. reflexivity. }
  unfold outside_dispatch in Hout.
  injection Hout as Hh5 Ho2 Ho3 Ho4 Ho5 Hb5 Ho7 Ho8 Ho9 Ho10.
  change (hcan w4) with (hcan w) in Hh5.
  exists w5. split; [reflexivity |].
  destruct (absorb_identity e m) as (Hd & Hn & _ & _).
  split.
  { split; [exact Hi5 |].
    split; [rewrite Hep;
            apply nodes_ok_fmap;
            [intros x; destruct (body_identity (settle [m] x)) as (_ & -> & _);
             apply settle_Node_ID | exact Hok1] |].
    split; [rewrite Hep; apply all_open_fmap, Hopen1 |].
    split; [exact Hp5 |].
    split; [rewrite Hb5; cbn; rewrite length_insert; exact Hlen |].
    rewrite Hh5, Hd. exact Hh. }
  split; [rewrite Hb5; cbn; rewrite Hp; reflexivity |].
  repeat split; assumption.
Qed.

Lemma serve_frames (i : nat) (ms : list CanMsg) :
  forall (e : epos_t) (w : world),
    at_rest i e w ->
    exists w',
      serve (RxCplt (dev e) <$> ms) w = Done tt w' /\
      at_rest i (foldl absorb e ms) w' /\
      length (CANMsgBuf w') = length (CANMsgBuf w) /\
      drop 1 (CANMsgBuf w') = drop 1 (CANMsgBuf w) /\
      sched w' = sched w /\ clock w' = clock w /\ wire w' = wire w.
Proof.
  induction ms as [| m ms IH]; intros e w Hrest.
  - exists w. split; [reflexivity |]. split; [exact Hrest |]. repeat split.
  - destruct (serve_frame i e w m Hrest)
      as (w1 & Hrun & Hrest1 & Hb1 & _ & _ & _ & _ & Hs1 & Hc1 & Hw1 & _).
    destruct (absorb_identity e m) as (Hd & _).
    destruct (IH (absorb e m) w1 Hrest1)
      as (w2 & Hrun2 & Hrest2 & Hl2 & Hb2 & Hs2 & Hc2 & Hw2).
    rewrite Hd in Hrun2.
    exists w2. cbn [fmap list_fmap serve foldl].
    unfold mbind, M_bind. rewrite Hrun.
    split; [exact Hrun2 |]. split; [exact Hrest2 |].
    rewrite Hb1 in Hl2, Hb2. rewrite length_insert in Hl2.
    split; [exact Hl2 |].
    split; [rewrite Hb2; destruct (CANMsgBuf w); reflexivity |].
    repeat split; congruence.
Qed.

(** X2.  The receive interrupt empties the buffer before it returns, so
    with interrupts served one after the other the sixteen-entry buffer
    never holds more than one frame: any number of frames goes through
    slot 0, the other slots are never written, and the buffer index is
    back at 0 after each. *)
Theorem receive_buffer_holds_one_frame (i : nat) (e : epos_t) (w : world)
    (ms : list CanMsg) :
  at_rest i e w ->
  exists w',
    serve (RxCplt (dev e) <$> ms) w = Done tt w' /\
    pCANMsg w' = O /\
    length (CANMsgBuf w') = length (CANMsgBuf w) /\
    drop 1 (CANMsgBuf w') = drop 1 (CANMsgBuf w) /\
    at_rest i (foldl absorb e ms) w'.
Proof.
  intros Hrest.
  destruct (serve_frames i ms e w Hrest)
    as (w' & Hrun & Hrest' & Hl & Hb & _).
  exists w'. split; [exact Hrun |].
  split; [exact (proj1 (proj2 (proj2 (proj2 Hrest')))) |].
  split; [exact Hl |]. split; [exact Hb | exact Hrest'].
Qed.

Lemma receive_buffer_holds_one_frame_witness :
  let w := bench [Some (fresh 1)] [] in
  exists w',
    serve (RxCplt 0 <$> replicate 40 (position_frame 1 7)) w = Done tt w' /\
    pCANMsg w' = O.
Proof.
  intros w.
  destruct (receive_buffer_holds_one_frame 0 (fresh 1) w
              (replicate 40 (position_frame 1 7)) (at_rest_bench []))
    as (w' & Hrun & Hp & _).
  exists w'. split; [exact Hrun | exact Hp].
Defined.

Lemma absorb_cache (e : epos_t) (m : CanMsg) :
  PDO3RcvFlag e = false -> PDO4RcvFlag e = false ->
  Node_ID (absorb e m) = Node_ID e /\
  PDO3RcvFlag (absorb e m) = false /\ PDO4RcvFlag (absorb e m) = false /\
  RxPosition (absorb e m)
  = (if StdId m =? Node_ID e + cob_offset PDO3 then le32_at m 2
     else RxPosition e) /\
  RxVelocity (absorb e m)
  = (if StdId m =? Node_ID e + cob_offset PDO4 then le32_at m 2
     else RxVelocity e).
Proof.
  intros H3 H4. unfold absorb.
  destruct (route1_cases m (set_RxMessage m e)) as [(c & Hc & ->) | [Hno ->]].
  - cbn [Node_ID set_RxMessage] in Hc. rewrite Hc.
    destruct c; unfold processPDOMessage_body; cbn; rewrite ?H3, ?H4; cbn;
      rewrite ?H3, ?H4; cbn;
      repeat match goal with
             | |- context [?a =? ?b] =>
                 first [ rewrite (Z.eqb_refl a)
                       | replace (a =? b) with false
                           by (symmetry; apply Z.eqb_neq; lia) ]
             end; repeat split; assumption.
  - cbn [Node_ID set_RxMessage] in Hno.
    unfold processPDOMessage_body; cbn; rewrite H3; cbn; rewrite H4; cbn.
    pose proof (Hno PDO3) as Hn3. apply Z.eqb_neq in Hn3.
    pose proof (Hno PDO4) as Hn4. apply Z.eqb_neq in Hn4.
    cbn [cob_offset] in Hn3, Hn4. rewrite Hn3, Hn4.
    repeat split; assumption.
Qed.

Lemma absorb_all_cache (ms : list CanMsg) (e : epos_t) :
  PDO3RcvFlag e = false -> PDO4RcvFlag e = false ->
  Node_ID (foldl absorb e ms) = Node_ID e /\
  PDO3RcvFlag (foldl absorb e ms) = false /\
  PDO4RcvFlag (foldl absorb e ms) = false /\
  RxPosition (foldl absorb e ms)
  = match latest PDO3 (Node_ID e) ms with
    | Some m => le32_at m 2
    | None => RxPosition e
    end /\
  RxVelocity (foldl absorb e ms)
  = match latest PDO4 (Node_ID e) ms with
    | Some m => le32_at m 2
    | None => RxVelocity e
    end.
Proof.
  intros H3 H4. induction ms as [| m ms IH] using rev_ind.
  - repeat split; assumption.
  - destruct IH as (Hn & Hf3 & Hf4 & Hp & Hv).
    rewrite foldl_app. cbn [foldl].
    destruct (absorb_cache (foldl absorb e ms) m Hf3 Hf4)
      as (Hn' & Hf3' & Hf4' & Hp' & Hv').
    unfold latest, earliest in *. rewrite rev_app_distr. cbn [rev app find].
    rewrite Hn in *.
    split; [exact Hn' |]. split; [exact Hf3' |]. split; [exact Hf4' |].
    split.
    + rewrite Hp'.
      destruct (StdId m =? Node_ID e + cob_offset PDO3);
        [reflexivity | exact Hp].
    + rewrite Hv'.
      destruct (StdId m =? Node_ID e + cob_offset PDO4);
        [reflexivity | exact Hv].
Qed.

(** X3.  Through the receive interrupt the telemetry cache is
    last-value-wins: after any sequence of frames, each delivered by its
    own interrupt, the cached position is the decode of the latest
    channel-3 frame of the node and the cached velocity that of the
    latest channel-4 frame, and both PDO flags are clear again. *)
Theorem interrupt_path_latest_value_wins (i : nat) (e : epos_t) (w : world)
    (ms : list CanMsg) :
  at_rest i e w -> PDO3RcvFlag e = false -> PDO4RcvFlag e = false ->
  exists w' e',
    serve (RxCplt (dev e) <$> ms) w = Done tt w' /\
    deref i w' = Some e' /\
    RxPosition e'
    = match latest PDO3 (Node_ID e) ms with
      | Some m => le32_at m 2
      | None => RxPosition e
      end /\
    RxVelocity e'
    = match latest PDO4 (Node_ID e) ms with
      | Some m => le32_at m 2
      | None => RxVelocity e
      end /\
    PDO3RcvFlag e' = false /\ PDO4RcvFlag e' = false.
Proof.
  intros Hrest H3 H4.
  destruct (serve_frames i ms e w Hrest) as (w' & Hrun & Hrest' & _).
  destruct (absorb_all_cache ms e H3 H4) as (_ & Hf3 & Hf4 & Hp & Hv).
  exists w', (foldl absorb e ms).
  split; [exact Hrun |]. split; [exact (proj1 Hrest') |].
  repeat split; assumption.
Qed.

Lemma interrupt_path_latest_value_wins_witness :
  let w := bench [Some (fresh 1)] [] in
  exists w' e',
    serve (RxCplt 0 <$> [position_frame 1 1; position_frame 1 2]) w
    = Done tt w' /\
    deref 0 w' = Some e' /\ RxPosition e' = 2.
Proof.
  intros w.
  destruct (interrupt_path_latest_value_wins 0 (fresh 1) w
              [position_frame 1 1; position_frame 1 2]
              (at_rest_bench []) eq_refl eq_refl)
    as (w' & e' & Hrun & Hd & Hp & _).
  exists w', e'. split; [exact Hrun |]. split; [exact Hd |].
  rewrite Hp. reflexivity.
Defined.

(** ** Opening devices *)

Lemma openEPOS_Done (h : nat) (ID : Z) (i : nat) (raw : epos_t) (w : world)
    (hc : CAN_HandleTypeDef) :
  hcan w !! h = Some hc -> (i < length (epos w))%nat ->
  openEPOS h ID (Some i) raw w
  = Done (Some i)
      (set_hcan (<[h := mkHandle i i]> (hcan w))
         (set_epos (<[i := Some (openEPOS_init h ID raw)]> (epos w)) w)).
Proof.
  intros Hh Hi. unfold openEPOS. rewrite Hh.
  destruct (decide _) as [_ | Hno]; [reflexivity | contradiction].
Qed.

(** X4.  [openEPOS] stores the handle and the node id, clears the five
    receive flags and aims the handle at the new device; it leaves the
    rest of the block as the allocator handed it out, the error flag and
    the last-error field included, so that [checkEPOSerror] on a device
    that has not yet made a transaction reports what was in the raw
    memory. *)
Theorem openEPOS_leaves_error_field_raw (h : nat) (ID : Z) (i : nat)
    (raw : epos_t) (w : world) (hc : CAN_HandleTypeDef) :
  hcan w !! h = Some hc -> (i < length (epos w))%nat ->
  exists w' e,
    openEPOS h ID (Some i) raw w = Done (Some i) w' /\
    deref i w' = Some e /\
    dev e = h /\ Node_ID e = u8 ID /\
    SDORcvFlag e = false /\ PDO1RcvFlag e = false /\ PDO2RcvFlag e = false /\
    PDO3RcvFlag e = false /\ PDO4RcvFlag e = false /\
    hcan w' !! h = Some (mkHandle i i) /\
    ErrFlag e = ErrFlag raw /\ Dev_Err e = Dev_Err raw /\
    E_error e = E_error raw /\
    RxPosition e = RxPosition raw /\ RxVelocity e = RxVelocity raw /\
    (forall k, k <> i -> epos w' !! k = epos w !! k) /\
    (forall k, k <> h -> hcan w' !! k = hcan w !! k) /\
    exists w'',
      checkEPOSerror i w' = Done (if E_error raw =? 0 then 0 else -1) w''.
Proof.
  intros Hh Hi. rewrite (openEPOS_Done h ID i raw w hc Hh Hi).
  set (w' := set_hcan _ _).
  assert (Hd : deref i w' = Some (openEPOS_init h ID raw)).
  { apply deref_lookup. cbn. apply list_lookup_insert_eq. exact Hi. }
  exists w', (openEPOS_init h ID raw).
  split; [reflexivity |]. split; [exact Hd |].
  do 7 (split; [reflexivity |]).
  split.
  { cbn. apply list_lookup_insert_eq. eapply lookup_lt_Some, Hh. }
  do 5 (split; [reflexivity |]).
  split; [intros k Hk; cbn; apply list_lookup_insert_ne; congruence |].
  split; [intros k Hk; cbn; apply list_lookup_insert_ne; congruence |].
  unfold checkEPOSerror. rewrite Hd.
  change (E_error (openEPOS_init h ID raw)) with (E_error raw).
  unfold E_NOERR. destruct (E_error raw =? 0); [eauto |].
  run. eauto.
Qed.

Lemma openEPOS_leaves_error_field_raw_witness :
  let raw := set_E_error 0xDEADBEEF (fresh 0) in
  exists w' w'',
    openEPOS 0 1 (Some O) raw (bench [None] []) = Done (Some O) w' /\
    checkEPOSerror 0 w' = Done (-1) w''.
Proof.
  intros raw.
  destruct (openEPOS_leaves_error_field_raw 0 1 0 raw (bench [None] [])
              (mkHandle 0 0) eq_refl)
    as (w' & e & Hrun & _ & _ & _ & _ & _ & _ & _ & _ & _ & _ & _ & _ & _ & _
        & _ & _ & w'' & Hc).
  { cbn. lia. }
  exists w', w''. split; [exact Hrun | exact Hc].
Defined.

Lemma sendCom_wire_via (i : nat) (w : world) (e e2 : epos_t)
    (hc : CAN_HandleTypeDef) :
  deref i w = Some e -> hcan w !! dev e = Some hc ->
  deref (pTxMsg hc) w = Some e2 ->
  wire (final (sendCom i w)) = wire w ++ accepted (sched w) (TxMessage e2).
Proof.
  intros Hi Hh H2. unfold sendCom. rewrite Hi.
  apply final_bind_wire; [apply (Transmit_wire _ _ _ _ Hh H2) |].
  intros [|].
  - wire_step.
    { apply (stable_loop keeps_wire keeps_wire_refl keeps_wire_trans).
      intros _. wire_step; [wire_step |]. intros [|]; [wire_step |].
      wire_step; [apply HAL_Delay_keeps_wire |].
      intros _. wire_step. }
    intros _. wire_step; [wire_step | intros _; wire_step].
  - unfold print. wire_step; [wire_step | intros _; wire_step].
Qed.

(** A transaction on device [i] through a handle whose transmit pointer
    is aimed at another device [j] sends the transmit buffer of [j]. *)
Lemma WriteObject_wire_via (i j : nat) (Index SubIndex : Z) (param : Z * Z)
    (w : world) (e e2 : epos_t) (hc : CAN_HandleTypeDef) :
  deref i w = Some e -> hcan w !! dev e = Some hc ->
  pTxMsg hc = j -> j <> i -> deref j w = Some e2 ->
  wire (final (WriteObject i Index SubIndex param w))
  = wire w ++ accepted (sched w) (TxMessage e2).
Proof.
  intros Hi Hh Hj Hne H2. unfold WriteObject. rewrite Hi.
  unfold mbind at 1, M_bind at 1. rewrite (update_Done _ _ _ _ Hi).
  set (e1 := set_TxMessage _ e).
  set (w1 := set_epos _ w).
  change (wire w) with (wire w1). change (sched w) with (sched w1).
  apply final_bind_wire.
  - apply (sendCom_wire_via i w1 e1 e2 hc);
      [exact (deref_assign w i e _ Hi) | exact Hh |].
    rewrite Hj. apply deref_lookup. cbn.
    rewrite list_lookup_insert_ne by congruence. apply deref_lookup, H2.
  - intros n. destruct (n <? 0); [wire_step |].
    wire_step; [apply readAnswer_keeps_wire |]. intros n'.
    destruct (n' <? 0); [wire_step | apply checkEPOSerror_keeps_wire].
Qed.

Lemma ReadObject_wire_via (i j : nat) (Index SubIndex param : Z)
    (w : world) (e e2 : epos_t) (hc : CAN_HandleTypeDef) :
  deref i w = Some e -> hcan w !! dev e = Some hc ->
  pTxMsg hc = j -> j <> i -> deref j w = Some e2 ->
  wire (final (ReadObject i Index SubIndex param w))
  = wire w ++ accepted (sched w) (TxMessage e2).
Proof.
  intros Hi Hh Hj Hne H2. unfold ReadObject. rewrite Hi.
  unfold mbind at 1, M_bind at 1, modify at 1.
  set (w0 := set_SDOBusy true w).
  assert (Hi0 : deref i w0 = Some e) by exact Hi.
  unfold mbind at 1, M_bind at 1. rewrite (update_Done _ _ _ _ Hi0).
  set (e1 := set_TxMessage _ e).
  set (w1 := set_epos _ w0).
  change (wire w) with (wire w1). change (sched w) with (sched w1).
  apply final_bind_wire.
  - apply (sendCom_wire_via i w1 e1 e2 hc);
      [exact (deref_assign w0 i e _ Hi0) | exact Hh |].
    rewrite Hj. apply deref_lookup. cbn.
    rewrite list_lookup_insert_ne by congruence. apply deref_lookup, H2.
  - intros n. destruct (n <? 0); [wire_step |].
    wire_step; [apply readAnswer_keeps_wire |]. intros n'.
    wire_step; [apply load_keeps_wire |]. intros m.
    wire_step; [wire_step | intros _; wire_step].
Qed.

(** X5.  [openEPOS] aims the transmit pointer of the CAN handle at the
    device it opens, and [HAL_CAN_Transmit_IT] sends what that pointer
    is aimed at.  Once a second device has been opened on the same
    handle, a transaction on the first builds its request in its own
    transmit buffer but puts the transmit buffer of the second on the
    wire, raw memory as long as the second device has sent nothing; only
    the device opened last has its requests transmitted. *)
Theorem second_open_takes_over_the_handle (h i j : nat) (ID1 ID2 : Z)
    (raw1 raw2 : epos_t) (w w1 w2 : world) (Index SubIndex : Z)
    (param : Z * Z) :
  i <> j ->
  openEPOS h ID1 (Some i) raw1 w = Done (Some i) w1 ->
  openEPOS h ID2 (Some j) raw2 w1 = Done (Some j) w2 ->
  hcan w2 !! h = Some (mkHandle j j) /\
  wire (final (WriteObject i Index SubIndex param w2))
  = wire w2 ++ accepted (sched w2) (TxMessage raw2) /\
  (forall out,
     wire (final (ReadObject i Index SubIndex out w2))
     = wire w2 ++ accepted (sched w2) (TxMessage raw2)) /\
  wire (final (WriteObject j Index SubIndex param w2))
  = wire w2
    ++ accepted (sched w2) (write_request (u8 ID2) Index SubIndex param).
Proof.
  intros Hne H1 H2.
  unfold openEPOS in H1, H2.
  destruct (hcan w !! h) as [hc |] eqn:Hh; [| discriminate].
  destruct (decide (i < length (epos w))%nat) as [Hi |]; [| discriminate].
  injection H1 as <-.
  cbn [hcan set_hcan set_epos epos] in H2.
  rewrite list_lookup_insert_eq in H2 by (eapply lookup_lt_Some, Hh).
  destruct (decide _) as [Hj |] in H2; [| discriminate].
  injection H2 as <-.
  rewrite length_insert in Hj.
  set (w2 := set_hcan _ _).
  assert (Hh2 : hcan w2 !! h = Some (mkHandle j j)).
  { cbn. apply list_lookup_insert_eq. rewrite length_insert.
    eapply lookup_lt_Some, Hh. }
  assert (Hdi : deref i w2 = Some (openEPOS_init h ID1 raw1)).
  { apply deref_lookup. cbn. rewrite list_lookup_insert_ne by congruence.
    apply list_lookup_insert_eq. exact Hi. }
  assert (Hdj : deref j w2 = Some (openEPOS_init h ID2 raw2)).
  { apply deref_lookup. cbn. apply list_lookup_insert_eq.
    rewrite length_insert. exact Hj. }
  split; [exact Hh2 |]. split; [| split].
  - apply (WriteObject_wire_via i j Index SubIndex param w2 _ _ _
             Hdi Hh2 eq_refl (not_eq_sym Hne) Hdj).
  - intros out.
    apply (ReadObject_wire_via i j Index SubIndex out w2 _ _ _
             Hdi Hh2 eq_refl (not_eq_sym Hne) Hdj).
  - apply (WriteObject_wire j Index SubIndex param w2 _ Hdj Hh2).
Qed.

Lemma second_open_takes_over_the_handle_witness :
  let raw := set_TxMessage (frame 0x7FF [1; 2; 3; 4; 5; 6; 7; 8]) (fresh 0) in
  let w := bench [None; None] [prompt 0 status_reply] in
  exists w1 w2,
    openEPOS 0 1 (Some 0%nat) (fresh 0) w = Done (Some 0%nat) w1 /\
    openEPOS 0 2 (Some 1%nat) raw w1 = Done (Some 1%nat) w2 /\
    wire (final (WriteObject 0 0x6040 0x00 (0x000F, 0x0000) w2))
    = [frame 0x7FF [1; 2; 3; 4; 5; 6; 7; 8]].
Proof.
  intros raw w. eexists _, _.
  split; [reflexivity |]. split; [reflexivity |].
  assert (Hne : O <> 1%nat) by lia.
  destruct (second_open_takes_over_the_handle 0 0 1 1 2 (fresh 0) raw w _ _
              0x6040 0x00 (0x000F, 0x0000) Hne eq_refl eq_refl)
    as (_ & Hw & _).
  rewrite Hw. reflexivity.
Defined.

(** ** The control word in every state *)


















(** ** The SDO engine off the beaten track *)

(** The transport refuses the frame and no interrupt is served. *)
Lemma sendCom_refused (i : nat) (e : epos_t) (w : world)
    (rest : list hal_call) :
  at_rest i e w -> sched w = mkCall false [] :: rest ->
  sendCom i w
  = Done (-1) (set_rtt (rtt w ++ [TransmitError]) (set_sched rest w)).
Proof.
  intros (Hi & _ & _ & _ & _ & Hh) Hs.
  unfold sendCom, HAL_CAN_Transmit_IT. rewrite Hi. run.
  rewrite Hh. cbn [pTxMsg]. rewrite Hi, Hs. reflexivity.
Qed.

(** The transport accepts the frame and the transmission completes, but
    no frame comes in. *)
Lemma sendCom_unanswered (i : nat) (e : epos_t) (w : world) (h : nat)
    (rest : list hal_call) :
  at_rest i e w -> sched w = mkCall true [TxCplt h] :: rest ->
  sendCom i w
  = Done 1 (set_CAN_TxReady false
              (set_wire (wire w ++ [TxMessage e]) (set_sched rest w))).
Proof.
  intros (Hi & _ & _ & _ & _ & Hh) Hs.
  unfold sendCom, HAL_CAN_Transmit_IT. rewrite Hi. run.
  rewrite Hh. cbn [pTxMsg]. rewrite Hi, Hs. reflexivity.
Qed.

Lemma ReadObject_refused (i : nat) (Index SubIndex out : Z) (e : epos_t)
    (w : world) (rest : list hal_call) :
  at_rest i e w -> sched w = mkCall false [] :: rest ->
  exists w' e',
    ReadObject i Index SubIndex out w = Done (-1, out) w' /\
    at_rest i e' w' /\
    SDOBusy w' = true /\
    dev e' = dev e /\ Node_ID e' = Node_ID e /\
    E_error e' = E_error e /\ SDOMsg e' = SDOMsg e /\
    wire w' = wire w /\ rtt w' = rtt w ++ [TransmitError] /\
    sched w' = rest /\ clock w' = clock w /\ uninit w' = uninit w.
Proof.
  intros Hrest Hs. unfold ReadObject. rewrite (proj1 Hrest). run.
  set (w0 := set_SDOBusy true w).
  assert (Hrest0 : at_rest i e w0) by exact Hrest.
  rewrite (update_Done _ _ _ _ (proj1 Hrest0)).
  set (e1 := set_TxMessage _ e). set (w1 := set_epos _ w0).
  assert (Hrest1 : at_rest i e1 w1)
    by (apply (at_rest_assign i e e1 w0 Hrest0); reflexivity).
  rewrite (sendCom_refused i e1 w1 rest Hrest1 Hs).
  cbn [Z.ltb Z.compare].
  eexists _, e1. split; [reflexivity |]. split; [exact Hrest1 |].
  repeat split.
Qed.

Lemma WriteObject_refused (i : nat) (Index SubIndex : Z) (param : Z * Z)
    (e : epos_t) (w : world) (rest : list hal_call) :
  at_rest i e w -> sched w = mkCall false [] :: rest ->
  exists w' e',
    WriteObject i Index SubIndex param w = Done (-1) w' /\
    at_rest i e' w' /\
    SDOBusy w' = SDOBusy w /\
    dev e' = dev e /\ Node_ID e' = Node_ID e /\
    E_error e' = E_error e /\
    wire w' = wire w /\ rtt w' = rtt w ++ [TransmitError] /\
    sched w' = rest /\ clock w' = clock w /\ uninit w' = uninit w.
Proof.
  intros Hrest Hs. unfold WriteObject. rewrite (proj1 Hrest). run.
  rewrite (update_Done _ _ _ _ (proj1 Hrest)).
  set (e1 := set_TxMessage _ e). set (w1 := set_epos _ w).
  assert (Hrest1 : at_rest i e1 w1)
    by (apply (at_rest_assign i e e1 w Hrest); reflexivity).
  rewrite (sendCom_refused i e1 w1 rest Hrest1 Hs).
  cbn [Z.ltb Z.compare].
  eexists _, e1. split; [reflexivity |]. split; [exact Hrest1 |].
  repeat split.
Qed.

(** X6.  When the transport refuses the request, [ReadObject] returns -1
    with the out-parameter and the last-error field untouched and
    "Transmit Error" on the console, and it returns on the path that
    does not clear [SDOBusy]: the flag stays set.  [WriteObject] returns
    -1 likewise and leaves the flag as it was. *)
Theorem refused_read_leaves_busy_flag_set (i : nat) (Index SubIndex : Z)
    (e : epos_t) (w : world) (rest : list hal_call) :
  at_rest i e w -> sched w = mkCall false [] :: rest ->
  (forall out, exists w' e',
     ReadObject i Index SubIndex out w = Done (-1, out) w' /\
     SDOBusy w' = true /\
     deref i w' = Some e' /\ E_error e' = E_error e /\
     SDOMsg e' = SDOMsg e /\
     wire w' = wire w /\ rtt w' = rtt w ++ [TransmitError] /\
     sched w' = rest) /\
  (forall param, exists w' e',
     WriteObject i Index SubIndex param w = Done (-1) w' /\
     SDOBusy w' = SDOBusy w /\
     deref i w' = Some e' /\ E_error e' = E_error e /\
     wire w' = wire w /\ rtt w' = rtt w ++ [TransmitError] /\
     sched w' = rest).
Proof.
  intros Hrest Hs. split.
  - intros out.
    destruct (ReadObject_refused i Index SubIndex out e w rest Hrest Hs)
      as (w' & e' & Hrun & Hrest' & Hb & _ & _ & He & Hm & Hw & Hr & Hsc & _).
    exists w', e'. split; [exact Hrun |]. split; [exact Hb |].
    split; [exact (proj1 Hrest') |]. repeat split; assumption.
  - intros param.
    destruct (WriteObject_refused i Index SubIndex param e w rest Hrest Hs)
      as (w' & e' & Hrun & Hrest' & Hb & _ & _ & He & Hw & Hr & Hsc & _).
    exists w', e'. split; [exact Hrun |]. split; [exact Hb |].
    split; [exact (proj1 Hrest') |]. repeat split; assumption.
Qed.

Lemma refused_read_leaves_busy_flag_set_witness :
  let w := bench [Some (fresh 1)] [mkCall false []] in
  exists w',
    ReadObject 0 0x6041 0x00 42 w = Done (-1, 42) w' /\ SDOBusy w' = true.
Proof.
  intros w.
  destruct (refused_read_leaves_busy_flag_set 0 0x6041 0x00 (fresh 1) w []
              (at_rest_bench _) eq_refl) as [H _].
  destruct (H 42) as (w' & e' & Hrun & Hb & _).
  exists w'. split; [exact Hrun | exact Hb].
Defined.

(** X7.  [ReadObject] never clears the SDO flag before it sends, and
    [readAnswer] does not compare the reply with the request.  If a reply
    is still pending in the SDO slot when the call starts, the call
    returns with the value in that slot as soon as the request has gone
    out, without a frame having come in; and a reply that does come in is
    taken as the answer whatever command byte, index and subindex it
    carries. *)
Theorem ReadObject_takes_reply_unmatched (i : nat) (Index SubIndex out : Z)
    (e : epos_t) (w : world) (rest : list hal_call) :
  at_rest i e w ->
  (SDORcvFlag e = true -> forall h,
     sched w = mkCall true [TxCplt h] :: rest ->
     exists w' e',
       ReadObject i Index SubIndex out w
       = Done (1, u32 (le32_at (SDOMsg e) 4)) w' /\
       deref i w' = Some e' /\ SDORcvFlag e' = false /\
       SDOMsg e' = SDOMsg e /\
       wire w' = wire w ++ [read_request (Node_ID e) Index SubIndex] /\
       sched w' = rest) /\
  (forall resp,
     sched w = prompt (dev e) resp :: rest ->
     StdId resp = Node_ID e + 0x580 ->
     exists w' e',
       ReadObject i Index SubIndex out w
       = Done (1, u32 (le32_at resp 4)) w' /\
       deref i w' = Some e' /\ SDORcvFlag e' = false /\
       wire w' = wire w ++ [read_request (Node_ID e) Index SubIndex] /\
       sched w' = rest).
Proof.
  intros Hrest. split.
  - intros Hf h Hs. unfold ReadObject. rewrite (proj1 Hrest). run.
    set (w0 := set_SDOBusy true w).
    assert (Hrest0 : at_rest i e w0) by exact Hrest.
    rewrite (update_Done _ _ _ _ (proj1 Hrest0)).
    fold (read_request (Node_ID e) Index SubIndex).
    set (req := read_request (Node_ID e) Index SubIndex).
    set (e1 := set_TxMessage req e). set (w1 := set_epos _ w0).
    assert (Hrest1 : at_rest i e1 w1)
      by (apply (at_rest_assign i e e1 w0 Hrest0); reflexivity).
    rewrite (sendCom_unanswered i e1 w1 h rest Hrest1 Hs).
    cbn [Z.ltb Z.compare].
    set (w2 := set_CAN_TxReady false _).
    assert (Hrest2 : at_rest i e1 w2) by exact Hrest1.
    destruct (readAnswer_prompt i e1 w2 Hrest2 Hf)
      as (w3 & e3 & Hans & Hrest3 & He3 & Hm3 & Hf3 & Ht3 & Hn3 & Hd3 & Hb3
          & Hsc3 & Hc3 & Hw3 & Hu3 & _).
    rewrite Hans. rewrite (load_Done _ _ _ _ (proj1 Hrest3)).
    rewrite Hm3.
    exists (set_SDOBusy false w3), e3.
    split; [reflexivity |]. split; [exact (proj1 Hrest3) |].
    split; [exact Hf3 |]. split; [exact Hm3 |].
    split; [cbn; rewrite Hw3; reflexivity | cbn; rewrite Hsc3; reflexivity].
  - intros resp Hs Hid.
    destruct (ReadObject_prompt i Index SubIndex out e w resp rest
                Hrest Hs Hid)
      as (w' & e' & Hrun & Hrest' & _ & _ & Hf & _ & _ & _ & _ & Hsc & _
          & Hw & _).
    exists w', e'. split; [exact Hrun |]. split; [exact (proj1 Hrest') |].
    split; [exact Hf |]. split; [exact Hw | exact Hsc].
Qed.

Lemma ReadObject_takes_reply_unmatched_witness :
  let e := set_SDORcvFlag true (set_SDOMsg status_reply (fresh 1)) in
  let w := bench [Some e] [mkCall true [TxCplt 0]] in
  exists w',
    ReadObject 0 0x6064 0x00 0 w = Done (1, 0x0237) w' /\ sched w' = [].
Proof.
  intros e w.
  assert (Hrest : at_rest 0 e w).
  { split; [reflexivity |]. split; [concrete_bus |]. split; [concrete_bus |].
    split; [reflexivity |]. split; [cbn; lia | reflexivity]. }
  destruct (ReadObject_takes_reply_unmatched 0 0x6064 0x00 0 e w [] Hrest)
    as [H _].
  destruct (H eq_refl O eq_refl) as (w' & e' & Hrun & _ & _ & _ & _ & Hs).
  exists w'. split; [exact Hrun | exact Hs].
Defined.

(** ** The last error, on every path of a transaction *)

(** No reply comes in while [readAnswer] waits: the delays pass, the
    schedule ends, and the call is still waiting. *)
Lemma rx_wait_idle (i : nat) (e : epos_t) (n : nat) :
  forall w : world,
    deref i w = Some e -> SDORcvFlag e = false ->
    sched w = replicate n (mkCall true []) ->
    exists w',
      loop (fun _ : unit =>
              flag ← load i SDORcvFlag;
              if flag : bool then mret (inr tt)
              else HAL_Delay 1 ;; mret (inl tt)) tt w
      = Hang w' /\ epos w' = epos w.
Proof.
  induction n as [| n IH]; intros w Hi Hf Hs.
  - exists w. split; [| reflexivity].
    unfold loop. rewrite Hs. cbn [length iter]. run.
    rewrite (load_Done _ _ _ _ Hi), Hf. unfold HAL_Delay. rewrite Hs.
    reflexivity.
  - cbn [replicate] in Hs.
    set (w1 := set_clock (clock w + 1) (set_sched (replicate n (mkCall true [])) w)).
    destruct (IH w1 Hi Hf eq_refl) as (w' & Hrun & Hep).
    exists w'. split; [| exact Hep].
    rewrite <- Hrun. apply (loop_unroll _ tt tt w w1 (rx_wait_turns i)).
    run. rewrite (load_Done _ _ _ _ Hi), Hf.
    rewrite (HAL_Delay_idle 1 w true _ Hs). reflexivity.
Qed.

Lemma readAnswer_unanswered (i : nat) (e : epos_t) (w : world) (n : nat) :
  deref i w = Some e -> SDORcvFlag e = false ->
  sched w = replicate n (mkCall true []) ->
  exists w',
    readAnswer i w = Hang w' /\ deref i w' = Some (set_E_error 0 e).
Proof.
  intros Hi Hf Hs. unfold readAnswer. rewrite Hi.
  unfold mbind at 1, M_bind at 1. rewrite (update_Done _ _ _ _ Hi).
  set (w1 := set_epos _ w).
  assert (Hi1 : deref i w1 = Some (set_E_error 0 e))
    by exact (deref_assign w i e _ Hi).
  destruct (rx_wait_idle i _ n w1 Hi1 Hf Hs) as (w' & Hrun & Hep).
  unfold mbind at 1, M_bind at 1. rewrite Hrun.
  exists w'. split; [reflexivity |].
  unfold deref in *. rewrite Hep. exact Hi1.
Qed.

(** The request goes out and the transmission completes, but no reply
    ever comes in: the transaction is left waiting with the last-error
    field already cleared. *)
Lemma ReadObject_unanswered (i : nat) (Index SubIndex param : Z)
    (e : epos_t) (w : world) (n : nat) :
  at_rest i e w -> SDORcvFlag e = false ->
  sched w = mkCall true [TxCplt (dev e)] :: replicate n (mkCall true []) ->
  exists w' e',
    ReadObject i Index SubIndex param w = Hang w' /\
    deref i w' = Some e' /\ E_error e' = 0.
Proof.
  intros Hrest Hf Hs. unfold ReadObject. rewrite (proj1 Hrest). run.
  set (w0 := set_SDOBusy true w).
  assert (Hrest0 : at_rest i e w0) by exact Hrest.
  rewrite (update_Done _ _ _ _ (proj1 Hrest0)).
  set (e1 := set_TxMessage _ e). set (w1 := set_epos _ w0).
  assert (Hrest1 : at_rest i e1 w1)
    by (apply (at_rest_assign i e e1 w0 Hrest0); reflexivity).
  rewrite (sendCom_unanswered i e1 w1 (dev e) _ Hrest1 Hs).
  cbn [Z.ltb Z.compare].
  set (w2 := set_CAN_TxReady false _).
  destruct (readAnswer_unanswered i e1 w2 n (proj1 Hrest1) Hf eq_refl)
    as (w' & Hrun & Hi').
  rewrite Hrun. exists w', (set_E_error 0 e1).
  split; [reflexivity |]. split; [exact Hi' | reflexivity].
Qed.

Lemma WriteObject_unanswered (i : nat) (Index SubIndex : Z) (param : Z * Z)
    (e : epos_t) (w : world) (n : nat) :
  at_rest i e w -> SDORcvFlag e = false ->
  sched w = mkCall true [TxCplt (dev e)] :: replicate n (mkCall true []) ->
  exists w' e',
    WriteObject i Index SubIndex param w = Hang w' /\
    deref i w' = Some e' /\ E_error e' = 0.
Proof.
  intros Hrest Hf Hs. unfold WriteObject. rewrite (proj1 Hrest). run.
  rewrite (update_Done _ _ _ _ (proj1 Hrest)).
  set (e1 := set_TxMessage _ e). set (w1 := set_epos _ w).
  assert (Hrest1 : at_rest i e1 w1)
    by (apply (at_rest_assign i e e1 w Hrest); reflexivity).
  rewrite (sendCom_unanswered i e1 w1 (dev e) _ Hrest1 Hs).
  cbn [Z.ltb Z.compare].
  set (w2 := set_CAN_TxReady false _).
  destruct (readAnswer_unanswered i e1 w2 n (proj1 Hrest1) Hf eq_refl)
    as (w' & Hrun & Hi').
  rewrite Hrun. exists w', (set_E_error 0 e1).
  split; [reflexivity |]. split; [exact Hi' | reflexivity].
Qed.

(** C10.  The last-error field over an SDO transaction, [ReadObject] or
    [WriteObject], on a device with any last error recorded before.
    - The transport accepts the request: whenever the call returns,
      [E_error] is determined by the response in the SDO slot alone, the
      little-endian 32-bit value of bytes 4..7 if byte 0 is the abort
      marker 0x80 and 0 if byte 0 is anything else, whatever error an
      earlier transaction had left there.
    - The transport refuses the request: whenever the call returns, it
      returns -1 and [E_error] is what it was before the call; nothing
      has cleared it.
    - On a device at rest the three courses are all there.  A prompt
      reply: both calls return, with that reply in the slot.  A refused
      request: both calls return -1 with [E_error] untouched.  A request
      that is sent and never answered, however many delays pass: both
      calls are left waiting, and [E_error] is 0 already, cleared
      before the wait. *)
Theorem sdo_transaction_last_error (i : nat) (Index SubIndex : Z)
    (e : epos_t) (w : world) (c : hal_call) (rest : list hal_call) :
  deref i w = Some e -> sched w = c :: rest ->
  (status_ok c = true ->
   (forall param r v w',
      ReadObject i Index SubIndex param w = Done (r, v) w' ->
      exists e', deref i w' = Some e' /\ last_error_follows_response e') /\
   (forall param r w',
      WriteObject i Index SubIndex param w = Done r w' ->
      exists e', deref i w' = Some e' /\ last_error_follows_response e')) /\
  (status_ok c = false ->
   (forall param r v w',
      ReadObject i Index SubIndex param w = Done (r, v) w' ->
      r = -1 /\ exists e', deref i w' = Some e' /\ E_error e' = E_error e) /\
   (forall param r w',
      WriteObject i Index SubIndex param w = Done r w' ->
      r = -1 /\ exists e', deref i w' = Some e' /\ E_error e' = E_error e)) /\
  (at_rest i e w ->
   (forall resp,
      c = prompt (dev e) resp -> StdId resp = Node_ID e + 0x580 ->
      (forall param, exists r w' e',
         ReadObject i Index SubIndex param w = Done r w' /\
         deref i w' = Some e' /\ SDOMsg e' = resp /\
         last_error_follows_response e') /\
      (forall param, exists r w' e',
         WriteObject i Index SubIndex param w = Done r w' /\
         deref i w' = Some e' /\ SDOMsg e' = resp /\
         last_error_follows_response e')) /\
   (c = mkCall false [] ->
    (forall param, exists w' e',
       ReadObject i Index SubIndex param w = Done (-1, param) w' /\
       deref i w' = Some e' /\ E_error e' = E_error e) /\
    (forall param, exists w' e',
       WriteObject i Index SubIndex param w = Done (-1) w' /\
       deref i w' = Some e' /\ E_error e' = E_error e)) /\
   (forall n,
      c = mkCall true [TxCplt (dev e)] ->
      rest = replicate n (mkCall true []) -> SDORcvFlag e = false ->
      (forall param, exists w' e',
         ReadObject i Index SubIndex param w = Hang w' /\
         deref i w' = Some e' /\ E_error e' = 0) /\
      (forall param, exists w' e',
         WriteObject i Index SubIndex param w = Hang w' /\
         deref i w' = Some e' /\ E_error e' = 0))).
Proof.
  intros Hi Hs. split; [| split].
  - intros Hok. split.
    + intros param r v w' Hrun.
      destruct (ReadObject_spec _ _ _ _ _ _ _ _ _ _ _ Hi Hs Hrun)
        as (e' & Hi' & _ & _ & _ & _ & Hres).
      rewrite Hok in Hres. destruct Hres as (_ & He & _).
      exists e'. split; [exact Hi' | apply follows_response, He].
    + intros param r w' Hrun.
      destruct (WriteObject_spec _ _ _ _ _ _ _ _ _ _ Hi Hs Hrun)
        as (e' & Hi' & _ & _ & _ & _ & _ & Hres).
      rewrite Hok in Hres. destruct Hres as (He & _).
      exists e'. split; [exact Hi' | apply follows_response, He].
  - intros Hno. split.
    + intros param r v w' Hrun.
      destruct (ReadObject_spec _ _ _ _ _ _ _ _ _ _ _ Hi Hs Hrun)
        as (e' & Hi' & _ & _ & _ & _ & Hres).
      rewrite Hno in Hres. destruct Hres as (-> & _ & He & _).
      split; [reflexivity |]. exists e'. split; assumption.
    + intros param r w' Hrun.
      destruct (WriteObject_spec _ _ _ _ _ _ _ _ _ _ Hi Hs Hrun)
        as (e' & Hi' & _ & _ & _ & _ & _ & Hres).
      rewrite Hno in Hres. destruct Hres as (-> & He).
      split; [reflexivity |]. exists e'. split; assumption.
  - intros Hrest. split; [| split].
    + intros resp -> Hid. split; intros param.
      * destruct (ReadObject_prompt i Index SubIndex param e w resp rest
                    Hrest Hs Hid)
          as (w' & e' & Hrun & Hrest' & He & Hm & _).
        exists (1, u32 (le32_at resp 4)), w', e'.
        split; [exact Hrun |]. split; [apply Hrest' |]. split; [exact Hm |].
        apply follows_response. rewrite Hm. exact He.
      * destruct (WriteObject_prompt i Index SubIndex param e w resp rest
                    Hrest Hs Hid)
          as (w' & e' & Hrun & Hrest' & He & Hm & _).
        eexists _, w', e'.
        split; [exact Hrun |]. split; [apply Hrest' |]. split; [exact Hm |].
        apply follows_response. rewrite Hm. exact He.
    + intros ->. split; intros param.
      * destruct (ReadObject_refused i Index SubIndex param e w rest Hrest Hs)
          as (w' & e' & Hrun & Hrest' & _ & _ & _ & He & _).
        exists w', e'. split; [exact Hrun |]. split; [apply Hrest' | exact He].
      * destruct (WriteObject_refused i Index SubIndex param e w rest Hrest Hs)
          as (w' & e' & Hrun & Hrest' & _ & _ & _ & He & _).
        exists w', e'. split; [exact Hrun |]. split; [apply Hrest' | exact He].
    + intros n -> -> Hf. split; intros param.
      * apply (ReadObject_unanswered i Index SubIndex param e w n Hrest Hf Hs).
      * apply (WriteObject_unanswered i Index SubIndex param e w n Hrest Hf Hs).
Qed.

(** C10, an instance: a device that still holds the abort code
    0x06090030 reads its status word, gets a regular reply, and ends with
    last error 0. *)
Lemma sdo_transaction_last_error_witness :
  let e := set_E_error 0x06090030 (fresh 1) in
  let w := bench [Some e] [prompt 0 status_reply] in
  exists r w' e',
    ReadObject 0 0x6041 0x00 0 w = Done r w' /\
    deref 0 w' = Some e' /\ SDOMsg e' = status_reply /\ E_error e' = 0.
Proof.
  intros e w.
  assert (Hrest : at_rest 0 e w).
  { split; [reflexivity |]. split; [concrete_bus |]. split; [concrete_bus |].
    split; [reflexivity |]. split; [cbn; lia | reflexivity]. }
  destruct (sdo_transaction_last_error 0 0x6041 0x00 e w
              (prompt 0 status_reply) [] eq_refl eq_refl)
    as (_ & _ & Hat).
  destruct (Hat Hrest) as (Hprompt & _).
  destruct (proj1 (Hprompt status_reply eq_refl eq_refl) 0)
    as (r & w' & e' & Hrun & Hi & Hm & Hfollows).
  exists r, w', e'. split; [exact Hrun |]. split; [exact Hi |].
  split; [exact Hm |]. apply (proj1 (proj2 Hfollows)).
  rewrite Hm. vm_compute. discriminate.
Defined.

(** C10 as stated fails.  Node 1 aborts a write with 0x06090030, which
    [WriteObject] records.  The transport refuses the request of the
    read that follows: the read returns -1 and the last error is still
    0x06090030, not cleared by that transaction. *)
Lemma sdo_refused_keeps_last_error_counterexample :
  exists w1 w2 e2,
    WriteObject 0 0x6081 0x00 (0x1170, 0x0001)
      (bench [Some (fresh 1)] [prompt 0 abort_reply; mkCall false []])
    = Done (-1) w1 /\
    ReadObject 0 0x6041 0x00 0 w1 = Done (-1, 0) w2 /\
    deref 0 w2 = Some e2 /\
    E_error e2 = 0x06090030 /\ E_error e2 <> 0.
Proof.
  eexists _, _, _.
  split; [vm_compute; reflexivity |].
  split; [vm_compute; reflexivity |].
  split; [reflexivity |].
  split; [reflexivity |]. vm_compute. discriminate.
Qed.

(** ** Bytes and words *)

Lemma land_FF (x : Z) : Z.land x 0xFF = x mod 2 ^ 8.
Proof. exact (Z.land_ones x 8 ltac:(lia)). Qed.

Lemma land_FFFF (x : Z) : Z.land x 0xFFFF = x mod 2 ^ 16.
Proof. exact (Z.land_ones x 16 ltac:(lia)). Qed.

Lemma shiftr_land_FF00 (x : Z) :
  Z.shiftr (Z.land x 0xFF00) 8 = (x / 2 ^ 8) mod 2 ^ 8.
Proof.
  rewrite Z.shiftr_land. change (Z.shiftr 0xFF00 8) with 0xFF.
  rewrite land_FF, Z.shiftr_div_pow2 by lia. reflexivity.
Qed.

Lemma bytes_of_u32 (x : Z) :
  x mod 2 ^ 32
  = x mod 2 ^ 8 + 2 ^ 8 * ((x / 2 ^ 8) mod 2 ^ 8)
    + 2 ^ 16 * ((x / 2 ^ 16) mod 2 ^ 8) + 2 ^ 24 * ((x / 2 ^ 24) mod 2 ^ 8).
Proof.
  change (2 ^ 32) with 4294967296. change (2 ^ 8) with 256.
  change (2 ^ 16) with 65536. change (2 ^ 24) with 16777216.
  Z.div_mod_to_equations; lia.
Qed.

(** The payload of a write request for the two words of a 32-bit value:
    its four bytes, low byte first. *)
Lemma words_of_payload (node Index SubIndex val : Z) :
  Data (write_request node Index SubIndex (words_of val))
  = [ 0x22; u8 (Z.land Index 0xFF); u8 (Z.shiftr (Z.land Index 0xFF00) 8);
      u8 SubIndex;
      val mod 2 ^ 8; (val / 2 ^ 8) mod 2 ^ 8;
      (val / 2 ^ 16) mod 2 ^ 8; (val / 2 ^ 24) mod 2 ^ 8 ].
Proof.
  unfold write_request, sdo_request, words_of. cbn [Data fst snd].
  rewrite !land_FF, !shiftr_land_FF00, !land_FFFF, Z.shiftr_div_pow2 by lia.
  unfold u8, u16.
  change (2 ^ 8) with 256. change (2 ^ 16) with 65536.
  change (2 ^ 24) with 16777216.
  repeat match goal with
         | |- _ :: _ = _ :: _ => f_equal
         end; Z.div_mod_to_equations; lia.
Qed.

Lemma le32_at_sum (m : CanMsg) (k : nat) :
  le32_at m k
  = s32 (byte m k + 2 ^ 8 * byte m (k + 1) + 2 ^ 16 * byte m (k + 2)
         + 2 ^ 24 * byte m (k + 3)).
Proof.
  unfold le32_at. rewrite !Z.shiftl_mul_pow2 by lia. f_equal. lia.
Qed.

Lemma s32_u32 (x : Z) : s32 (x mod 2 ^ 32) = s32 x.
Proof.
  unfold s32. change (2 ^ 32) with 4294967296.
  change (2 ^ 31) with 2147483648. Z.div_mod_to_equations; lia.
Qed.

Lemma u32_s32 (x : Z) : u32 (s32 x) = u32 x.
Proof.
  unfold s32, u32. change (2 ^ 32) with 4294967296.
  change (2 ^ 31) with 2147483648. Z.div_mod_to_equations; lia.
Qed.

Lemma s32_small (x : Z) : - 2 ^ 31 <= x < 2 ^ 31 -> s32 x = x.
Proof.
  intros H. unfold s32. rewrite Z.mod_small by lia. lia.
Qed.

(** What the decoding of [ReadObject] makes of the request that the
    32-bit setters build: the value itself. *)
Lemma words_of_read_back (node Index SubIndex val : Z) :
  le32_at (write_request node Index SubIndex (words_of val)) 4 = s32 val /\
  u32 (le32_at (write_request node Index SubIndex (words_of val)) 4)
  = u32 val.
Proof.
  assert (H : le32_at (write_request node Index SubIndex (words_of val)) 4
              = s32 val).
  { rewrite le32_at_sum. unfold byte. rewrite words_of_payload.
    cbn [nth Nat.add]. rewrite <- bytes_of_u32. apply s32_u32. }
  split; [exact H |]. rewrite H. apply u32_s32.
Qed.

(** ** Dictionary reads and writes on a prompt reply *)

Lemma dictionary_read_prompt (i : nat) (Index SubIndex : Z) (conv : Z -> Z)
    (out : Z) (e : epos_t) (w : world) (resp : CanMsg)
    (rest : list hal_call) :
  at_rest i e w -> sched w = prompt (dev e) resp :: rest ->
  StdId resp = Node_ID e + 0x580 ->
  exists w' e',
    dictionary_read i Index SubIndex conv out w
    = Done (0, conv (u32 (le32_at resp 4))) w' /\
    at_rest i e' w' /\ Node_ID e' = Node_ID e /\ dev e' = dev e /\
    E_error e' = error_of_response resp /\
    sched w' = rest /\ clock w' = clock w /\ uninit w' = uninit w /\
    wire w' = wire w ++ [read_request (Node_ID e) Index SubIndex] /\
    SDOBusy w' = false.
Proof.
  intros Hrest Hs Hid.
  unfold dictionary_read, checkEPOS. rewrite (proj1 Hrest). run.
  cbn [Z.eqb negb].
  destruct (ReadObject_prompt i Index SubIndex (uninit w) e w resp rest
              Hrest Hs Hid)
    as (w1 & e1 & Hrun & Hrest1 & He & _ & _ & _ & Hn & Hd & Hb & Hsc & Hc
        & Hw & Hu).
  rewrite Hrun. cbn [Z.ltb Z.compare].
  unfold checkEPOSerror. rewrite (proj1 Hrest1).
  destruct (E_error e1 =? E_NOERR).
  - exists w1, e1. split; [reflexivity |]. split; [exact Hrest1 |].
    repeat split; assumption.
  - run. eexists _, e1. split; [reflexivity |]. split; [exact Hrest1 |].
    repeat split; assumption.
Qed.

Lemma dictionary_read_refused (i : nat) (Index SubIndex : Z) (conv : Z -> Z)
    (out : Z) (e : epos_t) (w : world) (rest : list hal_call) :
  at_rest i e w -> sched w = mkCall false [] :: rest ->
  exists w' e',
    dictionary_read i Index SubIndex conv out w = Done (-1, out) w' /\
    at_rest i e' w' /\ dev e' = dev e /\ Node_ID e' = Node_ID e /\
    sched w' = rest /\ wire w' = wire w /\ clock w' = clock w /\
    uninit w' = uninit w.
Proof.
  intros Hrest Hs.
  destruct (ReadObject_refused i Index SubIndex (uninit w) e w rest Hrest Hs)
    as (w' & e' & Hrun & Hrest' & _ & Hd & Hn & _ & _ & Hw & _ & Hsc & Hc
        & Hu).
  unfold dictionary_read, checkEPOS. rewrite (proj1 Hrest). run.
  cbn [Z.eqb negb]. rewrite Hrun. cbn [Z.ltb Z.compare].
  exists w', e'. split; [reflexivity |]. split; [exact Hrest' |].
  repeat split; assumption.
Qed.

Lemma payload32_range (m : CanMsg) :
  frame_ok m -> 0 <= payload32 m < 2 ^ 32.
Proof.
  intros H. unfold payload32.
  pose proof (byte_range m 4 H). pose proof (byte_range m 5 H).
  pose proof (byte_range m 6 H). pose proof (byte_range m 7 H). lia.
Qed.

Lemma reply_value (m : CanMsg) :
  frame_ok m -> u32 (le32_at m 4) = payload32 m.
Proof.
  intros H. unfold payload32.
  apply (le32_at_value m 4); apply byte_range, H.
Qed.

Lemma s32_signed32 (v : Z) : 0 <= v < 2 ^ 32 -> s32 v = signed32 v.
Proof.
  intros H. unfold s32, signed32.
  change (2 ^ 32) with 4294967296 in *. change (2 ^ 31) with 2147483648 in *.
  destruct (v <? 2147483648) eqn:E;
    [apply Z.ltb_lt in E | apply Z.ltb_ge in E];
    Z.div_mod_to_equations; lia.
Qed.

Lemma low_word_payload (m : CanMsg) :
  frame_ok m -> low_word (payload32 m) = payload16 m.
Proof.
  intros H. unfold low_word, payload32, payload16, u16.
  rewrite land_FFFF.
  pose proof (byte_range m 4 H). pose proof (byte_range m 5 H).
  pose proof (byte_range m 6 H). pose proof (byte_range m 7 H).
  change (2 ^ 8) with 256 in *. change (2 ^ 16) with 65536 in *.
  change (2 ^ 24) with 16777216 in *.
  Z.div_mod_to_equations; lia.
Qed.

(** ** The PDO cache on a bus of several devices *)

(** What one dispatch-and-decode pass on frame [m] makes of the cached
    values of a device with no PDO frame pending. *)
Lemma pass_cache (e : epos_t) (m : CanMsg) :
  PDO3RcvFlag e = false -> PDO4RcvFlag e = false ->
  let e' := processPDOMessage_body (route1 m e) in
  Node_ID e' = Node_ID e /\
  RxPosition e'
  = (if StdId m =? Node_ID e + cob_offset PDO3 then le32_at m 2
     else RxPosition e) /\
  RxVelocity e'
  = (if StdId m =? Node_ID e + cob_offset PDO4 then le32_at m 2
     else RxVelocity e).
Proof.
  intros H3 H4 e'. subst e'.
  destruct (route1_cases m e) as [(c & Hc & ->) | [Hno ->]].
  - destruct (delivered_decoded c m e H3 H4) as (_ & _ & Hp & Hv & _).
    rewrite Hp, Hv, Hc.
    split; [destruct (body_identity (deliver c m e)) as (_ & -> & _);
            apply deliver_slot |].
    destruct c; cbn [cob_offset];
      repeat match goal with
             | |- context [?a =? ?b] =>
                 first [ rewrite (Z.eqb_refl a)
                       | replace (a =? b) with false
                           by (symmetry; apply Z.eqb_neq; lia) ]
             end; split; reflexivity.
  - rewrite (body_settled e H3 H4).
    pose proof (Hno PDO3) as Hn3. apply Z.eqb_neq in Hn3.
    pose proof (Hno PDO4) as Hn4. apply Z.eqb_neq in Hn4.
    rewrite Hn3, Hn4. repeat split.
Qed.

(** A receive interrupt at rest, seen from every device of the bus. *)
Lemma serve_frame_bus (i : nat) (e : epos_t) (w : world) (m : CanMsg) :
  at_rest i e w -> settled (epos w) ->
  exists w',
    serve_irq (RxCplt (dev e) m) w = Done tt w' /\
    at_rest i (absorb e m) w' /\ settled (epos w') /\
    CANMsgBuf w' = <[O := m]> (CANMsgBuf w) /\
    forall j ej,
      epos w !! j = Some (Some ej) ->
      exists ej',
        epos w' !! j = Some (Some ej') /\
        Node_ID ej' = Node_ID ej /\
        RxPosition ej'
        = (if StdId m =? Node_ID ej + cob_offset PDO3 then le32_at m 2
           else RxPosition ej) /\
        RxVelocity ej'
        = (if StdId m =? Node_ID ej + cob_offset PDO4 then le32_at m 2
           else RxVelocity ej).
Proof.
  intros Hrest Hset.
  pose proof Hrest as (Hi & Hok & Hopen & Hp & Hlen & Hh).
  cbn [serve_irq]. rewrite Hh. cbn [pRxMsg]. rewrite Hi.
  unfold mbind at 1, M_bind at 1, assign at 1, modify at 1.
  set (e1 := set_RxMessage m e).
  set (w1 := set_epos _ w).
  assert (Hrest1 : at_rest i e1 w1)
    by (apply (at_rest_assign i e e1 w Hrest); reflexivity).
  pose proof Hrest1 as (Hi1 & Hok1 & Hopen1 & Hp1 & Hlen1 & Hh1).
  unfold HAL_CAN_RxCpltCallback.
  change (hcan w1) with (hcan w). rewrite Hh. cbn [pRxMsg]. rewrite Hi1.
  destruct (decide _) as [_ | Hno]; [| rewrite Hp1 in Hno; lia].
  run.
  set (w4 := set_CAN_RxReady true _).
  assert (Hbuf4 : CANMsgBuf w4 = <[O := m]> (CANMsgBuf w)).
  { cbn. rewrite Hp. reflexivity. }
  assert (Hp4 : pCANMsg w4 = 1%nat) by (cbn; rewrite Hp; reflexivity).
  destruct (processCANMsg_spec w4) as (w5 & Hrun & Hep & Hout & Hp5);
    [exact Hok1 | exact Hopen1
    | rewrite Hp4, Hbuf4, length_insert; lia |].
  rewrite Hrun.
  assert (Hbatch : take (pCANMsg w4) (CANMsgBuf w4) = [m]).
  { rewrite Hp4, Hbuf4.
    destruct (CANMsgBuf w) as [| b0 bs]; [cbn in Hlen; lia |]. reflexivity. }
  rewrite Hbatch in Hep. change (epos w4) with (epos w1) in Hep.
  assert (Hi5 : deref i w5 = Some (absorb e m)).
  { apply deref_lookup. rewrite Hep, list_lookup_fmap.
    apply deref_lookup in Hi1. rewrite Hi1. reflexivity. }
  unfold outside_dispatch in Hout.
  injection Hout as Hh5 Ho2 Ho3 Ho4 Ho5 Hb5 Ho7 Ho8 Ho9 Ho10.
  change (hcan w4) with (hcan w) in Hh5.
  exists w5. split; [reflexivity |].
  destruct (absorb_identity e m) as (Hd & Hn & _ & _).
  split.
  { split; [exact Hi5 |].
    split; [rewrite Hep;
            apply nodes_ok_fmap;
            [intros x; destruct (body_identity (settle [m] x)) as (_ & -> & _);
             apply settle_Node_ID | exact Hok1] |].
    split; [rewrite Hep; apply all_open_fmap, Hopen1 |].
    split; [exact Hp5 |].
    split; [rewrite Hb5; cbn; rewrite length_insert; exact Hlen |].
    rewrite Hh5, Hd. exact Hh. }
  split.
  { rewrite Hep. intros j x. rewrite list_lookup_fmap.
    destruct (epos w1 !! j) as [[x0 |] |]; cbn; intros [= <-].
    apply body_flags. }
  split; [rewrite Hb5; cbn; rewrite Hp; reflexivity |].
  intros j ej Hj. rewrite Hep, list_lookup_fmap.
  destruct (Hset j ej Hj) as [H3 H4].
  destruct (decide (j = i)) as [-> | Hne].
  - assert (ej = e) as ->.
    { apply deref_lookup in Hi. congruence. }
    apply deref_lookup in Hi1. rewrite Hi1. cbn [fmap option_fmap option_map].
    eexists. split; [reflexivity |].
    exact (pass_cache e1 m H3 H4).
  - cbn [epos w1 set_epos]. rewrite list_lookup_insert_ne by congruence.
    rewrite Hj. cbn [fmap option_fmap option_map].
    eexists. split; [reflexivity |].
    exact (pass_cache ej m H3 H4).
Qed.

Lemma latest_cons (c : channel) (node : Z) (m : CanMsg) (ms : list CanMsg) :
  latest c node (m :: ms)
  = match latest c node ms with
    | Some x => Some x
    | None => if StdId m =? node + cob_offset c then Some m else None
    end.
Proof.
  unfold latest, earliest. cbn [rev].
  induction (rev ms) as [| x l IH]; [reflexivity |].
  cbn [app find]. destruct (StdId x =? node + cob_offset c); [reflexivity |].
  exact IH.
Qed.

Lemma latest_none (c : channel) (node : Z) (ms : list CanMsg) :
  (forall m, In m ms -> StdId m <> node + cob_offset c) ->
  latest c node ms = None.
Proof.
  induction ms as [| m ms IH]; intros H; [reflexivity |].
  rewrite latest_cons, IH by (intros x Hx; apply H; right; exact Hx).
  assert (Hm : StdId m <> node + cob_offset c) by (apply H; left; reflexivity).
  apply Z.eqb_neq in Hm. rewrite Hm. reflexivity.
Qed.

Lemma serve_frames_bus (i : nat) (ms : list CanMsg) :
  forall (e : epos_t) (w : world),
    at_rest i e w -> settled (epos w) ->
    exists w',
      serve (RxCplt (dev e) <$> ms) w = Done tt w' /\
      pCANMsg w' = O /\
      drop 1 (CANMsgBuf w') = drop 1 (CANMsgBuf w) /\
      forall j ej,
        epos w !! j = Some (Some ej) ->
        exists ej',
          epos w' !! j = Some (Some ej') /\
          Node_ID ej' = Node_ID ej /\
          RxPosition ej'
          = match latest PDO3 (Node_ID ej) ms with
            | Some m => le32_at m 2
            | None => RxPosition ej
            end /\
          RxVelocity ej'
          = match latest PDO4 (Node_ID ej) ms with
            | Some m => le32_at m 2
            | None => RxVelocity ej
            end.
Proof.
  induction ms as [| m ms IH]; intros e w Hrest Hset.
  - exists w. split; [reflexivity |].
    split; [exact (proj1 (proj2 (proj2 (proj2 Hrest)))) |].
    split; [reflexivity |]. intros j ej Hj. exists ej. repeat split. exact Hj.
  - destruct (serve_frame_bus i e w m Hrest Hset)
      as (w1 & Hrun & Hrest1 & Hset1 & Hb1 & Hdev1).
    destruct (absorb_identity e m) as (Hd & _).
    destruct (IH (absorb e m) w1 Hrest1 Hset1) as (w2 & Hrun2 & Hp2 & Hb2 & Hdev2).
    rewrite Hd in Hrun2.
    exists w2. cbn [fmap list_fmap serve].
    unfold mbind, M_bind. rewrite Hrun.
    split; [exact Hrun2 |]. split; [exact Hp2 |].
    split; [rewrite Hb2, Hb1; destruct (CANMsgBuf w); reflexivity |].
    intros j ej Hj.
    destruct (Hdev1 j ej Hj) as (ej1 & Hj1 & Hn1 & Hpos1 & Hvel1).
    destruct (Hdev2 j ej1 Hj1) as (ej2 & Hj2 & Hn2 & Hpos2 & Hvel2).
    exists ej2. split; [exact Hj2 |]. split; [congruence |].
    rewrite !latest_cons, Hpos2, Hvel2, Hn1.
    split.
    + destruct (latest PDO3 (Node_ID ej) ms); [reflexivity |].
      rewrite Hpos1.
      destruct (StdId m =? Node_ID ej + cob_offset PDO3); reflexivity.
    + destruct (latest PDO4 (Node_ID ej) ms); [reflexivity |].
      rewrite Hvel1.
      destruct (StdId m =? Node_ID ej + cob_offset PDO4); reflexivity.
Qed.

(** C6.  Frames reach the cache through the receive interrupt, one
    dispatch-and-decode pass per frame: the buffer holds the frame just
    received and nothing else, only its slot 0 is ever written, and it
    is empty again after each pass.  After any sequence [ms] of frames,
    in bus arrival order, the cached position of every device of the
    bus is the decode of bytes 2..5 of the channel-3 frame of its node
    that arrived last, and the cached velocity that of the channel-4
    frame that arrived last; a value for which no frame arrived is as
    before, so a channel-3 frame never touches the cached velocity.  The
    decode of a frame is the little-endian 32-bit value of bytes 2..5 as
    a two's-complement number. *)
Theorem pdo_cache_last_value_wins (i : nat) (e : epos_t) (w : world)
    (ms : list CanMsg) :
  at_rest i e w -> settled (epos w) ->
  (exists w',
     serve (RxCplt (dev e) <$> ms) w = Done tt w' /\
     pCANMsg w' = O /\
     drop 1 (CANMsgBuf w') = drop 1 (CANMsgBuf w) /\
     forall j ej,
       epos w !! j = Some (Some ej) ->
       exists ej',
         epos w' !! j = Some (Some ej') /\
         RxPosition ej'
         = match latest PDO3 (Node_ID ej) ms with
           | Some m => le32_at m 2
           | None => RxPosition ej
           end /\
         RxVelocity ej'
         = match latest PDO4 (Node_ID ej) ms with
           | Some m => le32_at m 2
           | None => RxVelocity ej
           end /\
         ((forall m, In m ms -> StdId m <> Node_ID ej + 0x380) ->
          RxPosition ej' = RxPosition ej) /\
         ((forall m, In m ms -> StdId m <> Node_ID ej + 0x480) ->
          RxVelocity ej' = RxVelocity ej)) /\
  (forall m, frame_ok m ->
     le32_at m 2
     = signed32 (byte m 2 + 2 ^ 8 * byte m 3 + 2 ^ 16 * byte m 4
                 + 2 ^ 24 * byte m 5)).
Proof.
  intros Hrest Hset. split.
  - destruct (serve_frames_bus i ms e w Hrest Hset)
      as (w' & Hrun & Hp & Hb & Hdev).
    exists w'. split; [exact Hrun |]. split; [exact Hp |].
    split; [exact Hb |].
    intros j ej Hj. destruct (Hdev j ej Hj) as (ej' & Hj' & _ & Hpos & Hvel).
    exists ej'. split; [exact Hj' |]. split; [exact Hpos |].
    split; [exact Hvel |]. split; intros Hnone.
    + rewrite Hpos, (latest_none PDO3 _ ms Hnone). reflexivity.
    + rewrite Hvel, (latest_none PDO4 _ ms Hnone). reflexivity.
  - intros m Hok. rewrite le32_at_sum. apply s32_signed32.
    pose proof (byte_range m 2 Hok). pose proof (byte_range m 3 Hok).
    pose proof (byte_range m 4 Hok). pose proof (byte_range m 5 Hok).
    cbn [Nat.add]. lia.
Qed.

(** C6, an instance on a bus with nodes 1 and 2: positions 1 and then 2
    arrive for node 2 with a position 5 for node 1 between them; the
    caches end at 5 and 2, the velocities stay 0. *)
Lemma pdo_cache_last_value_wins_witness :
  let w := bench [Some (fresh 1); Some (fresh 2)] [] in
  let ms := [position_frame 2 1; position_frame 1 5; position_frame 2 2] in
  exists w' e1 e2,
    serve (RxCplt 0 <$> ms) w = Done tt w' /\
    epos w' !! 0%nat = Some (Some e1) /\
    epos w' !! 1%nat = Some (Some e2) /\
    (RxPosition e1, RxVelocity e1) = (5, 0) /\
    (RxPosition e2, RxVelocity e2) = (2, 0).
Proof.
  intros w ms.
  assert (Hrest : at_rest 0 (fresh 1) w).
  { split; [reflexivity |]. split; [concrete_bus |]. split; [concrete_bus |].
    split; [reflexivity |]. split; [cbn; lia | reflexivity]. }
  assert (Hset : settled (epos w)).
  { intros [| [| j]] x; cbn; intros [= <-]; split; reflexivity. }
  destruct (pdo_cache_last_value_wins 0 (fresh 1) w ms Hrest Hset)
    as ((w' & Hrun & _ & _ & Hdev) & _).
  destruct (Hdev 0%nat (fresh 1) eq_refl) as (e1 & H1 & Hp1 & Hv1 & _).
  destruct (Hdev 1%nat (fresh 2) eq_refl) as (e2 & H2 & Hp2 & Hv2 & _).
  exists w', e1, e2. split; [exact Hrun |].
  split; [exact H1 |]. split; [exact H2 |].
  rewrite Hp1, Hv1, Hp2, Hv2. split; reflexivity.
Defined.

(** X8.  The dictionary reads on a reply that comes in: each returns 0
    and delivers bytes 4..7 of the reply, low byte first, as an unsigned
    32-bit value (position window), as a two's-complement 32-bit value
    (positions and velocities) or cut to its low 16 bits (control word,
    input polarity, device error), whether or not the reply is an abort.
    When the transport refuses the request each returns -1 and leaves
    the output as it was. *)
Theorem dictionary_reads_deliver_payload (i : nat) (out : Z) (e : epos_t)
    (w : world) :
  at_rest i e w ->
  (forall resp rest,
     frame_ok resp -> StdId resp = Node_ID e + 0x580 ->
     sched w = prompt (dev e) resp :: rest ->
     (exists w', readPositionWindow i out w = Done (0, payload32 resp) w') /\
     (exists w', readTargetPosition i out w
                 = Done (0, signed32 (payload32 resp)) w') /\
     (exists w', readDemandPosition i out w
                 = Done (0, signed32 (payload32 resp)) w') /\
     (exists w', readDemandVelocity i out w
                 = Done (0, signed32 (payload32 resp)) w') /\
     (exists w', readControlword i out w = Done (0, payload16 resp) w') /\
     (exists w', readDInputPolarity i out w = Done (0, payload16 resp) w') /\
     (forall idx, exists w',
        read_DevErr i idx out w = Done (0, payload16 resp) w')) /\
  (forall rest,
     sched w = mkCall false [] :: rest ->
     (exists w', readPositionWindow i out w = Done (-1, out) w') /\
     (exists w', readTargetPosition i out w = Done (-1, out) w') /\
     (exists w', readDemandPosition i out w = Done (-1, out) w') /\
     (exists w', readDemandVelocity i out w = Done (-1, out) w') /\
     (exists w', readControlword i out w = Done (-1, out) w') /\
     (exists w', readDInputPolarity i out w = Done (-1, out) w') /\
     (forall idx, exists w', read_DevErr i idx out w = Done (-1, out) w')).
Proof.
  intros Hrest. split.
  - intros resp rest Hok Hid Hs.
    pose proof (payload32_range resp Hok) as Hr.
    assert (H : forall Index SubIndex conv, exists w',
              dictionary_read i Index SubIndex conv out w
              = Done (0, conv (payload32 resp)) w').
    { intros Index SubIndex conv.
      destruct (dictionary_read_prompt i Index SubIndex conv out e w resp rest
                  Hrest Hs Hid) as (w' & _ & Hrun & _).
      rewrite (reply_value resp Hok) in Hrun. eauto. }
    unfold readPositionWindow, readTargetPosition, readDemandPosition,
      readDemandVelocity, readControlword, readDInputPolarity, read_DevErr.
    rewrite <- (s32_signed32 _ Hr), <- (low_word_payload resp Hok).
    split.
    { destruct (H 0x6067 0x00 u32) as (w' & Hrun).
      unfold u32 in Hrun at 2. rewrite (Z.mod_small _ _ Hr) in Hrun. eauto. }
    repeat split; try intros idx; apply H.
  - intros rest Hs.
    assert (H : forall Index SubIndex conv, exists w',
              dictionary_read i Index SubIndex conv out w = Done (-1, out) w').
    { intros Index SubIndex conv.
      destruct (dictionary_read_refused i Index SubIndex conv out e w rest
                  Hrest Hs) as (w' & _ & Hrun & _).
      eauto. }
    unfold readPositionWindow, readTargetPosition, readDemandPosition,
      readDemandVelocity, readControlword, readDInputPolarity, read_DevErr.
    repeat split; try intros idx; apply H.
Qed.

Lemma dictionary_reads_deliver_payload_witness :
  let w := bench [Some (fresh 1)]
             [prompt 0 (frame 0x581 [0x43; 0x7A; 0x60; 0; 0xFE; 0xFF; 0xFF; 0xFF])]
  in
  (exists w', readPositionWindow 0 0 w = Done (0, 4294967294) w') /\
  (exists w', readTargetPosition 0 0 w = Done (0, -2) w').
Proof.
  intros w.
  destruct (dictionary_reads_deliver_payload 0 0 (fresh 1) w (at_rest_bench _))
    as [H _].
  destruct (H (frame 0x581 [0x43; 0x7A; 0x60; 0; 0xFE; 0xFF; 0xFF; 0xFF]) [])
    as (H1 & H2 & _).
  - split; [reflexivity |]. repeat constructor; lia.
  - reflexivity.
  - reflexivity.
  - split; [exact H1 | exact H2].
Defined.

(** X9.  [readSWversion] has result type [uint16_t], so its error
    returns come out as 65535: whenever it returns, the result is between
    0 and 65535, never negative; a NULL device and a refused request
    both give 65535, and a reply gives the 16-bit value in its bytes 4
    and 5, which may be 65535 as well. *)
Theorem readSWversion_never_negative (i : nat) (w : world) :
  (forall r w', readSWversion i w = Done r w' -> 0 <= r < 2 ^ 16) /\
  (deref i w = None -> readSWversion i w = Done 65535 w) /\
  (forall e rest,
     at_rest i e w -> sched w = mkCall false [] :: rest ->
     exists w', readSWversion i w = Done 65535 w') /\
  (forall e resp rest,
     at_rest i e w -> frame_ok resp -> StdId resp = Node_ID e + 0x580 ->
     sched w = prompt (dev e) resp :: rest ->
     exists w', readSWversion i w = Done (payload16 resp) w').
Proof.
  split; [| split; [| split]].
  - intros r w'. unfold readSWversion.
    destruct (deref i w);
      [| intros [= <- _]; unfold u16; apply Z.mod_pos_bound; lia].
    intros H. peel H; injection H as <-; apply Z.mod_pos_bound; lia.
  - intros H. unfold readSWversion. rewrite H. reflexivity.
  - intros e rest Hrest Hs.
    destruct (ReadObject_refused i 0x2003 0x01 (uninit w) e w rest Hrest Hs)
      as (w' & _ & Hrun & _).
    unfold readSWversion, checkEPOS. rewrite (proj1 Hrest). run.
    cbn [Z.eqb negb]. rewrite Hrun. cbn [Z.ltb Z.compare]. eauto.
  - intros e resp rest Hrest Hok Hid Hs.
    destruct (ReadObject_prompt i 0x2003 0x01 (uninit w) e w resp rest
                Hrest Hs Hid) as (w1 & e1 & Hrun & Hrest1 & _).
    unfold readSWversion, checkEPOS. rewrite (proj1 Hrest). run.
    cbn [Z.eqb negb]. rewrite Hrun. cbn [Z.ltb Z.compare].
    rewrite (reply_value resp Hok).
    assert (Hv : u16 (s32 (Z.land (payload32 resp) 0xFFFF)) = payload16 resp).
    { rewrite <- (low_word_payload resp Hok). unfold low_word.
      rewrite land_FFFF. unfold u16, s32.
      change (2 ^ 16) with 65536. change (2 ^ 32) with 4294967296.
      change (2 ^ 31) with 2147483648. Z.div_mod_to_equations; lia. }
    rewrite Hv. unfold checkEPOSerror. rewrite (proj1 Hrest1).
    destruct (E_error e1 =? E_NOERR); [eauto |]. run. eauto.
Qed.

Lemma readSWversion_never_negative_witness :
  exists w',
    readSWversion 0 (bench [Some (fresh 1)] [mkCall false []]) = Done 65535 w'.
Proof.
  destruct (readSWversion_never_negative 0
              (bench [Some (fresh 1)] [mkCall false []])) as (_ & _ & H & _).
  exact (H (fresh 1) [] (at_rest_bench _) eq_refl).
Defined.

Lemma s8_byte (b : Z) :
  0 <= b < 256 -> s8 b = if b <? 128 then b else b - 256.
Proof.
  intros H. unfold s8. change (2 ^ 7) with 128. change (2 ^ 8) with 256.
  destruct (b <? 128) eqn:E;
    [apply Z.ltb_lt in E | apply Z.ltb_ge in E];
    Z.div_mod_to_equations; lia.
Qed.

Lemma payload32_low_byte (m : CanMsg) :
  frame_ok m -> Z.land (payload32 m) 0xFF = byte m 4.
Proof.
  intros H. rewrite land_FF. unfold payload32.
  pose proof (byte_range m 4 H). pose proof (byte_range m 5 H).
  pose proof (byte_range m 6 H). pose proof (byte_range m 7 H).
  change (2 ^ 8) with 256 in *. change (2 ^ 16) with 65536 in *.
  change (2 ^ 24) with 16777216 in *.
  Z.div_mod_to_equations; lia.
Qed.

(** X10.  [readOpMode] returns the operating mode as a signed byte,
    between -128 and 127 whenever it returns.  It returns 0 when the
    transport refuses the request, but -1 for a NULL device, which is
    also what it returns for a device that reports mode -1 (byte 0xFF in
    the reply). *)
Theorem readOpMode_error_codes (i : nat) (w : world) :
  (forall r w', readOpMode i w = Done r w' -> -128 <= r <= 127) /\
  (deref i w = None -> readOpMode i w = Done (-1) w) /\
  (forall e rest,
     at_rest i e w -> sched w = mkCall false [] :: rest ->
     exists w', readOpMode i w = Done 0 w') /\
  (forall e resp rest,
     at_rest i e w -> frame_ok resp -> StdId resp = Node_ID e + 0x580 ->
     sched w = prompt (dev e) resp :: rest ->
     exists w',
       readOpMode i w
       = Done (if byte resp 4 <? 128 then byte resp 4 else byte resp 4 - 256)
           w').
Proof.
  split; [| split; [| split]].
  - intros r w'. unfold readOpMode.
    destruct (deref i w); [| intros [= <- _]; lia].
    intros H. peel H; injection H as <-; [lia |].
    unfold s8. change (2 ^ 7) with 128. change (2 ^ 8) with 256.
    Z.div_mod_to_equations; lia.
  - intros H. unfold readOpMode. rewrite H. reflexivity.
  - intros e rest Hrest Hs.
    destruct (ReadObject_refused i 0x6061 0x00 (uninit w) e w rest Hrest Hs)
      as (w' & _ & Hrun & _).
    unfold readOpMode. rewrite (proj1 Hrest). run.
    rewrite Hrun. cbn [Z.ltb Z.compare]. eauto.
  - intros e resp rest Hrest Hok Hid Hs.
    destruct (ReadObject_prompt i 0x6061 0x00 (uninit w) e w resp rest
                Hrest Hs Hid) as (w1 & e1 & Hrun & Hrest1 & _).
    unfold readOpMode. rewrite (proj1 Hrest). run.
    rewrite Hrun. cbn [Z.ltb Z.compare].
    rewrite (reply_value resp Hok), (payload32_low_byte resp Hok).
    rewrite (s8_byte _ (byte_range resp 4 Hok)).
    unfold checkEPOSerror. rewrite (proj1 Hrest1).
    destruct (E_error e1 =? E_NOERR); [eauto |]. run. eauto.
Qed.

Lemma readOpMode_error_codes_witness :
  exists w',
    readOpMode 0
      (bench [Some (fresh 1)]
         [prompt 0 (frame 0x581 [0x4F; 0x61; 0x60; 0; 0xFF; 0; 0; 0])])
    = Done (-1) w'.
Proof.
  destruct (readOpMode_error_codes 0
              (bench [Some (fresh 1)]
                 [prompt 0 (frame 0x581 [0x4F; 0x61; 0x60; 0; 0xFF; 0; 0; 0])]))
    as (_ & _ & _ & H).
  apply (H (fresh 1) (frame 0x581 [0x4F; 0x61; 0x60; 0; 0xFF; 0; 0; 0]) []
           (at_rest_bench _)).
  - split; [reflexivity |]. repeat constructor; lia.
  - reflexivity.
  - reflexivity.
Defined.

Lemma shiftr_land_FF0000 (x : Z) :
  Z.shiftr (Z.land x 0xFF0000) 16 = (x / 2 ^ 16) mod 2 ^ 8.
Proof.
  rewrite Z.shiftr_land. change (Z.shiftr 0xFF0000 16) with 0xFF.
  rewrite land_FF, Z.shiftr_div_pow2 by lia. reflexivity.
Qed.

Lemma shiftr_land_FF000000 (x : Z) :
  Z.shiftr (Z.land x 0xFF000000) 24 = (x / 2 ^ 24) mod 2 ^ 8.
Proof.
  rewrite Z.shiftr_land. change (Z.shiftr 0xFF000000 24) with 0xFF.
  rewrite land_FF, Z.shiftr_div_pow2 by lia. reflexivity.
Qed.

(** The five characters that [readDeviceName] stores for [answer]. *)
Lemma readDeviceName_store (answer : Z) (str : list Z) :
  (5 <= length str)%nat ->
  let str' :=
    <[4%nat := 0]>
      (<[3%nat := u8 (Z.shiftr (Z.land answer 0xFF000000) 24)]>
         (<[2%nat := u8 (Z.shiftr (Z.land answer 0xFF0000) 16)]>
            (<[1%nat := u8 (Z.shiftr (Z.land answer 0xFF00) 8)]>
               (<[0%nat := u8 (Z.land answer 0x00FF)]> str)))) in
  take 5 str'
  = [ answer mod 2 ^ 8; (answer / 2 ^ 8) mod 2 ^ 8;
      (answer / 2 ^ 16) mod 2 ^ 8; (answer / 2 ^ 24) mod 2 ^ 8; 0 ] /\
  drop 5 str' = drop 5 str.
Proof.
  intros Hlen.
  destruct str as [| c0 [| c1 [| c2 [| c3 [| c4 tail]]]]];
    try (cbn in Hlen; lia).
  cbn. rewrite land_FF, shiftr_land_FF00, shiftr_land_FF0000,
    shiftr_land_FF000000.
  unfold u8. rewrite !Z.mod_mod by lia. split; reflexivity.
Qed.

Lemma payload32_bytes (m : CanMsg) :
  frame_ok m ->
  payload32 m mod 2 ^ 8 = byte m 4 /\
  (payload32 m / 2 ^ 8) mod 2 ^ 8 = byte m 5 /\
  (payload32 m / 2 ^ 16) mod 2 ^ 8 = byte m 6 /\
  (payload32 m / 2 ^ 24) mod 2 ^ 8 = byte m 7.
Proof.
  intros H. unfold payload32.
  pose proof (byte_range m 4 H). pose proof (byte_range m 5 H).
  pose proof (byte_range m 6 H). pose proof (byte_range m 7 H).
  change (2 ^ 8) with 256 in *. change (2 ^ 16) with 65536 in *.
  change (2 ^ 24) with 16777216 in *.
  repeat split; Z.div_mod_to_equations; lia.
Qed.

(** X11.  [readDeviceName] and [readRS232timeout] print a message when
    [ReadObject] fails and carry on: with the request refused by the
    transport they still report success, and what they deliver is taken
    from the uninitialised local [answer].  On a reply they deliver its
    bytes 4..7 as four characters and a terminating 0, and its byte 4.
    [readDeviceName] writes five characters whatever the size of the
    caller's buffer. *)
Theorem readDeviceName_ignores_failed_read (i : nat) (e : epos_t) (w : world)
    (str : list Z) :
  at_rest i e w ->
  (forall rest,
     sched w = mkCall false [] :: rest ->
     (exists w', readRS232timeout i w = Done (uninit w mod 2 ^ 8) w') /\
     ((5 <= length str)%nat ->
      exists w' str',
        readDeviceName i str w = Done (0, str') w' /\
        take 5 str'
        = [ uninit w mod 2 ^ 8; (uninit w / 2 ^ 8) mod 2 ^ 8;
            (uninit w / 2 ^ 16) mod 2 ^ 8; (uninit w / 2 ^ 24) mod 2 ^ 8; 0 ] /\
        drop 5 str' = drop 5 str) /\
     ((length str < 5)%nat ->
      exists w', readDeviceName i str w = Fault w')) /\
  (forall resp rest,
     frame_ok resp -> StdId resp = Node_ID e + 0x580 ->
     sched w = prompt (dev e) resp :: rest ->
     (exists w', readRS232timeout i w = Done (byte resp 4) w') /\
     ((5 <= length str)%nat ->
      exists w' str',
        readDeviceName i str w = Done (0, str') w' /\
        take 5 str'
        = [byte resp 4; byte resp 5; byte resp 6; byte resp 7; 0] /\
        drop 5 str' = drop 5 str)).
Proof.
  intros Hrest. split.
  - intros rest Hs.
    assert (Hread : forall Index, exists w',
              ReadObject i Index 0x00 (uninit w) w = Done (-1, uninit w) w').
    { intros Index.
      destruct (ReadObject_refused i Index 0x00 (uninit w) e w rest Hrest Hs)
        as (w' & _ & Hrun & _). eauto. }
    split; [| split].
    + destruct (Hread 0x2005) as (w' & Hrun).
      unfold readRS232timeout, checkEPOS. rewrite (proj1 Hrest). run.
      cbn [Z.eqb negb]. rewrite Hrun.
      exists w'. rewrite land_FF. f_equal. apply s32_small.
      pose proof (Z.mod_pos_bound (uninit w) (2 ^ 8)). lia.
    + intros Hlen. destruct (Hread 0x1008) as (w' & Hrun).
      unfold readDeviceName, checkEPOS. rewrite (proj1 Hrest). run.
      cbn [Z.eqb negb]. rewrite Hrun.
      destruct (decide _) as [_ | Hno]; [| contradiction].
      eexists w', _. split; [reflexivity |].
      apply (readDeviceName_store (uninit w) str Hlen).
    + intros Hlen. destruct (Hread 0x1008) as (w' & Hrun).
      unfold readDeviceName, checkEPOS. rewrite (proj1 Hrest). run.
      cbn [Z.eqb negb]. rewrite Hrun.
      destruct (decide _) as [Hno | _]; [lia |]. eauto.
  - intros resp rest Hok Hid Hs.
    destruct (payload32_bytes resp Hok) as (H4 & H5 & H6 & H7).
    assert (Hread : forall Index, exists w',
              ReadObject i Index 0x00 (uninit w) w
              = Done (1, payload32 resp) w').
    { intros Index.
      destruct (ReadObject_prompt i Index 0x00 (uninit w) e w resp rest
                  Hrest Hs Hid) as (w' & _ & Hrun & _).
      rewrite (reply_value resp Hok) in Hrun. eauto. }
    split.
    + destruct (Hread 0x2005) as (w' & Hrun).
      unfold readRS232timeout, checkEPOS. rewrite (proj1 Hrest). run.
      cbn [Z.eqb negb]. rewrite Hrun.
      exists w'. rewrite land_FF, H4. f_equal. apply s32_small.
      pose proof (byte_range resp 4 Hok). lia.
    + intros Hlen. destruct (Hread 0x1008) as (w' & Hrun).
      unfold readDeviceName, checkEPOS. rewrite (proj1 Hrest). run.
      cbn [Z.eqb negb]. rewrite Hrun.
      destruct (decide _) as [_ | Hno]; [| contradiction].
      eexists w', _. split; [reflexivity |].
      rewrite <- H4, <- H5, <- H6, <- H7.
      apply (readDeviceName_store (payload32 resp) str Hlen).
Qed.

Lemma readDeviceName_ignores_failed_read_witness :
  let w := Build_world [Some (fresh 1)] [mkHandle 0 0] false false false false
             (replicate 16 blank) 0 [mkCall false []] 0 [] [] 0x4A554E4B in
  exists w',
    readDeviceName 0 [0; 0; 0; 0; 0; 0] w
    = Done (0, [0x4B; 0x4E; 0x55; 0x4A; 0; 0]) w'.
Proof.
  intros w.
  assert (Hrest : at_rest 0 (fresh 1) w).
  { split; [reflexivity |]. split; [concrete_bus |]. split; [concrete_bus |].
    split; [reflexivity |]. split; [cbn; lia | reflexivity]. }
  destruct (readDeviceName_ignores_failed_read 0 (fresh 1) w
              [0; 0; 0; 0; 0; 0] Hrest) as [H _].
  destruct (H [] eq_refl) as (_ & H5 & _).
  destruct (H5 ltac:(cbn; lia)) as (w' & str' & Hrun & Ht & Hd).
  exists w'. rewrite Hrun. do 2 f_equal.
  rewrite <- (take_drop 5 str'), Ht, Hd. reflexivity.
Defined.

(** X12.  [readTargetVelocity] is the one dictionary read without a NULL
    check of its own: it starts with [checkEPOS], whose test never
    holds.  A NULL device is turned away all the same, by the NULL check
    of [ReadObject]: the call returns -1 with the output as it was and
    nothing sent, as [readTargetPosition] does.  On an open device it
    behaves as [readTargetPosition], for its own object 0x60FF. *)
Theorem readTargetVelocity_null_through_ReadObject (i : nat) (out : Z)
    (w : world) :
  (deref i w = None ->
   readTargetVelocity i out w = Done (-1, out) w /\
   readTargetPosition i out w = Done (-1, out) w) /\
  (forall e, at_rest i e w ->
     (forall rest, sched w = mkCall false [] :: rest ->
        exists w', readTargetVelocity i out w = Done (-1, out) w') /\
     (forall resp rest,
        frame_ok resp -> StdId resp = Node_ID e + 0x580 ->
        sched w = prompt (dev e) resp :: rest ->
        exists w',
          readTargetVelocity i out w = Done (0, signed32 (payload32 resp)) w' /\
          wire w' = wire w ++ [read_request (Node_ID e) 0x60FF 0x00])).
Proof.
  split.
  - intros H. split.
    + unfold readTargetVelocity, checkEPOS. run.
      cbn [Z.ltb Z.compare]. unfold ReadObject. rewrite H. reflexivity.
    + unfold readTargetPosition, dictionary_read. rewrite H. reflexivity.
  - intros e Hrest.
    assert (Heq : readTargetVelocity i out w
                  = dictionary_read i 0x60FF 0x00 s32 out w).
    { unfold readTargetVelocity, dictionary_read, checkEPOS. run.
      rewrite (proj1 Hrest). reflexivity. }
    rewrite Heq. split.
    + intros rest Hs.
      destruct (dictionary_read_refused i 0x60FF 0x00 s32 out e w rest
                  Hrest Hs) as (w' & _ & Hrun & _). eauto.
    + intros resp rest Hok Hid Hs.
      destruct (dictionary_read_prompt i 0x60FF 0x00 s32 out e w resp rest
                  Hrest Hs Hid)
        as (w' & _ & Hrun & _ & _ & _ & _ & _ & _ & _ & Hw & _).
      rewrite (reply_value resp Hok) in Hrun.
      rewrite (s32_signed32 _ (payload32_range resp Hok)) in Hrun. eauto.
Qed.

Lemma readTargetVelocity_null_through_ReadObject_witness :
  readTargetVelocity 0 7 (bench [None] [prompt 0 status_reply])
  = Done (-1, 7) (bench [None] [prompt 0 status_reply]).
Proof.
  destruct (readTargetVelocity_null_through_ReadObject 0 7
              (bench [None] [prompt 0 status_reply])) as [H _].
  exact (proj1 (H eq_refl)).
Defined.

(** ** Dictionary writes *)

Lemma dictionary_write_prompt (i : nat) (Index SubIndex : Z) (dw : Z * Z)
    (e : epos_t) (w : world) (resp : CanMsg) (rest : list hal_call) :
  at_rest i e w -> sched w = prompt (dev e) resp :: rest ->
  StdId resp = Node_ID e + 0x580 ->
  exists w' e',
    dictionary_write i Index SubIndex dw w
    = Done (if error_of_response resp =? 0 then 0 else -1) w' /\
    at_rest i e' w' /\ Node_ID e' = Node_ID e /\ dev e' = dev e /\
    E_error e' = error_of_response resp /\
    sched w' = rest /\ clock w' = clock w /\ uninit w' = uninit w /\
    wire w' = wire w ++ [write_request (Node_ID e) Index SubIndex dw] /\
    SDOBusy w' = SDOBusy w.
Proof.
  intros Hrest Hs Hid.
  destruct (WriteObject_prompt i Index SubIndex dw e w resp rest Hrest Hs Hid)
    as (w' & e' & Hrun & Hrest' & He & _ & _ & _ & Hn & Hd & Hb & Hsc & Hc
        & Hw & Hu).
  unfold dictionary_write. run. rewrite Hrun.
  exists w', e'. split.
  { destruct (error_of_response resp =? 0); reflexivity. }
  split; [exact Hrest' |]. repeat split; assumption.
Qed.

Lemma dictionary_write_refused (i : nat) (Index SubIndex : Z) (dw : Z * Z)
    (e : epos_t) (w : world) (rest : list hal_call) :
  at_rest i e w -> sched w = mkCall false [] :: rest ->
  exists w' e',
    dictionary_write i Index SubIndex dw w = Done (-1) w' /\
    at_rest i e' w' /\ Node_ID e' = Node_ID e /\ dev e' = dev e /\
    sched w' = rest /\ wire w' = wire w /\ clock w' = clock w /\
    uninit w' = uninit w.
Proof.
  intros Hrest Hs.
  destruct (WriteObject_refused i Index SubIndex dw e w rest Hrest Hs)
    as (w' & e' & Hrun & Hrest' & _ & Hd & Hn & _ & Hw & _ & Hsc & Hc & Hu).
  unfold dictionary_write. run. rewrite Hrun.
  exists w', e'. split; [reflexivity |]. split; [exact Hrest' |].
  repeat split; assumption.
Qed.

Lemma dictionary_write_wire (i : nat) (Index SubIndex : Z) (dw : Z * Z)
    (w : world) (e : epos_t) :
  deref i w = Some e -> hcan w !! dev e = Some (mkHandle i i) ->
  wire (final (dictionary_write i Index SubIndex dw w))
  = wire w ++ accepted (sched w) (write_request (Node_ID e) Index SubIndex dw).
Proof.
  intros Hi Hh. unfold dictionary_write.
  apply final_bind_wire; [apply (WriteObject_wire _ _ _ _ _ _ Hi Hh) |].
  intros n. destruct (n <? 0); wire_step.
Qed.

Lemma writePositionWindow_dictionary_write (i : nat) (val : Z) (w : world)
    (e : epos_t) :
  deref i w = Some e ->
  wire (final (writePositionWindow i val w))
  = wire (final (dictionary_write i 0x6067 0x00 (words_of val) w)) /\
  forall r w',
    dictionary_write i 0x6067 0x00 (words_of val) w = Done r w' ->
    exists w'', writePositionWindow i val w = Done r w''.
Proof.
  intros Hi. unfold writePositionWindow, dictionary_write. rewrite Hi.
  unfold mbind, M_bind.
  destruct (WriteObject i 0x6067 0x00 (words_of val) w) as [n w1 | w1 | w1];
    [| split; [reflexivity | discriminate] ..].
  destruct (n <? 0); [split; [reflexivity | eauto] |].
  pose proof (checkEPOSerror_keeps_wire i w1) as Hk.
  unfold keeps_wire in Hk.
  unfold checkEPOSerror in *. destruct (deref i w1) as [e1 |].
  - destruct (E_error e1 =? E_NOERR).
    + split; [reflexivity |]. intros r w' [= <- <-]. eauto.
    + split; [exact Hk |]. intros r w' [= <- <-]. eauto.
  - split; [reflexivity |]. intros r w' [= <- <-]. eauto.
Qed.

(** X13.  The setters of a 32-bit object split the value into two words
    and [WriteObject] lays them out low byte first in bytes 4..7 of a
    request to the setter's own index, subindex 0: what the decoding of
    [ReadObject] makes of that payload is the value again.  The request
    is the only frame the setter sends; its result is 0 on a reply that
    is no abort and -1 on an abort or a refused transmission. *)
Theorem setters_write_value_little_endian (f : nat -> Z -> M Z)
    (Index : Z) (i : nat) (val : Z) (e : epos_t) (w : world) :
  In (f, Index) value_setters -> at_rest i e w ->
  let req := write_request (Node_ID e) Index 0x00 (words_of val) in
  wire (final (f i val w)) = wire w ++ accepted (sched w) req /\
  (byte req 0 = 0x22 /\ byte req 1 = Index mod 2 ^ 8 /\
   byte req 2 = Index / 2 ^ 8 /\ byte req 3 = 0) /\
  (byte req 4 = val mod 2 ^ 8 /\ byte req 5 = (val / 2 ^ 8) mod 2 ^ 8 /\
   byte req 6 = (val / 2 ^ 16) mod 2 ^ 8 /\
   byte req 7 = (val / 2 ^ 24) mod 2 ^ 8) /\
  (0 <= val < 2 ^ 32 -> u32 (le32_at req 4) = val) /\
  (- 2 ^ 31 <= val < 2 ^ 31 -> le32_at req 4 = val) /\
  (forall resp rest,
     StdId resp = Node_ID e + 0x580 ->
     sched w = prompt (dev e) resp :: rest ->
     exists w',
       f i val w = Done (if error_of_response resp =? 0 then 0 else -1) w') /\
  (forall rest,
     sched w = mkCall false [] :: rest ->
     exists w', f i val w = Done (-1) w').
Proof.
  intros Hin Hrest req.
  pose proof Hrest as (Hi & _ & _ & _ & _ & Hh).
  destruct (words_of_read_back (Node_ID e) Index 0x00 val) as [Hs Hu].
  fold req in Hs, Hu.
  assert (Hbytes : Data req
                   = [ 0x22; u8 (Z.land Index 0xFF);
                       u8 (Z.shiftr (Z.land Index 0xFF00) 8); u8 0x00;
                       val mod 2 ^ 8; (val / 2 ^ 8) mod 2 ^ 8;
                       (val / 2 ^ 16) mod 2 ^ 8; (val / 2 ^ 24) mod 2 ^ 8 ])
    by apply words_of_payload.
  assert (Hgen : forall g : nat -> Z -> M Z,
            (wire (final (g i val w))
             = wire (final (dictionary_write i Index 0x00 (words_of val) w)) /\
             forall r w', dictionary_write i Index 0x00 (words_of val) w
                          = Done r w' ->
                          exists w'', g i val w = Done r w'') ->
            wire (final (g i val w)) = wire w ++ accepted (sched w) req /\
            (forall resp rest,
               StdId resp = Node_ID e + 0x580 ->
               sched w = prompt (dev e) resp :: rest ->
               exists w',
                 g i val w
                 = Done (if error_of_response resp =? 0 then 0 else -1) w') /\
            (forall rest,
               sched w = mkCall false [] :: rest ->
               exists w', g i val w = Done (-1) w')).
  { intros g [Hw Hd]. split; [| split].
    - rewrite Hw. apply (dictionary_write_wire _ _ _ _ _ _ Hi Hh).
    - intros resp rest Hid Hsc.
      destruct (dictionary_write_prompt i Index 0x00 (words_of val) e w resp
                  rest Hrest Hsc Hid) as (w' & _ & Hrun & _).
      apply (Hd _ _ Hrun).
    - intros rest Hsc.
      destruct (dictionary_write_refused i Index 0x00 (words_of val) e w rest
                  Hrest Hsc) as (w' & _ & Hrun & _).
      apply (Hd _ _ Hrun). }
  assert (Hidx : byte req 1 = Index mod 2 ^ 8 /\ byte req 2 = Index / 2 ^ 8).
  { unfold byte. rewrite Hbytes. cbn [nth].
    rewrite land_FF, shiftr_land_FF00. unfold u8. rewrite !Z.mod_mod by lia.
    split; [reflexivity |].
    cbn [In value_setters] in Hin.
    repeat destruct Hin as [[= <- <-] | Hin]; try reflexivity.
    destruct Hin. }
  assert (Hfun : wire (final (f i val w)) = wire w ++ accepted (sched w) req /\
                 (forall resp rest,
                    StdId resp = Node_ID e + 0x580 ->
                    sched w = prompt (dev e) resp :: rest ->
                    exists w',
                      f i val w
                      = Done (if error_of_response resp =? 0 then 0 else -1)
                          w') /\
                 (forall rest,
                    sched w = mkCall false [] :: rest ->
                    exists w', f i val w = Done (-1) w')).
  { cbn [In value_setters] in Hin.
    repeat destruct Hin as [[= <- <-] | Hin];
      try (apply Hgen; split; [reflexivity | eauto]).
    - apply Hgen. apply (writePositionWindow_dictionary_write i val w e Hi).
    - destruct Hin. }
  destruct Hfun as (Hw & Hp & Hr).
  split; [exact Hw |].
  split; [unfold byte at 1 4; rewrite Hbytes; cbn [nth];
          destruct Hidx as [H1 H2]; repeat split; assumption |].
  split; [unfold byte; rewrite Hbytes; cbn [nth]; repeat split |].
  split; [intros Hv; rewrite Hu; apply Z.mod_small, Hv |].
  split; [intros Hv; rewrite Hs; apply s32_small, Hv |].
  split; [exact Hp | exact Hr].
Qed.

Lemma setters_write_value_little_endian_witness :
  let w := bench [Some (fresh 1)] [prompt 0 status_reply] in
  wire (final (setProfileVelocity 0 0x00011170 w))
  = [frame 0x601 [0x22; 0x81; 0x60; 0x00; 0x70; 0x11; 0x01; 0x00]].
Proof.
  intros w.
  assert (Hin : In (setProfileVelocity, 0x6081) value_setters)
    by (right; left; reflexivity).
  destruct (setters_write_value_little_endian setProfileVelocity 0x6081 0
              0x00011170 (fresh 1) w Hin (at_rest_bench _)) as (Hw & _).
  rewrite Hw. reflexivity.
Defined.

(** ** Velocity movement *)

(** X14.  [moveWithVelocity] writes the target velocity and then the
    control word 0x000F.  If the device rejects the velocity with an
    abort, or the transport refuses it, the function returns -1 and the
    control word is not written; otherwise its result is that of the
    control-word write.  [haltVelocityMovement] writes the control word
    0x010F. *)
Theorem moveWithVelocity_stops_at_rejected_velocity (i : nat) (speed : Z)
    (e : epos_t) (w : world) :
  at_rest i e w ->
  let target := write_request (Node_ID e) 0x60FF 0x00 (words_of speed) in
  let start := write_request (Node_ID e) 0x6040 0x00 (0x000F, 0x0000) in
  let halt := write_request (Node_ID e) 0x6040 0x00 (0x010F, 0x0000) in
  (forall resp rest,
     StdId resp = Node_ID e + 0x580 -> error_of_response resp <> 0 ->
     sched w = prompt (dev e) resp :: rest ->
     exists w',
       moveWithVelocity i speed w = Done (-1) w' /\
       wire w' = wire w ++ [target] /\ sched w' = rest) /\
  (forall rest,
     sched w = mkCall false [] :: rest ->
     exists w',
       moveWithVelocity i speed w = Done (-1) w' /\
       wire w' = wire w /\ sched w' = rest) /\
  (forall r1 r2 rest,
     StdId r1 = Node_ID e + 0x580 -> StdId r2 = Node_ID e + 0x580 ->
     error_of_response r1 = 0 ->
     sched w = prompt (dev e) r1 :: prompt (dev e) r2 :: rest ->
     exists w',
       moveWithVelocity i speed w
       = Done (if error_of_response r2 =? 0 then 0 else -1) w' /\
       wire w' = wire w ++ [target; start] /\ sched w' = rest) /\
  (Data start = [0x22; 0x40; 0x60; 0x00; 0x0F; 0x00; 0x00; 0x00] /\
   Data halt = [0x22; 0x40; 0x60; 0x00; 0x0F; 0x01; 0x00; 0x00] /\
   wire (final (haltVelocityMovement i w))
   = wire w ++ accepted (sched w) halt).
Proof.
  intros Hrest target start halt.
  split; [| split; [| split]].
  - intros resp rest Hid Herr Hs.
    destruct (dictionary_write_prompt i 0x60FF 0x00 (words_of speed) e w resp
                rest Hrest Hs Hid)
      as (w' & e' & Hrun & _ & _ & _ & _ & Hsc & _ & _ & Hw & _).
    apply Z.eqb_neq in Herr. rewrite Herr in Hrun.
    unfold moveWithVelocity, setTargetVelocity. run. rewrite Hrun.
    cbn [Z.eqb negb]. eauto.
  - intros rest Hs.
    destruct (dictionary_write_refused i 0x60FF 0x00 (words_of speed) e w rest
                Hrest Hs)
      as (w' & e' & Hrun & _ & _ & _ & Hsc & Hw & _).
    unfold moveWithVelocity, setTargetVelocity. run. rewrite Hrun.
    cbn [Z.eqb negb]. eauto.
  - intros r1 r2 rest Hid1 Hid2 Herr Hs.
    destruct (dictionary_write_prompt i 0x60FF 0x00 (words_of speed) e w r1
                (prompt (dev e) r2 :: rest) Hrest Hs Hid1)
      as (w1 & e1 & Hrun1 & Hrest1 & Hn1 & Hd1 & _ & Hsc1 & _ & _ & Hw1 & _).
    rewrite Herr in Hrun1. cbn [Z.eqb] in Hrun1.
    rewrite <- Hd1 in Hsc1. rewrite <- Hn1 in Hid2.
    destruct (dictionary_write_prompt i 0x6040 0x00 (0x000F, 0x0000) e1 w1 r2
                rest Hrest1 Hsc1 Hid2)
      as (w2 & e2 & Hrun2 & _ & _ & _ & _ & Hsc2 & _ & _ & Hw2 & _).
    unfold moveWithVelocity, setTargetVelocity, startVelocityMovement. run.
    rewrite Hrun1. cbn [Z.eqb negb]. rewrite Hrun2.
    exists w2. split; [reflexivity |]. split; [| exact Hsc2].
    rewrite Hw2, Hw1, Hn1, <- app_assoc. reflexivity.
  - split; [reflexivity |]. split; [reflexivity |].
    apply (dictionary_write_wire i 0x6040 0x00 (0x010F, 0x0000) w e
             (proj1 Hrest)).
    exact (proj2 (proj2 (proj2 (proj2 (proj2 Hrest))))).
Qed.

Lemma moveWithVelocity_stops_at_rejected_velocity_witness :
  let w := bench [Some (fresh 1)]
             [prompt 0 abort_reply; prompt 0 status_reply] in
  exists w',
    moveWithVelocity 0 1000 w = Done (-1) w' /\
    wire w' = [frame 0x601 [0x22; 0xFF; 0x60; 0x00; 0xE8; 0x03; 0x00; 0x00]] /\
    sched w' = [prompt 0 status_reply].
Proof.
  intros w.
  destruct (moveWithVelocity_stops_at_rejected_velocity 0 1000 (fresh 1) w
              (at_rest_bench _)) as (H & _).
  apply (H abort_reply [prompt 0 status_reply]);
    [reflexivity | discriminate | reflexivity].
Defined.

(** ** The home switch polarity *)

Lemma payload16_range (m : CanMsg) :
  frame_ok m -> 0 <= payload16 m < 2 ^ 16.
Proof.
  intros H. unfold payload16.
  pose proof (byte_range m 4 H). pose proof (byte_range m 5 H). lia.
Qed.

Lemma u16_testbit (x : Z) (k : Z) :
  0 <= k -> Z.testbit (u16 x) k = (k <? 16) && Z.testbit x k.
Proof.
  intros Hk. unfold u16. destruct (k <? 16) eqn:E.
  - apply Z.ltb_lt in E. rewrite Z.mod_pow2_bits_low by lia. reflexivity.
  - apply Z.ltb_ge in E. rewrite Z.mod_pow2_bits_high by lia. reflexivity.
Qed.

Lemma small_testbit (x k : Z) :
  0 <= x < 2 ^ 16 -> 16 <= k -> Z.testbit x k = false.
Proof.
  intros Hx Hk. rewrite <- (Z.mod_small x (2 ^ 16)) by exact Hx.
  apply Z.mod_pow2_bits_high. lia.
Qed.

(** Setting or clearing bit 2 of a 16-bit word touches no other bit. *)
Lemma bit2_update (mask : Z) :
  0 <= mask < 2 ^ 16 ->
  (forall k, 0 <= k ->
     Z.testbit (u16 (Z.land mask (Z.lnot E_BIT02))) k
     = (if k =? 2 then false else Z.testbit mask k)) /\
  (forall k, 0 <= k ->
     Z.testbit (u16 (Z.lor mask E_BIT02)) k
     = (if k =? 2 then true else Z.testbit mask k)).
Proof.
  intros Hm.
  assert (H4 : forall k, 0 <= k -> Z.testbit E_BIT02 k = (k =? 2)).
  { intros k Hk. change E_BIT02 with (2 ^ 2).
    rewrite Z.pow2_bits_eqb by lia. apply Z.eqb_sym. }
  split; intros k Hk; rewrite (u16_testbit _ _ Hk).
  - rewrite Z.land_spec, Z.lnot_spec, (H4 k Hk) by exact Hk.
    destruct (k =? 2) eqn:E2; cbn [negb];
      [rewrite andb_false_r, andb_false_r; reflexivity |].
    rewrite andb_true_r. destruct (k <? 16) eqn:E; [reflexivity |].
    apply Z.ltb_ge in E. symmetry. apply (small_testbit _ _ Hm E).
  - rewrite Z.lor_spec, (H4 k Hk).
    destruct (k =? 2) eqn:E2.
    + apply Z.eqb_eq in E2. subst k. rewrite orb_true_r. reflexivity.
    + rewrite orb_false_r. destruct (k <? 16) eqn:E; [reflexivity |].
      apply Z.ltb_ge in E. symmetry. apply (small_testbit _ _ Hm E).
Qed.

(** X15.  [setHomePolarity] rejects a polarity other than 0 and 1
    without any traffic.  Otherwise it reads the input polarity mask,
    object 0x2071 subindex 3, and writes it back with bit 2 cleared for
    polarity 0 and set for polarity 1, every other bit as it was read;
    the mask is taken from bytes 4 and 5 of the reply even if the reply
    is an abort.  If the read is refused by the transport it returns -2
    and writes nothing. *)
Theorem setHomePolarity_changes_bit_2_only (i : nat) (pol : Z) (e : epos_t)
    (w : world) :
  at_rest i e w ->
  (pol <> 0 -> pol <> 1 -> setHomePolarity i pol w = Done (-1) w) /\
  (pol = 0 \/ pol = 1 ->
   (forall rest,
      sched w = mkCall false [] :: rest ->
      exists w',
        setHomePolarity i pol w = Done (-2) w' /\ wire w' = wire w) /\
   (forall r1 r2 rest,
      frame_ok r1 ->
      StdId r1 = Node_ID e + 0x580 -> StdId r2 = Node_ID e + 0x580 ->
      sched w = prompt (dev e) r1 :: prompt (dev e) r2 :: rest ->
      exists w' mask,
        setHomePolarity i pol w
        = Done (if error_of_response r2 =? 0 then 0 else -1) w' /\
        wire w'
        = wire w ++ [ read_request (Node_ID e) 0x2071 0x03;
                      write_request (Node_ID e) 0x2071 0x03 (mask, 0x0000) ] /\
        forall k, 0 <= k ->
          Z.testbit mask k
          = if k =? 2 then pol =? 1 else Z.testbit (payload16 r1) k)).
Proof.
  intros Hrest. split.
  - intros H0 H1. unfold setHomePolarity. rewrite (proj1 Hrest).
    apply Z.eqb_neq in H0, H1. rewrite H0, H1. reflexivity.
  - intros Hpol.
    assert (Hgo : negb (pol =? 0) && negb (pol =? 1) = false)
      by (destruct Hpol as [-> | ->]; reflexivity).
    split.
    + intros rest Hs.
      destruct (dictionary_read_refused i 0x2071 0x03 low_word 0x00 e w rest
                  Hrest Hs) as (w' & _ & Hrun & _ & _ & _ & _ & Hw & _).
      unfold setHomePolarity, checkEPOS, readDInputPolarity.
      rewrite (proj1 Hrest), Hgo. run. cbn [Z.eqb negb]. rewrite Hrun.
      cbn [nz Z.eqb negb]. eauto.
    + intros r1 r2 rest Hok Hid1 Hid2 Hs.
      destruct (dictionary_read_prompt i 0x2071 0x03 low_word 0x00 e w r1
                  (prompt (dev e) r2 :: rest) Hrest Hs Hid1)
        as (w1 & e1 & Hrun1 & Hrest1 & Hn1 & Hd1 & _ & Hsc1 & _ & _ & Hw1 & _).
      rewrite (reply_value r1 Hok), (low_word_payload r1 Hok) in Hrun1.
      rewrite <- Hd1 in Hsc1. rewrite <- Hn1 in Hid2.
      pose proof (payload16_range r1 Hok) as Hr.
      destruct (bit2_update (payload16 r1) Hr) as [Hclr Hset].
      unfold setHomePolarity, checkEPOS, readDInputPolarity.
      rewrite (proj1 Hrest), Hgo. run. cbn [Z.eqb negb]. rewrite Hrun1.
      cbn [nz Z.eqb negb].
      set (mask := if pol =? 0 then _ else _).
      destruct (WriteObject_prompt i 0x2071 0x03 (mask, 0x0000) e1 w1 r2 rest
                  Hrest1 Hsc1 Hid2)
        as (w2 & e2 & Hrun2 & _ & _ & _ & _ & _ & _ & _ & _ & _ & _ & Hw2 & _).
      rewrite Hrun2.
      exists w2, mask. split.
      { destruct (error_of_response r2 =? 0); reflexivity. }
      split; [rewrite Hw2, Hw1, Hn1, <- app_assoc; reflexivity |].
      intros k Hk. unfold mask. destruct Hpol as [-> | ->].
      * change (0 =? 0) with true. change (0 =? 1) with false. cbn iota.
        rewrite (Hclr k Hk). reflexivity.
      * change (1 =? 0) with false. change (1 =? 1) with true. cbn iota.
        rewrite (Hset k Hk). reflexivity.
Qed.

Lemma setHomePolarity_changes_bit_2_only_witness :
  let w := bench [Some (fresh 1)] [] in
  setHomePolarity 0 2 w = Done (-1) w.
Proof.
  intros w.
  destruct (setHomePolarity_changes_bit_2_only 0 2 (fresh 1) w
              (at_rest_bench _)) as [H _].
  apply H; discriminate.
Defined.

(** ** PDO commands *)

Lemma data8 (l : list Z) :
  length l = 8%nat ->
  exists d0 d1 d2 d3 d4 d5 d6 d7, l = [d0; d1; d2; d3; d4; d5; d6; d7].
Proof.
  intros H.
  destruct l as [| d0 [| d1 [| d2 [| d3 [| d4 [| d5 [| d6 [| d7 [| d8 l]]]]]]]]];
    try discriminate.
  eauto 10.
Qed.

(** On the eight-byte array of a frame, storing [bytes] from index 0
    replaces the first bytes and keeps the rest. *)
Lemma stamp_data (id dlc : Z) (bytes : list Z) (m : CanMsg) :
  length (Data m) = 8%nat -> (length bytes <= 8)%nat ->
  Data (stamp id dlc bytes m) = bytes ++ drop (length bytes) (Data m).
Proof.
  intros Hlen Hb. unfold stamp. cbn [Data].
  destruct (data8 _ Hlen) as (d0 & d1 & d2 & d3 & d4 & d5 & d6 & d7 & ->).
  destruct bytes as [| b0 [| b1 [| b2 [| b3 [| b4 [| b5 [| b6 [| b7 [| b8 l]]]]]]]]];
    try reflexivity.
  cbn in Hb. lia.
Qed.

Lemma setpoint_decode (id : Z) (v : Z) (m : CanMsg) :
  length (Data m) = 8%nat ->
  le32_at (stamp id 6 (setpoint_bytes v) m) 2 = s32 v.
Proof.
  intros Hlen. rewrite le32_at_sum. unfold byte.
  rewrite stamp_data by (cbn; lia).
  cbn [setpoint_bytes app nth Nat.add].
  rewrite !land_FF, !Z.shiftr_div_pow2 by lia. unfold u8.
  rewrite !Z.mod_mod by lia.
  rewrite <- bytes_of_u32. apply s32_u32.
Qed.

(** A PDO command on a transport that accepts the frame: the frame in
    [TxMessage] goes out and the call returns without a reply. *)
Ltac pdo_accepted Hrest Hs :=
  rewrite (proj1 Hrest); run;
  rewrite (update_Done _ _ _ _ (proj1 Hrest));
  match goal with
  | |- context [sendCom ?i (set_epos (<[?i := Some ?e1]> _) ?w)] =>
      let Hrest1 := fresh "Hrest1" in
      assert (Hrest1 : at_rest i e1 (set_epos (<[i := Some e1]> (epos w)) w))
        by (apply (at_rest_assign i _ e1 w Hrest); reflexivity);
      rewrite (sendCom_unanswered i e1 _ _ _ Hrest1 Hs)
  end;
  cbn [Z.ltb Z.compare].

Ltac pdo_refused Hrest Hs :=
  rewrite (proj1 Hrest); run;
  rewrite (update_Done _ _ _ _ (proj1 Hrest));
  match goal with
  | |- context [sendCom ?i (set_epos (<[?i := Some ?e1]> _) ?w)] =>
      let Hrest1 := fresh "Hrest1" in
      assert (Hrest1 : at_rest i e1 (set_epos (<[i := Some e1]> (epos w)) w))
        by (apply (at_rest_assign i _ e1 w Hrest); reflexivity);
      rewrite (sendCom_refused i e1 _ _ Hrest1 Hs)
  end;
  cbn [Z.ltb Z.compare].

(** A store into the device after [sendCom] has returned. *)
Ltac pdo_store Hrest1 :=
  match goal with
  | |- context [update ?i ?f ?w2] =>
      match type of Hrest1 with
      | at_rest _ ?e1 _ =>
          rewrite (update_Done i f w2 e1 (proj1 Hrest1 : deref i w2 = Some e1))
      end
  end.

Lemma PDOSetPosition_accepted (i : nat) (v : Z) (e : epos_t) (w : world)
    (h : nat) (rest : list hal_call) :
  at_rest i e w -> sched w = mkCall true [TxCplt h] :: rest ->
  let m := stamp (0x400 + Node_ID e) 6 (setpoint_bytes v) (TxMessage e) in
  exists w',
    PDOSetPosition i v w = Done 1 w' /\
    at_rest i (set_TxPosition (s32 v) (set_TxMessage m e)) w' /\
    wire w' = wire w ++ [m] /\ sched w' = rest /\ isPDO w' = isPDO w.
Proof.
  intros Hrest Hs m. unfold PDOSetPosition. pdo_accepted Hrest Hs.
  pdo_store Hrest1.
  eexists. split; [reflexivity |].
  split; [| repeat split].
  match goal with
  | |- at_rest _ _ (set_epos _ ?w2) =>
      apply (at_rest_assign i (set_TxMessage m e) _ w2 Hrest1); reflexivity
  end.
Qed.

Lemma PDOSetPosition_refused (i : nat) (v : Z) (e : epos_t) (w : world)
    (rest : list hal_call) :
  at_rest i e w -> sched w = mkCall false [] :: rest ->
  let m := stamp (0x400 + Node_ID e) 6 (setpoint_bytes v) (TxMessage e) in
  exists w',
    PDOSetPosition i v w = Done (-1) w' /\
    at_rest i (set_TxMessage m e) w' /\
    wire w' = wire w /\ sched w' = rest /\ isPDO w' = isPDO w.
Proof.
  intros Hrest Hs m. unfold PDOSetPosition. pdo_refused Hrest Hs.
  eexists. split; [reflexivity |]. split; [exact Hrest1 |]. repeat split.
Qed.

(** X16.  The set-point commands and the decode pass of the dispatcher
    use the same layout: [PDOSetPosition] and [PDOSetVelocity] put the
    value in bytes 2..5 of a six-byte frame, low byte first, behind the
    control word 0x000F, and [processPDOMessage] reads a received frame
    of that layout back to the same value.  The commands return 1 as
    soon as the frame is sent, without a reply, and record the value in
    [TxPosition] or [TxVelocity]; if the transport refuses the frame they
    return -1 and the recorded value stays. *)
Theorem PDO_setpoints_decode_back (i : nat) (v : Z) (e : epos_t) (w : world) :
  at_rest i e w -> length (Data (TxMessage e)) = 8%nat ->
  - 2 ^ 31 <= v < 2 ^ 31 ->
  let pos := stamp (0x400 + Node_ID e) 6 (setpoint_bytes v) (TxMessage e) in
  let vel := stamp (0x500 + Node_ID e) 6 (setpoint_bytes v) (TxMessage e) in
  (le32_at pos 2 = v /\ le32_at vel 2 = v /\
   take 2 (Data pos) = [0x0F; 0x00] /\ take 2 (Data vel) = [0x0F; 0x00] /\
   (forall x, PDO3RcvFlag x = true -> Data (PDO3Msg x) = Data pos ->
      RxPosition (processPDOMessage_body x) = v) /\
   (forall x, PDO3RcvFlag x = false -> PDO4RcvFlag x = true ->
      Data (PDO4Msg x) = Data vel ->
      RxVelocity (processPDOMessage_body x) = v)) /\
  (forall h rest,
     sched w = mkCall true [TxCplt h] :: rest ->
     (exists w' e',
        PDOSetPosition i v w = Done 1 w' /\ deref i w' = Some e' /\
        TxPosition e' = v /\ TxVelocity e' = TxVelocity e /\
        wire w' = wire w ++ [pos] /\ sched w' = rest) /\
     (exists w' e',
        PDOSetVelocity i v w = Done 1 w' /\ deref i w' = Some e' /\
        TxVelocity e' = v /\ TxPosition e' = TxPosition e /\
        wire w' = wire w ++ [vel] /\ sched w' = rest)) /\
  (forall rest,
     sched w = mkCall false [] :: rest ->
     (exists w' e',
        PDOSetPosition i v w = Done (-1) w' /\ deref i w' = Some e' /\
        TxPosition e' = TxPosition e /\ wire w' = wire w) /\
     (exists w' e',
        PDOSetVelocity i v w = Done (-1) w' /\ deref i w' = Some e' /\
        TxVelocity e' = TxVelocity e /\ wire w' = wire w)).
Proof.
  intros Hrest Hlen Hv pos vel.
  assert (Hp : le32_at pos 2 = v)
    by (unfold pos; rewrite (setpoint_decode _ v _ Hlen); apply s32_small, Hv).
  assert (Hvl : le32_at vel 2 = v)
    by (unfold vel; rewrite (setpoint_decode _ v _ Hlen); apply s32_small, Hv).
  assert (Hsame : forall m m', Data m = Data m' -> le32_at m 2 = le32_at m' 2).
  { intros m m' H. unfold le32_at, byte. rewrite H. reflexivity. }
  split; [| split].
  - split; [exact Hp |]. split; [exact Hvl |].
    split; [unfold pos; rewrite stamp_data by (cbn; lia); reflexivity |].
    split; [unfold vel; rewrite stamp_data by (cbn; lia); reflexivity |].
    split.
    + intros x Hf Hd. unfold processPDOMessage_body. rewrite Hf.
      rewrite (Hsame _ _ Hd), Hp.
      destruct (PDO4RcvFlag _); reflexivity.
    + intros x Hf3 Hf4 Hd. unfold processPDOMessage_body.
      rewrite Hf3, Hf4. cbn. rewrite (Hsame _ _ Hd). exact Hvl.
  - intros h rest Hs. split.
    + destruct (PDOSetPosition_accepted i v e w h rest Hrest Hs)
        as (w' & Hrun & Hrest' & Hw & Hsc & _).
      exists w', (set_TxPosition (s32 v) (set_TxMessage pos e)).
      split; [exact Hrun |]. split; [exact (proj1 Hrest') |].
      cbn. rewrite (s32_small v Hv). repeat split; assumption.
    + unfold PDOSetVelocity. pdo_accepted Hrest Hs. pdo_store Hrest1.
      eexists _, _. split; [reflexivity |].
      split; [apply deref_assign with (e := set_TxMessage vel e);
              exact (proj1 Hrest1) |].
      cbn. rewrite (s32_small v Hv). repeat split.
  - intros rest Hs. split.
    + destruct (PDOSetPosition_refused i v e w rest Hrest Hs)
        as (w' & Hrun & Hrest' & Hw & _).
      exists w', (set_TxMessage pos e).
      split; [exact Hrun |]. split; [exact (proj1 Hrest') |].
      split; [reflexivity | exact Hw].
    + unfold PDOSetVelocity. pdo_refused Hrest Hs.
      eexists _, _. split; [reflexivity |].
      split; [exact (proj1 Hrest1) |]. repeat split.
Qed.

Lemma PDO_setpoints_decode_back_witness :
  let w := bench [Some (fresh 1)] [mkCall true [TxCplt 0]] in
  exists w' e',
    PDOSetPosition 0 (-2) w = Done 1 w' /\ deref 0 w' = Some e' /\
    TxPosition e' = -2 /\
    wire w' = [mkCanMsg 0x401 0 0 6 [0x0F; 0x00; 0xFE; 0xFF; 0xFF; 0xFF; 0; 0]].
Proof.
  intros w.
  destruct (PDO_setpoints_decode_back 0 (-2) (fresh 1) w (at_rest_bench _)
              eq_refl ltac:(lia)) as (_ & H & _).
  destruct (H O [] eq_refl) as ((w' & e' & Hrun & Hd & Hp & _ & Hw & _) & _).
  exists w', e'. split; [exact Hrun |]. split; [exact Hd |].
  split; [exact Hp | exact Hw].
Defined.

Lemma PDOSetRelativePosition_accepted (i : nat) (r : Z) (e : epos_t)
    (w : world) (h : nat) (rest : list hal_call) :
  at_rest i e w -> length (Data (TxMessage e)) = 8%nat ->
  - 2 ^ 31 <= RxPosition e + r < 2 ^ 31 ->
  sched w = mkCall true [TxCplt h] :: rest ->
  exists w' e' m,
    PDOSetRelativePosition i r w = Done 1 w' /\
    deref i w' = Some e' /\
    TxPosition e' = RxPosition e + r /\ RxPosition e' = RxPosition e /\
    wire w' = wire w ++ [m] /\
    StdId m = u32 (0x400 + Node_ID e) /\ DLC m = 6 /\
    le32_at m 2 = RxPosition e + r.
Proof.
  intros Hrest Hlen Hv Hs.
  destruct (PDOSetPosition_accepted i (s32 (RxPosition e + r)) e w h rest
              Hrest Hs) as (w' & Hrun & Hrest' & Hw & _).
  unfold PDOSetRelativePosition. rewrite (proj1 Hrest). run. rewrite Hrun.
  cbn [Z.eqb Pos.eqb].
  eexists w', _, _. split; [reflexivity |].
  split; [exact (proj1 Hrest') |].
  rewrite (s32_small _ Hv) in *.
  split; [cbn; apply s32_small, Hv |]. split; [reflexivity |].
  split; [exact Hw |]. split; [reflexivity |]. split; [reflexivity |].
  rewrite (setpoint_decode _ _ _ Hlen). apply s32_small, Hv.
Qed.

(** X17.  [PDOSetRelativePosition] takes the cached actual position
    [RxPosition], as the last channel-3 frame or the last
    [readActualPosition] left it, adds the offset and sends the sum as
    an absolute set-point; it asks the device for nothing.  It returns 1
    or -1 and no other value.  Right after a channel-3 frame with
    position [p] has been received, a relative move by [r] sends
    [p + r]. *)
Theorem PDOSetRelativePosition_adds_cached_position (i : nat) (r : Z)
    (e : epos_t) (w : world) :
  at_rest i e w -> length (Data (TxMessage e)) = 8%nat ->
  (forall res w',
     PDOSetRelativePosition i r w = Done res w' -> res = 1 \/ res = -1) /\
  (- 2 ^ 31 <= RxPosition e + r < 2 ^ 31 ->
   forall h rest,
     sched w = mkCall true [TxCplt h] :: rest ->
     exists w' e' m,
       PDOSetRelativePosition i r w = Done 1 w' /\
       deref i w' = Some e' /\
       TxPosition e' = RxPosition e + r /\ RxPosition e' = RxPosition e /\
       wire w' = wire w ++ [m] /\
       StdId m = u32 (0x400 + Node_ID e) /\ DLC m = 6 /\
       le32_at m 2 = RxPosition e + r) /\
  (forall rest,
     sched w = mkCall false [] :: rest ->
     exists w',
       PDOSetRelativePosition i r w = Done (-1) w' /\ wire w' = wire w) /\
  (forall m3 h rest,
     StdId m3 = Node_ID e + 0x380 ->
     PDO3RcvFlag e = false -> PDO4RcvFlag e = false ->
     - 2 ^ 31 <= le32_at m3 2 + r < 2 ^ 31 ->
     sched w = mkCall true [TxCplt h] :: rest ->
     exists w1 w2 e2 m,
       serve_irq (RxCplt (dev e) m3) w = Done tt w1 /\
       PDOSetRelativePosition i r w1 = Done 1 w2 /\
       deref i w2 = Some e2 /\ TxPosition e2 = le32_at m3 2 + r /\
       wire w2 = wire w ++ [m] /\ le32_at m 2 = le32_at m3 2 + r).
Proof.
  intros Hrest Hlen. split; [| split; [| split]].
  - intros res w'. unfold PDOSetRelativePosition. rewrite (proj1 Hrest).
    intros H. apply bind_Done in H as (a & w1 & _ & H).
    destruct (a =? 1); injection H as <-; auto.
  - intros Hv h rest Hs.
    apply (PDOSetRelativePosition_accepted i r e w h rest Hrest Hlen Hv Hs).
  - intros rest Hs.
    destruct (PDOSetPosition_refused i (s32 (RxPosition e + r)) e w rest
                Hrest Hs) as (w' & Hrun & _ & Hw & _).
    unfold PDOSetRelativePosition. rewrite (proj1 Hrest). run. rewrite Hrun.
    cbn [Z.eqb]. eauto.
  - intros m3 h rest Hid H3 H4 Hv Hs.
    destruct (serve_frame i e w m3 Hrest)
      as (w1 & Hrun1 & Hrest1 & _ & _ & _ & _ & _ & Hsc1 & _ & Hw1 & _).
    destruct (absorb_cache e m3 H3 H4) as (_ & _ & _ & Hp & _).
    cbn [cob_offset] in Hp. apply Z.eqb_eq in Hid. rewrite Hid in Hp.
    destruct (absorb_identity e m3) as (_ & _ & Ht & _).
    rewrite <- Hp in Hv. rewrite <- Hsc1 in Hs.
    destruct (PDOSetRelativePosition_accepted i r (absorb e m3) w1 h rest
                Hrest1 ltac:(rewrite Ht; exact Hlen) Hv Hs)
      as (w2 & e2 & m & Hrun2 & Hd2 & Htx & _ & Hw2 & _ & _ & Hm).
    exists w1, w2, e2, m. rewrite Hp in Htx, Hm. rewrite Hw1 in Hw2.
    repeat split; assumption.
Qed.

Lemma PDOSetRelativePosition_adds_cached_position_witness :
  let e := set_RxPosition 1000 (fresh 1) in
  let w := bench [Some e] [mkCall true [TxCplt 0]] in
  exists w' e',
    PDOSetRelativePosition 0 (-1500) w = Done 1 w' /\
    deref 0 w' = Some e' /\ TxPosition e' = -500.
Proof.
  intros e w.
  assert (Hrest : at_rest 0 e w).
  { split; [reflexivity |]. split; [concrete_bus |]. split; [concrete_bus |].
    split; [reflexivity |]. split; [cbn; lia | reflexivity]. }
  destruct (PDOSetRelativePosition_adds_cached_position 0 (-1500) e w Hrest
              eq_refl) as (_ & H & _).
  destruct (H ltac:(cbn; lia) O [] eq_refl)
    as (w' & e' & m & Hrun & Hd & Hp & _).
  exists w', e'. split; [exact Hrun |]. split; [exact Hd | exact Hp].
Defined.

Lemma at_rest_node (i : nat) (e : epos_t) (w : world) :
  at_rest i e w -> 1 <= Node_ID e <= 127.
Proof.
  intros (Hi & (Hr & _) & _). apply deref_lookup in Hi. exact (Hr i e Hi).
Qed.

Lemma sent_stamp (id dlc : Z) (bytes : list Z) (m : CanMsg) (w w' : world) :
  length (Data m) = 8%nat -> (length bytes <= 8)%nat ->
  0 <= id < 2 ^ 32 ->
  wire w' = wire w ++ [stamp id dlc bytes m] ->
  sent id dlc bytes w w'.
Proof.
  intros Hlen Hb Hid Hw. exists (stamp id dlc bytes m).
  split; [exact Hw |]. split; [apply Z.mod_small, Hid |].
  split; [reflexivity |].
  rewrite stamp_data by assumption. apply take_app_length.
Qed.

(** X18.  The PDO state commands send one short frame and return 1
    without waiting for anything from the device: [PDOShutDown],
    [PDOSwitchOn] and [PDOEnableOp] send to 0x200 + node the control
    word that [changeEPOSstate] writes for shutdown, switch on and
    enable operation, and [PDOSwitchProfile] sends to 0x300 + node the
    control word 0x000F and the profile, which it records in
    [CurProfile].  If the transport refuses the frame they return -1,
    and [CurProfile] stays as it was. *)
Theorem PDO_state_commands_send_control_literals (i : nat) (e : epos_t)
    (w : world) :
  at_rest i e w -> length (Data (TxMessage e)) = 8%nat ->
  (forall h rest,
     sched w = mkCall true [TxCplt h] :: rest ->
     (exists w',
        PDOShutDown i w = Done 1 w' /\
        sent (0x200 + Node_ID e) 2 [control_literal 0; 0x00] w w' /\
        sched w' = rest) /\
     (exists w',
        PDOSwitchOn i w = Done 1 w' /\
        sent (0x200 + Node_ID e) 2 [control_literal 1; 0x00] w w' /\
        sched w' = rest) /\
     (exists w',
        PDOEnableOp i w = Done 1 w' /\
        sent (0x200 + Node_ID e) 2 [control_literal 5; 0x00] w w' /\
        sched w' = rest) /\
     (forall profile, exists w' e',
        PDOSwitchProfile i profile w = Done 1 w' /\
        sent (0x300 + Node_ID e) 3 [0x0F; 0x00; u8 profile] w w' /\
        deref i w' = Some e' /\ CurProfile e' = u8 profile /\
        sched w' = rest)) /\
  (forall rest,
     sched w = mkCall false [] :: rest ->
     (exists w', PDOShutDown i w = Done (-1) w' /\ wire w' = wire w) /\
     (exists w', PDOSwitchOn i w = Done (-1) w' /\ wire w' = wire w) /\
     (exists w', PDOEnableOp i w = Done (-1) w' /\ wire w' = wire w) /\
     (forall profile, exists w' e',
        PDOSwitchProfile i profile w = Done (-1) w' /\ wire w' = wire w /\
        deref i w' = Some e' /\ CurProfile e' = CurProfile e)).
Proof.
  intros Hrest Hlen. pose proof (at_rest_node i e w Hrest) as Hn.
  split.
  - intros h rest Hs. split; [| split; [| split]].
    + unfold PDOShutDown. pdo_accepted Hrest Hs.
      eexists. split; [reflexivity |]. split; [| reflexivity].
      apply (sent_stamp _ _ _ (TxMessage e)); [exact Hlen | cbn; lia | lia |].
      reflexivity.
    + unfold PDOSwitchOn. pdo_accepted Hrest Hs.
      eexists. split; [reflexivity |]. split; [| reflexivity].
      apply (sent_stamp _ _ _ (TxMessage e)); [exact Hlen | cbn; lia | lia |].
      reflexivity.
    + unfold PDOEnableOp. pdo_accepted Hrest Hs.
      eexists. split; [reflexivity |]. split; [| reflexivity].
      apply (sent_stamp _ _ _ (TxMessage e)); [exact Hlen | cbn; lia | lia |].
      reflexivity.
    + intros profile. unfold PDOSwitchProfile. pdo_accepted Hrest Hs.
      pdo_store Hrest1.
      match type of Hrest1 with
      | at_rest _ ?e1 _ => eexists _, (set_CurProfile (u8 profile) e1)
      end.
      split; [reflexivity |]. split.
      { apply (sent_stamp _ _ _ (TxMessage e));
          [exact Hlen | cbn; lia | lia |]. reflexivity. }
      split; [| split; reflexivity].
      match goal with
      | |- deref _ (set_epos _ ?w2) = _ =>
          apply (deref_assign w2 i _ _ (proj1 Hrest1 : deref i w2 = Some _))
      end.
  - intros rest Hs. split; [| split; [| split]].
    + unfold PDOShutDown. pdo_refused Hrest Hs. eauto.
    + unfold PDOSwitchOn. pdo_refused Hrest Hs. eauto.
    + unfold PDOEnableOp. pdo_refused Hrest Hs. eauto.
    + intros profile. unfold PDOSwitchProfile. pdo_refused Hrest Hs.
      eexists _, _. split; [reflexivity |]. split; [reflexivity |].
      split; [exact (proj1 Hrest1) | reflexivity].
Qed.

Lemma PDO_state_commands_send_control_literals_witness :
  let w := bench [Some (fresh 1)] [mkCall true [TxCplt 0]] in
  exists w',
    PDOEnableOp 0 w = Done 1 w' /\
    sent 0x201 2 [0x0F; 0x00] w w' /\ sched w' = [].
Proof.
  intros w.
  destruct (PDO_state_commands_send_control_literals 0 (fresh 1) w
              (at_rest_bench _) eq_refl) as [H _].
  destruct (H O [] eq_refl) as (_ & _ & H3 & _). exact H3.
Defined.

(** X19.  [startPDO] and [stopPDO] send the two-byte network command
    with identifier 0, command 0x01 or 0x80 and the node id, and return
    1 without a reply; they record the state in [isPDO], which they set
    only once the frame has been accepted: if the transport refuses it
    they return -1 and [isPDO] stays as it was. *)
Theorem startPDO_records_state_when_sent (i : nat) (e : epos_t) (w : world) :
  at_rest i e w -> length (Data (TxMessage e)) = 8%nat ->
  (forall h rest,
     sched w = mkCall true [TxCplt h] :: rest ->
     (exists w',
        startPDO i w = Done 1 w' /\
        sent 0 2 [0x01; Node_ID e] w w' /\ isPDO w' = true /\
        sched w' = rest) /\
     (exists w',
        stopPDO i w = Done 1 w' /\
        sent 0 2 [0x80; Node_ID e] w w' /\ isPDO w' = false /\
        sched w' = rest)) /\
  (forall rest,
     sched w = mkCall false [] :: rest ->
     (exists w',
        startPDO i w = Done (-1) w' /\ wire w' = wire w /\
        isPDO w' = isPDO w) /\
     (exists w',
        stopPDO i w = Done (-1) w' /\ wire w' = wire w /\
        isPDO w' = isPDO w)).
Proof.
  intros Hrest Hlen. pose proof (at_rest_node i e w Hrest) as Hn.
  assert (Hu : u8 (Node_ID e) = Node_ID e) by (apply Z.mod_small; lia).
  split.
  - intros h rest Hs. split.
    + unfold startPDO. pdo_accepted Hrest Hs.
      eexists. split; [reflexivity |]. split; [| split; reflexivity].
      rewrite <- Hu at 1.
      apply (sent_stamp _ _ _ (TxMessage e)); [exact Hlen | cbn; lia | lia |].
      reflexivity.
    + unfold stopPDO. pdo_accepted Hrest Hs.
      eexists. split; [reflexivity |]. split; [| split; reflexivity].
      rewrite <- Hu at 1.
      apply (sent_stamp _ _ _ (TxMessage e)); [exact Hlen | cbn; lia | lia |].
      reflexivity.
  - intros rest Hs. split.
    + unfold startPDO. pdo_refused Hrest Hs. eauto.
    + unfold stopPDO. pdo_refused Hrest Hs. eauto.
Qed.

Lemma startPDO_records_state_when_sent_witness :
  let w := bench [Some (fresh 1)] [mkCall false []] in
  exists w',
    startPDO 0 w = Done (-1) w' /\ wire w' = wire w /\ isPDO w' = isPDO w.
Proof.
  intros w.
  destruct (startPDO_records_state_when_sent 0 (fresh 1) w
              (at_rest_bench _) eq_refl) as [_ H].
  destruct (H [] eq_refl) as [H1 _]. exact H1.
Defined.

(** ** State changes and state checks *)

Lemma changeEPOSstate_dw0_unknown (state : Z) :
  ~ 0 <= state <= 6 -> changeEPOSstate_dw0 state = None.
Proof.
  intros H. destruct state as [| p | p]; [lia | | reflexivity].
  do 3 (destruct p as [p | p |]; try reflexivity; try lia).
Qed.

(** X20.  The result of [changeEPOSstate]: -1 without any traffic for a
    state outside 0..6; for a state in 0..6 the control word is written
    and the result is 0 if the reply is no abort, -1 if it is an abort
    or the transport refuses the request. *)
Theorem changeEPOSstate_result (i : nat) (state : Z) (e : epos_t)
    (w : world) :
  at_rest i e w ->
  (~ 0 <= state <= 6 -> changeEPOSstate i state w = Done (-1) w) /\
  (0 <= state <= 6 ->
   (forall resp rest,
      StdId resp = Node_ID e + 0x580 ->
      sched w = prompt (dev e) resp :: rest ->
      exists w',
        changeEPOSstate i state w
        = Done (if error_of_response resp =? 0 then 0 else -1) w' /\
        wire w'
        = wire w ++ [write_request (Node_ID e) 0x6040 0x00
                       (control_literal state, 0x0000)] /\
        sched w' = rest) /\
   (forall rest,
      sched w = mkCall false [] :: rest ->
      exists w',
        changeEPOSstate i state w = Done (-1) w' /\ wire w' = wire w)).
Proof.
  intros Hrest. split.
  - intros H. unfold changeEPOSstate.
    rewrite (proj1 Hrest), (changeEPOSstate_dw0_unknown state H). reflexivity.
  - intros H.
    destruct (changeEPOSstate_dw0_literal state H) as [Hdw _].
    split.
    + intros resp rest Hid Hs.
      destruct (dictionary_write_prompt i 0x6040 0x00
                  (control_literal state, 0x0000) e w resp rest Hrest Hs Hid)
        as (w' & _ & Hrun & _ & _ & _ & _ & Hsc & _ & _ & Hw & _).
      unfold changeEPOSstate. rewrite (proj1 Hrest), Hdw. eauto.
    + intros rest Hs.
      destruct (dictionary_write_refused i 0x6040 0x00
                  (control_literal state, 0x0000) e w rest Hrest Hs)
        as (w' & _ & Hrun & _ & _ & _ & _ & Hw & _).
      unfold changeEPOSstate. rewrite (proj1 Hrest), Hdw. eauto.
Qed.

Lemma changeEPOSstate_result_witness :
  let w := bench [Some (fresh 1)] [prompt 0 status_reply] in
  changeEPOSstate 0 7 w = Done (-1) w.
Proof.
  intros w.
  destruct (changeEPOSstate_result 0 7 (fresh 1) w (at_rest_bench _))
    as [H _].
  apply H. lia.
Defined.

Lemma decode_never_minus_1 (sw : Z) : checkEPOSstate_decode sw <> -1.
Proof.
  unfold checkEPOSstate_decode.
  repeat match goal with
         | |- (if ?b then _ else _) <> _ => destruct b; [discriminate |]
         end.
  discriminate.
Qed.

Lemma status_of_payload (m : CanMsg) :
  frame_ok m -> status_of m = payload16 m.
Proof.
  intros H. unfold status_of. rewrite (reply_value m H).
  apply (low_word_payload m H).
Qed.

(** X21.  [checkEPOSstate] decodes whatever the read of the status word
    brings back.  On a reply it returns the decoding of bytes 4 and 5,
    never -1, also when the reply is an abort; an abort whose code has a
    zero low word is reported as state 0.  It returns -1 when the
    transport refuses the request. *)
Theorem checkEPOSstate_decodes_any_reply (i : nat) (e : epos_t) (w : world) :
  at_rest i e w ->
  (forall resp rest,
     frame_ok resp -> StdId resp = Node_ID e + 0x580 ->
     sched w = prompt (dev e) resp :: rest ->
     exists w',
       checkEPOSstate i w = Done (checkEPOSstate_decode (payload16 resp)) w' /\
       checkEPOSstate_decode (payload16 resp) <> -1 /\
       (byte resp 4 = 0 -> byte resp 5 = 0 ->
        checkEPOSstate_decode (payload16 resp) = 0)) /\
  (forall rest,
     sched w = mkCall false [] :: rest ->
     exists w', checkEPOSstate i w = Done (-1) w').
Proof.
  intros Hrest. split.
  - intros resp rest Hok Hid Hs.
    destruct (readStatusword_prompt i 0x0 e w resp rest Hrest Hs Hid)
      as (w' & _ & Hrun & _).
    rewrite (status_of_payload resp Hok) in Hrun.
    unfold checkEPOSstate. rewrite (proj1 Hrest). run. rewrite Hrun.
    cbn [Z.ltb Z.compare].
    exists w'. split; [reflexivity |].
    split; [apply decode_never_minus_1 |].
    intros H4 H5. unfold payload16. rewrite H4, H5. reflexivity.
  - intros rest Hs.
    destruct (dictionary_read_refused i 0x6041 0x00 low_word 0x0 e w rest
                Hrest Hs) as (w' & _ & Hrun & _).
    rewrite <- readStatusword_dictionary_read in Hrun.
    unfold checkEPOSstate. rewrite (proj1 Hrest). run. rewrite Hrun.
    cbn [Z.ltb Z.compare]. eauto.
Qed.

Lemma checkEPOSstate_decodes_any_reply_witness :
  let w := bench [Some (fresh 1)] [prompt 0 read_abort_reply] in
  exists w', checkEPOSstate 0 w = Done 0 w'.
Proof.
  intros w.
  destruct (checkEPOSstate_decodes_any_reply 0 (fresh 1) w (at_rest_bench _))
    as [H _].
  destruct (H read_abort_reply []) as (w' & Hrun & _ & H0).
  - split; [reflexivity |]. repeat constructor; lia.
  - reflexivity.
  - reflexivity.
  - exists w'. rewrite Hrun. rewrite (H0 eq_refl eq_refl). reflexivity.
Defined.

(** X22.  [checkTarget] returns 1 when bit 10 of the status word is set
    and 0 when it is clear.  It does not look at the result of the read:
    when the transport refuses the request the answer is taken from the
    uninitialised local [status]. *)
Theorem checkTarget_reads_bit_10 (i : nat) (e : epos_t) (w : world) :
  at_rest i e w ->
  (forall resp rest,
     frame_ok resp -> StdId resp = Node_ID e + 0x580 ->
     sched w = prompt (dev e) resp :: rest ->
     exists w',
       checkTarget i w
       = Done (if Z.testbit (payload16 resp) 10 then 1 else 0) w') /\
  (forall rest,
     sched w = mkCall false [] :: rest ->
     exists w',
       checkTarget i w = Done (if Z.testbit (uninit w) 10 then 1 else 0) w').
Proof.
  intros Hrest.
  assert (Hbit : forall x, (Z.land x E_BIT10 =? E_BIT10) = Z.testbit x 10).
  { intros x. change E_BIT10 with (2 ^ 10).
    destruct (Z.testbit x 10) eqn:E.
    - apply Z.eqb_eq. apply Z.bits_inj'. intros k Hk.
      rewrite Z.land_spec, Z.pow2_bits_eqb by lia.
      destruct (10 =? k) eqn:Ek; [| apply andb_false_r].
      apply Z.eqb_eq in Ek. subst k. rewrite E. reflexivity.
    - apply Z.eqb_neq. intros H.
      assert (Hk : Z.testbit (Z.land x (2 ^ 10)) 10 = true)
        by (rewrite H; apply Z.pow2_bits_true; lia).
      rewrite Z.land_spec, E in Hk. discriminate. }
  split.
  - intros resp rest Hok Hid Hs.
    destruct (readStatusword_prompt i (uninit w) e w resp rest Hrest Hs Hid)
      as (w' & _ & Hrun & _).
    rewrite (status_of_payload resp Hok) in Hrun.
    unfold checkTarget. rewrite (proj1 Hrest). run. rewrite Hrun.
    rewrite Hbit. exists w'. destruct (Z.testbit _ 10); reflexivity.
  - intros rest Hs.
    destruct (dictionary_read_refused i 0x6041 0x00 low_word (uninit w) e w
                rest Hrest Hs) as (w' & _ & Hrun & _).
    rewrite <- readStatusword_dictionary_read in Hrun.
    unfold checkTarget. rewrite (proj1 Hrest). run. rewrite Hrun.
    rewrite Hbit. exists w'. destruct (Z.testbit _ 10); reflexivity.
Qed.

Lemma checkTarget_reads_bit_10_witness :
  let w := Build_world [Some (fresh 1)] [mkHandle 0 0] false false false false
             (replicate 16 blank) 0 [mkCall false []] 0 [] [] 0x0400 in
  exists w', checkTarget 0 w = Done 1 w'.
Proof.
  intros w.
  assert (Hrest : at_rest 0 (fresh 1) w).
  { split; [reflexivity |]. split; [concrete_bus |]. split; [concrete_bus |].
    split; [reflexivity |]. split; [cbn; lia | reflexivity]. }
  destruct (checkTarget_reads_bit_10 0 (fresh 1) w Hrest) as [_ H].
  exact (H [] eq_refl).
Defined.

(** ** Waiting and monitoring *)

Lemma waitForTarget_body_leaves (i : nat) (t : Z) (s : Z * Z) (w w' : world)
    (r : Z) :
  waitForTarget_body i t s w = Done (inr r) w' ->
  r = 0 \/ (r = 1 /\ t <> 0).
Proof.
  destruct s as [cnt status]. unfold waitForTarget_body.
  destruct (negb (t =? 0) && _) eqn:E.
  - intros [= <- _]. right. split; [reflexivity |].
    apply andb_true_iff in E as [E _]. apply negb_true_iff in E.
    apply Z.eqb_neq in E. exact E.
  - intros H. peel H; inversion H; auto.
Qed.

(** X23.  The budget of [waitForTarget] is a number of polls, each after
    a delay of 50 ms.  With the target not reached, a call with budget
    [t > 0] returns 1 after exactly [t] polls, [50 * t] milliseconds of
    delay.  A poll that finds bit 10 set ends the call with 0, after
    [k + 1] polls if the [k] before it found the bit clear, for a budget
    greater than [k] or no budget at all; the first poll comes after the
    first delay.  With [t = 0] the call never returns 1. *)
Theorem waitForTarget_budget_is_polls (i : nat) (t : Z) (e : epos_t)
    (w : world) (busy : CanMsg) :
  at_rest i e w -> StdId busy = Node_ID e + 0x580 ->
  target_reached (status_of busy) = false ->
  (0 < t < 2 ^ 32 - 1 ->
   forall rest,
     sched w = polls (dev e) (Z.to_nat t) busy ++ rest ->
     exists w',
       waitForTarget i t w = Done 1 w' /\
       clock w' = clock w + 50 * t /\ sched w' = rest) /\
  (forall (k : nat) reached rest,
     t = 0 \/ Z.of_nat k < t < 2 ^ 32 ->
     StdId reached = Node_ID e + 0x580 ->
     target_reached (status_of reached) = true ->
     sched w = polls (dev e) k busy ++ polls (dev e) 1 reached ++ rest ->
     exists w',
       waitForTarget i t w = Done 0 w' /\
       clock w' = clock w + 50 * (Z.of_nat k + 1) /\ sched w' = rest) /\
  (t = 0 -> forall r w', waitForTarget i t w = Done r w' -> r = 0).
Proof.
  intros Hrest Hid Hbusy. split; [| split].
  - intros Ht rest Hs.
    apply (waitForTarget_times_out i t e w busy rest Ht Hbusy Hrest Hid Hs).
  - intros k reached rest Ht Hidr Hreached Hs.
    unfold waitForTarget. rewrite (proj1 Hrest). run.
    apply (waitForTarget_loop_reached i t busy reached rest Hbusy Hreached
             k 0 (uninit w) e w); try assumption.
    destruct Ht as [-> | Ht]; [left; reflexivity | right; lia].
  - intros -> r w'. unfold waitForTarget. rewrite (proj1 Hrest). run.
    unfold loop. intros H.
    apply (iter_Done_inv (fun r => r = 0) (waitForTarget_body i 0)) in H;
      [exact H |].
    intros s w0 a w0' Hb.
    destruct (waitForTarget_body_leaves i 0 s w0 w0' a Hb) as [-> | [_ Hne]];
      [reflexivity | contradiction].
Qed.

Lemma waitForTarget_budget_is_polls_witness :
  let w := bench [Some (fresh 1)]
             (polls 0 2 status_reply ++ polls 0 1 homed_reply) in
  exists w', waitForTarget 0 0 w = Done 0 w' /\ clock w' = 150.
Proof.
  intros w.
  destruct (waitForTarget_budget_is_polls 0 0 (fresh 1) w status_reply
              (at_rest_bench _) eq_refl eq_refl) as (_ & H & _).
  destruct (H 2%nat homed_reply [] (or_introl eq_refl) eq_refl eq_refl eq_refl)
    as (w' & Hrun & Hc & _).
  exists w'. split; [exact Hrun | exact Hc].
Defined.

(** X24.  The results of [doHoming]: whenever it returns, it returns -1
    (a step or the homing itself failed), 0 (homing attained) or -5
    (neither the error bit nor the attained bit in the final status
    word); on a NULL device it returns -1 at once. *)
Theorem doHoming_results (i : nat) (method start : Z) (w : world) :
  (forall r w', doHoming i method start w = Done r w' ->
     r = -1 \/ r = 0 \/ r = -5) /\
  (deref i w = None -> doHoming i method start w = Done (-1) w).
Proof.
  split.
  - intros r w'. unfold doHoming.
    destruct (deref i w); [| intros [= <-]; auto].
    intros H.
    repeat
      match type of H with
      | (monitorHomingStatus i ≫= _) _ = Done _ _ =>
          let s := fresh "status" in
          let w1 := fresh "w" in
          let Hm := fresh "Hm" in
          apply bind_Done in H as (s & w1 & Hm & H);
          apply monitorHomingStatus_values in Hm
      | (_ ≫= _) _ = Done _ _ =>
          let a := fresh "a" in
          let w1 := fresh "w" in
          apply bind_Done in H as (a & w1 & _ & H)
      | (let '(_, _) := ?p in _) _ = Done _ _ => destruct p
      | (if nz ?s && (?s =? 1) then _ else _) _ = Done _ _ =>
          replace (nz s && (s =? 1)) with false in H
            by (destruct Hm as [-> | [-> | ->]]; reflexivity)
      | (if ?b then _ else _) _ = Done _ _ => destruct b
      end;
      injection H as <-; auto.
  - intros H. unfold doHoming. rewrite H. reflexivity.
Qed.

Lemma doHoming_results_witness :
  let reached := frame 0x581 [0x4B; 0x41; 0x60; 0x00; 0x37; 0x04; 0x00; 0x00] in
  let w := bench [Some (fresh 1)]
             (exchanges 4 reached ++ [mkCall true []]
              ++ exchanges 15 reached) in
  exists w',
    doHoming 0 35 0 w = Done (-5) w' /\ (-5 = -1 \/ -5 = 0 \/ -5 = -5).
Proof.
  intros reached w.
  assert (Hrun : doHoming 0 35 0 w = Done (-5) (final (doHoming 0 35 0 w)))
    by (vm_compute; reflexivity).
  eexists. split; [exact Hrun |].
  exact (proj1 (doHoming_results 0 35 0 w) (-5) _ Hrun).
Defined.

Lemma dictionary_read_no_longer (i : nat) (Index SubIndex : Z)
    (conv : Z -> Z) (out : Z) :
  stable no_longer (dictionary_read i Index SubIndex conv out).
Proof.
  intros w. unfold dictionary_read, checkEPOS.
  destruct (deref i w); [| apply no_longer_refl].
  revert w. fuel_step; [fuel_step |]. intros c.
  destruct (negb (c =? 0)); [fuel_step |].
  fuel_step; [fuel_step |]. intros answer.
  fuel_step; [apply ReadObject_no_longer |]. intros [n v].
  destruct (n <? 0); [fuel_step |].
  fuel_step; [apply checkEPOSerror_no_longer | intros _; fuel_step].
Qed.

Lemma dictionary_read_takes (i : nat) (Index SubIndex : Z) (conv : Z -> Z)
    (out : Z) (w w' : world) (n v : Z) :
  dictionary_read i Index SubIndex conv out w = Done (n, v) w' ->
  nz n = false ->
  (length (sched w') < length (sched w))%nat.
Proof.
  unfold dictionary_read, checkEPOS.
  destruct (deref i w) as [e |] eqn:Hi; [| intros [= <- _ _]; discriminate].
  intros H Hn.
  apply bind_Done in H as (c & w0 & H0 & H). injection H0 as <- <-.
  cbn [Z.eqb negb] in H.
  apply bind_Done in H as (answer & w1 & H1 & H). injection H1 as _ <-.
  apply bind_Done in H as ([n0 a] & w2 & H2 & H).
  apply (ReadObject_takes _ _ _ _ _ _ _ _ Hi) in H2.
  destruct (n0 <? 0); [injection H as <- _ _; discriminate |].
  apply bind_Done in H as (r & w3 & H3 & H).
  apply (stable_Done _ _ _ _ _ (checkEPOSerror_no_longer i)) in H3.
  injection H as _ _ <-. unfold no_longer in *. lia.
Qed.

Lemma readActualPosition_no_longer (i : nat) (pos : Z) :
  stable no_longer (readActualPosition i pos).
Proof.
  intros w. unfold readActualPosition, checkEPOS.
  destruct (deref i w); [| apply no_longer_refl].
  revert w. fuel_step; [fuel_step |]. intros c.
  destruct (negb (c =? 0)); [fuel_step |].
  fuel_step; [fuel_step |]. intros answer.
  fuel_step; [apply ReadObject_no_longer |]. intros [n v].
  destruct (n <? 0); [fuel_step |].
  fuel_step; [apply checkEPOSerror_no_longer |]. intros _.
  fuel_step; [apply update_no_longer | intros _; fuel_step].
Qed.

(** A turn of the loop of [monitorStatus] that goes round again has made
    its reads, so the fuel of [loop] is enough for it too. *)
Lemma monitorStatus_body_turns (i : nat) :
  turns_take_a_call (monitorStatus_body i).
Proof.
  intros status w s' w' H. unfold monitorStatus_body in H.
  apply bind_Done in H as (junk & w0 & H0 & H). injection H0 as _ <-.
  apply bind_Done in H as ([n v] & w1 & H1 & H).
  destruct (nz n) eqn:Hn; [discriminate |].
  apply (dictionary_read_takes _ _ _ _ _ _ _ _ _ H1) in Hn.
  assert (Hrest : no_longer w1 w'); [| unfold no_longer in Hrest; lia].
  revert H. apply stable_Done.
  fuel_step; [apply readActualPosition_no_longer |]. intros [n1 v1].
  destruct (nz n1); [fuel_step |].
  fuel_step; [apply dictionary_read_no_longer |]. intros [n2 v2].
  destruct (nz n2); [fuel_step |].
  fuel_step; [apply readActualVelocity_no_longer |]. intros [n3 v3].
  destruct (nz n3); [fuel_step |].
  fuel_step; [apply readActualCurrent_no_longer |]. intros [n4 v4].
  destruct (nz n4); [fuel_step |].
  fuel_step; [apply readStatusword_no_longer |]. intros [n5 st].
  destruct (negb _); fuel_step.
Qed.

(** The reads of the actual values when the transport refuses the
    request. *)
Lemma actual_reads_refused (i : nat) (out : Z) (e : epos_t) (w : world)
    (rest : list hal_call) :
  at_rest i e w -> sched w = mkCall false [] :: rest ->
  (exists w' e',
     readActualPosition i out w = Done (-1, out) w' /\ at_rest i e' w' /\
     dev e' = dev e /\ sched w' = rest /\ wire w' = wire w /\
     uninit w' = uninit w) /\
  (exists w' e',
     readActualVelocity i out w = Done (-1, out) w' /\ at_rest i e' w' /\
     dev e' = dev e /\ sched w' = rest /\ wire w' = wire w /\
     uninit w' = uninit w) /\
  (exists w' e',
     readActualCurrent i out w = Done (-1, out) w' /\ at_rest i e' w' /\
     dev e' = dev e /\ sched w' = rest /\ wire w' = wire w /\
     uninit w' = uninit w).
Proof.
  intros Hrest Hs.
  assert (H : forall Index, exists w' e',
            ReadObject i Index 0x00 (uninit w) w = Done (-1, uninit w) w' /\
            at_rest i e' w' /\ dev e' = dev e /\ sched w' = rest /\
            wire w' = wire w /\ uninit w' = uninit w).
  { intros Index.
    destruct (ReadObject_refused i Index 0x00 (uninit w) e w rest Hrest Hs)
      as (w' & e' & Hrun & Hrest' & _ & Hd & _ & _ & _ & Hw & _ & Hsc & _
          & Hu).
    exists w', e'. split; [exact Hrun |]. split; [exact Hrest' |].
    repeat split; assumption. }
  split; [| split].
  - destruct (H 0x6064) as (w' & e' & Hrun & Hr).
    unfold readActualPosition, checkEPOS. rewrite (proj1 Hrest). run.
    cbn [Z.eqb negb]. rewrite Hrun. cbn [Z.ltb Z.compare]. eauto.
  - destruct (H 0x606c) as (w' & e' & Hrun & Hr).
    unfold readActualVelocity, checkEPOS. rewrite (proj1 Hrest). run.
    cbn [Z.eqb negb]. rewrite Hrun. cbn [Z.ltb Z.compare]. eauto.
  - destruct (H 0x6078) as (w' & e' & Hrun & Hr).
    unfold readActualCurrent, checkEPOS. rewrite (proj1 Hrest). run.
    cbn [Z.eqb negb]. rewrite Hrun. cbn [Z.ltb Z.compare]. eauto.
Qed.

(** X25.  [monitorStatus] reports no failure: on an open device it
    returns 0 whenever it returns.  A read that fails inside the loop
    ends the loop, the closing reads only print, and the result is 0
    all the same: with every one of its six requests refused by the
    transport it still returns 0. *)
Theorem monitorStatus_reports_no_failure (i : nat) (w : world) :
  (deref i w = None -> monitorStatus i w = Done (-1) w) /\
  (forall e r w',
     deref i w = Some e -> monitorStatus i w = Done r w' -> r = 0) /\
  (forall e rest,
     at_rest i e w -> sched w = replicate 6 (mkCall false []) ++ rest ->
     exists w',
       monitorStatus i w = Done 0 w' /\ wire w' = wire w /\ sched w' = rest).
Proof.
  split; [| split].
  - intros H. unfold monitorStatus. rewrite H. reflexivity.
  - intros e r w' Hi. unfold monitorStatus. rewrite Hi. intros H.
    peel H. injection H as <-. reflexivity.
  - intros e rest Hrest Hs. cbn [replicate app] in Hs.
    unfold monitorStatus. rewrite (proj1 Hrest). run.
    (* the first read of the loop is refused: break *)
    destruct (dictionary_read_refused i 0x607a 0x00 s32 (uninit w) e w _
                Hrest Hs)
      as (w1 & e1 & Hrun1 & Hrest1 & Hd1 & _ & Hs1 & Hw1 & _ & Hu1).
    assert (Hloop : loop (monitorStatus_body i) (uninit w) w = Done tt w1).
    { apply loop_exit. unfold monitorStatus_body. run.
      unfold readTargetPosition. rewrite Hrun1. reflexivity. }
    rewrite Hloop.
    (* the closing reads *)
    destruct (dictionary_read_refused i 0x607a 0x00 s32 (uninit w1) e1 w1 _
                Hrest1 Hs1)
      as (w2 & e2 & Hrun2 & Hrest2 & Hd2 & _ & Hs2 & Hw2 & _ & Hu2).
    unfold readTargetPosition at 1. rewrite Hrun2.
    destruct (actual_reads_refused i (uninit w1) e2 w2 _ Hrest2 Hs2)
      as ((w3 & e3 & Hrun3 & Hrest3 & Hd3 & Hs3 & Hw3 & Hu3) & _).
    rewrite Hrun3.
    destruct (dictionary_read_refused i 0x606b 0x00 s32 (uninit w1) e3 w3 _
                Hrest3 Hs3)
      as (w4 & e4 & Hrun4 & Hrest4 & Hd4 & _ & Hs4 & Hw4 & _ & Hu4).
    unfold readDemandVelocity. rewrite Hrun4.
    destruct (actual_reads_refused i (uninit w1) e4 w4 _ Hrest4 Hs4)
      as (_ & (w5 & e5 & Hrun5 & Hrest5 & Hd5 & Hs5 & Hw5 & Hu5) & _).
    rewrite Hrun5.
    destruct (actual_reads_refused i (uninit w1) e5 w5 _ Hrest5 Hs5)
      as (_ & _ & (w6 & e6 & Hrun6 & Hrest6 & Hd6 & Hs6 & Hw6 & Hu6)).
    rewrite Hrun6.
    exists w6. split; [reflexivity |]. split; [congruence | exact Hs6].
Qed.

Lemma monitorStatus_reports_no_failure_witness :
  let w := bench [Some (fresh 1)] (replicate 6 (mkCall false [])) in
  exists w', monitorStatus 0 w = Done 0 w' /\ wire w' = [] /\ sched w' = [].
Proof.
  intros w.
  destruct (monitorStatus_reports_no_failure 0 w) as (_ & _ & H).
  exact (H (fresh 1) [] (at_rest_bench _) eq_refl).
Defined.

(** ** Positioning *)

Lemma move_instances (i : nat) (steps : Z) :
  moveAbsolute i steps = move 0x3f i steps /\
  moveRelative i steps = move 0x005f i steps.
Proof. split; reflexivity. Qed.

Lemma checkEPOSerror_clear (i : nat) (e : epos_t) (w : world) :
  deref i w = Some e -> E_error e = 0 -> checkEPOSerror i w = Done 0 w.
Proof.
  intros Hi He. unfold checkEPOSerror. rewrite Hi, He. reflexivity.
Qed.

Lemma readOpMode_prompt (i : nat) (e : epos_t) (w : world) (resp : CanMsg)
    (rest : list hal_call) :
  at_rest i e w -> frame_ok resp ->
  sched w = prompt (dev e) resp :: rest ->
  StdId resp = Node_ID e + 0x580 ->
  exists w' e',
    readOpMode i w = Done (s8 (byte resp 4)) w' /\
    at_rest i e' w' /\ Node_ID e' = Node_ID e /\ dev e' = dev e /\
    sched w' = rest /\
    wire w' = wire w ++ [read_request (Node_ID e) 0x6061 0x00].
Proof.
  intros Hrest Hok Hs Hid.
  destruct (ReadObject_prompt i 0x6061 0x00 (uninit w) e w resp rest
              Hrest Hs Hid)
    as (w1 & e1 & Hrun & Hrest1 & _ & _ & _ & _ & Hn & Hd & _ & Hsc & _ & Hw
        & _).
  unfold readOpMode. rewrite (proj1 Hrest). run.
  rewrite Hrun. cbn [Z.ltb Z.compare].
  rewrite (reply_value resp Hok), (payload32_low_byte resp Hok).
  unfold checkEPOSerror. rewrite (proj1 Hrest1).
  destruct (E_error e1 =? E_NOERR).
  - exists w1, e1. split; [reflexivity |]. split; [exact Hrest1 |].
    repeat split; assumption.
  - run. eexists _, e1. split; [reflexivity |]. split; [exact Hrest1 |].
    repeat split; assumption.
Qed.

(** A write that the device accepts, followed by the error check. *)
Lemma write_accepted (i : nat) (Index SubIndex : Z) (dw : Z * Z)
    (e : epos_t) (w : world) (resp : CanMsg) (rest : list hal_call) :
  at_rest i e w -> sched w = prompt (dev e) resp :: rest ->
  StdId resp = Node_ID e + 0x580 -> error_of_response resp = 0 ->
  exists w' e',
    WriteObject i Index SubIndex dw w = Done 0 w' /\
    checkEPOSerror i w' = Done 0 w' /\
    at_rest i e' w' /\ Node_ID e' = Node_ID e /\ dev e' = dev e /\
    sched w' = rest /\
    wire w' = wire w ++ [write_request (Node_ID e) Index SubIndex dw].
Proof.
  intros Hrest Hs Hid Herr.
  destruct (WriteObject_prompt i Index SubIndex dw e w resp rest Hrest Hs Hid)
    as (w' & e' & Hrun & Hrest' & He & _ & _ & _ & Hn & Hd & _ & Hsc & _ & Hw
        & _).
  rewrite Herr in Hrun, He. cbn [Z.eqb] in Hrun.
  exists w', e'. split; [exact Hrun |].
  split; [apply (checkEPOSerror_clear i e' w' (proj1 Hrest') He) |].
  split; [exact Hrest' |]. repeat split; assumption.
Qed.

Lemma s8_mode (b : Z) : 0 <= b < 256 -> (s8 b =? E_PROFPOS) = (b =? 1).
Proof.
  intros H. rewrite (s8_byte b H). unfold E_PROFPOS.
  destruct (b <? 128) eqn:E; [reflexivity |].
  apply Z.ltb_ge in E.
  transitivity false; [apply Z.eqb_neq | symmetry; apply Z.eqb_neq]; lia.
Qed.

Lemma move_in_mode (cw : Z) (i : nat) (steps : Z) (e : epos_t) (w : world)
    (rm r1 : CanMsg) (rest : list hal_call) :
  at_rest i e w -> frame_ok rm -> byte rm 4 = 1 ->
  StdId rm = Node_ID e + 0x580 -> StdId r1 = Node_ID e + 0x580 ->
  sched w = prompt (dev e) rm :: prompt (dev e) r1 :: rest ->
  let ask := read_request (Node_ID e) 0x6061 0x00 in
  let target := write_request (Node_ID e) 0x607A 0x00 (words_of steps) in
  (error_of_response r1 <> 0 ->
   exists w',
     move cw i steps w = Done (-1) w' /\
     wire w' = wire w ++ [ask; target] /\ sched w' = rest) /\
  (error_of_response r1 = 0 ->
   forall r2 rest',
     rest = prompt (dev e) r2 :: rest' -> StdId r2 = Node_ID e + 0x580 ->
     exists w',
       move cw i steps w
       = Done (if error_of_response r2 =? 0 then 0 else -1) w' /\
       wire w'
       = wire w ++ [ask; target;
                    write_request (Node_ID e) 0x6040 0x00 (cw, 0x0000)] /\
       sched w' = rest').
Proof.
  intros Hrest Hok Hmode Hidm Hid1 Hs ask target.
  destruct (readOpMode_prompt i e w rm _ Hrest Hok Hs Hidm)
    as (w1 & e1 & Hrun1 & Hrest1 & Hn1 & Hd1 & Hs1 & Hw1).
  rewrite <- Hd1 in Hs1. rewrite <- Hn1 in Hid1.
  assert (Hm : (s8 (byte rm 4) =? E_PROFPOS) = true)
    by (rewrite (s8_mode _ (byte_range rm 4 Hok)), Hmode; reflexivity).
  split.
  - intros Herr.
    destruct (WriteObject_prompt i 0x607A 0x00 (words_of steps) e1 w1 r1 rest
                Hrest1 Hs1 Hid1)
      as (w2 & e2 & Hrun2 & _ & _ & _ & _ & _ & _ & _ & _ & Hs2 & _ & Hw2 & _).
    apply Z.eqb_neq in Herr. rewrite Herr in Hrun2.
    unfold move. rewrite (proj1 Hrest). run. rewrite Hrun1, Hm.
    cbn [negb]. unfold words_of in Hrun2. rewrite Hrun2.
    cbn [Z.ltb Z.compare].
    exists w2. split; [reflexivity |]. split; [| exact Hs2].
    rewrite Hw2, Hw1, Hn1, <- app_assoc. reflexivity.
  - intros Herr r2 rest' -> Hid2.
    destruct (write_accepted i 0x607A 0x00 (words_of steps) e1 w1 r1 _
                Hrest1 Hs1 Hid1 Herr)
      as (w2 & e2 & Hrun2 & Hchk2 & Hrest2 & Hn2 & Hd2 & Hs2 & Hw2).
    rewrite <- Hd1, <- Hd2 in Hs2. rewrite <- Hn1, <- Hn2 in Hid2.
    destruct (WriteObject_prompt i 0x6040 0x00 (cw, 0x0000) e2 w2 r2 rest'
                Hrest2 Hs2 Hid2)
      as (w3 & e3 & Hrun3 & Hrest3 & He3 & _ & _ & _ & _ & _ & _ & Hs3 & _
          & Hw3 & _).
    unfold move. rewrite (proj1 Hrest). run. rewrite Hrun1, Hm.
    cbn [negb]. unfold words_of in Hrun2. rewrite Hrun2.
    cbn [Z.ltb Z.compare]. rewrite Hchk2, Hrun3.
    destruct (error_of_response r2 =? 0) eqn:E2; cbn [Z.ltb Z.compare].
    + apply Z.eqb_eq in E2. rewrite E2 in He3.
      rewrite (checkEPOSerror_clear i e3 w3 (proj1 Hrest3) He3).
      exists w3. split; [reflexivity |]. split; [| exact Hs3].
      rewrite Hw3, Hw2, Hw1, Hn2, Hn1, <- !app_assoc. reflexivity.
    + exists w3. split; [reflexivity |]. split; [| exact Hs3].
      rewrite Hw3, Hw2, Hw1, Hn2, Hn1, <- !app_assoc. reflexivity.
Qed.

Lemma move_other_mode (cw : Z) (i : nat) (steps : Z) (e : epos_t) (w : world)
    (rm r0 : CanMsg) (rest : list hal_call) :
  at_rest i e w -> frame_ok rm -> byte rm 4 <> 1 ->
  StdId rm = Node_ID e + 0x580 -> StdId r0 = Node_ID e + 0x580 ->
  sched w = prompt (dev e) rm :: prompt (dev e) r0 :: rest ->
  let ask := read_request (Node_ID e) 0x6061 0x00 in
  let mode := write_request (Node_ID e) 0x6060 0x00 (1, 0x0000) in
  (error_of_response r0 <> 0 ->
   exists w',
     move cw i steps w = Done (-1) w' /\
     wire w' = wire w ++ [ask; mode] /\ sched w' = rest) /\
  (error_of_response r0 = 0 ->
   forall r1 r2 rest',
     rest = prompt (dev e) r1 :: prompt (dev e) r2 :: rest' ->
     StdId r1 = Node_ID e + 0x580 -> StdId r2 = Node_ID e + 0x580 ->
     error_of_response r1 = 0 ->
     exists w',
       move cw i steps w
       = Done (if error_of_response r2 =? 0 then 0 else -1) w' /\
       wire w'
       = wire w ++ [ask; mode;
                    write_request (Node_ID e) 0x607A 0x00 (words_of steps);
                    write_request (Node_ID e) 0x6040 0x00 (cw, 0x0000)] /\
       sched w' = rest').
Proof.
  intros Hrest Hok Hmode Hidm Hid0 Hs ask mode.
  destruct (readOpMode_prompt i e w rm _ Hrest Hok Hs Hidm)
    as (w1 & e1 & Hrun1 & Hrest1 & Hn1 & Hd1 & Hs1 & Hw1).
  rewrite <- Hd1 in Hs1. rewrite <- Hn1 in Hid0.
  assert (Hm : (s8 (byte rm 4) =? E_PROFPOS) = false).
  { rewrite (s8_mode _ (byte_range rm 4 Hok)). apply Z.eqb_neq, Hmode. }
  destruct (WriteObject_prompt i 0x6060 0x00 (1, 0x0000) e1 w1 r0 rest
              Hrest1 Hs1 Hid0)
    as (w2 & e2 & Hrun2 & Hrest2 & He2 & _ & _ & _ & Hn2 & Hd2 & _ & Hs2 & _
        & Hw2 & _).
  assert (Hset : setOpMode i E_PROFPOS w1
                 = Done (if error_of_response r0 =? 0 then 0 else -1) w2).
  { unfold setOpMode. rewrite (proj1 Hrest1). run.
    change (u16 E_PROFPOS) with 1. rewrite Hrun2.
    destruct (error_of_response r0 =? 0); reflexivity. }
  split.
  - intros Herr. apply Z.eqb_neq in Herr. rewrite Herr in Hset.
    unfold move. rewrite (proj1 Hrest). run. rewrite Hrun1, Hm.
    cbn [negb]. rewrite Hset. cbn [nz Z.eqb negb].
    exists w2. split; [reflexivity |]. split; [| exact Hs2].
    rewrite Hw2, Hw1, Hn1, <- app_assoc. reflexivity.
  - intros Herr r1 r2 rest' -> Hid1 Hid2 Herr1.
    rewrite Herr in Hset. cbn [Z.eqb] in Hset.
    rewrite <- Hd1, <- Hd2 in Hs2. rewrite <- Hn1, <- Hn2 in Hid1.
    destruct (write_accepted i 0x607A 0x00 (words_of steps) e2 w2 r1 _
                Hrest2 Hs2 Hid1 Herr1)
      as (w3 & e3 & Hrun3 & Hchk3 & Hrest3 & Hn3 & Hd3 & Hs3 & Hw3).
    rewrite <- Hd3 in Hs3.
    rewrite <- Hn1, <- Hn2, <- Hn3 in Hid2.
    destruct (WriteObject_prompt i 0x6040 0x00 (cw, 0x0000) e3 w3 r2 rest'
                Hrest3 Hs3 Hid2)
      as (w4 & e4 & Hrun4 & Hrest4 & He4 & _ & _ & _ & _ & _ & _ & Hs4 & _
          & Hw4 & _).
    unfold move. rewrite (proj1 Hrest). run. rewrite Hrun1, Hm.
    cbn [negb]. rewrite Hset. cbn [nz Z.eqb negb].
    unfold words_of in Hrun3. rewrite Hrun3.
    cbn [Z.ltb Z.compare]. rewrite Hchk3, Hrun4.
    destruct (error_of_response r2 =? 0) eqn:E2; cbn [Z.ltb Z.compare].
    + apply Z.eqb_eq in E2. rewrite E2 in He4.
      rewrite (checkEPOSerror_clear i e4 w4 (proj1 Hrest4) He4).
      exists w4. split; [reflexivity |]. split; [| exact Hs4].
      rewrite Hw4, Hw3, Hw2, Hw1, Hn3, Hn2, Hn1, <- !app_assoc. reflexivity.
    + exists w4. split; [reflexivity |]. split; [| exact Hs4].
      rewrite Hw4, Hw3, Hw2, Hw1, Hn3, Hn2, Hn1, <- !app_assoc. reflexivity.
Qed.

(** X26. With the device already in profile position mode (the mode
    read answers 1), [moveAbsolute] and [moveRelative] write no mode:
    they send the mode read, then the target 0x607A with the steps as
    two 16-bit words, then the control word, 0x3f for the absolute and
    0x5f for the relative move, and nothing else distinguishes them.
    A target that the device aborts ends the move with -1 before any
    control word is sent; the result of an accepted move is the result
    of the control-word write. *)
Theorem moves_differ_in_control_word (i : nat) (steps : Z) (e : epos_t)
    (w : world) (rm r1 : CanMsg) (rest : list hal_call) :
  at_rest i e w -> frame_ok rm -> byte rm 4 = 1 ->
  StdId rm = Node_ID e + 0x580 -> StdId r1 = Node_ID e + 0x580 ->
  sched w = prompt (dev e) rm :: prompt (dev e) r1 :: rest ->
  let ask := read_request (Node_ID e) 0x6061 0x00 in
  let target := write_request (Node_ID e) 0x607A 0x00 (words_of steps) in
  let go cw := write_request (Node_ID e) 0x6040 0x00 (cw, 0x0000) in
  (error_of_response r1 <> 0 ->
   (exists w',
      moveAbsolute i steps w = Done (-1) w' /\
      wire w' = wire w ++ [ask; target] /\ sched w' = rest) /\
   (exists w',
      moveRelative i steps w = Done (-1) w' /\
      wire w' = wire w ++ [ask; target] /\ sched w' = rest)) /\
  (error_of_response r1 = 0 ->
   forall r2 rest',
     rest = prompt (dev e) r2 :: rest' -> StdId r2 = Node_ID e + 0x580 ->
     (exists w',
        moveAbsolute i steps w
        = Done (if error_of_response r2 =? 0 then 0 else -1) w' /\
        wire w' = wire w ++ [ask; target; go 0x3f] /\ sched w' = rest') /\
     (exists w',
        moveRelative i steps w
        = Done (if error_of_response r2 =? 0 then 0 else -1) w' /\
        wire w' = wire w ++ [ask; target; go 0x5f] /\ sched w' = rest')).
Proof.
  intros Hrest Hok Hmode Hidm Hid1 Hs ask target go.
  destruct (move_instances i steps) as [Ha Hr]. rewrite Ha, Hr.
  pose proof (move_in_mode 0x3f i steps e w rm r1 rest Hrest Hok Hmode Hidm
                Hid1 Hs) as [A1 A2].
  pose proof (move_in_mode 0x5f i steps e w rm r1 rest Hrest Hok Hmode Hidm
                Hid1 Hs) as [R1 R2].
  split.
  - intros Herr. split; [exact (A1 Herr) | exact (R1 Herr)].
  - intros Herr r2 rest' Hrest' Hid2.
    split; [exact (A2 Herr r2 rest' Hrest' Hid2)
           | exact (R2 Herr r2 rest' Hrest' Hid2)].
Qed.

Lemma moves_differ_in_control_word_witness :
  let w := bench [Some (fresh 1)]
             [prompt 0 (frame 0x581 [0x4F; 0x61; 0x60; 0; 1; 0; 0; 0]);
              prompt 0 abort_reply] in
  exists w',
    moveAbsolute 0 1000 w = Done (-1) w' /\
    wire w'
    = [frame 0x601 [0x40; 0x61; 0x60; 0x00; 0x00; 0x00; 0x00; 0x00];
       frame 0x601 [0x22; 0x7A; 0x60; 0x00; 0xE8; 0x03; 0x00; 0x00]] /\
    sched w' = [].
Proof.
  intros w.
  destruct (moves_differ_in_control_word 0 1000 (fresh 1) w
              (frame 0x581 [0x4F; 0x61; 0x60; 0; 1; 0; 0; 0]) abort_reply []
              (at_rest_bench _)) as (H & _).
  - split; [reflexivity |]. repeat constructor; lia.
  - reflexivity.
  - reflexivity.
  - reflexivity.
  - reflexivity.
  - destruct H as (Ha & _); [discriminate |]. exact Ha.
Defined.

(** X27. With the device in any other mode, both moves first write
    mode 1 to object 0x6060.  When the device aborts that write the move
    returns -1 and neither the target nor the control word is sent;
    when it accepts, the target and the control word follow as in
    profile position mode. *)
Theorem moves_switch_mode_first (i : nat) (steps : Z) (e : epos_t)
    (w : world) (rm r0 : CanMsg) (rest : list hal_call) :
  at_rest i e w -> frame_ok rm -> byte rm 4 <> 1 ->
  StdId rm = Node_ID e + 0x580 -> StdId r0 = Node_ID e + 0x580 ->
  sched w = prompt (dev e) rm :: prompt (dev e) r0 :: rest ->
  let ask := read_request (Node_ID e) 0x6061 0x00 in
  let mode := write_request (Node_ID e) 0x6060 0x00 (1, 0x0000) in
  let target := write_request (Node_ID e) 0x607A 0x00 (words_of steps) in
  let go cw := write_request (Node_ID e) 0x6040 0x00 (cw, 0x0000) in
  (error_of_response r0 <> 0 ->
   (exists w',
      moveAbsolute i steps w = Done (-1) w' /\
      wire w' = wire w ++ [ask; mode] /\ sched w' = rest) /\
   (exists w',
      moveRelative i steps w = Done (-1) w' /\
      wire w' = wire w ++ [ask; mode] /\ sched w' = rest)) /\
  (error_of_response r0 = 0 ->
   forall r1 r2 rest',
     rest = prompt (dev e) r1 :: prompt (dev e) r2 :: rest' ->
     StdId r1 = Node_ID e + 0x580 -> StdId r2 = Node_ID e + 0x580 ->
     error_of_response r1 = 0 ->
     (exists w',
        moveAbsolute i steps w
        = Done (if error_of_response r2 =? 0 then 0 else -1) w' /\
        wire w' = wire w ++ [ask; mode; target; go 0x3f] /\
        sched w' = rest') /\
     (exists w',
        moveRelative i steps w
        = Done (if error_of_response r2 =? 0 then 0 else -1) w' /\
        wire w' = wire w ++ [ask; mode; target; go 0x5f] /\
        sched w' = rest')).
Proof.
  intros Hrest Hok Hmode Hidm Hid0 Hs ask mode target go.
  destruct (move_instances i steps) as [Ha Hr]. rewrite Ha, Hr.
  pose proof (move_other_mode 0x3f i steps e w rm r0 rest Hrest Hok Hmode
                Hidm Hid0 Hs) as [A1 A2].
  pose proof (move_other_mode 0x5f i steps e w rm r0 rest Hrest Hok Hmode
                Hidm Hid0 Hs) as [R1 R2].
  split.
  - intros Herr. split; [exact (A1 Herr) | exact (R1 Herr)].
  - intros Herr r1 r2 rest' Hrest' Hid1 Hid2 Herr1.
    split; [exact (A2 Herr r1 r2 rest' Hrest' Hid1 Hid2 Herr1)
           | exact (R2 Herr r1 r2 rest' Hrest' Hid1 Hid2 Herr1)].
Qed.

Lemma moves_switch_mode_first_witness :
  let w := bench [Some (fresh 1)]
             [prompt 0 (frame 0x581 [0x4F; 0x61; 0x60; 0; 0xFF; 0; 0; 0]);
              prompt 0 status_reply; prompt 0 status_reply;
              prompt 0 status_reply] in
  exists w',
    moveRelative 0 (-2) w = Done 0 w' /\
    wire w'
    = [frame 0x601 [0x40; 0x61; 0x60; 0x00; 0x00; 0x00; 0x00; 0x00];
       frame 0x601 [0x22; 0x60; 0x60; 0x00; 0x01; 0x00; 0x00; 0x00];
       frame 0x601 [0x22; 0x7A; 0x60; 0x00; 0xFE; 0xFF; 0xFF; 0xFF];
       frame 0x601 [0x22; 0x40; 0x60; 0x00; 0x5F; 0x00; 0x00; 0x00]] /\
    sched w' = [].
Proof.
  intros w.
  destruct (moves_switch_mode_first 0 (-2) (fresh 1) w
              (frame 0x581 [0x4F; 0x61; 0x60; 0; 0xFF; 0; 0; 0]) status_reply
              [prompt 0 status_reply; prompt 0 status_reply]
              (at_rest_bench _)) as (_ & H).
  - split; [reflexivity |]. repeat constructor; lia.
  - discriminate.
  - reflexivity.
  - reflexivity.
  - reflexivity.
  - destruct (H eq_refl status_reply status_reply [] eq_refl eq_refl eq_refl
                eq_refl) as (_ & Hr).
    exact Hr.
Defined.

(** ** The output configuration *)

Lemma gpio_image_bits (dw0 purpose : Z) (set : bool) (k : Z) :
  0 <= k < 16 ->
  Z.testbit
    (if set then u16 (Z.lor dw0 (Z.shiftl purpose 8))
     else u16 (Z.land dw0 (Z.shiftl (Z.lnot purpose) 8))) k
  = gpio_bit dw0 purpose set k.
Proof.
  intros Hk. unfold gpio_bit.
  assert (Hlt : (k <? 16) = true) by (apply Z.ltb_lt; lia).
  destruct set; rewrite u16_testbit, Hlt by lia; cbn [andb].
  - rewrite Z.lor_spec, Z.shiftl_spec by lia.
    destruct (8 <=? k) eqn:E; [reflexivity |].
    apply Z.leb_gt in E. rewrite (Z.testbit_neg_r purpose) by lia.
    reflexivity.
  - rewrite Z.land_spec, Z.shiftl_spec by lia.
    destruct (8 <=? k) eqn:E.
    + apply Z.leb_le in E. rewrite Z.lnot_spec by lia. reflexivity.
    + apply Z.leb_gt in E. rewrite (Z.testbit_neg_r (Z.lnot purpose)) by lia.
      apply andb_false_r.
Qed.

(** X28. [setGPIOProfile] keeps one image of the output configuration
    for all devices.  A call with status SET ors the purpose into the
    high byte of the image; a call with any other status clears the
    purpose bits of the high byte and every bit of the low byte.  The
    image is updated whatever becomes of the write: with a NULL device,
    with a refused transmission and with a write the device aborts; a
    frame that is sent carries the whole image in bytes 4 and 5, so bits
    set in a call for one device are written to the next. *)
Theorem setGPIOProfile_image_outlives_failure (i : nat) (purpose : Z)
    (set : bool) (dw0 : Z) (w : world) :
  exists image,
    0 <= image < 2 ^ 16 /\
    (forall k, 0 <= k < 16 ->
       Z.testbit image k = gpio_bit dw0 purpose set k) /\
    (deref i w = None ->
     setGPIOProfile i purpose set dw0 w = Done (-1, image) w) /\
    (forall e rest,
       at_rest i e w -> sched w = mkCall false [] :: rest ->
       exists w',
         setGPIOProfile i purpose set dw0 w = Done (-1, image) w' /\
         wire w' = wire w) /\
    (forall e resp rest,
       at_rest i e w -> sched w = prompt (dev e) resp :: rest ->
       StdId resp = Node_ID e + 0x580 ->
       exists w',
         setGPIOProfile i purpose set dw0 w
         = Done (if error_of_response resp =? 0 then 0 else -1, image) w' /\
         wire w'
         = wire w ++ [write_request (Node_ID e) 0x2078 0x01 (image, 0x00)]).
Proof.
  exists (if set then u16 (Z.lor dw0 (Z.shiftl purpose 8))
          else u16 (Z.land dw0 (Z.shiftl (Z.lnot purpose) 8))).
  split; [destruct set; unfold u16; apply Z.mod_pos_bound; lia |].
  split; [intros k Hk; apply gpio_image_bits, Hk |].
  split; [| split].
  - intros Hnull. unfold setGPIOProfile, WriteObject. run.
    rewrite Hnull. reflexivity.
  - intros e rest Hrest Hs.
    destruct (WriteObject_refused i 0x2078 0x01
                (if set then u16 (Z.lor dw0 (Z.shiftl purpose 8))
                 else u16 (Z.land dw0 (Z.shiftl (Z.lnot purpose) 8)), 0x00)
                e w rest Hrest Hs)
      as (w' & e' & Hrun & _ & _ & _ & _ & _ & Hw & _).
    exists w'. unfold setGPIOProfile. run. rewrite Hrun.
    split; [reflexivity | exact Hw].
  - intros e resp rest Hrest Hs Hid.
    destruct (WriteObject_prompt i 0x2078 0x01
                (if set then u16 (Z.lor dw0 (Z.shiftl purpose 8))
                 else u16 (Z.land dw0 (Z.shiftl (Z.lnot purpose) 8)), 0x00)
                e w resp rest Hrest Hs Hid)
      as (w' & e' & Hrun & _ & _ & _ & _ & _ & _ & _ & _ & _ & _ & Hw & _).
    exists w'. unfold setGPIOProfile. run. rewrite Hrun.
    split; [| exact Hw].
    destruct (error_of_response resp =? 0); reflexivity.
Qed.

Lemma setGPIOProfile_image_outlives_failure_witness :
  exists image,
    Z.testbit image 15 = true /\ Z.testbit image 14 = true /\
    setGPIOProfile 0 0x80 true 0x4000 (bench [None] []) = Done (-1, image)
                                                            (bench [None] []).
Proof.
  destruct (setGPIOProfile_image_outlives_failure 0 0x80 true 0x4000
              (bench [None] [])) as (image & _ & Hb & Hnull & _).
  exists image. split; [| split].
  - rewrite Hb by lia. reflexivity.
  - rewrite Hb by lia. reflexivity.
  - apply Hnull. reflexivity.
Defined.
